(** * ttlattendance: the attendance computation engine

    A shallow embedding of the scan verifier ([handleScan] in
    [src/pages/ScannerPage.tsx]) and of the session aggregator, which the
    repository implements twice: [rebuildSessionsForDay] in
    [src/pages/ScannerPage.tsx] and [recomputeSessionsForRange] in the
    administrator dashboard.  Around them it embeds the helpers of
    [src/lib/utils.ts] that work on text and on the clock, and what the
    administrator's dashboard does to the sites, the settings and the notes
    of a session, how it pages a table and how it exports the sessions, how
    it reads the dates typed into it, and how it adds, edits and deletes a
    log by hand, with the audit trail of these changes.

    Modelling conventions.
    - A JavaScript number is a rational ([Q]); [NaN] only appears where the
      code tests for it (the stored settings), as a Firestore value of its
      own.  Arithmetic is exact, so [Number(x.toFixed(2))] is rounding of the
      exact value to hundredths, half away from zero.
    - A [Date] is its [getTime()], an integer number of milliseconds ([Z]).
      A Firestore [Timestamp] is a pair of seconds and nanoseconds.
    - The clock of Asia/Kuala_Lumpur is taken eight hours ahead of UTC, as
      it has been since 1982, and a date key has a year of four digits.
      Statements that read the time of day or the date of an instant
      assume an instant from 1982 on ([Props.modern]), and up to the year
      9999 where a date is printed ([LogProps.onModelClock]).
    - A Firestore collection is a list of documents, each with its id; a
      query filters and sorts that list; a write batch is a list of writes
      that [commit] applies in one step.
    - Optional and nullable fields are [option]s; [a ?? b] is [default b a].
    - What the browser or the network decides (the position fix, the clock,
      generated document ids, the scan timeout, failing requests) is read
      from an explicit record of outcomes. *)

From Stdlib Require Import ZArith QArith Qround Qminmax Qabs Lia Lqa Bool.
From Stdlib Require Import String Ascii List.
From stdpp Require Import gmap strings.
Import ListNotations.

Open Scope Z_scope.

(** ** JavaScript numbers *)

Module Js.

Definition Qltb (a b : Q) : bool := negb (Qle_bool b a).
Definition Qgtb (a b : Q) : bool := negb (Qle_bool a b).
Definition Qgeb (a b : Q) : bool := Qle_bool b a.

(** [Number(x.toFixed(2))].  [toFixed] works on the magnitude of [x], takes
    the integer [n] with [n / 100] nearest to it, the larger one on a tie,
    and puts the sign back.  (From [1e21] on it prints [x] as it is; a
    double that large is a whole number, which rounding leaves alone.) *)
Definition toFixed2 (x : Q) : Q :=
  let n := Qfloor (Qabs x * inject_Z 100 + (1 # 2)) in
  if Qltb x 0 then Qred (- (inject_Z n / inject_Z 100))
  else Qred (inject_Z n / inject_Z 100).

(** [Math.max] and [Math.min] on numbers. *)
Definition max (a b : Q) : Q := Qmax a b.
Definition min (a b : Q) : Q := Qmin a b.

(** Truthiness of an optional boolean field. *)
Definition truthy (b : option bool) : bool := default false b.

(** [a ?? b] where [a] is itself nullable. *)
Definition orElse {A} (a b : option A) : option A :=
  match a with Some _ => a | None => b end.

(** [arr.reduce(f)] without an initial value, on a non-empty array. *)
Definition reduce {A} (f : A -> A -> A) (l : list A) : option A :=
  match l with
  | [] => None
  | x :: xs => Some (fold_left f xs x)
  end.

(** [arr.sort(cmp)]: a stable sort; [le a b] stands for [cmp(a, b) <= 0]. *)
Fixpoint insert {A} (le : A -> A -> bool) (x : A) (l : list A) : list A :=
  match l with
  | [] => [x]
  | y :: ys => if le x y then x :: y :: ys else y :: insert le x ys
  end.

Fixpoint sort {A} (le : A -> A -> bool) (l : list A) : list A :=
  match l with
  | [] => []
  | x :: xs => insert le x (sort le xs)
  end.

End Js.

(** ** What the model takes from its host

    Pure helpers the model does not compute, since nothing proved here
    depends on how they do: the search index of [lib/utils.ts], whose result
    is only stored; the conversion of a number to text inside a template
    literal; and the haversine distance of [lib/utils.ts] (trigonometric),
    whose result is stored and compared with the radius of the site. *)

Class Host := {
  buildSearchPrefixes : list string -> list string;
  numberToString : Q -> string;
  haversineDistance : Q -> Q -> Q -> Q -> Q;
}.

(** ** Firestore *)

Module Firestore.

Definition DocId := string.

Record Timestamp := { seconds : Z; nanoseconds : Z }.

Definition toNanos (t : Timestamp) : Z :=
  seconds t * 10 ^ 9 + nanoseconds t.

(** [Timestamp.toDate()]: the instant cut to whole milliseconds. *)
Definition toDate (t : Timestamp) : Z := Z.quot (toNanos t) (10 ^ 6).

(** [Timestamp.fromDate(date)]. *)
Definition fromDate (ms : Z) : Timestamp :=
  {| seconds := ms / 1000; nanoseconds := (ms mod 1000) * 10 ^ 6 |}.

(** The constructor of [Timestamp] accepts the seconds of the years 1 to
    9999 and throws on others, so [Timestamp.fromDate(date)] throws on an
    instant out of that range. *)
Definition inTimestampRange (ms : Z) : bool :=
  (-62135596800 <=? ms / 1000) && (ms / 1000 <? 253402300800).

(** The values a document field can hold, as far as the engine tells them
    apart. *)
Inductive Value :=
| VNull
| VBool (b : bool)
| VNumber (q : Q)
| VNaN
| VString (s : string)
| VOther.

Definition Collection (A : Type) := list (DocId * A).

(** [orderBy(field, "asc")] on a timestamp field: by value, then by
    document id. *)
Definition docLe {A} (f : A -> Timestamp) (a b : DocId * A) : bool :=
  (toNanos (f (snd a)) <? toNanos (f (snd b)))
  || ((toNanos (f (snd a)) =? toNanos (f (snd b)))
      && String.leb (fst a) (fst b)).

Definition orderByAsc {A} (f : A -> Timestamp) (c : Collection A) :=
  Js.sort (docLe f) c.

Definition orderByDesc {A} (f : A -> Timestamp) (c : Collection A) :=
  Js.sort (fun a b => docLe f b a) c.

Definition limit {A} (n : nat) (c : Collection A) := firstn n c.

(** A write batch. *)
Inductive Write (A : Type) :=
| Delete (ref : DocId)
| SetDoc (ref : DocId) (data : A).
Arguments Delete {A} ref.
Arguments SetDoc {A} ref data.

Definition without {A} (ref : DocId) (c : Collection A) : Collection A :=
  List.filter (fun d => negb (String.eqb (fst d) ref)) c.

Definition applyWrite {A} (c : Collection A) (w : Write A) : Collection A :=
  match w with
  | Delete ref => without ref c
  | SetDoc ref data => without ref c ++ [(ref, data)]
  end.

(** [batch.commit()]: every write of the batch, in order, in one step. *)
Definition commit {A} (batch : list (Write A)) (c : Collection A) :=
  fold_left applyWrite batch c.

(** [addDoc(collection, data)] with the id the client generated. *)
Definition addDoc {A} (ref : DocId) (data : A) (c : Collection A) :=
  c ++ [(ref, data)].

(** [updateDoc(ref, fields)]: [change] replaces the fields; the request is
    rejected ([None]) when there is no such document. *)
Definition updateDoc {A} (ref : DocId) (change : A -> A) (c : Collection A)
  : option (Collection A) :=
  if existsb (fun d => String.eqb (fst d) ref) c
  then Some (map (fun d => if String.eqb (fst d) ref
                           then (fst d, change (snd d)) else d) c)
  else None.

End Firestore.

(** ** The types of the application *)

Module Types.
Import Firestore.

Inductive ScanType := CheckIn | CheckOut.
Inductive LogStatus := Success | Fail.
Inductive Creator := ByScanner | ByAdmin.
Inductive SessionStatus := Complete | Incomplete.

Definition ScanType_eqb (a b : ScanType) : bool :=
  match a, b with
  | CheckIn, CheckIn | CheckOut, CheckOut => true
  | _, _ => false
  end.

Definition isSuccess (s : LogStatus) : bool :=
  match s with Success => true | Fail => false end.

Record UserProfile := {
  uid : string;
  email : string;
  name : option string;
  employeeId : option string;
  normalRate : option Q;
  otRate : option Q;
}.

Record SiteItem := {
  site_name : string;
  nameNormalized : string;
  lat : Q;
  lng : Q;
  site_allowedRadiusMeters : Q;
  site_createdAt : option Timestamp;
  site_updatedAt : option Timestamp;
}.

Record AttendanceLog := {
  userId : string;
  userEmail : string;
  userName : option string;
  siteId : string;
  siteName : string;
  scanTime : Timestamp;
  dateKey : option string;
  userLat : option Q;
  userLng : option Q;
  distanceMeters : option Q;
  allowedRadiusMeters : option Q;
  status : LogStatus;
  scanType : option ScanType;
  failReason : option string;
  isDeleted : option bool;
  createdBy : option Creator;
  createdAt : option Timestamp;
  searchPrefixes : list string;
}.

Record AttendanceSession := {
  s_userId : string;
  s_userEmail : string;
  s_userName : string;
  s_siteId : option string;
  s_siteName : option string;
  siteInId : option string;
  siteInName : option string;
  siteOutId : option string;
  siteOutName : option string;
  s_dateKey : string;
  checkInTime : option Z;
  checkOutTime : option Z;
  totalHours : option Q;
  normalHours : option Q;
  otHours : option Q;
  s_normalRate : Q;
  s_otRate : Q;
  amountRM : option Q;
  s_status : SessionStatus;
  isLate : bool;
  lateReason : option string;
  lateNote : option string;
  isAbnormal : bool;
  abnormalReasons : list string;
  abnormalNote : option string;
  s_searchPrefixes : list string;
}.

(** The four buffers, as [getBufferSettings] returns them. *)
Record BufferSettings := {
  lateBufferMinutes : Q;
  earlyCheckoutBufferMinutes : Q;
  otEarlyBufferMinutes : Q;
  otLateBufferMinutes : Q;
}.

(** The database: the three collections and the document
    [settings/global]. *)
Record Db := {
  sites : Collection SiteItem;
  attendance : Collection AttendanceLog;
  attendanceSessions : Collection AttendanceSession;
  settingsGlobal : option (gmap string Value);
}.

Definition withAttendance (db : Db) (c : Collection AttendanceLog) : Db :=
  {| sites := sites db; attendance := c;
     attendanceSessions := attendanceSessions db;
     settingsGlobal := settingsGlobal db |}.

Definition withSessions (db : Db) (c : Collection AttendanceSession) : Db :=
  {| sites := sites db; attendance := attendance db;
     attendanceSessions := c;
     settingsGlobal := settingsGlobal db |}.

End Types.

(** ** [src/lib/utils.ts] *)

Module Utils.

(** White space of [trim] and of [\s], on ASCII text. *)
Definition isSpace (c : ascii) : bool :=
  let n := nat_of_ascii c in
  ((n =? 32) || ((9 <=? n) && (n <=? 13)))%nat.

Definition toLower (c : ascii) : ascii :=
  let n := nat_of_ascii c in
  if ((65 <=? n) && (n <=? 90))%nat then ascii_of_nat (n + 32) else c.

Fixpoint dropSpaces (l : list ascii) : list ascii :=
  match l with
  | [] => []
  | c :: r => if isSpace c then dropSpaces r else l
  end.

Definition trim (l : list ascii) : list ascii :=
  rev (dropSpaces (rev (dropSpaces l))).

(** [replace(/\s+/g, " ")]; [inRun] says the previous character was white
    space already. *)
Fixpoint collapse (inRun : bool) (l : list ascii) : list ascii :=
  match l with
  | [] => []
  | c :: r =>
      if isSpace c
      then (if inRun then collapse true r else " "%char :: collapse true r)
      else c :: collapse false r
  end.

Definition normalizeSiteName (value : string) : string :=
  string_of_list_ascii
    (collapse false (map toLower (trim (list_ascii_of_string value)))).

(** Decimal digits of a natural number, at least [width] of them. *)
Definition digit (n : Z) : ascii := ascii_of_nat (48 + Z.to_nat n).

Fixpoint digits (width : nat) (n : Z) (acc : string) : string :=
  match width with
  | O => acc
  | S w => digits w (n / 10) (String (digit (n mod 10)) acc)
  end.

(** [getDateKey(date)]: the calendar date of the instant in
    Asia/Kuala_Lumpur, as [YYYY-MM-DD]; the civil date of the day number is
    computed in the proleptic Gregorian calendar.  The model is the code
    for the instants from 1982, when the zone took the offset of eight
    hours it has had since, to the end of the year 9999, the last one
    printed with four digits; what is proved of the code through it
    assumes such instants ([Props.modern], [LogProps.onModelClock]). *)
Definition getDateKey (date : Z) : string :=
  let z := (date + 8 * 3600000) / 86400000 + 719468 in
  let era := z / 146097 in
  let doe := z - era * 146097 in
  let yoe := (doe - doe / 1460 + doe / 36524 - doe / 146096) / 365 in
  let doy := doe - (365 * yoe + yoe / 4 - yoe / 100) in
  let mp := (5 * doy + 2) / 153 in
  let d := doy - (153 * mp + 2) / 5 + 1 in
  let m := if mp <? 10 then mp + 3 else mp - 9 in
  let y := yoe + era * 400 + (if m <=? 2 then 1 else 0) in
  digits 4 y (String "-" (digits 2 m (String "-" (digits 2 d EmptyString)))).

(** [getTimeMinutes(date)]: hour and minute of the instant on the clock of
    Asia/Kuala_Lumpur, which has been eight hours ahead of UTC, without
    daylight saving, since 1982.  Before, the zone was seven and a half
    hours ahead: the model is the code for the instants from 1982 on
    ([Props.modern]). *)
Definition getTimeMinutes (date : Z) : Z :=
  let minutes := (date / 60000 + 8 * 60) mod (24 * 60) in
  let hour := minutes / 60 in
  let minute := minutes mod 60 in
  hour * 60 + minute.

(** [value.trim()] on a string. *)
Definition trimString (value : string) : string :=
  string_of_list_ascii (trim (list_ascii_of_string value)).

(** [replace(/^0+/, "")] *)
Fixpoint dropZeros (s : string) : string :=
  match s with
  | EmptyString => EmptyString
  | String c r => if Ascii.eqb c "0" then dropZeros r else s
  end.

Definition formatPhone (raw : string) : string :=
  let trimmed := trimString raw in
  if String.eqb trimmed "" then ""%string
  else if String.prefix "+60" trimmed then trimmed
  else if String.prefix "60" trimmed then ("+" ++ trimmed)%string
  else if String.prefix "0" trimmed then ("+60" ++ dropZeros trimmed)%string
  else ("+60" ++ trimmed)%string.

(** The characters of the class [[\s@._-]]. *)
Definition isSeparator (c : ascii) : bool :=
  isSpace c || Ascii.eqb c "@" || Ascii.eqb c "." || Ascii.eqb c "_"
  || Ascii.eqb c "-".

(** [split(/[\s@._-]+/)]: the pieces between the runs of separators, the
    empty piece before a leading run and after a trailing one included;
    [inRun] says the previous character was a separator already. *)
Fixpoint splitRuns (inRun : bool) (l : list ascii) : list (list ascii) :=
  match l with
  | [] => [[]]
  | c :: r =>
      if isSeparator c
      then (if inRun then splitRuns true r else [] :: splitRuns true r)
      else match splitRuns false r with
           | piece :: rest => (c :: piece) :: rest
           | [] => [[c]]
           end
  end.

(** [w.slice(0, i)] for [i] from 1 to the length of [w]. *)
Definition slices (w : list ascii) : list string :=
  map (fun i => string_of_list_ascii (firstn i w)) (seq 1 (List.length w)).

(** [prefixes.add(x)] on a [Set], which keeps the order of insertion. *)
Definition setAdd (x : string) (prefixes : list string) : list string :=
  if existsb (String.eqb x) prefixes then prefixes else (prefixes ++ [x])%list.

(** The locals [normalized], [parts] and [condensed] of [buildPrefixes]. *)
Definition normalizedOf (value : string) : list ascii :=
  map toLower (trim (list_ascii_of_string value)).

Definition partsOf (value : string) : list (list ascii) :=
  List.filter (fun part => match part with [] => false | _ :: _ => true end)
              (splitRuns false (normalizedOf value)).

Definition condensedOf (value : string) : list ascii :=
  List.filter (fun c => negb (isSpace c)) (normalizedOf value).

Definition buildPrefixes (value : string) : list string :=
  let parts := partsOf value in
  let prefixes := [] in
  let condensed := condensedOf value in
  let prefixes :=
    fold_left (fun prefixes x => setAdd x prefixes) (slices condensed)
              prefixes in
  fold_left
    (fun prefixes part =>
       fold_left (fun prefixes x => setAdd x prefixes) (slices part) prefixes)
    parts prefixes.

(** [buildSearchPrefixes(values)], as [lib/utils.ts] computes it. *)
Definition buildSearchPrefixes (values : list string) : list string :=
  fold_left
    (fun prefixes value =>
       fold_left (fun prefixes prefix => setAdd prefix prefixes)
                 (buildPrefixes value) prefixes)
    values [].

(** [n.toString()] for an integer: its decimal digits, after a minus sign
    when it is negative. *)
Fixpoint decimal (fuel : nat) (n : Z) (acc : string) : string :=
  match fuel with
  | O => acc
  | S fuel' =>
      let acc' := String (digit (n mod 10)) acc in
      if n / 10 =? 0 then acc' else decimal fuel' (n / 10) acc'
  end.

Definition integerToString (z : Z) : string :=
  if z <? 0
  then String "-" (decimal (Z.to_nat (Z.log2 (- z)) + 1) (- z) EmptyString)
  else decimal (Z.to_nat (Z.log2 z) + 1) z EmptyString.

(** [s.padStart(2, "0")] *)
Definition padStart2 (s : string) : string :=
  match String.length s with
  | O => "00"%string
  | S O => String "0" s
  | _ => s
  end.

(** [formatHoursMinutes(hours)]; [None] is [null] or [NaN].  [Math.round]
    takes the nearest integer, the larger one on a tie; [%] is the
    remainder of the truncated division. *)
Definition formatHoursMinutes (hours : option Q) : string :=
  match hours with
  | None => "-"%string
  | Some h =>
      let totalMinutes := Qfloor (h * 60 + (1 # 2)) in
      let displayHours := totalMinutes / 60 in
      let displayMinutes := Z.rem totalMinutes 60 in
      (padStart2 (integerToString displayHours) ++ ":"
       ++ padStart2 (integerToString displayMinutes))%string
  end.

End Utils.

(** ** The values the aggregator computes on the way

    Both aggregators compute the same local values before they write the
    session; [Locals] names them as the code does. *)

Module Aggregate.

Record Locals := {
  checkInTime : option Z;
  checkOutTime : option Z;
  siteInId : option string;
  siteInName : option string;
  siteOutId : option string;
  siteOutName : option string;
  checkInMinutes : option Z;
  checkOutMinutes : option Z;
  totalHoursRaw : option Q;
  isWithinEarlyCheckoutBuffer : bool;
  totalHoursAdjusted : option Q;
  totalHoursRounded : option Q;
  isLate : bool;
  lateReason : option string;
  otEarlyWindowStart : Q;
  otLateWindowEnd : Q;
  effectiveOtCheckoutMinutes : option Q;
  abnormalReasons : list string;
  otHours : Q;
  isAbnormal : bool;
  normalHours : option Q;
  otHoursRounded : option Q;
  status : Types.SessionStatus;
  normalRate : Q;
  otRate : Q;
  amountRM : option Q;
}.

(** What the two aggregators have chosen when their bodies start to
    coincide: the first check-in and the last check-out, and the pay
    rates. *)
Record Endpoints := {
  firstTime : option Z;
  firstSiteId : option string;
  firstSiteName : option string;
  lastTime : option Z;
  lastSiteId : option string;
  lastSiteName : option string;
}.

Section WithHost.
Context `{Host}.
Open Scope Q_scope.

(** The rest of either body, written once.  It is not a function of the
    repository: [ScannerPage.aggregate] and [AdminDashboard.aggregate]
    transcribe the two copies, and are proved below to compute [derive]
    of their endpoints. *)
Definition derive (settings : Types.BufferSettings) (rateNormal rateOt : Q)
    (e : Endpoints) : Locals :=
  let checkInTime := firstTime e in
  let checkOutTime := lastTime e in
  let checkInMinutes := option_map Utils.getTimeMinutes checkInTime in
  let checkOutMinutes := option_map Utils.getTimeMinutes checkOutTime in
  let totalHoursRaw :=
    match checkInTime, checkOutTime with
    | Some tin, Some tout =>
        Some (Js.max (inject_Z (tout - tin) / inject_Z 3600000) 0)
    | _, _ => None
    end in
  let isWithinEarlyCheckoutBuffer :=
    match checkOutMinutes with
    | Some m =>
        Js.Qgeb (inject_Z m)
                (17 * 60 - Types.earlyCheckoutBufferMinutes settings)
        && Qle_bool (inject_Z m) (17 * 60)
    | None => false
    end in
  let totalHoursAdjusted :=
    match totalHoursRaw, checkOutMinutes with
    | Some t, Some m =>
        if isWithinEarlyCheckoutBuffer
        then Some (t + Js.max (17 * 60 - inject_Z m) 0 / 60)
        else Some t
    | _, _ => totalHoursRaw
    end in
  let totalHoursRounded := option_map Js.toFixed2 totalHoursAdjusted in
  let isLate :=
    match checkInMinutes with
    | Some m => Js.Qgtb (inject_Z m) (8 * 60 + Types.lateBufferMinutes settings)
    | None => false
    end in
  let otEarlyWindowStart := 22 * 60 - Types.otEarlyBufferMinutes settings in
  let otLateWindowEnd := 22 * 60 + Types.otLateBufferMinutes settings in
  let effectiveOtCheckoutMinutes :=
    match checkOutMinutes with
    | Some m =>
        if Js.Qgeb (inject_Z m) otEarlyWindowStart
           && Qle_bool (inject_Z m) otLateWindowEnd
        then Some (22 * 60)
        else Some (inject_Z m)
    | None => None
    end in
  let abnormalReasons :=
    (match checkInTime with None => ["Missing check-in"%string] | _ => [] end
     ++ match checkOutTime with
        | None => ["Missing check-out"%string]
        | _ => []
        end
     ++ match totalHoursRounded with
        | Some t => if Js.Qltb t 9 then ["Total hours < 9"%string] else []
        | None => []
        end
     ++ match checkOutMinutes with
        | Some m =>
            if Js.Qgtb (inject_Z m) otLateWindowEnd
            then ["Checkout after 10pm"%string] else []
        | None => []
        end)%list in
  let otHours :=
    match totalHoursRounded, effectiveOtCheckoutMinutes with
    | Some t, Some e =>
        if Js.Qgeb t 9
        then if Js.Qgeb e (22 * 60) then 4
             else if Js.Qgeb e (19 * 60) then 2 else 0
        else 0
    | _, _ => 0
    end in
  let isAbnormal := (0 <? length abnormalReasons)%nat in
  let normalHours :=
    if negb isAbnormal
    then option_map (fun t => Js.toFixed2 (Js.min t 9)) totalHoursRounded
    else None in
  let otHoursRounded := if negb isAbnormal then Some otHours else None in
  {| checkInTime := checkInTime;
     checkOutTime := checkOutTime;
     siteInId := firstSiteId e;
     siteInName := firstSiteName e;
     siteOutId := lastSiteId e;
     siteOutName := lastSiteName e;
     checkInMinutes := checkInMinutes;
     checkOutMinutes := checkOutMinutes;
     totalHoursRaw := totalHoursRaw;
     isWithinEarlyCheckoutBuffer := isWithinEarlyCheckoutBuffer;
     totalHoursAdjusted := totalHoursAdjusted;
     totalHoursRounded := totalHoursRounded;
     isLate := isLate;
     lateReason :=
       if isLate
       then Some ("Check-in after 8:00 + "
                  ++ numberToString (Types.lateBufferMinutes settings)
                  ++ " min")%string
       else None;
     otEarlyWindowStart := otEarlyWindowStart;
     otLateWindowEnd := otLateWindowEnd;
     effectiveOtCheckoutMinutes := effectiveOtCheckoutMinutes;
     abnormalReasons := abnormalReasons;
     otHours := otHours;
     isAbnormal := isAbnormal;
     normalHours := normalHours;
     otHoursRounded := otHoursRounded;
     status :=
       match checkInTime, checkOutTime with
       | Some _, Some _ => Types.Complete
       | _, _ => Types.Incomplete
       end;
     normalRate := rateNormal;
     otRate := rateOt;
     amountRM :=
       if isAbnormal then None
       else Some (Js.toFixed2 (default 0 normalHours * rateNormal
                               + default 0 otHoursRounded * rateOt)) |}.

End WithHost.

End Aggregate.

(** ** [src/pages/ScannerPage.tsx] *)

Module ScannerPage.
Import Firestore Types.

(** What [useAuth()] gives the page. *)
Record Auth := { user : option string; profile : option UserProfile }.

Definition DEFAULT_BUFFER_SETTINGS : BufferSettings :=
  {| lateBufferMinutes := 5;
     earlyCheckoutBufferMinutes := 5;
     otEarlyBufferMinutes := 15;
     otLateBufferMinutes := 60 |}.

(** [typeof value === "number" && !Number.isNaN(value) ? value : fallback] *)
Definition normalize (value : option Value) (fallback : Q) : Q :=
  match value with
  | Some (VNumber q) => q
  | _ => fallback
  end.

Definition getBufferSettings (db : Db) : BufferSettings :=
  let data : gmap string Value :=
    match settingsGlobal db with Some d => d | None => ∅ end in
  {| lateBufferMinutes :=
       normalize (data !! "lateBufferMinutes"%string)
                 (lateBufferMinutes DEFAULT_BUFFER_SETTINGS);
     earlyCheckoutBufferMinutes :=
       normalize (data !! "earlyCheckoutBufferMinutes"%string)
                 (earlyCheckoutBufferMinutes DEFAULT_BUFFER_SETTINGS);
     otEarlyBufferMinutes :=
       normalize (data !! "otEarlyBufferMinutes"%string)
                 (otEarlyBufferMinutes DEFAULT_BUFFER_SETTINGS);
     otLateBufferMinutes :=
       normalize (data !! "otLateBufferMinutes"%string)
                 (otLateBufferMinutes DEFAULT_BUFFER_SETTINGS) |}.

Definition hasDateKey (k : string) (l : AttendanceLog) : bool :=
  match dateKey l with Some k' => String.eqb k' k | None => false end.

Definition hasScanType (t : ScanType) (l : AttendanceLog) : bool :=
  match scanType l with Some t' => ScanType_eqb t' t | None => false end.

Definition notDeleted (l : AttendanceLog) : bool :=
  negb (Js.truthy (isDeleted l)).

(** The successful logs of the user on the day, oldest first. *)
Definition logsQuery (db : Db) (uid dateKey : string)
  : Collection AttendanceLog :=
  orderByAsc scanTime
    (List.filter
       (fun d => String.eqb (userId (snd d)) uid
                 && isSuccess (status (snd d))
                 && hasDateKey dateKey (snd d))
       (attendance db)).

Definition sessionQuery (db : Db) (uid dateKey : string)
  : Collection AttendanceSession :=
  List.filter
    (fun d => String.eqb (s_userId (snd d)) uid
              && String.eqb (s_dateKey (snd d)) dateKey)
    (attendanceSessions db).

Section WithHost.
Context `{Host}.

Open Scope Q_scope.

(** The body of [rebuildSessionsForDay] between the two queries: from the
    day's logs that are not deleted to the values of the session. *)
Definition aggregate (profile : UserProfile) (settings : BufferSettings)
    (logs : list AttendanceLog) : Aggregate.Locals :=
  let checkIns := List.filter (hasScanType CheckIn) logs in
  let checkOuts := List.filter (hasScanType CheckOut) logs in
  let firstCheckIn :=
    Js.reduce
      (fun prev next =>
         if (toDate (scanTime prev) <=? toDate (scanTime next))%Z
         then prev else next)
      checkIns in
  let lastCheckOut :=
    Js.reduce
      (fun prev next =>
         if (toDate (scanTime prev) >=? toDate (scanTime next))%Z
         then prev else next)
      checkOuts in
  let checkInTime := option_map (fun l => toDate (scanTime l)) firstCheckIn in
  let checkOutTime := option_map (fun l => toDate (scanTime l)) lastCheckOut in
  let siteInId := option_map siteId firstCheckIn in
  let siteInName := option_map siteName firstCheckIn in
  let siteOutId := option_map siteId lastCheckOut in
  let siteOutName := option_map siteName lastCheckOut in
  let checkInMinutes := option_map Utils.getTimeMinutes checkInTime in
  let checkOutMinutes := option_map Utils.getTimeMinutes checkOutTime in
  let lateBufferMinutes := lateBufferMinutes settings in
  let earlyCheckoutBufferMinutes := earlyCheckoutBufferMinutes settings in
  let otEarlyBufferMinutes := otEarlyBufferMinutes settings in
  let otLateBufferMinutes := otLateBufferMinutes settings in
  let totalHoursRaw :=
    match checkInTime, checkOutTime with
    | Some tin, Some tout =>
        Some (Js.max (inject_Z (tout - tin) / inject_Z 3600000) 0)
    | _, _ => None
    end in
  let isWithinEarlyCheckoutBuffer :=
    match checkOutMinutes with
    | Some m =>
        Js.Qgeb (inject_Z m) (17 * 60 - earlyCheckoutBufferMinutes)
        && Qle_bool (inject_Z m) (17 * 60)
    | None => false
    end in
  let totalHoursAdjusted :=
    match totalHoursRaw, checkOutMinutes with
    | Some t, Some m =>
        if isWithinEarlyCheckoutBuffer
        then let bufferMinutes := Js.max (17 * 60 - inject_Z m) 0 in
             Some (t + bufferMinutes / 60)
        else Some t
    | _, _ => totalHoursRaw
    end in
  let totalHoursRounded := option_map Js.toFixed2 totalHoursAdjusted in
  let isLate :=
    match checkInMinutes with
    | Some m => Js.Qgtb (inject_Z m) (8 * 60 + lateBufferMinutes)
    | None => false
    end in
  let lateReason :=
    if isLate
    then Some ("Check-in after 8:00 + "
               ++ numberToString lateBufferMinutes ++ " min")%string
    else None in
  let reasons1 :=
    match checkInTime with None => ["Missing check-in"%string] | _ => [] end in
  let reasons2 :=
    match checkOutTime with
    | None => ["Missing check-out"%string]
    | _ => []
    end in
  let reasons3 :=
    match totalHoursRounded with
    | Some t => if Js.Qltb t 9 then ["Total hours < 9"%string] else []
    | None => []
    end in
  let otEarlyWindowStart := 22 * 60 - otEarlyBufferMinutes in
  let otLateWindowEnd := 22 * 60 + otLateBufferMinutes in
  let effectiveOtCheckoutMinutes :=
    match checkOutMinutes with
    | Some m =>
        if Js.Qgeb (inject_Z m) otEarlyWindowStart
           && Qle_bool (inject_Z m) otLateWindowEnd
        then Some (22 * 60)
        else Some (inject_Z m)
    | None => None
    end in
  let reasons4 :=
    match checkOutMinutes with
    | Some m =>
        if Js.Qgtb (inject_Z m) otLateWindowEnd
        then ["Checkout after 10pm"%string] else []
    | None => []
    end in
  let abnormalReasons := (reasons1 ++ reasons2 ++ reasons3 ++ reasons4)%list in
  let otHours :=
    match totalHoursRounded, effectiveOtCheckoutMinutes with
    | Some t, Some e =>
        if Js.Qgeb t 9
        then if Js.Qgeb e (22 * 60) then 4
             else if Js.Qgeb e (19 * 60) then 2 else 0
        else 0
    | _, _ => 0
    end in
  let isAbnormal := (0 <? length abnormalReasons)%nat in
  let normalHours :=
    if negb isAbnormal
    then option_map (fun t => Js.toFixed2 (Js.min t 9)) totalHoursRounded
    else None in
  let otHoursRounded := if negb isAbnormal then Some otHours else None in
  let status :=
    match checkInTime, checkOutTime with
    | Some _, Some _ => Complete
    | _, _ => Incomplete
    end in
  let normalRate := default 0 (normalRate profile) in
  let otRate := default 0 (otRate profile) in
  let amountRM :=
    if isAbnormal then None
    else Some (Js.toFixed2 (default 0 normalHours * normalRate
                            + default 0 otHoursRounded * otRate)) in
  {| Aggregate.checkInTime := checkInTime;
     Aggregate.checkOutTime := checkOutTime;
     Aggregate.siteInId := siteInId;
     Aggregate.siteInName := siteInName;
     Aggregate.siteOutId := siteOutId;
     Aggregate.siteOutName := siteOutName;
     Aggregate.checkInMinutes := checkInMinutes;
     Aggregate.checkOutMinutes := checkOutMinutes;
     Aggregate.totalHoursRaw := totalHoursRaw;
     Aggregate.isWithinEarlyCheckoutBuffer := isWithinEarlyCheckoutBuffer;
     Aggregate.totalHoursAdjusted := totalHoursAdjusted;
     Aggregate.totalHoursRounded := totalHoursRounded;
     Aggregate.isLate := isLate;
     Aggregate.lateReason := lateReason;
     Aggregate.otEarlyWindowStart := otEarlyWindowStart;
     Aggregate.otLateWindowEnd := otLateWindowEnd;
     Aggregate.effectiveOtCheckoutMinutes := effectiveOtCheckoutMinutes;
     Aggregate.abnormalReasons := abnormalReasons;
     Aggregate.otHours := otHours;
     Aggregate.isAbnormal := isAbnormal;
     Aggregate.normalHours := normalHours;
     Aggregate.otHoursRounded := otHoursRounded;
     Aggregate.status := status;
     Aggregate.normalRate := normalRate;
     Aggregate.otRate := otRate;
     Aggregate.amountRM := amountRM |}.


(** The document [rebuildSessionsForDay] writes. *)
Definition sessionData (uid : string) (profile : UserProfile)
    (dateKey : string) (a : Aggregate.Locals) : AttendanceSession :=
  {| s_userId := uid;
     s_userEmail := email profile;
     s_userName := default "User"%string (name profile);
     s_siteId := Js.orElse (Aggregate.siteInId a) (Aggregate.siteOutId a);
     s_siteName := Js.orElse (Aggregate.siteInName a) (Aggregate.siteOutName a);
     siteInId := Aggregate.siteInId a;
     siteInName := Aggregate.siteInName a;
     siteOutId := Aggregate.siteOutId a;
     siteOutName := Aggregate.siteOutName a;
     s_dateKey := dateKey;
     checkInTime := Aggregate.checkInTime a;
     checkOutTime := Aggregate.checkOutTime a;
     totalHours := Aggregate.totalHoursRounded a;
     normalHours := Aggregate.normalHours a;
     otHours := Aggregate.otHoursRounded a;
     s_normalRate := Aggregate.normalRate a;
     s_otRate := Aggregate.otRate a;
     amountRM := Aggregate.amountRM a;
     s_status := Aggregate.status a;
     isLate := Aggregate.isLate a;
     lateReason := Aggregate.lateReason a;
     lateNote := None;
     isAbnormal := Aggregate.isAbnormal a;
     abnormalReasons := Aggregate.abnormalReasons a;
     abnormalNote := None;
     s_searchPrefixes :=
       buildSearchPrefixes
         [default "User"%string (name profile); email profile;
          default ""%string (employeeId profile)] |}.

(** The logs the aggregation of a day runs on. *)
Definition dayLogs (db : Db) (uid dateKey : string) : list AttendanceLog :=
  List.filter notDeleted (map snd (logsQuery db uid dateKey)).

(** The session [rebuildSessionsForDay] builds for the day. *)
Definition daySession (db : Db) (uid : string) (profile : UserProfile)
    (dateKey : string) : AttendanceSession :=
  sessionData uid profile dateKey
    (aggregate profile (getBufferSettings db) (dayLogs db uid dateKey)).

(** The write batch of [rebuildSessionsForDay]: one delete for each session
    document of the key, then the new document under [sessionRef], the id
    [doc(collection(db, "attendanceSessions"))] generated. *)
Definition rebuildBatch (db : Db) (uid : string) (profile : UserProfile)
    (sessionRef : DocId) (dateKey : string)
  : list (Write AttendanceSession) :=
  (map (fun d => Delete (fst d)) (sessionQuery db uid dateKey)
   ++ [SetDoc sessionRef (daySession db uid profile dateKey)])%list.

Definition rebuildSessionsForDay (auth : Auth) (sessionRef : DocId)
    (dateKey : string) (db : Db) : Db :=
  match user auth, profile auth with
  | Some uid, Some profile =>
      withSessions db
        (commit (rebuildBatch db uid profile sessionRef dateKey)
                (attendanceSessions db))
  | _, _ => db
  end.


(** *** The scan handler *)

(** What a rejected promise carries, as far as the [catch] block of
    [handleScan] looks at it: a string, or an object with an optional
    [code] and [message], or anything else. *)
Inductive ErrCode := NumCode (n : Z) | StrCode (s : string).

Inductive JsError :=
| ThrownString (s : string)
| ThrownObject (code : option ErrCode) (message : option string)
| ThrownOther.

(** The requests of [handleScan] that are followed by a test of
    [cancelled], in the body or in the [catch] block. *)
Inductive Await :=
| AwaitLogFailure
| AwaitSiteLookup
| AwaitPosition
| AwaitDailyQuery
| AwaitAddDoc.

(** What the browser and the network decide during one call. *)
Record Outcomes := {
  processing : bool;                        (* [processingRef.current] *)
  clientNow : Z;                            (* [new Date()] *)
  serverNow : Timestamp;                    (* [serverTimestamp()] *)
  logRef : DocId;                           (* id of the log [addDoc] adds *)
  sessionRef : DocId;                       (* id of the rebuilt session *)
  siteLookupError : option JsError;         (* the site query rejects *)
  position : JsError + (Q * Q);             (* [getPosition()] *)
  dailyQueryError : option JsError;         (* the daily query rejects *)
  addDocError : option JsError;             (* adding the success log rejects *)
  logFailureError : option JsError;         (* adding a failure log rejects *)
  catchLogFails : bool;                     (* the same, inside [catch] *)
  rebuildFails : bool;                      (* the rebuild rejects *)
  timedOut : Await -> bool;                 (* [cancelled] after the request *)
}.

Inductive Flash := FlashSuccess | FlashError.

(** The database after the call and the argument of the handler's call of
    [finish], if it makes one. *)
Record ScanResult := {
  db_after : Db;
  finished : option (string * Flash);
}.

(** The document [logAttendanceFailure] adds. *)
Definition failureLog (o : Outcomes) (uid : string) (profile : UserProfile)
    (reason : string) (locationItem : option (DocId * SiteItem))
    (distanceMeters : option Q) (coords : option (Q * Q)) : AttendanceLog :=
  {| userId := uid;
     userEmail := email profile;
     userName := Some (default "User"%string (name profile));
     siteId := default "unknown"%string (option_map fst locationItem);
     siteName :=
       default "Unknown"%string
               (option_map (fun l => site_name (snd l)) locationItem);
     scanTime := serverNow o;
     dateKey := Some (Utils.getDateKey (clientNow o));
     userLat := option_map fst coords;
     userLng := option_map snd coords;
     distanceMeters := distanceMeters;
     allowedRadiusMeters :=
       option_map (fun l => site_allowedRadiusMeters (snd l)) locationItem;
     status := Fail;
     scanType := None;
     failReason := Some reason;
     isDeleted := Some false;
     createdBy := Some ByScanner;
     createdAt := Some (serverNow o);
     searchPrefixes :=
       buildSearchPrefixes
         [default "User"%string (name profile); email profile;
          default "Unknown"%string
                  (option_map (fun l => site_name (snd l)) locationItem)] |}.

Definition logAttendanceFailure (o : Outcomes) (auth : Auth)
    (reason : string) (locationItem : option (DocId * SiteItem))
    (distanceMeters : option Q) (coords : option (Q * Q)) (db : Db) : Db :=
  match user auth, profile auth with
  | Some uid, Some profile =>
      withAttendance db
        (addDoc (logRef o)
                (failureLog o uid profile reason locationItem
                            distanceMeters coords)
                (attendance db))
  | _, _ => db
  end.

(** The message the [catch] block of [handleScan] derives from what was
    thrown. *)
Definition errorMessage (err : JsError) : string :=
  let message := "Unable to complete scan. Please try again."%string in
  match err with
  | ThrownString s => s
  | ThrownObject code maybeMessage =>
      let message :=
        match code with
        | Some (NumCode 1) => "GPS permission denied."%string
        | Some (NumCode 2) => "GPS position unavailable."%string
        | Some (NumCode 3) => "GPS request timed out."%string
        | _ => message
        end in
      let message :=
        match maybeMessage with
        | Some m => if String.eqb m "" then message else m
        | None => message
        end in
      match code with
      | Some (StrCode c) =>
          if String.eqb c "permission-denied"
          then "Permission denied. Please contact admin."%string
          else if String.eqb c "failed-precondition"
          then "Missing Firestore index. Please contact admin."%string
          else message
      | _ => message
      end
  | ThrownOther => message
  end.

(** The [catch] block: nothing once the timeout has fired; otherwise one
    attempt to log the failure, whose own failure is ignored. *)
Definition catchBlock (o : Outcomes) (auth : Auth) (at_ : Await)
    (lastLocation : option (DocId * SiteItem)) (err : JsError) (db : Db)
  : ScanResult :=
  if timedOut o at_ then {| db_after := db; finished := None |}
  else
    let message := errorMessage err in
    {| db_after :=
         if catchLogFails o then db
         else logAttendanceFailure o auth message lastLocation None None db;
       finished := Some (message, FlashError) |}.

(** A failure the handler detects itself: log it and finish. *)
Definition failWith (o : Outcomes) (auth : Auth) (reason flash : string)
    (lastLocation locationItem : option (DocId * SiteItem))
    (distanceMeters : option Q) (coords : option (Q * Q)) (db : Db)
  : ScanResult :=
  match logFailureError o with
  | Some err => catchBlock o auth AwaitLogFailure lastLocation err db
  | None =>
      {| db_after :=
           logAttendanceFailure o auth reason locationItem
                                distanceMeters coords db;
         finished := Some (flash, FlashError) |}
  end.


(** The site whose normalized name is the scanned one ([limit(1)]). *)
Definition locationQuery (db : Db) (normalizedName : string)
  : option (DocId * SiteItem) :=
  List.find (fun d => String.eqb (nameNormalized (snd d)) normalizedName)
            (sites db).

(** The ten latest successful logs of the user at the site on the day,
    latest first. *)
Definition dailyQuery (db : Db) (uid site dateKey : string)
  : Collection AttendanceLog :=
  limit 10
    (orderByDesc scanTime
       (List.filter
          (fun d => String.eqb (userId (snd d)) uid
                    && String.eqb (siteId (snd d)) site
                    && isSuccess (status (snd d))
                    && hasDateKey dateKey (snd d))
          (attendance db))).

(** The kind of the scan, from the documents the daily query returned. *)
Definition nextScanType (dailySnapshot : Collection AttendanceLog)
  : ScanType :=
  let lastLog := List.find notDeleted (map snd dailySnapshot) in
  let lastType := option_map (fun l => default CheckIn (scanType l)) lastLog in
  match lastType with
  | None => CheckIn
  | Some CheckOut => CheckIn
  | Some CheckIn => CheckOut
  end.

(** The document [handleScan] adds for a successful scan. *)
Definition successLog (o : Outcomes) (uid : string) (profile : UserProfile)
    (locationItem : DocId * SiteItem) (coords : Q * Q) (distance : Q)
    (kind : ScanType) : AttendanceLog :=
  {| userId := uid;
     userEmail := email profile;
     userName := Some (default "User"%string (name profile));
     siteId := fst locationItem;
     siteName := site_name (snd locationItem);
     scanTime := serverNow o;
     dateKey := Some (Utils.getDateKey (clientNow o));
     userLat := Some (fst coords);
     userLng := Some (snd coords);
     distanceMeters := Some distance;
     allowedRadiusMeters := Some (site_allowedRadiusMeters (snd locationItem));
     status := Success;
     scanType := Some kind;
     failReason := None;
     isDeleted := Some false;
     createdBy := Some ByScanner;
     createdAt := Some (serverNow o);
     searchPrefixes :=
       buildSearchPrefixes
         [default "User"%string (name profile); email profile;
          site_name (snd locationItem)] |}.

Definition quiet (db : Db) : ScanResult :=
  {| db_after := db; finished := None |}.

Definition handleScan (o : Outcomes) (auth : Auth) (rawValue : string)
    (db : Db) : ScanResult :=
  match user auth, profile auth with
  | Some uid, Some profile =>
    if processing o then quiet db else
    let normalizedName := Utils.normalizeSiteName rawValue in
    if String.eqb normalizedName ""
    then failWith o auth "Invalid QR code." "Invalid QR code."
                  None None None None db
    else
    match siteLookupError o with
    | Some err => catchBlock o auth AwaitSiteLookup None err db
    | None =>
    if timedOut o AwaitSiteLookup then quiet db else
    match locationQuery db normalizedName with
    | None => failWith o auth "Site not found." "Site not found."
                       None None None None db
    | Some locationItem =>
    match position o with
    | inl err => catchBlock o auth AwaitPosition (Some locationItem) err db
    | inr coords =>
    if timedOut o AwaitPosition then quiet db else
    let distance :=
      haversineDistance (fst coords) (snd coords)
                        (lat (snd locationItem)) (lng (snd locationItem)) in
    if Js.Qgtb distance (site_allowedRadiusMeters (snd locationItem))
    then failWith o auth "Outside allowed radius."
                  "You are outside the allowed radius."
                  (Some locationItem) (Some locationItem)
                  (Some distance) (Some coords) db
    else
    let dateKey := Utils.getDateKey (clientNow o) in
    match dailyQueryError o with
    | Some err => catchBlock o auth AwaitDailyQuery (Some locationItem) err db
    | None =>
    if timedOut o AwaitDailyQuery then quiet db else
    let scanType :=
      nextScanType (dailyQuery db uid (fst locationItem) dateKey) in
    match addDocError o with
    | Some err => catchBlock o auth AwaitAddDoc (Some locationItem) err db
    | None =>
    let db1 :=
      withAttendance db
        (addDoc (logRef o)
                (successLog o uid profile locationItem coords distance
                            scanType)
                (attendance db)) in
    let db2 :=
      if rebuildFails o then db1
      else rebuildSessionsForDay auth (sessionRef o) dateKey db1 in
    {| db_after := db2;
       finished :=
         Some (match scanType with
               | CheckIn => "Check-in recorded."%string
               | CheckOut => "Check-out recorded."%string
               end, FlashSuccess) |}
    end end end end end
  | _, _ => quiet db
  end.

(** The first check-in and the last check-out [aggregate] picks, for the
    comparison with [Aggregate.derive]. *)
Definition endpoints (logs : list AttendanceLog) : Aggregate.Endpoints :=
  let firstCheckIn :=
    Js.reduce
      (fun prev next =>
         if (toDate (scanTime prev) <=? toDate (scanTime next))%Z
         then prev else next)
      (List.filter (hasScanType CheckIn) logs) in
  let lastCheckOut :=
    Js.reduce
      (fun prev next =>
         if (toDate (scanTime prev) >=? toDate (scanTime next))%Z
         then prev else next)
      (List.filter (hasScanType CheckOut) logs) in
  {| Aggregate.firstTime :=
       option_map (fun l => toDate (scanTime l)) firstCheckIn;
     Aggregate.firstSiteId := option_map siteId firstCheckIn;
     Aggregate.firstSiteName := option_map siteName firstCheckIn;
     Aggregate.lastTime :=
       option_map (fun l => toDate (scanTime l)) lastCheckOut;
     Aggregate.lastSiteId := option_map siteId lastCheckOut;
     Aggregate.lastSiteName := option_map siteName lastCheckOut |}.

End WithHost.
End ScannerPage.

(** ** The administrator dashboard: [recomputeSessionsForRange] *)

Module AdminDashboard.
Import Firestore Types.

Definition DEFAULT_BUFFER_SETTINGS : BufferSettings :=
  {| lateBufferMinutes := 5;
     earlyCheckoutBufferMinutes := 5;
     otEarlyBufferMinutes := 15;
     otLateBufferMinutes := 60 |}.

Definition normalize (value : option Value) (fallback : Q) : Q :=
  match value with
  | Some (VNumber q) => q
  | _ => fallback
  end.

Definition getBufferSettings (db : Db) : BufferSettings :=
  let data : gmap string Value :=
    match settingsGlobal db with Some d => d | None => ∅ end in
  {| lateBufferMinutes :=
       normalize (data !! "lateBufferMinutes"%string)
                 (lateBufferMinutes DEFAULT_BUFFER_SETTINGS);
     earlyCheckoutBufferMinutes :=
       normalize (data !! "earlyCheckoutBufferMinutes"%string)
                 (earlyCheckoutBufferMinutes DEFAULT_BUFFER_SETTINGS);
     otEarlyBufferMinutes :=
       normalize (data !! "otEarlyBufferMinutes"%string)
                 (otEarlyBufferMinutes DEFAULT_BUFFER_SETTINGS);
     otLateBufferMinutes :=
       normalize (data !! "otLateBufferMinutes"%string)
                 (otLateBufferMinutes DEFAULT_BUFFER_SETTINGS) |}.

(** An element of the arrays in [grouped]. *)
Record GroupedLog := {
  g_scanType : option ScanType;
  g_scanTime : Z;
  g_userId : string;
  g_userEmail : string;
  g_siteId : string;
  g_siteName : string;
  g_dateKey : string;
}.

(** [grouped]: a [Map], which keeps its keys in the order they were first
    set. *)
Definition Grouped := list (string * list GroupedLog).

Fixpoint mapGet (key : string) (m : Grouped) : option (list GroupedLog) :=
  match m with
  | [] => None
  | (k, v) :: rest => if String.eqb k key then Some v else mapGet key rest
  end.

Fixpoint mapSet (key : string) (v : list GroupedLog) (m : Grouped) : Grouped :=
  match m with
  | [] => [(key, v)]
  | (k, v') :: rest =>
      if String.eqb k key then (k, v) :: rest
      else (k, v') :: mapSet key v rest
  end.

(** [key.split("|")] *)
Fixpoint split (sep : ascii) (s : string) : list string :=
  match s with
  | EmptyString => [EmptyString]
  | String c r =>
      if Ascii.eqb c sep then EmptyString :: split sep r
      else match split sep r with
           | h :: t => String c h :: t
           | [] => [String c EmptyString]
           end
  end.

Definition hasScanType (t : ScanType) (l : GroupedLog) : bool :=
  match g_scanType l with Some t' => ScanType_eqb t' t | None => false end.

(** The successful logs scanned between the two dates, oldest first. *)
Definition logsQuery (db : Db) (startDate endDate : Z)
  : Collection AttendanceLog :=
  orderByAsc scanTime
    (List.filter
       (fun d => isSuccess (status (snd d))
                 && (toNanos (fromDate startDate)
                     <=? toNanos (scanTime (snd d)))
                 && (toNanos (scanTime (snd d)) <=? toNanos (fromDate endDate)))
       (attendance db)).

Definition sessionQuery (db : Db) (userId dateKey : string)
  : Collection AttendanceSession :=
  List.filter
    (fun d => String.eqb (s_userId (snd d)) userId
              && String.eqb (s_dateKey (snd d)) dateKey)
    (attendanceSessions db).

(** [userMap]: the users by [uid], a later one replacing an earlier one. *)
Definition userMapOf (users : list UserProfile) : gmap string UserProfile :=
  fold_left (fun acc userItem => <[uid userItem := userItem]> acc) users ∅.

Section WithHost.
Context `{Host}.

(** The first loop: the logs that are not deleted, by user and day. *)
Definition groupLogs (docs : Collection AttendanceLog) : Grouped :=
  fold_left
    (fun grouped docSnap =>
       let data := snd docSnap in
       if Js.truthy (isDeleted data) then grouped
       else
         let scanTime := toDate (scanTime data) in
         let dateKey := default (Utils.getDateKey scanTime) (dateKey data) in
         let key := (userId data ++ "|" ++ dateKey)%string in
         let list := default [] (mapGet key grouped) in
         mapSet key
           (list ++ [{| g_scanType := Some (default CheckIn (scanType data));
                        g_scanTime := scanTime;
                        g_userId := userId data;
                        g_userEmail := userEmail data;
                        g_siteId := siteId data;
                        g_siteName := siteName data;
                        g_dateKey := dateKey |}])
           grouped)
    docs [].


Open Scope Q_scope.

(** The body of the second loop of [recomputeSessionsForRange], from the
    sorted array of a key to the values of its session. *)
Definition aggregate (userItem : option UserProfile)
    (settings : BufferSettings) (list : list GroupedLog)
  : Aggregate.Locals :=
  let lateBufferMinutes := lateBufferMinutes settings in
  let earlyCheckoutBufferMinutes := earlyCheckoutBufferMinutes settings in
  let otEarlyBufferMinutes := otEarlyBufferMinutes settings in
  let otLateBufferMinutes := otLateBufferMinutes settings in
  let checkIns := List.filter (hasScanType CheckIn) list in
  let checkOuts := List.filter (hasScanType CheckOut) list in
  let firstCheckIn :=
    Js.reduce
      (fun prev next =>
         if (g_scanTime prev <=? g_scanTime next)%Z then prev else next)
      checkIns in
  let lastCheckOut :=
    Js.reduce
      (fun prev next =>
         if (g_scanTime prev >=? g_scanTime next)%Z then prev else next)
      checkOuts in
  let checkInTime := option_map g_scanTime firstCheckIn in
  let checkOutTime := option_map g_scanTime lastCheckOut in
  let siteInId := option_map g_siteId firstCheckIn in
  let siteInName := option_map g_siteName firstCheckIn in
  let siteOutId := option_map g_siteId lastCheckOut in
  let siteOutName := option_map g_siteName lastCheckOut in
  let checkInMinutes := option_map Utils.getTimeMinutes checkInTime in
  let checkOutMinutes := option_map Utils.getTimeMinutes checkOutTime in
  let totalHoursRaw :=
    match checkInTime, checkOutTime with
    | Some tin, Some tout =>
        Some (Js.max (inject_Z (tout - tin) / inject_Z 3600000) 0)
    | _, _ => None
    end in
  let isWithinEarlyCheckoutBuffer :=
    match checkOutMinutes with
    | Some m =>
        Js.Qgeb (inject_Z m) (17 * 60 - earlyCheckoutBufferMinutes)
        && Qle_bool (inject_Z m) (17 * 60)
    | None => false
    end in
  let totalHoursAdjusted :=
    match totalHoursRaw, checkOutMinutes with
    | Some t, Some m =>
        if isWithinEarlyCheckoutBuffer
        then let bufferMinutes := Js.max (17 * 60 - inject_Z m) 0 in
             Some (t + bufferMinutes / 60)
        else Some t
    | _, _ => totalHoursRaw
    end in
  let totalHoursRounded := option_map Js.toFixed2 totalHoursAdjusted in
  let reasons1 :=
    match checkInTime with None => ["Missing check-in"%string] | _ => [] end in
  let reasons2 :=
    match checkOutTime with
    | None => ["Missing check-out"%string]
    | _ => []
    end in
  let reasons3 :=
    match totalHoursRounded with
    | Some t => if Js.Qltb t 9 then ["Total hours < 9"%string] else []
    | None => []
    end in
  let otEarlyWindowStart := 22 * 60 - otEarlyBufferMinutes in
  let otLateWindowEnd := 22 * 60 + otLateBufferMinutes in
  let effectiveOtCheckoutMinutes :=
    match checkOutMinutes with
    | Some m =>
        if Js.Qgeb (inject_Z m) otEarlyWindowStart
           && Qle_bool (inject_Z m) otLateWindowEnd
        then Some (22 * 60)
        else Some (inject_Z m)
    | None => None
    end in
  let reasons4 :=
    match checkOutMinutes with
    | Some m =>
        if Js.Qgtb (inject_Z m) otLateWindowEnd
        then ["Checkout after 10pm"%string] else []
    | None => []
    end in
  let abnormalReasons := (reasons1 ++ reasons2 ++ reasons3 ++ reasons4)%list in
  let otHours :=
    match totalHoursRounded, effectiveOtCheckoutMinutes with
    | Some t, Some e =>
        if Js.Qgeb t 9
        then if Js.Qgeb e (22 * 60) then 4
             else if Js.Qgeb e (19 * 60) then 2 else 0
        else 0
    | _, _ => 0
    end in
  let isLate :=
    match checkInMinutes with
    | Some m => Js.Qgtb (inject_Z m) (8 * 60 + lateBufferMinutes)
    | None => false
    end in
  let lateReason :=
    if isLate
    then Some ("Check-in after 8:00 + "
               ++ numberToString lateBufferMinutes ++ " min")%string
    else None in
  let isAbnormal := (0 <? length abnormalReasons)%nat in
  let normalHours :=
    if negb isAbnormal
    then option_map (fun t => Js.toFixed2 (Js.min t 9)) totalHoursRounded
    else None in
  let otHoursRounded := if negb isAbnormal then Some otHours else None in
  let status :=
    match checkInTime, checkOutTime with
    | Some _, Some _ => Complete
    | _, _ => Incomplete
    end in
  let normalRate := default 0 (userItem ≫= normalRate) in
  let otRate := default 0 (userItem ≫= otRate) in
  let amountRM :=
    if isAbnormal then None
    else Some (Js.toFixed2 (default 0 normalHours * normalRate
                            + default 0 otHoursRounded * otRate)) in
  {| Aggregate.checkInTime := checkInTime;
     Aggregate.checkOutTime := checkOutTime;
     Aggregate.siteInId := siteInId;
     Aggregate.siteInName := siteInName;
     Aggregate.siteOutId := siteOutId;
     Aggregate.siteOutName := siteOutName;
     Aggregate.checkInMinutes := checkInMinutes;
     Aggregate.checkOutMinutes := checkOutMinutes;
     Aggregate.totalHoursRaw := totalHoursRaw;
     Aggregate.isWithinEarlyCheckoutBuffer := isWithinEarlyCheckoutBuffer;
     Aggregate.totalHoursAdjusted := totalHoursAdjusted;
     Aggregate.totalHoursRounded := totalHoursRounded;
     Aggregate.isLate := isLate;
     Aggregate.lateReason := lateReason;
     Aggregate.otEarlyWindowStart := otEarlyWindowStart;
     Aggregate.otLateWindowEnd := otLateWindowEnd;
     Aggregate.effectiveOtCheckoutMinutes := effectiveOtCheckoutMinutes;
     Aggregate.abnormalReasons := abnormalReasons;
     Aggregate.otHours := otHours;
     Aggregate.isAbnormal := isAbnormal;
     Aggregate.normalHours := normalHours;
     Aggregate.otHoursRounded := otHoursRounded;
     Aggregate.status := status;
     Aggregate.normalRate := normalRate;
     Aggregate.otRate := otRate;
     Aggregate.amountRM := amountRM |}.


(** [const [userId, dateKey] = key.split("|")].  Every key of [grouped]
    holds the separator, so both parts exist. *)
Definition keyUserId (key : string) : string :=
  nth 0 (split "|"%char key) EmptyString.

Definition keyDateKey (key : string) : string :=
  nth 1 (split "|"%char key) EmptyString.

(** [list.sort((a, b) => a.scanTime.getTime() - b.scanTime.getTime())] *)
Definition sortByScanTime (logs : list GroupedLog) : list GroupedLog :=
  Js.sort (fun a b => (g_scanTime a <=? g_scanTime b)%Z) logs.

(** The document the second loop writes for a key.  The arrays of
    [grouped] are never empty, so [list[0]] exists. *)
Definition sessionData (userItem : option UserProfile)
    (userId dateKey : string) (list : list GroupedLog)
    (a : Aggregate.Locals) : AttendanceSession :=
  let userName := default "User"%string (userItem ≫= name) in
  let userEmail :=
    match userItem with
    | Some u => email u
    | None => match list with
              | l0 :: _ => g_userEmail l0
              | [] => EmptyString
              end
    end in
  {| s_userId := userId;
     s_userEmail := userEmail;
     s_userName := userName;
     s_siteId := Js.orElse (Aggregate.siteInId a) (Aggregate.siteOutId a);
     s_siteName := Js.orElse (Aggregate.siteInName a) (Aggregate.siteOutName a);
     siteInId := Aggregate.siteInId a;
     siteInName := Aggregate.siteInName a;
     siteOutId := Aggregate.siteOutId a;
     siteOutName := Aggregate.siteOutName a;
     s_dateKey := dateKey;
     checkInTime := Aggregate.checkInTime a;
     checkOutTime := Aggregate.checkOutTime a;
     totalHours := Aggregate.totalHoursRounded a;
     normalHours := Aggregate.normalHours a;
     otHours := Aggregate.otHoursRounded a;
     s_normalRate := Aggregate.normalRate a;
     s_otRate := Aggregate.otRate a;
     amountRM := Aggregate.amountRM a;
     s_status := Aggregate.status a;
     isLate := Aggregate.isLate a;
     lateReason := Aggregate.lateReason a;
     lateNote := None;
     isAbnormal := Aggregate.isAbnormal a;
     abnormalReasons := Aggregate.abnormalReasons a;
     abnormalNote := None;
     s_searchPrefixes :=
       buildSearchPrefixes
         [userName; userEmail;
          default ""%string (userItem ≫= employeeId)] |}.

(** The session the second loop builds for an entry of [grouped]. *)
Definition keySession (settings : BufferSettings)
    (userMap : gmap string UserProfile)
    (entry : string * list GroupedLog) : AttendanceSession :=
  let userId := keyUserId (fst entry) in
  let dateKey := keyDateKey (fst entry) in
  let list := sortByScanTime (snd entry) in
  let userItem := userMap !! userId in
  sessionData userItem userId dateKey list (aggregate userItem settings list).

(** The write batch of one round of the second loop. *)
Definition keyBatch (settings : BufferSettings)
    (userMap : gmap string UserProfile)
    (entry : string * list GroupedLog) (sessionRef : DocId) (db : Db)
  : list (Write AttendanceSession) :=
  (map (fun d => Delete (fst d))
       (sessionQuery db (keyUserId (fst entry)) (keyDateKey (fst entry)))
   ++ [SetDoc sessionRef (keySession settings userMap entry)])%list.

Definition recomputeKey (settings : BufferSettings)
    (userMap : gmap string UserProfile)
    (entry : string * list GroupedLog) (sessionRef : DocId) (db : Db) : Db :=
  withSessions db
    (commit (keyBatch settings userMap entry sessionRef db)
            (attendanceSessions db)).

(** The second loop; [refs] are the ids generated for the new session
    documents, in order. *)
Fixpoint recomputeLoop (settings : BufferSettings)
    (userMap : gmap string UserProfile) (grouped : Grouped)
    (refs : list DocId) (db : Db) : Db :=
  match grouped, refs with
  | entry :: rest, sessionRef :: refs' =>
      recomputeLoop settings userMap rest refs'
        (recomputeKey settings userMap entry sessionRef db)
  | _, _ => db
  end.

Definition recomputeSessionsForRange (startDate endDate : Z)
    (users : list UserProfile) (refs : list DocId) (db : Db) : Db :=
  let settings := getBufferSettings db in
  let userMap := userMapOf users in
  let grouped := groupLogs (logsQuery db startDate endDate) in
  recomputeLoop settings userMap grouped refs db.

(** The first check-in and the last check-out [aggregate] picks, for the
    comparison with [Aggregate.derive]. *)
Definition endpoints (logs : list GroupedLog) : Aggregate.Endpoints :=
  let firstCheckIn :=
    Js.reduce
      (fun prev next =>
         if (g_scanTime prev <=? g_scanTime next)%Z then prev else next)
      (List.filter (hasScanType CheckIn) logs) in
  let lastCheckOut :=
    Js.reduce
      (fun prev next =>
         if (g_scanTime prev >=? g_scanTime next)%Z then prev else next)
      (List.filter (hasScanType CheckOut) logs) in
  {| Aggregate.firstTime := option_map g_scanTime firstCheckIn;
     Aggregate.firstSiteId := option_map g_siteId firstCheckIn;
     Aggregate.firstSiteName := option_map g_siteName firstCheckIn;
     Aggregate.lastTime := option_map g_scanTime lastCheckOut;
     Aggregate.lastSiteId := option_map g_siteId lastCheckOut;
     Aggregate.lastSiteName := option_map g_siteName lastCheckOut |}.

End WithHost.
End AdminDashboard.

(** ** The specification's vocabulary *)

Module Spec.
Import Firestore Types.

Open Scope Q_scope.

(** [y] is [x] rounded to two decimals: a whole number of hundredths, at
    most half a hundredth away. *)
Definition Rounded2 (x y : Q) : Prop :=
  exists n : Z, y == inject_Z n / 100 /\ Qabs (y - x) <= 1 # 200.

(** max(0, (checkOut - checkIn) in hours) *)
Definition hoursBetween (checkIn checkOut : Z) : Q :=
  Qmax 0 (inject_Z (checkOut - checkIn) / 3600000).

Definition at1700 : Q := 17 * 60.
Definition at1900 : Q := 19 * 60.
Definition at2200 : Q := 22 * 60.

(** checkout-minutes within [17:00 - earlyCheckoutBufferMinutes, 17:00] *)
Definition inEarlyCheckoutWindow (b : BufferSettings) (m : Z) : Prop :=
  at1700 - earlyCheckoutBufferMinutes b <= inject_Z m /\ inject_Z m <= at1700.

(** checkout-minutes within
    [22:00 - otEarlyBufferMinutes, 22:00 + otLateBufferMinutes] *)
Definition inOtWindow (b : BufferSettings) (m : Z) : Prop :=
  at2200 - otEarlyBufferMinutes b <= inject_Z m
  /\ inject_Z m <= at2200 + otLateBufferMinutes b.

(** checkout-minutes > 22:00 + otLateBufferMinutes *)
Definition afterOtWindow (b : BufferSettings) (m : Z) : Prop :=
  at2200 + otLateBufferMinutes b < inject_Z m.

(** Step 3: an instant as minutes since midnight in the business time
    zone, Asia/Kuala_Lumpur, eight hours ahead of UTC since 1982. *)
Definition minutesOfDay (t : Z) : Z :=
  ((t + 8 * 3600000) mod 86400000) / 60000.

(** Step 4 and step 5 of the aggregator: the hours between the endpoints,
    padded up to 17:00 for a checkout inside the early-checkout window. *)
Definition PaddedHours (b : BufferSettings) (checkIn checkOut : Z) (h : Q)
  : Prop :=
  let m := minutesOfDay checkOut in
  (inEarlyCheckoutWindow b m
   /\ h == hoursBetween checkIn checkOut + (at1700 - inject_Z m) / 60)
  \/ (~ inEarlyCheckoutWindow b m /\ h == hoursBetween checkIn checkOut).

(** Step 8: the effective overtime checkout. *)
Definition EffectiveOtCheckout (b : BufferSettings) (m : Z) (e : Q) : Prop :=
  (inOtWindow b m /\ e = at2200) \/ (~ inOtWindow b m /\ e = inject_Z m).

(** Step 9: overtime hours, from the total (if known) and the effective
    checkout (if known). *)
Definition OtRule (total effective : option Q) (ot : Q) : Prop :=
  match total, effective with
  | Some t, Some e =>
      (9 <= t /\ at2200 <= e /\ ot = 4)
      \/ (9 <= t /\ at1900 <= e /\ e < at2200 /\ ot = 2)
      \/ (9 <= t /\ e < at1900 /\ ot = 0)
      \/ (t < 9 /\ ot = 0)
  | _, _ => ot = 0
  end.

(** Step 7: which reasons apply. *)
Definition Applies (b : BufferSettings) (checkIn checkOut : option Z)
    (total : option Q) (reason : string) : Prop :=
  (reason = "Missing check-in"%string /\ checkIn = None)
  \/ (reason = "Missing check-out"%string /\ checkOut = None)
  \/ (reason = "Total hours < 9"%string
      /\ exists t, total = Some t /\ t < 9)
  \/ (reason = "Checkout after 10pm"%string
      /\ exists tout, checkOut = Some tout
                      /\ afterOtWindow b (minutesOfDay tout)).

(** A buffer as the data model describes it: a non-negative whole number
    of minutes. *)
Definition isMinuteCount (q : Q) : bool :=
  Qle_bool 0 q && Qeq_bool q (inject_Z (Qfloor q)).

(** The session documents of a key, and how many there are. *)
Definition sessionsOf (userId dateKey : string)
    (c : Collection AttendanceSession) : Collection AttendanceSession :=
  List.filter
    (fun d => String.eqb (s_userId (snd d)) userId
              && String.eqb (s_dateKey (snd d)) dateKey)
    c.

(** The session documents of every other key. *)
Definition sessionsElsewhere (userId dateKey : string)
    (c : Collection AttendanceSession) : Collection AttendanceSession :=
  List.filter
    (fun d => negb (String.eqb (s_userId (snd d)) userId
                    && String.eqb (s_dateKey (snd d)) dateKey))
    c.

(** Step 6 of the scan verifier, as the specification words it: toggle
    from the most recent non-deleted successful log of the user at the
    site on the day, whichever it is. *)
Definition matchingLogs (db : Db) (uid site dateKey : string)
  : Collection AttendanceLog :=
  List.filter
    (fun d => String.eqb (userId (snd d)) uid
              && String.eqb (siteId (snd d)) site
              && isSuccess (status (snd d))
              && ScannerPage.hasDateKey dateKey (snd d))
    (attendance db).

Definition mostRecentValid (db : Db) (uid site dateKey : string)
  : option AttendanceLog :=
  head (List.filter ScannerPage.notDeleted
          (map snd (orderByDesc scanTime (matchingLogs db uid site dateKey)))).

(** The same, looking at the ten latest successful logs only. *)
Definition mostRecentValidOfTen (db : Db) (uid site dateKey : string)
  : option AttendanceLog :=
  head (List.filter ScannerPage.notDeleted
          (map snd
             (firstn 10
                (orderByDesc scanTime (matchingLogs db uid site dateKey))))).

Definition isCheckOut (l : AttendanceLog) : bool :=
  match scanType l with Some CheckOut => true | _ => false end.

Definition toggle (last : option AttendanceLog) : ScanType :=
  match last with
  | None => CheckIn
  | Some l => if isCheckOut l then CheckIn else CheckOut
  end.

Definition expectedScanType (db : Db) (uid site dateKey : string)
  : ScanType :=
  toggle (mostRecentValid db uid site dateKey).

(** Steps 4 and 5, from the first check-in and the last check-out of the
    events: the raw total and the total that is stored. *)
Definition TotalHours (b : BufferSettings) (checkIn checkOut : option Z)
    (raw total : option Q) : Prop :=
  match checkIn, checkOut with
  | Some tin, Some tout =>
      exists r padded t,
        raw = Some r
        /\ r == hoursBetween tin tout
        /\ PaddedHours b tin tout padded
        /\ total = Some t
        /\ Rounded2 padded t
  | _, _ => raw = None /\ total = None
  end.

(** Steps 8 and 9, from the last check-out of the events and the total:
    the effective overtime checkout and the overtime hours. *)
Definition Overtime (b : BufferSettings) (checkOut : option Z)
    (total effective : option Q) (ot : Q) : Prop :=
  match checkOut with
  | Some tout =>
      exists e, effective = Some e
                /\ EffectiveOtCheckout b (minutesOfDay tout) e
  | None => effective = None
  end
  /\ OtRule total effective ot.

(** Step 7, from the endpoints of the events and the total: the list holds
    the reasons that apply, each once. *)
Definition Abnormality (b : BufferSettings) (checkIn checkOut : option Z)
    (total : option Q) (reasons : list string) : Prop :=
  (forall reason,
      In reason reasons <-> Applies b checkIn checkOut total reason)
  /\ List.NoDup reasons.

(** Step 10, on the session written, from the two rates and the overtime
    hours of step 9. *)
Definition Pay (rateNormal rateOt ot : Q) (s : AttendanceSession) : Prop :=
  ((normalHours s = None /\ otHours s = None /\ amountRM s = None)
   <-> abnormalReasons s <> [])
  /\ (abnormalReasons s = [] ->
      exists total normal amount,
        totalHours s = Some total
        /\ normalHours s = Some normal
        /\ Rounded2 (Qmin total 9) normal
        /\ otHours s = Some ot
        /\ amountRM s = Some amount
        /\ Rounded2 (normal * rateNormal + ot * rateOt) amount).

(** The key of an entry of [grouped], as the second loop reads it, and the
    session the loop leaves for a key: the one of the last entry read as
    that key. *)
Definition isEntryOf (userId dateKey : string)
    (entry : string * list AdminDashboard.GroupedLog) : bool :=
  String.eqb (AdminDashboard.keyUserId (fst entry)) userId
  && String.eqb (AdminDashboard.keyDateKey (fst entry)) dateKey.

Definition lastSession `{Host} (settings : BufferSettings)
    (userMap : gmap string UserProfile) (userId dateKey : string)
    (grouped : AdminDashboard.Grouped) (before : option AttendanceSession)
  : option AttendanceSession :=
  fold_left
    (fun acc entry =>
       if isEntryOf userId dateKey entry
       then Some (AdminDashboard.keySession settings userMap entry)
       else acc)
    grouped before.

(** The session documents of the keys a recompute does not visit. *)
Definition unvisited (grouped : AdminDashboard.Grouped)
    (d : DocId * AttendanceSession) : bool :=
  negb (existsb (fun entry => isEntryOf (s_userId (snd d)) (s_dateKey (snd d))
                                        entry)
                grouped).

(** Ids that are pairwise distinct, and ids that are all new to a
    collection. *)
Fixpoint distinct (ids : list DocId) : bool :=
  match ids with
  | [] => true
  | i :: rest => negb (existsb (String.eqb i) rest) && distinct rest
  end.

Definition allFresh {A} (refs : list DocId) (c : Collection A) : bool :=
  forallb (fun r => negb (existsb (String.eqb r) (map fst c))) refs.

(** What a field of [settings/global] holds when it holds a number that is
    not NaN. *)
Definition storedNumber (db : Db) (field : string) : option Q :=
  match settingsGlobal db with
  | Some data =>
      match data !! field with
      | Some (VNumber q) => Some q
      | _ => None
      end
  | None => None
  end.

Definition allMinuteCounts (b : BufferSettings) : bool :=
  isMinuteCount (lateBufferMinutes b)
  && isMinuteCount (earlyCheckoutBufferMinutes b)
  && isMinuteCount (otEarlyBufferMinutes b)
  && isMinuteCount (otLateBufferMinutes b).

(** The element [groupLogs] pushes for a log, and logs in the order of
    their scan times. *)
Definition asGrouped (data : AttendanceLog) : AdminDashboard.GroupedLog :=
  {| AdminDashboard.g_scanType := Some (default CheckIn (scanType data));
     AdminDashboard.g_scanTime := toDate (scanTime data);
     AdminDashboard.g_userId := userId data;
     AdminDashboard.g_userEmail := userEmail data;
     AdminDashboard.g_siteId := siteId data;
     AdminDashboard.g_siteName := siteName data;
     AdminDashboard.g_dateKey :=
       default (Utils.getDateKey (toDate (scanTime data))) (dateKey data) |}.

Fixpoint inScanOrder (logs : list AttendanceLog) : bool :=
  match logs with
  | [] => true
  | l :: rest =>
      match rest with
      | [] => true
      | l' :: _ => (toDate (scanTime l) <=? toDate (scanTime l'))%Z
      end && inScanOrder rest
  end.

Definition allTyped (logs : list AttendanceLog) : bool :=
  forallb (fun l => match scanType l with Some _ => true | None => false end)
          logs.

(** The scan verifier, step by step: what one attempt is to leave in the
    log, by the first step that fails. *)
Section ScanVerdict.
Context `{Host}.
Variables (o : ScannerPage.Outcomes) (u : string) (profile : UserProfile)
          (rawValue : string) (db : Db).

Definition token : string := Utils.normalizeSiteName rawValue.

Definition distanceTo (site : DocId * SiteItem) (coords : Q * Q) : Q :=
  haversineDistance (fst coords) (snd coords)
                    (lat (snd site)) (lng (snd site)).

(** Steps 1 and 2 pass: the token is not empty and names [site]. *)
Definition Found (site : DocId * SiteItem) : Prop :=
  token <> ""%string
  /\ ScannerPage.siteLookupError o = None
  /\ ScannerPage.locationQuery db token = Some site.

(** Steps 3 to 5 pass as well: the device is at [coords], within the radius
    of the site. *)
Definition Inside (site : DocId * SiteItem) (coords : Q * Q) : Prop :=
  Found site
  /\ ScannerPage.position o = inr coords
  /\ distanceTo site coords <= site_allowedRadiusMeters (snd site).

Definition failure (reason : string) (site : option (DocId * SiteItem))
    (distance : option Q) (coords : option (Q * Q)) : AttendanceLog :=
  ScannerPage.failureLog o u profile reason site distance coords.

Inductive ScanEvent : AttendanceLog -> Prop :=
| InvalidToken :
    token = ""%string ->
    ScanEvent (failure "Invalid QR code." None None None)
| SiteLookupFailed err :
    token <> ""%string ->
    ScannerPage.siteLookupError o = Some err ->
    ScanEvent (failure (ScannerPage.errorMessage err) None None None)
| SiteNotFound :
    token <> ""%string ->
    ScannerPage.siteLookupError o = None ->
    ScannerPage.locationQuery db token = None ->
    ScanEvent (failure "Site not found." None None None)
| NoPosition site err :
    Found site ->
    ScannerPage.position o = inl err ->
    ScanEvent (failure (ScannerPage.errorMessage err) (Some site) None None)
| OutsideRadius site coords :
    Found site ->
    ScannerPage.position o = inr coords ->
    site_allowedRadiusMeters (snd site) < distanceTo site coords ->
    ScanEvent (failure "Outside allowed radius." (Some site)
                       (Some (distanceTo site coords)) (Some coords))
| DailyQueryFailed site coords err :
    Inside site coords ->
    ScannerPage.dailyQueryError o = Some err ->
    ScanEvent (failure (ScannerPage.errorMessage err) (Some site) None None)
| WriteFailed site coords err :
    Inside site coords ->
    ScannerPage.dailyQueryError o = None ->
    ScannerPage.addDocError o = Some err ->
    ScanEvent (failure (ScannerPage.errorMessage err) (Some site) None None)
| Accepted site coords :
    Inside site coords ->
    ScannerPage.dailyQueryError o = None ->
    ScannerPage.addDocError o = None ->
    ScanEvent
      (ScannerPage.successLog o u profile site coords (distanceTo site coords)
         (ScannerPage.nextScanType
            (ScannerPage.dailyQuery db u (fst site)
               (Utils.getDateKey (ScannerPage.clientNow o))))).

(** Every check passes and both the daily query and the write succeed. *)
Definition AllPass : Prop :=
  exists site coords,
    Inside site coords
    /\ ScannerPage.dailyQueryError o = None
    /\ ScannerPage.addDocError o = None.

End ScanVerdict.

End Spec.

(** ** Sample data, for the concrete instances below *)

Module Demo.
Import Firestore Types.

(** Stand-ins for the host's helpers: the index keeps the values as they
    are, a number prints as its numerator (over its denominator when that is
    not 1), and the distance is 111 km for each degree of latitude and of
    longitude. *)
Fixpoint printDigits (fuel : nat) (n : Z) (acc : string) : string :=
  match fuel with
  | O => acc
  | S fuel' =>
      let acc' := String (Utils.digit (n mod 10)) acc in
      if (n / 10 =? 0)%Z then acc' else printDigits fuel' (n / 10) acc'
  end.

Definition printZ (z : Z) : string :=
  if (z <? 0)%Z
  then String "-" (printDigits (Z.to_nat (Z.log2 (- z)) + 1) (- z) "")
  else printDigits (Z.to_nat (Z.log2 z) + 1) z "".

Definition host : Host :=
  {| buildSearchPrefixes := fun values => values;
     numberToString :=
       fun q => if (Z.pos (Qden q) =? 1)%Z then printZ (Qnum q)
                else (printZ (Qnum q) ++ "/" ++ printZ (Z.pos (Qden q)))%string;
     haversineDistance :=
       fun lat1 lon1 lat2 lon2 =>
         ((Qabs (lat2 - lat1) + Qabs (lon2 - lon1)) * 111000)%Q |}.

(** Midnight of 1 January 2024 in Kuala Lumpur, and a time of that day. *)
Definition midnight : Z := 1704038400000.

Definition clock (hour minute : Z) : Z :=
  midnight + (hour * 60 + minute) * 60000.

Definition amy : UserProfile :=
  {| uid := "u1"; email := "amy@example.com"; name := Some "Amy"%string;
     employeeId := Some "E-1"%string;
     normalRate := Some 10%Q; otRate := Some 15%Q |}.

Definition amyAuth : ScannerPage.Auth :=
  {| ScannerPage.user := Some "u1"%string; ScannerPage.profile := Some amy |}.

Definition signedOut : ScannerPage.Auth :=
  {| ScannerPage.user := None; ScannerPage.profile := None |}.

Definition depot : DocId * SiteItem :=
  ("site-a"%string,
   {| site_name := "Depot A"; nameNormalized := "depot a";
      lat := 3%Q; lng := 101%Q; site_allowedRadiusMeters := 100%Q;
      site_createdAt := Some (fromDate (clock 0 0));
      site_updatedAt := Some (fromDate (clock 0 0)) |}).

(** A successful scan of Amy at the depot on the day. *)
Definition scan (time : Z) (kind : option ScanType) (deleted : bool)
  : AttendanceLog :=
  {| userId := "u1"; userEmail := "amy@example.com";
     userName := Some "Amy"%string;
     siteId := "site-a"; siteName := "Depot A";
     scanTime := fromDate time; dateKey := Some "2024-01-01"%string;
     userLat := Some 3%Q; userLng := Some 101%Q;
     distanceMeters := Some 0%Q; allowedRadiusMeters := Some 100%Q;
     status := Success; scanType := kind; failReason := None;
     isDeleted := Some deleted; createdBy := Some ByScanner;
     createdAt := Some (fromDate time); searchPrefixes := [] |}.

Definition dbWith (logs : Collection AttendanceLog)
    (sessions : Collection AttendanceSession)
    (settings : option (gmap string Value)) : Db :=
  {| sites := [depot]; attendance := logs;
     attendanceSessions := sessions; settingsGlobal := settings |}.

(** A full day: in at 08:00, out at 18:00. *)
Definition fullDay : Collection AttendanceLog :=
  [("l1"%string, scan (clock 8 0) (Some CheckIn) false);
   ("l2"%string, scan (clock 18 0) (Some CheckOut) false)].

(** A user paid 12.341 an hour, and the session of a full day of theirs
    under the default buffers. *)
Definition kai : UserProfile :=
  {| uid := "u1"; email := "kai@example.com"; name := Some "Kai"%string;
     employeeId := None;
     normalRate := Some (12341 # 1000)%Q; otRate := Some 0%Q |}.

Definition sessionOf (p : UserProfile) (logs : Collection AttendanceLog)
  : AttendanceSession :=
  ScannerPage.sessionData (H := host) "u1" p "2024-01-01"
    (ScannerPage.aggregate (H := host) p ScannerPage.DEFAULT_BUFFER_SETTINGS
                           (map snd logs)).

(** A database with the logs of the full day, two stale sessions of the day
    and a session of the day before. *)
Definition dayBefore : AttendanceSession :=
  ScannerPage.sessionData (H := host) "u1" amy "2023-12-31"
    (ScannerPage.aggregate (H := host) amy ScannerPage.DEFAULT_BUFFER_SETTINGS
                           []).

Definition store : Db :=
  dbWith fullDay
    [("old-1"%string, sessionOf amy []);
     ("before"%string, dayBefore);
     ("old-2"%string, sessionOf kai fullDay)]
    None.

(** Settings as the administrator's form can save them (2.5 minutes), as a
    direct edit can leave them (-3, a text), and with a field missing. *)
Definition oddSettings : gmap string Value :=
  <["lateBufferMinutes"%string := VNumber (5 # 2)]>
    (<["earlyCheckoutBufferMinutes"%string := VNumber (-3)]>
       (<["otEarlyBufferMinutes"%string := VString "15"]> ∅)).

Definition tidySettings : gmap string Value :=
  <["lateBufferMinutes"%string := VNumber 10]> ∅.

Definition tidyStore : Db := dbWith fullDay [] (Some tidySettings).

Definition oddStore : Db := dbWith fullDay [] (Some oddSettings).

(** Ten soft-deleted check-outs between 09:00 and 09:09, after a check-in at
    08:00 that is not deleted. *)
Definition deletedTen : Collection AttendanceLog :=
  map (fun i => (String (Utils.digit i) "",
                 scan (clock 9 i) (Some CheckOut) true))
      [0; 1; 2; 3; 4; 5; 6; 7; 8; 9]%Z.

Definition maskedStore : Db :=
  dbWith (("in"%string, scan (clock 8 0) (Some CheckIn) false) :: deletedTen)
         [] None.

(** A scan at the depot at 18:30 during which nothing goes wrong, and the
    same while another scan is being processed. *)
Definition smooth : ScannerPage.Outcomes :=
  {| ScannerPage.processing := false;
     ScannerPage.clientNow := clock 18 30;
     ScannerPage.serverNow := fromDate (clock 18 30);
     ScannerPage.logRef := "log-new";
     ScannerPage.sessionRef := "session-new";
     ScannerPage.siteLookupError := None;
     ScannerPage.position := inr (3%Q, 101%Q);
     ScannerPage.dailyQueryError := None;
     ScannerPage.addDocError := None;
     ScannerPage.logFailureError := None;
     ScannerPage.catchLogFails := false;
     ScannerPage.rebuildFails := false;
     ScannerPage.timedOut := fun _ => false |}.

Definition busy : ScannerPage.Outcomes :=
  {| ScannerPage.processing := true;
     ScannerPage.clientNow := clock 18 30;
     ScannerPage.serverNow := fromDate (clock 18 30);
     ScannerPage.logRef := "log-new";
     ScannerPage.sessionRef := "session-new";
     ScannerPage.siteLookupError := None;
     ScannerPage.position := inr (3%Q, 101%Q);
     ScannerPage.dailyQueryError := None;
     ScannerPage.addDocError := None;
     ScannerPage.logFailureError := None;
     ScannerPage.catchLogFails := false;
     ScannerPage.rebuildFails := false;
     ScannerPage.timedOut := fun _ => false |}.

(** A day whose first log carries no scan type, and the sessions the two
    aggregators leave for it. *)
Definition legacyDay : Collection AttendanceLog :=
  [("l1"%string, scan (clock 8 0) None false);
   ("l2"%string, scan (clock 18 0) (Some CheckOut) false)].

Definition legacyStore : Db := dbWith legacyDay [] None.

Definition rebuilt (db : Db) : Collection AttendanceSession :=
  attendanceSessions
    (ScannerPage.rebuildSessionsForDay (H := host) amyAuth "new-1"
                                       "2024-01-01" db).

Definition recomputed (db : Db) : Collection AttendanceSession :=
  attendanceSessions
    (AdminDashboard.recomputeSessionsForRange (H := host) midnight
       (clock 23 59) [amy] ["new-1"%string] db).

End Demo.


(** ** The administrator's dashboard: sites, settings and notes

    A numeric input of a form is kept as the number [Number(text)] reads
    from it, [None] standing for [NaN]; a number shown in an input with
    [toString()] is read back as it was. *)

(** *** The sites tab of [AdminDashboard] *)

Module Locations.
Import Firestore Types.

Record LocationFormState := {
  f_id : option DocId;
  f_name : string;
  f_lat : option Q;
  f_lng : option Q;
  f_allowedRadiusMeters : option Q;
}.

Definition withSites (db : Db) (c : Collection SiteItem) : Db :=
  {| sites := c; attendance := attendance db;
     attendanceSessions := attendanceSessions db;
     settingsGlobal := settingsGlobal db |}.

(** The form [handleEdit(item)] opens. *)
Definition handleEdit (item : DocId * SiteItem) : LocationFormState :=
  {| f_id := Some (fst item);
     f_name := site_name (snd item);
     f_lat := Some (lat (snd item));
     f_lng := Some (lng (snd item));
     f_allowedRadiusMeters := Some (site_allowedRadiusMeters (snd item)) |}.

(** [locationForm.id] where the code tests it: a missing id and an empty
    one are both falsy. *)
Definition formId (form : LocationFormState) : option DocId :=
  match f_id form with
  | Some id => if String.eqb id "" then None else Some id
  | None => None
  end.

(** [where("nameNormalized", "==", normalized), limit(1)] *)
Definition existingQuery (db : Db) (normalized : string)
  : option (DocId * SiteItem) :=
  List.find (fun d => String.eqb (nameNormalized (snd d)) normalized)
            (sites db).

(** [validateLocationForm()]: the message, or [None] for a form that
    passes. *)
Definition validateLocationForm (form : LocationFormState) (db : Db)
  : option string :=
  if String.eqb (Utils.trimString (f_name form)) ""
  then Some "Name is required."%string
  else
    match f_lat form, f_lng form with
    | Some _, Some _ =>
        let radiusOk :=
          match f_allowedRadiusMeters form with
          | Some radius => Js.Qgtb radius 0
          | None => false
          end in
        if negb radiusOk then Some "Radius must be a positive number."%string
        else
          let normalized := Utils.normalizeSiteName (f_name form) in
          match existingQuery db normalized with
          | Some existing =>
              match formId form with
              | Some id =>
                  if String.eqb (fst existing) id then None
                  else Some "Site name must be unique."%string
              | None => Some "Site name must be unique."%string
              end
          | None => None
          end
    | _, _ => Some "Latitude and longitude must be numeric."%string
    end.

(** [handleSaveLocation()]; [docRef] is the id [addDoc] generates and
    [serverNow] what [serverTimestamp()] resolves to.  [updatePayload] is
    written over the fields it names: an update keeps the [createdAt] of
    the stored document and stamps [updatedAt], a creation stamps both.
    The three numbers are numbers once the form has passed, and an update
    of a document that is gone is rejected and changes nothing. *)
Definition handleSaveLocation (docRef : DocId) (serverNow : Timestamp)
    (form : LocationFormState) (db : Db) : Db :=
  match validateLocationForm form db with
  | Some _ => db
  | None =>
      match f_lat form, f_lng form, f_allowedRadiusMeters form with
      | Some latitude, Some longitude, Some radius =>
          let updatePayload (created : option Timestamp) :=
            {| site_name := Utils.trimString (f_name form);
               nameNormalized := Utils.normalizeSiteName (f_name form);
               lat := latitude;
               lng := longitude;
               site_allowedRadiusMeters := radius;
               site_createdAt := created;
               site_updatedAt := Some serverNow |} in
          match formId form with
          | Some id =>
              match updateDoc id
                      (fun stored => updatePayload (site_createdAt stored))
                      (sites db) with
              | Some c => withSites db c
              | None => db
              end
          | None =>
              withSites db
                (addDoc docRef (updatePayload (Some serverNow)) (sites db))
          end
      | _, _, _ => db
      end
  end.

Definition handleDeleteLocation (id : DocId) (db : Db) : Db :=
  withSites db (without id (sites db)).

End Locations.

(** *** [MaintenancePanel] *)

Module MaintenancePanel.
Import Firestore Types.

Definition withSettings (db : Db) (data : gmap string Value) : Db :=
  {| sites := sites db; attendance := attendance db;
     attendanceSessions := attendanceSessions db;
     settingsGlobal := Some data |}.

(** The Firestore value of a number. *)
Definition toValue (value : option Q) : Value :=
  match value with Some q => VNumber q | None => VNaN end.

(** [Number.isNaN(value) || value < 0] *)
Definition rejected (value : option Q) : bool :=
  match value with Some q => Js.Qltb q 0 | None => true end.

(** [handleSave()]: the database and the status shown.  [setDoc] with
    [merge] sets the four fields and keeps the other fields of the
    document, which it creates when there is none. *)
Definition handleSave (lateValue earlyValue otEarlyValue otLateValue : option Q)
    (db : Db) : Db * string :=
  if existsb rejected [lateValue; earlyValue; otEarlyValue; otLateValue]
  then (db, "All buffer values must be 0 or a positive number."%string)
  else
    (withSettings db
       (<["lateBufferMinutes"%string := toValue lateValue]>
          (<["earlyCheckoutBufferMinutes"%string := toValue earlyValue]>
             (<["otEarlyBufferMinutes"%string := toValue otEarlyValue]>
                (<["otLateBufferMinutes"%string := toValue otLateValue]>
                   (default ∅ (settingsGlobal db)))))),
     "Buffers saved."%string).

End MaintenancePanel.

(** *** [LatePanel] and [AbnormalPanel] *)

Module LatePanel.
Import Firestore Types.

Definition withLateNote (note : string) (s : AttendanceSession)
  : AttendanceSession :=
  {| s_userId := s_userId s; s_userEmail := s_userEmail s;
     s_userName := s_userName s; s_siteId := s_siteId s;
     s_siteName := s_siteName s; siteInId := siteInId s;
     siteInName := siteInName s; siteOutId := siteOutId s;
     siteOutName := siteOutName s; s_dateKey := s_dateKey s;
     checkInTime := checkInTime s; checkOutTime := checkOutTime s;
     totalHours := totalHours s; normalHours := normalHours s;
     otHours := otHours s; s_normalRate := s_normalRate s;
     s_otRate := s_otRate s; amountRM := amountRM s;
     s_status := s_status s; isLate := isLate s;
     lateReason := lateReason s; lateNote := Some note;
     isAbnormal := isAbnormal s; abnormalReasons := abnormalReasons s;
     abnormalNote := abnormalNote s;
     s_searchPrefixes := s_searchPrefixes s |}.

(** [handleSaveReason()]; [editing] is the id of the session being edited,
    if one is.  A rejected update is caught and changes nothing. *)
Definition handleSaveReason (editing : option DocId) (reason : string)
    (db : Db) : Db :=
  match editing with
  | None => db
  | Some id =>
      match updateDoc id (withLateNote (Utils.trimString reason))
                      (attendanceSessions db) with
      | Some c => withSessions db c
      | None => db
      end
  end.

End LatePanel.

Module AbnormalPanel.
Import Firestore Types.

Definition withAbnormalNote (note : string) (s : AttendanceSession)
  : AttendanceSession :=
  {| s_userId := s_userId s; s_userEmail := s_userEmail s;
     s_userName := s_userName s; s_siteId := s_siteId s;
     s_siteName := s_siteName s; siteInId := siteInId s;
     siteInName := siteInName s; siteOutId := siteOutId s;
     siteOutName := siteOutName s; s_dateKey := s_dateKey s;
     checkInTime := checkInTime s; checkOutTime := checkOutTime s;
     totalHours := totalHours s; normalHours := normalHours s;
     otHours := otHours s; s_normalRate := s_normalRate s;
     s_otRate := s_otRate s; amountRM := amountRM s;
     s_status := s_status s; isLate := isLate s;
     lateReason := lateReason s; lateNote := lateNote s;
     isAbnormal := isAbnormal s; abnormalReasons := abnormalReasons s;
     abnormalNote := Some note;
     s_searchPrefixes := s_searchPrefixes s |}.

Definition handleSaveReason (editing : option DocId) (reason : string)
    (db : Db) : Db :=
  match editing with
  | None => db
  | Some id =>
      match updateDoc id (withAbnormalNote (Utils.trimString reason))
                      (attendanceSessions db) with
      | Some c => withSessions db c
      | None => db
      end
  end.

End AbnormalPanel.

(** *** The pages of a table

    The sites tab and the users, late and abnormal panels page their rows
    in the same way. *)

Module Paging.

(** [Math.max(1, Math.ceil(rows / pageSize))]; the page size is one of the
    sizes the selector offers. *)
Definition pageCount (rows : nat) (pageSize : positive) : Z :=
  Z.max 1 (Qceiling (inject_Z (Z.of_nat rows) / inject_Z (Z.pos pageSize))).

(** [arr.slice(start, end)] for [0 <= start <= end]. *)
Definition slice {A} (start end_ : Z) (arr : list A) : list A :=
  firstn (Z.to_nat (end_ - start)) (skipn (Z.to_nat start) arr).

Definition paged {A} (filtered : list A) (pageIndex : Z)
    (pageSize : positive) : list A :=
  let start := pageIndex * Z.pos pageSize in
  slice start (start + Z.pos pageSize) filtered.

(** The buttons, and the effect that brings the index back when the table
    shrinks. *)
Definition prevPage (pageIndex : Z) : Z := Z.max (pageIndex - 1) 0.

Definition nextPage (pageIndex pageCount : Z) : Z :=
  Z.min (pageIndex + 1) (pageCount - 1).

Definition clampPage (pageIndex pageCount : Z) : Z :=
  if pageCount <=? pageIndex then Z.max 0 (pageCount - 1) else pageIndex.

End Paging.

(** *** Dates typed into the dashboard

    The inputs of type [date] and [datetime-local] hold a calendar date,
    and a date with a time of day, which the dashboard reads on the clock
    of Asia/Kuala_Lumpur. *)

Module DateInputs.

Definition KL_OFFSET : string := "+08:00".

(** [formatDateTimeLocalValue(date)]: the date and the time of day of the
    instant in Asia/Kuala_Lumpur, as [YYYY-MM-DDTHH:mm].  The parts of the
    date are those of [getDateKey]; an engine that prints the hour of
    midnight as 24 has it turned into 00.  As [getDateKey], the model is
    the code for the instants from 1982 to the end of the year 9999. *)
Definition formatDateTimeLocalValue (date : Z) : string :=
  let minutes := (date / 60000 + 8 * 60) mod (24 * 60) in
  let hourPart := Utils.digits 2 (minutes / 60) EmptyString in
  let minutePart := Utils.digits 2 (minutes mod 60) EmptyString in
  let hour := if String.eqb hourPart "24" then "00"%string else hourPart in
  (Utils.getDateKey date ++ "T" ++ hour ++ ":" ++ minutePart)%string.

(** Reading the fields of a date-time text. *)
Definition digitOf (c : ascii) : option Z :=
  let n := Z.of_nat (nat_of_ascii c) in
  if (48 <=? n) && (n <=? 57) then Some (n - 48) else None.

Fixpoint readNumber (width : nat) (acc : Z) (s : string)
  : option (Z * string) :=
  match width with
  | O => Some (acc, s)
  | S w =>
      match s with
      | String c rest =>
          match digitOf c with
          | Some d => readNumber w (acc * 10 + d) rest
          | None => None
          end
      | EmptyString => None
      end
  end.

Definition readChar (c : ascii) (s : string) : option string :=
  match s with
  | String c' rest => if Ascii.eqb c' c then Some rest else None
  | EmptyString => None
  end.

Definition readSign (s : string) : option (Z * string) :=
  match s with
  | String c rest =>
      if Ascii.eqb c "+" then Some (1, rest)
      else if Ascii.eqb c "-" then Some (-1, rest)
      else None
  | EmptyString => None
  end.

(** The number of days from 1970-01-01 to a date of the proleptic
    Gregorian calendar.  A day of 29 to 31 that the month does not have
    runs into the next month. *)
Definition daysFromCivil (y m d : Z) : Z :=
  let y' := if m <=? 2 then y - 1 else y in
  let era := y' / 400 in
  let yoe := y' - era * 400 in
  let mp := if m <=? 2 then m + 9 else m - 3 in
  let doy := (153 * mp + 2) / 5 + d - 1 in
  let doe := yoe * 365 + yoe / 4 - yoe / 100 + doy in
  era * 146097 + doe - 719468.

(** [HH:mm:ss] names a time of the day, or its end as 24:00:00. *)
Definition inDay (h mi sec : Z) : bool :=
  ((h <=? 23) && (mi <=? 59) && (sec <=? 59))
  || ((h =? 24) && (mi =? 0) && (sec =? 0)).

(** The three parts of a date-time text: [YYYY-MM-DD], then [THH:mm:ss] as
    seconds of the day, then the offset [+hh:mm] in minutes. *)
Definition readDate (s : string) : option (Z * Z * Z * string) :=
  '(y, s) ← readNumber 4 0 s;
  s ← readChar "-" s;
  '(m, s) ← readNumber 2 0 s;
  s ← readChar "-" s;
  '(d, s) ← readNumber 2 0 s;
  if (1 <=? m) && (m <=? 12) && (1 <=? d) && (d <=? 31)
  then Some (y, m, d, s) else None.

Definition readTime (s : string) : option (Z * string) :=
  s ← readChar "T" s;
  '(h, s) ← readNumber 2 0 s;
  s ← readChar ":" s;
  '(mi, s) ← readNumber 2 0 s;
  s ← readChar ":" s;
  '(sec, s) ← readNumber 2 0 s;
  if inDay h mi sec then Some (h * 3600 + mi * 60 + sec, s) else None.

Definition readOffset (s : string) : option (Z * string) :=
  '(sign, s) ← readSign s;
  '(oh, s) ← readNumber 2 0 s;
  s ← readChar ":" s;
  '(om, s) ← readNumber 2 0 s;
  if (oh <=? 23) && (om <=? 59) then Some (sign * (oh * 60 + om), s)
  else None.

(** [new Date(text)] for a text of the form [YYYY-MM-DDTHH:mm:ss+hh:mm],
    the only form the dashboard builds: the instant in milliseconds, or
    [None] for an invalid date, which is what a text of another form or
    with a field out of range gives.  (Engines differ on a day of 29 to 31
    that the month does not have; an input of type [date] never holds
    one.) *)
Definition newDate (text : string) : option Z :=
  '(y, m, d, s) ← readDate text;
  '(seconds, s) ← readTime s;
  '(offset, s) ← readOffset s;
  if String.eqb s ""
  then Some ((daysFromCivil y m d * 86400 + seconds) * 1000 - offset * 60000)
  else None.

(** [parseDateTimeLocalValue(value)]: [None] is [null]; a date may be
    invalid. *)
Definition parseDateTimeLocalValue (value : string) : option (option Z) :=
  if String.eqb value "" then None
  else Some (newDate (value ++ ":00" ++ KL_OFFSET)%string).

(** [parseDateInputValue(value, endOfDay)] *)
Definition parseDateInputValue (value : string) (endOfDay : bool)
  : option (option Z) :=
  if String.eqb value "" then None
  else
    let time := if endOfDay then "23:59:59"%string else "00:00:00"%string in
    Some (newDate (value ++ "T" ++ time ++ KL_OFFSET)%string).

End DateInputs.

(** *** [SessionsPanel]: the CSV export and the recompute dialog *)

Module SessionsPanel.

Definition quote : ascii := ascii_of_nat 34.
Definition lineFeed : ascii := ascii_of_nat 10.

(** [String(value).replace(...)]: every quote of the value is doubled. *)
Fixpoint doubleQuotes (value : string) : string :=
  match value with
  | EmptyString => EmptyString
  | String c r =>
      if Ascii.eqb c quote
      then String quote (String quote (doubleQuotes r))
      else String c (doubleQuotes r)
  end.

(** A value between quotes. *)
Definition csvCell (value : string) : string :=
  String quote (doubleQuotes value ++ String quote EmptyString).

Definition headers : list string :=
  ["Name"; "Email"; "Date"; "Site In"; "In"; "Site Out"; "Out";
   "Total Hours"; "Normal"; "OT"; "Amount"; "Status"]%string.

(** The text of the file [exportCsv] builds: [rows] holds, for each
    session, its values in the order of the headers. *)
Definition csvText (rows : list (list string)) : string :=
  String.concat (String lineFeed EmptyString)
    (String.concat "," headers
     :: map (fun values => String.concat "," (map csvCell values)) rows).

(** What a recompute asked from a dialog comes to. *)
Inductive RecomputeResult :=
| NotRun
| Rejected (message : string)
| QueryFailed
| Recomputed (db : Types.Db).

Section WithHost.
Context `{Host}.

(** The dates of a range go to [recomputeSessionsForRange], whose query
    starts with [Timestamp.fromDate] of each: a date that is not valid, or
    one out of the range of a timestamp, makes it throw. *)
Definition recomputeBetween (startDate endDate : option Z)
    (users : list Types.UserProfile) (refs : list Firestore.DocId)
    (db : Types.Db) : RecomputeResult :=
  match startDate, endDate with
  | Some startDate, Some endDate =>
      if Firestore.inTimestampRange startDate
         && Firestore.inTimestampRange endDate
      then Recomputed
             (AdminDashboard.recomputeSessionsForRange startDate endDate
                                                       users refs db)
      else QueryFailed
  | _, _ => QueryFailed
  end.

(** [recomputeSessions()]: the result, whose message is the status the
    dialog shows. *)
Definition recomputeSessions (recomputeStart recomputeEnd : string)
    (users : list Types.UserProfile) (refs : list Firestore.DocId)
    (db : Types.Db) : RecomputeResult :=
  if String.eqb recomputeStart "" || String.eqb recomputeEnd ""
  then Rejected "Select a start and end date to recompute."
  else
    match DateInputs.parseDateInputValue recomputeStart false,
          DateInputs.parseDateInputValue recomputeEnd true with
    | Some startDate, Some endDate =>
        recomputeBetween startDate endDate users refs db
    | _, _ => Rejected "Invalid date range."
    end.

End WithHost.

End SessionsPanel.

(** ** Vocabulary of the further properties *)

Module Props.
Import Firestore Types.

(** [x] is an earliest (a latest) of the elements of [logs] that are of the
    kind, or there is none of the kind. *)
Definition EarliestOf {A} (time : A -> Z) (isKind : A -> bool)
    (logs : list A) (x : option A) : Prop :=
  match x with
  | Some l =>
      In l logs /\ isKind l = true
      /\ forall l', In l' logs -> isKind l' = true -> (time l <= time l')%Z
  | None => forall l', In l' logs -> isKind l' = false
  end.

Definition LatestOf {A} (time : A -> Z) (isKind : A -> bool)
    (logs : list A) (x : option A) : Prop :=
  match x with
  | Some l =>
      In l logs /\ isKind l = true
      /\ forall l', In l' logs -> isKind l' = true -> (time l' <= time l)%Z
  | None => forall l', In l' logs -> isKind l' = false
  end.

(** A log that counts for the session of a user and a day: successful, of
    the user, of the day, and not soft-deleted. *)
Definition countsFor (u day : string) (l : AttendanceLog) : Prop :=
  userId l = u /\ status l = Success /\ dateKey l = Some day
  /\ isDeleted l <> Some true.

Definition opposite (k : ScanType) : ScanType :=
  match k with CheckIn => CheckOut | CheckOut => CheckIn end.

(** [x] is an earliest (a latest) of the values that satisfy [P], or
    nothing satisfies [P]. *)
Definition EarliestAmong {A} (time : A -> Z) (P : A -> Prop) (x : option A)
  : Prop :=
  match x with
  | Some l => P l /\ forall l', P l' -> (time l <= time l')%Z
  | None => forall l', ~ P l'
  end.

Definition LatestAmong {A} (time : A -> Z) (P : A -> Prop) (x : option A)
  : Prop :=
  match x with
  | Some l => P l /\ forall l', P l' -> (time l' <= time l)%Z
  | None => forall l', ~ P l'
  end.

(** A document of the attendance log that counts for the user and the day
    and is of the kind. *)
Definition countsAs (db : Db) (u day : string) (kind : ScanType)
    (l : AttendanceLog) : Prop :=
  (exists id, In (id, l) (attendance db))
  /\ countsFor u day l
  /\ scanType l = Some kind.

(** A text without the separator of the keys of [grouped]. *)
Fixpoint noBar (s : string) : bool :=
  match s with
  | EmptyString => true
  | String c r => negb (Ascii.eqb c "|") && noBar r
  end.

(** Milliseconds since midnight on the clock of Asia/Kuala_Lumpur. *)
Definition msOfDay (date : Z) : Z := (date + 8 * 3600000) mod 86400000.

(** The instants from 1982-01-01T00:00Z on.  Since then the clock of
    Asia/Kuala_Lumpur is eight hours ahead of UTC; before, it was seven and
    a half.  [getTimeMinutes], [getDateKey] and the date inputs are
    modelled with the offset of eight hours, so what is proved of them is
    proved of the code for these instants. *)
Definition modern (date : Z) : Prop := (378691200000 <= date)%Z.

(** The key [groupLogs] files an element under, and the elements it pushes
    for the documents of a query, in order: one for each document that is
    not deleted. *)
Definition keyOf (g : AdminDashboard.GroupedLog) : string :=
  (AdminDashboard.g_userId g ++ "|" ++ AdminDashboard.g_dateKey g)%string.

Definition liveLogs (docs : Collection AttendanceLog)
  : list AdminDashboard.GroupedLog :=
  map Spec.asGrouped (List.filter ScannerPage.notDeleted (map snd docs)).

(** A text in the form [normalizeSiteName] gives: no upper-case letter, no
    white space at either end, and between two words a single space.
    [afterSpace] says that the text starts here or that the previous
    character was a space. *)
Fixpoint normalFrom (afterSpace : bool) (l : list ascii) : bool :=
  match l with
  | [] => negb afterSpace
  | c :: r =>
      if Utils.isSpace c
      then negb afterSpace && Ascii.eqb c " " && normalFrom true r
      else Ascii.eqb (Utils.toLower c) c && normalFrom false r
  end.

Definition isNormalized (s : string) : bool :=
  match list_ascii_of_string s with
  | [] => true
  | l => normalFrom true l
  end.

(** A text of white space only. *)
Definition isBlank (s : string) : bool :=
  forallb Utils.isSpace (list_ascii_of_string s).

(** Whether a text ends with white space; [b] answers for the empty
    text. *)
Fixpoint lastIsSpace (b : bool) (l : list ascii) : bool :=
  match l with
  | [] => b
  | c :: r => lastIsSpace (Utils.isSpace c) r
  end.

(** [p] is a prefix of [w] that is not empty. *)
Definition isPrefixOf (p : string) (w : list ascii) : Prop :=
  p <> ""%string /\ exists rest, string_of_list_ascii w = (p ++ rest)%string.

(** A text without white space. *)
Definition noSpace (s : string) : bool :=
  forallb (fun c => negb (Utils.isSpace c)) (list_ascii_of_string s).

(** A site as the form of the sites tab saves it: the name trimmed and not
    empty, the normalized name computed from it, a positive radius. *)
Definition wellFormedSite (s : SiteItem) : bool :=
  String.eqb (Utils.trimString (site_name s)) (site_name s)
  && negb (String.eqb (site_name s) "")
  && String.eqb (nameNormalized s) (Utils.normalizeSiteName (site_name s))
  && Js.Qgtb (site_allowedRadiusMeters s) 0.

(** The site with its [updatedAt] set to [serverNow], every other field as
    it was. *)
Definition stamped (serverNow : Timestamp) (site : SiteItem) : SiteItem :=
  {| site_name := site_name site;
     nameNormalized := nameNormalized site;
     lat := lat site;
     lng := lng site;
     site_allowedRadiusMeters := site_allowedRadiusMeters site;
     site_createdAt := site_createdAt site;
     site_updatedAt := Some serverNow |}.

(** The sites of a database kept through the form: ids and normalized
    names pairwise distinct, every site well formed. *)
Definition SitesOk (db : Db) : Prop :=
  List.NoDup (map fst (sites db))
  /\ List.NoDup (map (fun d => nameNormalized (snd d)) (sites db))
  /\ forallb (fun d => wellFormedSite (snd d)) (sites db) = true.

(** Buffers that are all zero or more. *)
Definition nonNegative (b : BufferSettings) : Prop :=
  (0 <= lateBufferMinutes b /\ 0 <= earlyCheckoutBufferMinutes b
   /\ 0 <= otEarlyBufferMinutes b /\ 0 <= otLateBufferMinutes b)%Q.

(** A reader of CSV text: records end at a line feed, fields at a comma; a
    field is bare or stands between quotes, where a doubled quote is a
    quote and commas and line feeds are text.  [cell] and [row] hold what
    has been read of the current field and record. *)
Inductive CsvState := AtCell | Bare | Quoted | QuoteSeen.

Fixpoint readCsv (state : CsvState) (cell : string) (row : list string)
    (text : list ascii) : option (list (list string)) :=
  match text with
  | [] =>
      match state with
      | Quoted => None
      | _ => Some [row ++ [cell]]
      end
  | c :: rest =>
      match state with
      | AtCell =>
          if Ascii.eqb c SessionsPanel.quote
          then readCsv Quoted EmptyString row rest
          else if Ascii.eqb c ","
          then readCsv AtCell EmptyString (row ++ [EmptyString]) rest
          else if Ascii.eqb c SessionsPanel.lineFeed
          then option_map (cons (row ++ [EmptyString]))
                          (readCsv AtCell EmptyString [] rest)
          else readCsv Bare (String c EmptyString) row rest
      | Bare =>
          if Ascii.eqb c SessionsPanel.quote then None
          else if Ascii.eqb c ","
          then readCsv AtCell EmptyString (row ++ [cell]) rest
          else if Ascii.eqb c SessionsPanel.lineFeed
          then option_map (cons (row ++ [cell]))
                          (readCsv AtCell EmptyString [] rest)
          else readCsv Bare (cell ++ String c EmptyString) row rest
      | Quoted =>
          if Ascii.eqb c SessionsPanel.quote
          then readCsv QuoteSeen cell row rest
          else readCsv Quoted (cell ++ String c EmptyString) row rest
      | QuoteSeen =>
          if Ascii.eqb c SessionsPanel.quote
          then readCsv Quoted (cell ++ String SessionsPanel.quote EmptyString)
                       row rest
          else if Ascii.eqb c ","
          then readCsv AtCell EmptyString (row ++ [cell]) rest
          else if Ascii.eqb c SessionsPanel.lineFeed
          then option_map (cons (row ++ [cell]))
                          (readCsv AtCell EmptyString [] rest)
          else None
      end
  end.

(** Reading on once a record is complete: the text ends, or a line feed is
    followed by the next record. *)
Definition finishRow (row : list string) (tail : list ascii)
  : option (list (list string)) :=
  match tail with
  | [] => Some [row]
  | _ :: more =>
      option_map (cons row) (readCsv AtCell EmptyString [] more)
  end.

(** What [grouped] holds under a key: the elements of the key, if there
    are any. *)
Definition classOf (k : string) (logs : list AdminDashboard.GroupedLog)
  : option (list AdminDashboard.GroupedLog) :=
  match List.filter (fun g => String.eqb (keyOf g) k) logs with
  | [] => None
  | v => Some v
  end.

End Props.

(** ** More sample data *)

Module Samples.
Import Firestore Types.

(** A day with a single check-in at 08:06. *)
Definition lateDay : Collection AttendanceLog :=
  [("l1"%string, Demo.scan (Demo.clock 8 6) (Some CheckIn) false)].

(** A database whose only log of the day is soft-deleted, with the session
    computed before the deletion. *)
Definition orphanStore : Db :=
  Demo.dbWith
    [("l1"%string, Demo.scan (Demo.clock 8 0) (Some CheckIn) true)]
    [("old-1"%string, Demo.sessionOf Demo.amy Demo.fullDay)]
    None.

(** A day that ends three minutes before 17:00, and one that ends ten
    minutes before 22:00. *)
Definition earlyDay : Collection AttendanceLog :=
  [("l1"%string, Demo.scan (Demo.clock 8 0) (Some CheckIn) false);
   ("l2"%string, Demo.scan (Demo.clock 16 57) (Some CheckOut) false)].

Definition lateShift : Collection AttendanceLog :=
  [("l1"%string, Demo.scan (Demo.clock 8 0) (Some CheckIn) false);
   ("l2"%string, Demo.scan (Demo.clock 21 50) (Some CheckOut) false)].

(** The form of a new site, as an administrator would type it. *)
Definition depotB : Locations.LocationFormState :=
  {| Locations.f_id := None;
     Locations.f_name := " Depot  B ";
     Locations.f_lat := Some 3%Q;
     Locations.f_lng := Some (203 # 2)%Q;
     Locations.f_allowedRadiusMeters := Some 50%Q |}.

(** Scans at the depot that go wrong: the timeout fires while the site is
    looked up; the token is blank and no failure log can be written, in the
    body or in the [catch] block; the daily query is rejected. *)
Definition cutOff : ScannerPage.Outcomes :=
  {| ScannerPage.processing := false;
     ScannerPage.clientNow := Demo.clock 18 30;
     ScannerPage.serverNow := fromDate (Demo.clock 18 30);
     ScannerPage.logRef := "log-new";
     ScannerPage.sessionRef := "session-new";
     ScannerPage.siteLookupError := None;
     ScannerPage.position := inr (3%Q, 101%Q);
     ScannerPage.dailyQueryError := None;
     ScannerPage.addDocError := None;
     ScannerPage.logFailureError := None;
     ScannerPage.catchLogFails := false;
     ScannerPage.rebuildFails := false;
     ScannerPage.timedOut :=
       fun a => match a with
                | ScannerPage.AwaitSiteLookup => true
                | _ => false
                end |}.

Definition unlogged : ScannerPage.Outcomes :=
  {| ScannerPage.processing := false;
     ScannerPage.clientNow := Demo.clock 18 30;
     ScannerPage.serverNow := fromDate (Demo.clock 18 30);
     ScannerPage.logRef := "log-new";
     ScannerPage.sessionRef := "session-new";
     ScannerPage.siteLookupError := None;
     ScannerPage.position := inr (3%Q, 101%Q);
     ScannerPage.dailyQueryError := None;
     ScannerPage.addDocError := None;
     ScannerPage.logFailureError := Some ScannerPage.ThrownOther;
     ScannerPage.catchLogFails := true;
     ScannerPage.rebuildFails := false;
     ScannerPage.timedOut := fun _ => false |}.

Definition queryDown : ScannerPage.Outcomes :=
  {| ScannerPage.processing := false;
     ScannerPage.clientNow := Demo.clock 18 30;
     ScannerPage.serverNow := fromDate (Demo.clock 18 30);
     ScannerPage.logRef := "log-new";
     ScannerPage.sessionRef := "session-new";
     ScannerPage.siteLookupError := None;
     ScannerPage.position := inr (3%Q, 101%Q);
     ScannerPage.dailyQueryError := Some ScannerPage.ThrownOther;
     ScannerPage.addDocError := None;
     ScannerPage.logFailureError := None;
     ScannerPage.catchLogFails := false;
     ScannerPage.rebuildFails := false;
     ScannerPage.timedOut := fun _ => false |}.

(** A value that holds a quote, a comma and a line feed. *)
Definition tricky : string :=
  String SessionsPanel.quote
         (String "," (String SessionsPanel.lineFeed "Lee")).

End Samples.

(** ** The administrator's dashboard: the attendance logs

    [AttendanceLogsPanel] lets an administrator add a log by hand, edit one
    and delete one.  Every change goes to the database in one batch with
    two copies of an audit entry, one in the collection [attendanceAudit]
    and one in the subcollection [audit] of the log. *)

Module AttendanceLogsPanel.
Import Firestore Types.

(** The trimmed text of a numeric input: empty, or what [Number] reads
    from it. *)
Inductive NumberText :=
| Blank
| Typed (value : option Q).

Record LogFormState := {
  l_id : option DocId;
  l_userId : string;
  l_siteId : string;
  l_scanType : ScanType;
  l_status : LogStatus;
  l_scanTime : string;
  l_adminNote : string;
  l_userLat : NumberText;
  l_userLng : NumberText;
  l_distanceMeters : NumberText;
}.

Definition emptyLogForm : LogFormState :=
  {| l_id := None;
     l_userId := "";
     l_siteId := "";
     l_scanType := CheckIn;
     l_status := Success;
     l_scanTime := "";
     l_adminNote := "";
     l_userLat := Blank;
     l_userLng := Blank;
     l_distanceMeters := Blank |}.

(** The fields of an attendance document that only this panel writes.  The
    store keeps them beside the collection, by document id; a document
    without an entry has none of them. *)
Record AdminFields := {
  adminNote : option string;
  updatedAt : option Timestamp;
  updatedBy : option string;
  updatedByEmail : option string;
}.

Definition noAdminFields : AdminFields :=
  {| adminNote := None; updatedAt := None; updatedBy := None;
     updatedByEmail := None |}.

(** A log as the panel holds it after [loadLogs]: the id of the document
    and its fields. *)
Record LogRow := {
  row_id : DocId;
  row_data : AttendanceLog;
  row_admin : AdminFields;
}.

Inductive Action := ActionCreate | ActionUpdate | ActionDelete.

Record Snapshot := {
  a_userId : string;
  a_userEmail : string;
  a_siteId : string;
  a_siteName : string;
  a_scanTime : Timestamp;
  a_status : LogStatus;
  a_scanType : option ScanType;
  a_adminNote : option string;
  a_failReason : option string;
  a_isDeleted : bool;
  a_dateKey : option string;
}.

Record AuditEntry := {
  e_logId : DocId;
  e_action : Action;
  e_adminId : string;
  e_adminEmail : string;
  e_createdAt : Timestamp;
  e_before : option Snapshot;
  e_after : option Snapshot;
}.

(** The database with what the panel adds to it: the administrator's
    fields of the logs, the collection [attendanceAudit], and the
    documents of the subcollections [attendance/{logId}/audit], each with
    the id of its log.  Both audit collections are kept in the order of
    their writes. *)
Record Store := {
  base : Db;
  adminFields : gmap DocId AdminFields;
  attendanceAudit : Collection AuditEntry;
  logAudit : list (DocId * (DocId * AuditEntry));
}.

(** What the component holds and what the network decides during one
    call. *)
Record Panel := {
  savingLog : bool;
  adminUser : option string;                (* [adminUser.uid] *)
  adminProfile : option UserProfile;
  users : list UserProfile;
  locations : Collection SiteItem;
  serverNow : Timestamp;                    (* [serverTimestamp()] *)
  logRef : DocId;                           (* id of a new log *)
  auditRef : DocId;                         (* ids of the two audit entries *)
  auditSubRef : DocId;
}.

(** [Number(x.toFixed(1))], as [Js.toFixed2] with one decimal: the
    rounding of the rational [x].  A double close to a tie may round the
    other way (the double nearest to 0.35 lies below it and gives 0.3), so
    statements about the code go through [LogProps.Rounded1], which allows
    either tenth. *)
Definition toFixed1 (x : Q) : Q :=
  let n := Qfloor (Qabs x * inject_Z 10 + (1 # 2)) in
  if Js.Qltb x 0 then Qred (- (inject_Z n / inject_Z 10))
  else Qred (inject_Z n / inject_Z 10).

(** [buildAuditSnapshot(log)] *)
Definition buildAuditSnapshot (log : option (AttendanceLog * option string))
  : option Snapshot :=
  match log with
  | None => None
  | Some (data, note) =>
      Some {| a_userId := userId data;
              a_userEmail := userEmail data;
              a_siteId := siteId data;
              a_siteName := siteName data;
              a_scanTime := scanTime data;
              a_status := status data;
              a_scanType := scanType data;
              a_adminNote := note;
              a_failReason := failReason data;
              a_isDeleted := default false (isDeleted data);
              a_dateKey := dateKey data |}
  end.

(** [writeAuditEntries(batch, logId, action, before, after)]: the two
    writes it adds to the batch, applied to the store. *)
Definition writeAuditEntries (p : Panel) (logId : DocId) (action : Action)
    (before after : option (AttendanceLog * option string)) (store : Store)
  : Store :=
  match adminUser p, adminProfile p with
  | Some adminUid, Some profile =>
      let auditPayload :=
        {| e_logId := logId;
           e_action := action;
           e_adminId := adminUid;
           e_adminEmail := email profile;
           e_createdAt := serverNow p;
           e_before := buildAuditSnapshot before;
           e_after := buildAuditSnapshot after |} in
      {| base := base store;
         adminFields := adminFields store;
         attendanceAudit :=
           applyWrite (attendanceAudit store)
                      (SetDoc (auditRef p) auditPayload);
         logAudit :=
           List.filter
             (fun d => negb (String.eqb (fst d) logId
                             && String.eqb (fst (snd d)) (auditSubRef p)))
             (logAudit store)
           ++ [(logId, (auditSubRef p, auditPayload))] |}
  | _, _ => store
  end.

(** The store with another attendance collection and other fields of the
    administrator. *)
Definition withLogs (store : Store) (c : Collection AttendanceLog)
    (fields : gmap DocId AdminFields) : Store :=
  {| base := withAttendance (base store) c;
     adminFields := fields;
     attendanceAudit := attendanceAudit store;
     logAudit := logAudit store |}.

(** What the form of a log may be given when it is built. *)
Record Overrides := {
  o_id : option DocId;
  o_userId : option string;
  o_siteId : option string;
  o_scanType : option ScanType;
  o_status : option LogStatus;
  o_scanTime : option string;
  o_adminNote : option string;
  o_userLat : option NumberText;
  o_userLng : option NumberText;
  o_distanceMeters : option NumberText;
}.

Definition noOverrides : Overrides :=
  {| o_id := None; o_userId := None; o_siteId := None; o_scanType := None;
     o_status := None; o_scanTime := None; o_adminNote := None;
     o_userLat := None; o_userLng := None; o_distanceMeters := None |}.

(** [buildDefaultLogForm(overrides)]; [clientNow] is [new Date()].  The
    form gets no id, since the id of [overrides] is not read. *)
Definition buildDefaultLogForm (p : Panel) (clientNow : Z)
    (overrides : Overrides) : LogFormState :=
  {| l_id := l_id emptyLogForm;
     l_userId :=
       default (default ""%string (option_map uid (head (users p))))
               (o_userId overrides);
     l_siteId :=
       default (default ""%string (option_map fst (head (locations p))))
               (o_siteId overrides);
     l_scanType := default CheckIn (o_scanType overrides);
     l_status := default Success (o_status overrides);
     l_scanTime :=
       default (DateInputs.formatDateTimeLocalValue clientNow)
               (o_scanTime overrides);
     l_adminNote := default ""%string (o_adminNote overrides);
     l_userLat := default Blank (o_userLat overrides);
     l_userLng := default Blank (o_userLng overrides);
     l_distanceMeters := default Blank (o_distanceMeters overrides) |}.

(** [openCreateLog()] and [openEditLog(log)]: the log being edited and the
    form.  A number is shown with [toString()], the distance with
    [toFixed(1)]. *)
Definition openCreateLog (p : Panel) (clientNow : Z)
  : option LogRow * LogFormState :=
  (None, buildDefaultLogForm p clientNow noOverrides).

Definition shown (value : option Q) : NumberText :=
  match value with
  | Some q => Typed (Some q)
  | None => Blank
  end.

Definition openEditLog (p : Panel) (clientNow : Z) (log : LogRow)
  : option LogRow * LogFormState :=
  let data := row_data log in
  (Some log,
   buildDefaultLogForm p clientNow
     {| o_id := Some (row_id log);
        o_userId := Some (userId data);
        o_siteId := Some (siteId data);
        o_scanType := Some (default CheckIn (scanType data));
        o_status := Some (status data);
        o_scanTime :=
          Some (DateInputs.formatDateTimeLocalValue (toDate (scanTime data)));
        o_adminNote := Some (default ""%string (adminNote (row_admin log)));
        o_userLat := Some (shown (userLat data));
        o_userLng := Some (shown (userLng data));
        o_distanceMeters :=
          Some (shown (option_map toFixed1 (distanceMeters data))) |}).

(** What the two coordinates and the distance of the form are saved as. *)
Definition numberOf (text : NumberText) : option Q :=
  match text with
  | Blank => None
  | Typed None => None
  | Typed (Some q) => Some q
  end.

Definition distanceOf (text : NumberText) : option Q :=
  match text with
  | Blank => None
  | Typed None => None
  | Typed (Some q) => Some (toFixed1 q)
  end.

(** What a call of [handleSaveLog] comes to: nothing, a message under the
    form, an exception the [catch] block reports under the form, or a
    committed batch and the range of the recompute the panel then
    offers. *)
Inductive SaveResult :=
| Ignored
| FormError (message : string)
| Thrown
| Saved (store : Store) (recomputePrompt : string * string).

Section WithHost.
Context `{Host}.

(** The document a new log is: the common fields of [handleSaveLog], the
    reason of a failure, and the fields of a log made by hand. *)
Definition newLog (p : Panel) (userItem : UserProfile)
    (locationItem : DocId * SiteItem) (logForm : LogFormState)
    (scanDate : Z) : AttendanceLog :=
  {| userId := uid userItem;
     userEmail := email userItem;
     userName := None;
     siteId := fst locationItem;
     siteName := site_name (snd locationItem);
     scanTime := fromDate scanDate;
     dateKey := Some (Utils.getDateKey scanDate);
     userLat := numberOf (l_userLat logForm);
     userLng := numberOf (l_userLng logForm);
     distanceMeters := distanceOf (l_distanceMeters logForm);
     allowedRadiusMeters := Some (site_allowedRadiusMeters (snd locationItem));
     status := l_status logForm;
     scanType := Some (l_scanType logForm);
     failReason :=
       if isSuccess (l_status logForm) then None
       else Some "Manual entry"%string;
     isDeleted := Some false;
     createdBy := Some ByAdmin;
     createdAt := Some (serverNow p);
     searchPrefixes :=
       buildSearchPrefixes
         [default ""%string (name userItem); email userItem;
          site_name (snd locationItem)] |}.

(** The document an edited log becomes, from what it was: the common
    fields, and the reason of a failure, which is taken from the copy of
    the panel; the other fields stay. *)
Definition updatedLog (userItem : UserProfile)
    (locationItem : DocId * SiteItem) (logForm : LogFormState)
    (scanDate : Z) (editingLog : LogRow) (old : AttendanceLog)
  : AttendanceLog :=
  {| userId := uid userItem;
     userEmail := email userItem;
     userName := userName old;
     siteId := fst locationItem;
     siteName := site_name (snd locationItem);
     scanTime := fromDate scanDate;
     dateKey := Some (Utils.getDateKey scanDate);
     userLat := numberOf (l_userLat logForm);
     userLng := numberOf (l_userLng logForm);
     distanceMeters := distanceOf (l_distanceMeters logForm);
     allowedRadiusMeters := Some (site_allowedRadiusMeters (snd locationItem));
     status := l_status logForm;
     scanType := Some (l_scanType logForm);
     failReason :=
       if isSuccess (l_status logForm) then None
       else Some (default "Manual entry"%string
                          (failReason (row_data editingLog)));
     isDeleted := isDeleted old;
     createdBy := createdBy old;
     createdAt := createdAt old;
     searchPrefixes :=
       buildSearchPrefixes
         [default ""%string (name userItem); email userItem;
          site_name (snd locationItem)] |}.

(** The administrator's fields after a save. *)
Definition savedFields (adminUid : string) (profile : UserProfile)
    (p : Panel) (logForm : LogFormState) : AdminFields :=
  {| adminNote := Some (Utils.trimString (l_adminNote logForm));
     updatedAt := Some (serverNow p);
     updatedBy := Some adminUid;
     updatedByEmail := Some (email profile) |}.

(** [handleSaveLog()].  A date that is not valid makes [getDateKey] throw,
    a valid one out of the range of a timestamp makes [Timestamp.fromDate]
    throw, and the update of a document that is gone is rejected with the
    whole batch. *)
Definition handleSaveLog (p : Panel) (editingLog : option LogRow)
    (logForm : LogFormState) (store : Store) : SaveResult :=
  if savingLog p then Ignored
  else
    match adminUser p, adminProfile p with
    | Some adminUid, Some profile =>
        if String.eqb (l_userId logForm) ""
           || String.eqb (l_siteId logForm) ""
           || String.eqb (l_scanTime logForm) ""
        then FormError "User, site, and time are required."
        else
          match List.find (fun item => String.eqb (uid item)
                                                  (l_userId logForm))
                          (users p),
                List.find (fun item => String.eqb (fst item)
                                                  (l_siteId logForm))
                          (locations p) with
          | Some userItem, Some locationItem =>
              match DateInputs.parseDateTimeLocalValue (l_scanTime logForm)
              with
              | None => FormError "Invalid date/time value."
              | Some None => Thrown
              | Some (Some scanDate) =>
                  if negb (inTimestampRange scanDate) then Thrown
                  else
                    let dateKey := Utils.getDateKey scanDate in
                    let note := Some (Utils.trimString (l_adminNote logForm)) in
                    let fields := savedFields adminUid profile p logForm in
                    match editingLog with
                    | None =>
                        let data :=
                          newLog p userItem locationItem logForm scanDate in
                        Saved
                          (writeAuditEntries p (logRef p) ActionCreate None
                             (Some (data, note))
                             (withLogs store
                                (applyWrite (attendance (base store))
                                            (SetDoc (logRef p) data))
                                (<[logRef p := fields]> (adminFields store))))
                          (dateKey, dateKey)
                    | Some log =>
                        match updateDoc (row_id log)
                                (updatedLog userItem locationItem logForm
                                            scanDate log)
                                (attendance (base store)) with
                        | Some c =>
                            Saved
                              (writeAuditEntries p (row_id log) ActionUpdate
                                 (Some (row_data log,
                                        adminNote (row_admin log)))
                                 (Some (updatedLog userItem locationItem
                                          logForm scanDate log (row_data log),
                                        note))
                                 (withLogs store c
                                    (<[row_id log := fields]>
                                       (adminFields store))))
                              (dateKey, dateKey)
                        | None => Thrown
                        end
                    end
              end
          | _, _ => FormError "Select a valid user and site."
          end
    | _, _ => FormError "Admin profile not available."
    end.

(** [handleConfirmDelete()]: [None] when it returns at once; else the
    store after the batch and the range of the recompute then offered. *)
Definition handleConfirmDelete (p : Panel) (deleteTarget : option LogRow)
    (store : Store) : option (Store * (string * string)) :=
  match deleteTarget, adminUser p, adminProfile p with
  | Some log, Some _, Some _ =>
      let dateKey := Utils.getDateKey (toDate (scanTime (row_data log))) in
      Some
        (writeAuditEntries p (row_id log) ActionDelete
           (Some (row_data log, adminNote (row_admin log))) None
           (withLogs store
              (applyWrite (attendance (base store)) (Delete (row_id log)))
              (delete (row_id log) (adminFields store))),
         (dateKey, dateKey))
  | _, _, _ => None
  end.

(** [handleRecomputePrompt()] *)
Definition handleRecomputePrompt (recomputePrompt : option (string * string))
    (recomputeRunning : bool) (p : Panel) (refs : list DocId) (db : Db)
  : SessionsPanel.RecomputeResult :=
  match recomputePrompt with
  | None => SessionsPanel.NotRun
  | Some (start, end_) =>
      if recomputeRunning then SessionsPanel.NotRun
      else
        match DateInputs.parseDateInputValue start false,
              DateInputs.parseDateInputValue end_ true with
        | Some startDate, Some endDate =>
            SessionsPanel.recomputeBetween startDate endDate (users p) refs db
        | _, _ => SessionsPanel.Rejected "Invalid date range."
        end
  end.

End WithHost.
End AttendanceLogsPanel.

(** ** Vocabulary of the properties of the logs panel *)

Module LogProps.
Import Firestore Types.

(** The instants to which the model of [getDateKey] gives a year of four
    digits, 0000 to 9999. *)
Definition fourDigitYear (date : Z) : Prop :=
  DateInputs.daysFromCivil 0 1 1 * 86400000 <= date + 8 * 3600000
  < DateInputs.daysFromCivil 10000 1 1 * 86400000.

(** The instants for which the clock and the calendar of the model are
    those of the code: from 1982-01-01T00:00Z, since when Asia/Kuala_Lumpur
    is eight hours ahead of UTC, to the end of the year 9999 there, the
    last year the date key prints with four digits. *)
Definition onModelClock (date : Z) : Prop :=
  Props.modern date
  /\ date + 8 * 3600000 < DateInputs.daysFromCivil 10000 1 1 * 86400000.

(** [y] is [x] rounded to one decimal: a whole number of tenths, at most
    half a tenth away; and the same of two optional numbers. *)
Definition Rounded1 (x y : Q) : Prop :=
  exists n : Z, (y == inject_Z n / 10)%Q /\ (Qabs (y - x) <= 1 # 20)%Q.

Definition roundedTo1 (x y : option Q) : Prop :=
  match x, y with
  | Some x, Some y => Rounded1 x y
  | None, None => True
  | _, _ => False
  end.

(** The document of an id as the store holds it, with the note of the
    administrator, and the snapshot an audit entry would take of it. *)
Definition storedLog (store : AttendanceLogsPanel.Store) (id : DocId)
  : option (AttendanceLog * option string) :=
  option_map
    (fun d => (snd d,
               AttendanceLogsPanel.adminFields store !! id
                 ≫= AttendanceLogsPanel.adminNote))
    (List.find (fun d => String.eqb (fst d) id)
               (attendance (AttendanceLogsPanel.base store))).

(** The audit entry written last under a log. *)
Definition lastAudit (id : DocId)
    (entries : list (DocId * (DocId * AttendanceLogsPanel.AuditEntry)))
  : option AttendanceLogsPanel.AuditEntry :=
  fold_left
    (fun acc d => if String.eqb (fst d) id then Some (snd (snd d)) else acc)
    entries None.

(** The audit trail of every log ends in what the store holds: the last
    entry written under a log has, as its [after], the snapshot of the
    stored document, and none when the document is gone. *)
Definition Audited (store : AttendanceLogsPanel.Store) : Prop :=
  forall id entry,
    lastAudit id (AttendanceLogsPanel.logAudit store) = Some entry ->
    AttendanceLogsPanel.e_after entry
    = AttendanceLogsPanel.buildAuditSnapshot (storedLog store id).

(** The panel holds the copy of a document that the store holds now. *)
Definition upToDate (store : AttendanceLogsPanel.Store)
    (log : AttendanceLogsPanel.LogRow) : Prop :=
  List.find (fun d => String.eqb (fst d) (AttendanceLogsPanel.row_id log))
            (attendance (AttendanceLogsPanel.base store))
  = Some (AttendanceLogsPanel.row_id log, AttendanceLogsPanel.row_data log).

End LogProps.


(** ** Sample data of the logs panel *)

Module LogSamples.
Import Firestore Types.

Definition boss : UserProfile :=
  {| uid := "a1"; email := "boss@example.com"; name := Some "Boss"%string;
     employeeId := None; normalRate := None; otRate := None |}.

(** The panel of a signed-in administrator at 19:00. *)
Definition desk : AttendanceLogsPanel.Panel :=
  {| AttendanceLogsPanel.savingLog := false;
     AttendanceLogsPanel.adminUser := Some "a1"%string;
     AttendanceLogsPanel.adminProfile := Some boss;
     AttendanceLogsPanel.users := [Demo.amy];
     AttendanceLogsPanel.locations := [Demo.depot];
     AttendanceLogsPanel.serverNow := fromDate (Demo.clock 19 0);
     AttendanceLogsPanel.logRef := "log-hand";
     AttendanceLogsPanel.auditRef := "audit-1";
     AttendanceLogsPanel.auditSubRef := "audit-2" |}.

(** A store nobody has edited by hand. *)
Definition ledgerOf (db : Db) : AttendanceLogsPanel.Store :=
  {| AttendanceLogsPanel.base := db;
     AttendanceLogsPanel.adminFields := ∅;
     AttendanceLogsPanel.attendanceAudit := [];
     AttendanceLogsPanel.logAudit := [] |}.

(** A check-in of Amy at the depot at 07:45, typed in by hand. *)
Definition byHand : AttendanceLogsPanel.LogFormState :=
  {| AttendanceLogsPanel.l_id := None;
     AttendanceLogsPanel.l_userId := "u1";
     AttendanceLogsPanel.l_siteId := "site-a";
     AttendanceLogsPanel.l_scanType := CheckIn;
     AttendanceLogsPanel.l_status := Success;
     AttendanceLogsPanel.l_scanTime := "2024-01-01T07:45";
     AttendanceLogsPanel.l_adminNote := " forgot the badge ";
     AttendanceLogsPanel.l_userLat := AttendanceLogsPanel.Blank;
     AttendanceLogsPanel.l_userLng := AttendanceLogsPanel.Blank;
     AttendanceLogsPanel.l_distanceMeters := AttendanceLogsPanel.Blank |}.

(** The store after the check-in by hand has been saved. *)
Definition entered : AttendanceLogsPanel.Store :=
  match AttendanceLogsPanel.handleSaveLog (H := Demo.host) desk None byHand
                                          (ledgerOf Demo.store) with
  | AttendanceLogsPanel.Saved store _ => store
  | _ => ledgerOf Demo.store
  end.

(** A scan of 08:00:07.5 whose kind was not recorded, 12.34 m from the
    site, as the panel holds it, and a store that holds it. *)
Definition hurried : AttendanceLogsPanel.LogRow :=
  {| AttendanceLogsPanel.row_id := "l9";
     AttendanceLogsPanel.row_data :=
       {| userId := "u1"; userEmail := "amy@example.com";
          userName := Some "Amy"%string;
          siteId := "site-a"; siteName := "Depot A";
          scanTime := fromDate (Demo.clock 8 0 + 7500);
          dateKey := Some "2024-01-01"%string;
          userLat := Some 3%Q; userLng := Some 101%Q;
          distanceMeters := Some (617 # 50)%Q;
          allowedRadiusMeters := Some 100%Q;
          status := Success; scanType := None; failReason := None;
          isDeleted := Some false; createdBy := Some ByScanner;
          createdAt := Some (fromDate (Demo.clock 8 0 + 7500));
          searchPrefixes := [] |};
     AttendanceLogsPanel.row_admin := AttendanceLogsPanel.noAdminFields |}.

Definition hurriedLedger : AttendanceLogsPanel.Store :=
  ledgerOf
    (Demo.dbWith
       [(AttendanceLogsPanel.row_id hurried,
         AttendanceLogsPanel.row_data hurried)] [] None).

End LogSamples.
(** * Proofs *)

(** ** Numbers *)

Section JsFacts.
Open Scope Q_scope.

Lemma Qltb_lt (a b : Q) : Js.Qltb a b = true <-> a < b.
Proof.
  unfold Js.Qltb. rewrite negb_true_iff, <- not_true_iff_false, Qle_bool_iff.
  split; intro Hab; [apply Qnot_le_lt | apply Qlt_not_le]; exact Hab.
Qed.

Lemma Qgtb_lt (a b : Q) : Js.Qgtb a b = true <-> b < a.
Proof. apply Qltb_lt. Qed.

Lemma Qgeb_le (a b : Q) : Js.Qgeb a b = true <-> b <= a.
Proof. apply Qle_bool_iff. Qed.

Lemma Qltb_ge (a b : Q) : Js.Qltb a b = false <-> b <= a.
Proof.
  unfold Js.Qltb. rewrite negb_false_iff. apply Qle_bool_iff.
Qed.

Lemma Qgeb_lt (a b : Q) : Js.Qgeb a b = false <-> a < b.
Proof.
  unfold Js.Qgeb. rewrite <- not_true_iff_false, Qle_bool_iff.
  split; intro Hab; [apply Qnot_le_lt | apply Qlt_not_le]; exact Hab.
Qed.

Lemma toFixed2_proper (x y : Q) : x == y -> Js.toFixed2 x = Js.toFixed2 y.
Proof.
  intro Hxy. unfold Js.toFixed2, Js.Qltb.
  assert (Hn : Qfloor (Qabs x * inject_Z 100 + (1 # 2))
               = Qfloor (Qabs y * inject_Z 100 + (1 # 2)))
    by (apply Qfloor_comp; rewrite Hxy; reflexivity).
  assert (Hs : Qle_bool 0 x = Qle_bool 0 y)
    by (rewrite Hxy; reflexivity).
  rewrite Hn, Hs. reflexivity.
Qed.

Lemma toFixed2_rounded (x : Q) : Spec.Rounded2 x (Js.toFixed2 x).
Proof.
  unfold Spec.Rounded2, Js.toFixed2.
  change (inject_Z 100) with 100.
  pose proof (Qfloor_le (Qabs x * 100 + (1 # 2))) as Hlo.
  pose proof (Qlt_floor (Qabs x * 100 + (1 # 2))) as Hhi.
  rewrite inject_Z_plus in Hhi.
  change (inject_Z 1) with 1 in Hhi.
  generalize dependent (Qfloor (Qabs x * 100 + (1 # 2))). intros n Hlo Hhi.
  destruct (Js.Qltb x 0) eqn:Hneg.
  - apply Qltb_lt in Hneg.
    assert (Habs : Qabs x == - x) by (apply Qabs_neg, Qlt_le_weak, Hneg).
    rewrite Habs in Hlo, Hhi.
    exists (- n)%Z. rewrite Qred_correct, inject_Z_opp.
    split; [field | apply Qabs_Qle_condition; clear Habs; unfold Qdiv;
                    change (/ 100) with (1 # 100); split; lra].
  - apply Qltb_ge in Hneg.
    assert (Habs : Qabs x == x) by (apply Qabs_pos, Hneg).
    rewrite Habs in Hlo, Hhi.
    exists n. rewrite Qred_correct.
    split; [reflexivity | apply Qabs_Qle_condition; clear Habs; unfold Qdiv;
                          change (/ 100) with (1 # 100); split; lra].
Qed.

End JsFacts.

(** ** Both aggregators compute [Aggregate.derive] of their endpoints *)

Section DeriveFacts.
Context `{Host}.
Import Types.

Lemma scanner_aggregate_derive (profile : UserProfile)
    (settings : BufferSettings) (logs : list AttendanceLog) :
  ScannerPage.aggregate profile settings logs
  = Aggregate.derive settings (default 0%Q (normalRate profile))
                     (default 0%Q (otRate profile))
                     (ScannerPage.endpoints logs).
Proof. reflexivity. Qed.

Lemma admin_aggregate_derive (userItem : option UserProfile)
    (settings : BufferSettings) (logs : list AdminDashboard.GroupedLog) :
  AdminDashboard.aggregate userItem settings logs
  = Aggregate.derive settings (default 0%Q (userItem ≫= normalRate))
                     (default 0%Q (userItem ≫= otRate))
                     (AdminDashboard.endpoints logs).
Proof. reflexivity. Qed.

End DeriveFacts.

Section DeriveSpec.
Context `{Host}.
Import Types.
Open Scope Q_scope.

Ltac derive_fields :=
  unfold Aggregate.derive;
  cbn [Aggregate.checkInTime Aggregate.checkOutTime Aggregate.checkInMinutes
       Aggregate.checkOutMinutes Aggregate.totalHoursRaw
       Aggregate.isWithinEarlyCheckoutBuffer Aggregate.totalHoursAdjusted
       Aggregate.totalHoursRounded Aggregate.isLate Aggregate.lateReason
       Aggregate.otEarlyWindowStart Aggregate.otLateWindowEnd
       Aggregate.effectiveOtCheckoutMinutes Aggregate.abnormalReasons
       Aggregate.otHours Aggregate.isAbnormal Aggregate.normalHours
       Aggregate.otHoursRounded Aggregate.status Aggregate.normalRate
       Aggregate.otRate Aggregate.amountRM option_map].

Lemma max_0_r_hours (x : Q) : Js.max x 0 == Qmax 0 x.
Proof. unfold Js.max. apply Q.max_comm. Qed.

Lemma getTimeMinutes_minutesOfDay (t : Z) :
  Utils.getTimeMinutes t = Spec.minutesOfDay t.
Proof.
  unfold Utils.getTimeMinutes, Spec.minutesOfDay. cbv zeta.
  Z.div_mod_to_equations. lia.
Qed.

Lemma derive_TotalHours (b : BufferSettings) (r1 r2 : Q)
    (e : Aggregate.Endpoints) :
  let a := Aggregate.derive b r1 r2 e in
  Spec.TotalHours b (Aggregate.firstTime e) (Aggregate.lastTime e)
    (Aggregate.totalHoursRaw a) (Aggregate.totalHoursRounded a).
Proof.
  unfold Spec.TotalHours. derive_fields.
  destruct (Aggregate.firstTime e) as [tin|], (Aggregate.lastTime e) as [tout|];
    cbn [option_map]; try (split; reflexivity).
  rewrite getTimeMinutes_minutesOfDay. unfold Spec.PaddedHours.
  set (m := Spec.minutesOfDay tout).
  set (raw := Js.max (inject_Z (tout - tin) / inject_Z 3600000) 0).
  assert (Hraw : raw == Spec.hoursBetween tin tout)
    by (apply max_0_r_hours).
  destruct (Js.Qgeb (inject_Z m) (17 * 60 - earlyCheckoutBufferMinutes b)
            && Qle_bool (inject_Z m) (17 * 60)) eqn:Hwin.
  - apply andb_true_iff in Hwin as [Hlo Hhi].
    apply Qgeb_le in Hlo. apply Qle_bool_iff in Hhi.
    exists raw, (raw + Js.max (17 * 60 - inject_Z m) 0 / 60), 
      (Js.toFixed2 (raw + Js.max (17 * 60 - inject_Z m) 0 / 60)).
    repeat split; try assumption; try reflexivity; try apply toFixed2_rounded.
    left. split; [split; assumption|].
    unfold Js.max. rewrite Q.max_l by (unfold Spec.at1700 in *; lra).
    rewrite Hraw. reflexivity.
  - exists raw, raw, (Js.toFixed2 raw).
    repeat split; try assumption; try reflexivity; try apply toFixed2_rounded.
    right. split; [|exact Hraw].
    intros [Hlo Hhi]. apply Qgeb_le in Hlo. apply Qle_bool_iff in Hhi.
    unfold Js.Qgeb in *. unfold Spec.at1700 in *.
    rewrite Hlo, Hhi in Hwin. discriminate.
Qed.

Lemma OtRule_computed (total effective : option Q) :
  Spec.OtRule total effective
    (match total, effective with
     | Some t, Some e =>
         if Js.Qgeb t 9
         then if Js.Qgeb e (22 * 60) then 4
              else if Js.Qgeb e (19 * 60) then 2 else 0
         else 0
     | _, _ => 0
     end).
Proof.
  unfold Spec.OtRule, Spec.at2200, Spec.at1900.
  destruct total as [t|], effective as [e|]; try reflexivity.
  destruct (Js.Qgeb t 9) eqn:Ht;
    [apply Qgeb_le in Ht | apply Qgeb_lt in Ht; now right; right; right].
  destruct (Js.Qgeb e (22 * 60)) eqn:He;
    [apply Qgeb_le in He; now left | apply Qgeb_lt in He].
  destruct (Js.Qgeb e (19 * 60)) eqn:He';
    [apply Qgeb_le in He' | apply Qgeb_lt in He'].
  - right; left. tauto.
  - right; right; left. tauto.
Qed.

Lemma derive_Overtime (b : BufferSettings) (r1 r2 : Q)
    (e : Aggregate.Endpoints) :
  let a := Aggregate.derive b r1 r2 e in
  Spec.Overtime b (Aggregate.lastTime e) (Aggregate.totalHoursRounded a)
    (Aggregate.effectiveOtCheckoutMinutes a) (Aggregate.otHours a).
Proof.
  unfold Spec.Overtime. derive_fields. split; [|apply OtRule_computed].
  destruct (Aggregate.lastTime e) as [tout|]; cbn [option_map]; [|reflexivity].
  rewrite getTimeMinutes_minutesOfDay.
  set (m := Spec.minutesOfDay tout).
  unfold Spec.EffectiveOtCheckout, Spec.inOtWindow, Spec.at2200.
  destruct (Js.Qgeb (inject_Z m) (22 * 60 - otEarlyBufferMinutes b)
            && Qle_bool (inject_Z m) (22 * 60 + otLateBufferMinutes b))
    eqn:Hwin; eexists; (split; [reflexivity|]).
  - apply andb_true_iff in Hwin as [Hlo Hhi].
    apply Qgeb_le in Hlo. apply Qle_bool_iff in Hhi. left. tauto.
  - right. split; [|reflexivity].
    intros [Hlo Hhi]. apply Qgeb_le in Hlo. apply Qle_bool_iff in Hhi.
    rewrite Hlo, Hhi in Hwin. discriminate.
Qed.

Lemma derive_Abnormality (b : BufferSettings) (r1 r2 : Q)
    (e : Aggregate.Endpoints) :
  let a := Aggregate.derive b r1 r2 e in
  Spec.Abnormality b (Aggregate.firstTime e) (Aggregate.lastTime e)
    (Aggregate.totalHoursRounded a) (Aggregate.abnormalReasons a).
Proof.
  unfold Spec.Abnormality. derive_fields.
  set (total := option_map Js.toFixed2 _). clearbody total.
  destruct (Aggregate.firstTime e) as [tin|], (Aggregate.lastTime e) as [tout|];
    cbn [option_map]; unfold Spec.Applies, Spec.afterOtWindow, Spec.at2200;
    rewrite ?getTimeMinutes_minutesOfDay.
  all: destruct total as [t|]; [destruct (Js.Qltb t 9) eqn:Ht|].
  all: try (destruct (Js.Qgtb (inject_Z (Spec.minutesOfDay tout))
                              (22 * 60 + otLateBufferMinutes b)) eqn:Hm).
  all: try (apply Qltb_lt in Ht); try (apply Qltb_ge in Ht).
  all: try (apply Qgtb_lt in Hm).
  all: try (apply not_true_iff_false in Hm; rewrite Qgtb_lt in Hm).
  all: split; [|repeat constructor; simpl; intuition discriminate].
  all: intro reason; split;
    [ simpl; intros Hin; repeat (destruct Hin as [<- | Hin]);
      try contradiction; eauto 10
    | intros [[-> Hc]|[[-> Hc]|[[-> (t0 & Heq & Hlt)]|[-> (t0 & Heq & Hlt)]]]];
      try discriminate; try (injection Heq as <-); simpl; auto 10;
      exfalso; try contradiction; lra ].
Qed.

Lemma toFixed2_min_9 (t : Q) : 9 <= t -> Js.toFixed2 (Js.min t 9) = 9.
Proof.
  intro Ht. rewrite (toFixed2_proper (Js.min t 9) 9).
  - reflexivity.
  - unfold Js.min. apply Q.min_r. exact Ht.
Qed.

(** What [derive] leaves in the pay fields, by the list of reasons. *)
Lemma derive_pay (b : BufferSettings) (r1 r2 : Q) (e : Aggregate.Endpoints) :
  let a := Aggregate.derive b r1 r2 e in
  match Aggregate.abnormalReasons a with
  | [] =>
      exists total,
        Aggregate.totalHoursRounded a = Some total
        /\ 9 <= total
        /\ Aggregate.normalHours a = Some (Js.toFixed2 (Js.min total 9))
        /\ Aggregate.otHoursRounded a = Some (Aggregate.otHours a)
        /\ Aggregate.amountRM a
           = Some (Js.toFixed2 (Js.toFixed2 (Js.min total 9) * r1
                                + Aggregate.otHours a * r2))
  | _ :: _ =>
      Aggregate.normalHours a = None
      /\ Aggregate.otHoursRounded a = None
      /\ Aggregate.amountRM a = None
  end.
Proof.
  derive_fields.
  set (total := option_map Js.toFixed2 _).
  assert (Htotal : Aggregate.firstTime e <> None -> Aggregate.lastTime e <> None
                   -> exists t, total = Some t).
  { subst total.
    destruct (Aggregate.firstTime e), (Aggregate.lastTime e); try congruence.
    intros _ _. cbn [option_map]. destruct (_ && _); eexists; reflexivity. }
  clearbody total.
  destruct (Aggregate.firstTime e) as [tin|], (Aggregate.lastTime e) as [tout|];
    cbn [option_map app length Nat.ltb Nat.leb negb];
    try (repeat split; reflexivity).
  destruct Htotal as [t ->]; try discriminate.
  destruct (Js.Qltb t 9) eqn:Ht;
    cbn [option_map app length Nat.ltb Nat.leb negb];
    try (repeat split; reflexivity).
  apply Qltb_ge in Ht.
  destruct (Js.Qgtb _ _);
    cbn [option_map app length Nat.ltb Nat.leb negb default];
    try (repeat split; reflexivity).
  exists t. repeat split; try reflexivity. exact Ht.
Qed.
End DeriveSpec.

(** ** The aggregation, step by step *)

Section AggregationClaims.
Import Types.
Open Scope Q_scope.

Lemma pay_of_fields `{Host} (b : BufferSettings) (r1 r2 : Q)
    (e : Aggregate.Endpoints) (s : AttendanceSession) :
  let a := Aggregate.derive b r1 r2 e in
  abnormalReasons s = Aggregate.abnormalReasons a ->
  totalHours s = Aggregate.totalHoursRounded a ->
  normalHours s = Aggregate.normalHours a ->
  otHours s = Aggregate.otHoursRounded a ->
  amountRM s = Aggregate.amountRM a ->
  Spec.Pay r1 r2 (Aggregate.otHours a) s.
Proof.
  intros a Hr Ht Hn Ho Ha. unfold Spec.Pay.
  pose proof (derive_pay b r1 r2 e) as Hpay. cbv zeta in Hpay. fold a in Hpay.
  rewrite Hr, Ht, Hn, Ho, Ha.
  destruct (Aggregate.abnormalReasons a) as [|reason rest].
  - destruct Hpay as (total & Htotal & Hge & Hnormal & Hot & Hamount).
    split.
    + split; [|congruence]. intros (Hnone & _). congruence.
    + intros _. exists total, (Js.toFixed2 (Js.min total 9)),
        (Js.toFixed2 (Js.toFixed2 (Js.min total 9) * r1
                      + Aggregate.otHours a * r2)).
      repeat split; try assumption; apply toFixed2_rounded.
  - destruct Hpay as (Hnormal & Hot & Hamount).
    split; [|discriminate].
    split; [discriminate | intros _; auto].
Qed.

(** C10 (as amended). Paid sessions.  In both aggregators, a session whose
    [amountRM] is not null has no abnormal reason, its [normalHours] is
    exactly 9, its [otHours] is the overtime computed, and its [amountRM] is
    9 x normalRate + otHours x otRate rounded to two decimals. *)
Theorem paid_sessions_have_nine_normal_hours `{Host}
    (settings : BufferSettings) :
  (forall (uid dateKey : string) (profile : UserProfile)
          (logs : list AttendanceLog) (amount : Q),
      let a := ScannerPage.aggregate profile settings logs in
      let s := ScannerPage.sessionData uid profile dateKey a in
      amountRM s = Some amount ->
      abnormalReasons s = []
      /\ normalHours s = Some 9
      /\ otHours s = Some (Aggregate.otHours a)
      /\ Spec.Rounded2 (9 * s_normalRate s + Aggregate.otHours a * s_otRate s)
                       amount)
  /\ (forall (userItem : option UserProfile) (userId dateKey : string)
             (logs : list AdminDashboard.GroupedLog) (amount : Q),
         let a := AdminDashboard.aggregate userItem settings logs in
         let s := AdminDashboard.sessionData userItem userId dateKey logs a in
         amountRM s = Some amount ->
         abnormalReasons s = []
         /\ normalHours s = Some 9
         /\ otHours s = Some (Aggregate.otHours a)
         /\ Spec.Rounded2
              (9 * s_normalRate s + Aggregate.otHours a * s_otRate s) amount).
Proof.
  assert (Hderive : forall r1 r2 e amount,
             let a := Aggregate.derive settings r1 r2 e in
             Aggregate.amountRM a = Some amount ->
             Aggregate.abnormalReasons a = []
             /\ Aggregate.normalHours a = Some 9
             /\ Aggregate.otHoursRounded a = Some (Aggregate.otHours a)
             /\ Spec.Rounded2 (9 * r1 + Aggregate.otHours a * r2) amount).
  { intros r1 r2 e amount a Hamount.
    pose proof (derive_pay settings r1 r2 e) as Hpay.
    cbv zeta in Hpay. fold a in Hpay.
    destruct (Aggregate.abnormalReasons a) as [|reason rest].
    - destruct Hpay as (total & Htotal & Hge & Hnormal & Hot & Hpaid).
      rewrite toFixed2_min_9 in Hnormal, Hpaid by exact Hge.
      rewrite Hpaid in Hamount. injection Hamount as <-.
      repeat split; try assumption. apply toFixed2_rounded.
    - destruct Hpay as (_ & _ & Hnone). congruence. }
  split; intros uid dateKey profile logs amount a s; subst s a.
  - rewrite scanner_aggregate_derive. apply Hderive.
  - intro Hamount. rewrite admin_aggregate_derive in *.
    revert Hamount. apply Hderive.
Qed.

Lemma paid_sessions_witness :
  amountRM (Demo.sessionOf Demo.amy Demo.fullDay) = Some 90
  /\ normalHours (Demo.sessionOf Demo.amy Demo.fullDay) = Some 9.
Proof.
  split; [vm_compute; reflexivity|].
  apply (proj1 (paid_sessions_have_nine_normal_hours
                  (H := Demo.host) ScannerPage.DEFAULT_BUFFER_SETTINGS)
           "u1"%string "2024-01-01"%string Demo.amy (map snd Demo.fullDay) 90).
  vm_compute; reflexivity.
Defined.

(** C10 as stated fails where the product has more than two decimals: at
    12.341 an hour, nine normal hours and no overtime are paid 111.07, which
    is not 9 x 12.341 + 0 x 0 = 111.069. *)
Lemma paid_amount_is_rounded :
  normalHours (Demo.sessionOf Demo.kai Demo.fullDay) = Some 9
  /\ otHours (Demo.sessionOf Demo.kai Demo.fullDay) = Some 0
  /\ amountRM (Demo.sessionOf Demo.kai Demo.fullDay) = Some (11107 # 100)
  /\ Qeq_bool (11107 # 100)
              (9 * s_normalRate (Demo.sessionOf Demo.kai Demo.fullDay)
               + 0 * s_otRate (Demo.sessionOf Demo.kai Demo.fullDay))
     = false.
Proof. repeat split; vm_compute; reflexivity. Qed.

End AggregationClaims.


(** ** The session store *)

Section StoreFacts.
Import Firestore Types.

Lemma commit_app {A} (b1 b2 : list (Write A)) (c : Collection A) :
  commit (b1 ++ b2) c = commit b2 (commit b1 c).
Proof. unfold commit. apply fold_left_app. Qed.

Lemma commit_deletes {A} (refs : list DocId) (c : Collection A) :
  commit (map Delete refs) c
  = List.filter (fun d => negb (existsb (String.eqb (fst d)) refs)) c.
Proof.
  revert c. induction refs as [|ref refs IH]; intro c; cbn [map existsb].
  - cbn [commit fold_left negb].
    induction c as [|d c IHc]; cbn [List.filter];
      [reflexivity | f_equal; exact IHc].
  - change (commit (Delete ref :: map Delete refs) c)
      with (commit (map Delete refs) (without ref c)).
    rewrite IH. unfold without.
    induction c as [|d c IHc]; cbn [List.filter]; [reflexivity|].
    cbv beta.
    match goal with
    | |- context [String.eqb ?x ref] => destruct (String.eqb x ref)
    end; cbn [negb orb List.filter]; cbv beta.
    + exact IHc.
    + rewrite IHc. reflexivity.
Qed.

Lemma filter_none {A} (p : A -> bool) (l : list A) :
  (forall x, In x l -> p x = false) -> List.filter p l = [].
Proof.
  induction l as [|x l IH]; intro Hp; cbn [List.filter]; [reflexivity|].
  rewrite (Hp x) by apply in_eq.
  apply IH. intros y Hy. apply Hp. now right.
Qed.

Lemma existsb_eqb_In (x : string) (l : list string) :
  In x l -> existsb (String.eqb x) l = true.
Proof.
  intro Hin. apply existsb_exists. exists x. split; [exact Hin|].
  apply String.eqb_refl.
Qed.

(** Committing the deletion of every document of a key and one new document
    of that key leaves exactly the new document under the key. *)
Lemma replace_leaves_one (userId dateKey : string) (ref : DocId)
    (s : AttendanceSession) (c : Collection AttendanceSession) :
  s_userId s = userId -> s_dateKey s = dateKey ->
  Spec.sessionsOf userId dateKey
    (commit (map (fun d => Delete (fst d)) (Spec.sessionsOf userId dateKey c)
             ++ [SetDoc ref s]) c)
  = [(ref, s)].
Proof.
  intros Hu Hd. rewrite commit_app.
  rewrite <- (map_map fst Delete), commit_deletes.
  cbn [commit fold_left applyWrite]. unfold Spec.sessionsOf at 1.
  rewrite List.filter_app. cbn [List.filter snd].
  rewrite Hu, Hd, !String.eqb_refl. cbn [andb].
  rewrite filter_none; [reflexivity|].
  intros x Hx. unfold without in Hx.
  apply List.filter_In in Hx as [Hx _]. apply List.filter_In in Hx as [Hx Hout].
  destruct (String.eqb (s_userId (snd x)) userId
            && String.eqb (s_dateKey (snd x)) dateKey) eqn:Hkey;
    [|reflexivity].
  rewrite existsb_eqb_In in Hout; [discriminate|].
  apply List.in_map. unfold Spec.sessionsOf. apply List.filter_In. now split.
Qed.

End StoreFacts.

(** ** Documents the batch does not touch *)

Section ReplaceFacts.
Import Firestore Types.

Lemma filter_filter_keep {A} (p q : A -> bool) (l : list A) :
  (forall x, In x l -> p x = true -> q x = true) ->
  List.filter p (List.filter q l) = List.filter p l.
Proof.
  induction l as [|x l IH]; intro Hpq; cbn [List.filter]; [reflexivity|].
  assert (IH' : List.filter p (List.filter q l) = List.filter p l)
    by (apply IH; intros y Hy; apply Hpq; now right).
  destruct (q x) eqn:Hq, (p x) eqn:Hp; cbn [List.filter];
    rewrite ?Hp, ?IH'; try reflexivity.
  rewrite (Hpq x (in_eq x l) Hp) in Hq. discriminate.
Qed.

Lemma unique_id_same_doc {A} (c : Collection A) (x y : DocId * A) :
  List.NoDup (map fst c) -> In x c -> In y c -> fst x = fst y -> x = y.
Proof.
  induction c as [|d c IH]; cbn [map]; intros Hnd Hx Hy Hxy; [contradiction|].
  apply List.NoDup_cons_iff in Hnd as [Hd Hnd].
  destruct Hx as [-> | Hx], Hy as [-> | Hy].
  - reflexivity.
  - exfalso. apply Hd. rewrite Hxy. now apply List.in_map.
  - exfalso. apply Hd. rewrite <- Hxy. now apply List.in_map.
  - now apply IH.
Qed.

(** What the replacement of the sessions of one key leaves as it was: the
    documents selected by [p], when [p] selects neither a document of that
    key, nor one under the new id, nor the new document. *)
Lemma replace_preserves (p : DocId * AttendanceSession -> bool)
    (userId dateKey : string) (ref : DocId) (s : AttendanceSession)
    (c : Collection AttendanceSession) :
  List.NoDup (map fst c) ->
  p (ref, s) = false ->
  (forall x, In x c -> p x = true ->
             In x (Spec.sessionsOf userId dateKey c) -> False) ->
  (forall x, In x c -> p x = true -> fst x <> ref) ->
  List.filter p
    (commit (map (fun d => Delete (fst d)) (Spec.sessionsOf userId dateKey c)
             ++ [SetDoc ref s]) c)
  = List.filter p c.
Proof.
  intros Hnd Hnew Hkey Hfresh. rewrite commit_app.
  rewrite <- (map_map fst Delete), commit_deletes.
  cbn [commit fold_left applyWrite].
  rewrite List.filter_app. cbn [List.filter]. rewrite Hnew, app_nil_r.
  unfold without. rewrite filter_filter_keep.
  - apply filter_filter_keep. intros x Hx Hp.
    apply negb_true_iff, not_true_iff_false. intro Hex.
    apply existsb_exists in Hex as (i & Hi & Heq).
    apply String.eqb_eq in Heq. apply List.in_map_iff in Hi as (y & <- & Hy).
    assert (x = y) as ->.
    { apply (unique_id_same_doc c); try assumption.
      unfold Spec.sessionsOf in Hy. now apply List.filter_In in Hy. }
    exact (Hkey y Hx Hp Hy).
  - intros x Hx Hp. apply List.filter_In in Hx as [Hx _].
    apply negb_true_iff, String.eqb_neq. now apply Hfresh.
Qed.

(** The ids stay distinct. *)
Lemma replace_keeps_ids_unique (userId dateKey : string) (ref : DocId)
    (s : AttendanceSession) (c : Collection AttendanceSession) :
  List.NoDup (map fst c) ->
  List.NoDup
    (map fst
       (commit (map (fun d => Delete (fst d)) (Spec.sessionsOf userId dateKey c)
                ++ [SetDoc ref s]) c)).
Proof.
  intro Hnd. rewrite commit_app.
  rewrite <- (map_map fst Delete), commit_deletes.
  cbn [commit fold_left applyWrite].
  rewrite map_app. cbn [map fst].
  apply List.NoDup_app.
  - unfold without.
    assert (Hf : forall (q : DocId * AttendanceSession -> bool) l,
                 List.NoDup (map fst l) ->
                 List.NoDup (map fst (List.filter q l))).
    { clear. intros q l. induction l as [|d l IH]; cbn [List.filter map];
        intro Hnd; [constructor|].
      apply List.NoDup_cons_iff in Hnd as [Hd Hnd].
      destruct (q d); cbn [map]; [|now apply IH].
      constructor; [|now apply IH].
      intro Hin. apply Hd. apply List.in_map_iff in Hin as (y & Hy & Hin).
      apply List.filter_In in Hin as [Hin _].
      rewrite <- Hy. now apply List.in_map. }
    now apply Hf, Hf.
  - repeat constructor. intros [].
  - intros i Hi [<- | []].
    apply List.in_map_iff in Hi as (y & Hy & Hin).
    unfold without in Hin. apply List.filter_In in Hin as [_ Hne].
    apply negb_true_iff, String.eqb_neq in Hne. contradiction.
Qed.

End ReplaceFacts.

(** ** The second loop of [recomputeSessionsForRange] *)

Section LoopFacts.
Context `{Host}.
Import Firestore Types.

Lemma distinct_NoDup (ids : list DocId) :
  Spec.distinct ids = true -> List.NoDup ids.
Proof.
  induction ids as [|i ids IH]; cbn [Spec.distinct]; intro Hd; constructor.
  - apply andb_true_iff in Hd as [Hi _].
    apply negb_true_iff in Hi. intro Hin.
    rewrite existsb_eqb_In in Hi by exact Hin. discriminate.
  - apply IH. now apply andb_true_iff in Hd as [_ Hd].
Qed.

Lemma allFresh_other_id {A} (refs : list DocId) (c : Collection A)
    (r : DocId) (x : DocId * A) :
  Spec.allFresh refs c = true -> In r refs -> In x c -> fst x <> r.
Proof.
  unfold Spec.allFresh. intros Hall Hr Hx Heq.
  apply (proj1 (forallb_forall _ _) Hall) in Hr.
  apply negb_true_iff in Hr.
  rewrite existsb_eqb_In in Hr; [discriminate|].
  rewrite <- Heq. now apply List.in_map.
Qed.

Lemma loop_rest_unchanged (settings : BufferSettings)
    (userMap : gmap string UserProfile) (grouped : AdminDashboard.Grouped)
    (refs : list DocId) (db : Db) :
  let db' := AdminDashboard.recomputeLoop settings userMap grouped refs db in
  attendance db' = attendance db
  /\ sites db' = sites db
  /\ settingsGlobal db' = settingsGlobal db.
Proof.
  revert refs db. induction grouped as [|entry rest IH]; intros refs db;
    [now destruct refs|].
  destruct refs as [|r refs]; [easy|].
  cbn [AdminDashboard.recomputeLoop].
  specialize (IH refs (AdminDashboard.recomputeKey settings userMap entry r db)).
  cbv zeta in *. exact IH.
Qed.

Lemma loop_keeps_ids_unique (settings : BufferSettings)
    (userMap : gmap string UserProfile) (grouped : AdminDashboard.Grouped)
    (refs : list DocId) (db : Db) :
  List.NoDup (map fst (attendanceSessions db)) ->
  List.NoDup
    (map fst
       (attendanceSessions
          (AdminDashboard.recomputeLoop settings userMap grouped refs db))).
Proof.
  revert refs db. induction grouped as [|entry rest IH]; intros refs db Hnd;
    [now destruct refs|].
  destruct refs as [|r refs]; [exact Hnd|].
  cbn [AdminDashboard.recomputeLoop]. apply IH.
  apply replace_keeps_ids_unique. exact Hnd.
Qed.

(** The sessions of a key after the loop: the session of the last entry
    read as that key, alone. *)
Lemma loop_key_sessions (settings : BufferSettings)
    (userMap : gmap string UserProfile) (userId dateKey : string)
    (grouped : AdminDashboard.Grouped) :
  forall (refs : list DocId) (db : Db) (before : option AttendanceSession),
    List.NoDup (map fst (attendanceSessions db)) ->
    List.NoDup refs ->
    (length grouped <= length refs)%nat ->
    (forall s, before = Some s ->
               exists r, Spec.sessionsOf userId dateKey (attendanceSessions db)
                         = [(r, s)]
                         /\ ~ In r refs) ->
    forall s',
      Spec.lastSession settings userMap userId dateKey grouped before = Some s' ->
      map snd
        (Spec.sessionsOf userId dateKey
           (attendanceSessions
              (AdminDashboard.recomputeLoop settings userMap grouped refs db)))
      = [s'].
Proof.
  induction grouped as [|entry rest IH];
    intros refs db before Hids Hrefs Hlen Hbefore s' Hlast.
  - cbn in Hlast. destruct (Hbefore s' Hlast) as (r & Hr & _).
    destruct refs; cbn [AdminDashboard.recomputeLoop]; now rewrite Hr.
  - destruct refs as [|r0 refs]; [cbn in Hlen; lia|].
    cbn [AdminDashboard.recomputeLoop].
    apply List.NoDup_cons_iff in Hrefs as [Hr0 Hrefs].
    unfold Spec.lastSession in Hlast. cbn [fold_left] in Hlast.
    fold (Spec.lastSession settings userMap userId dateKey rest) in Hlast.
    eapply IH; try exact Hlast.
    + apply replace_keeps_ids_unique. exact Hids.
    + exact Hrefs.
    + cbn in Hlen. lia.
    + intros s Hs.
      destruct (Spec.isEntryOf userId dateKey entry) eqn:Hentry.
      * injection Hs as <-. exists r0. split; [|exact Hr0].
        unfold Spec.isEntryOf in Hentry.
        apply andb_true_iff in Hentry as [Hu Hd].
        apply String.eqb_eq in Hu, Hd. rewrite <- Hu, <- Hd.
        apply replace_leaves_one; reflexivity.
      * destruct (Hbefore s Hs) as (r & Hr & Hnew).
        exists r. split; [|intro Hin; apply Hnew; now right].
        rewrite <- Hr.
        apply (replace_preserves
                 (fun d => String.eqb (s_userId (snd d)) userId
                           && String.eqb (s_dateKey (snd d)) dateKey)).
        -- exact Hids.
        -- exact Hentry.
        -- intros x Hx Hp Hx'. unfold Spec.sessionsOf in Hx'.
           apply List.filter_In in Hx' as [_ Hx'].
           apply andb_true_iff in Hp as [Hu Hd], Hx' as [Hu' Hd'].
           apply String.eqb_eq in Hu, Hd, Hu', Hd'.
           unfold Spec.isEntryOf in Hentry.
           rewrite <- Hu', <- Hd', Hu, Hd, !String.eqb_refl in Hentry.
           discriminate.
        -- intros x Hx Hp Heq. apply Hnew. left.
           assert (Hin : In x (Spec.sessionsOf userId dateKey
                                 (attendanceSessions db)))
             by (apply List.filter_In; now split).
           rewrite Hr in Hin. destruct Hin as [<- | []]. now symmetry.
Qed.

(** The sessions of the keys the loop does not visit stay as they were,
    when no new id is one of theirs. *)
Lemma loop_unvisited (settings : BufferSettings)
    (userMap : gmap string UserProfile) (all : AdminDashboard.Grouped) :
  forall (grouped : AdminDashboard.Grouped) (refs : list DocId) (db : Db),
    (forall entry, In entry grouped -> In entry all) ->
    List.NoDup (map fst (attendanceSessions db)) ->
    (forall r x, In r refs -> In x (attendanceSessions db) ->
                 Spec.unvisited all x = true -> fst x <> r) ->
    List.filter (Spec.unvisited all)
      (attendanceSessions
         (AdminDashboard.recomputeLoop settings userMap grouped refs db))
    = List.filter (Spec.unvisited all) (attendanceSessions db).
Proof.
  induction grouped as [|entry rest IH]; intros refs db Hsub Hids Hfresh;
    [now destruct refs|].
  destruct refs as [|r0 refs]; [reflexivity|].
  cbn [AdminDashboard.recomputeLoop].
  assert (Hvisited : forall x,
             String.eqb (s_userId (snd x)) (AdminDashboard.keyUserId (fst entry))
             && String.eqb (s_dateKey (snd x))
                           (AdminDashboard.keyDateKey (fst entry)) = true ->
             Spec.unvisited all x = false).
  { intros x Hx. unfold Spec.unvisited.
    apply negb_false_iff, existsb_exists. exists entry.
    split; [apply Hsub, in_eq|].
    apply andb_true_iff in Hx as [Hu Hd].
    apply String.eqb_eq in Hu, Hd.
    unfold Spec.isEntryOf. now rewrite Hu, Hd, !String.eqb_refl. }
  assert (Hstep :
            List.filter (Spec.unvisited all)
              (attendanceSessions
                 (AdminDashboard.recomputeKey settings userMap entry r0 db))
            = List.filter (Spec.unvisited all) (attendanceSessions db)).
  { apply (replace_preserves (Spec.unvisited all)).
    - exact Hids.
    - apply Hvisited. cbn [snd]. now rewrite !String.eqb_refl.
    - intros x Hx Hp Hx'. unfold Spec.sessionsOf in Hx'.
      apply List.filter_In in Hx' as [_ Hx'].
      rewrite (Hvisited x Hx') in Hp. discriminate.
    - intros x Hx Hp. apply Hfresh; [apply in_eq | exact Hx | exact Hp]. }
  rewrite <- Hstep. apply IH.
  - intros e He. apply Hsub. now right.
  - apply replace_keeps_ids_unique. exact Hids.
  - intros r x Hr Hx Hp.
    assert (Hin : In x (List.filter (Spec.unvisited all)
                          (attendanceSessions
                             (AdminDashboard.recomputeKey settings userMap
                                                          entry r0 db))))
      by (apply List.filter_In; now split).
    rewrite Hstep in Hin. apply List.filter_In in Hin as [Hin _].
    apply Hfresh; [now right | exact Hin | exact Hp].
Qed.

Lemma lastSession_of_visited (settings : BufferSettings)
    (userMap : gmap string UserProfile) (userId dateKey : string)
    (grouped : AdminDashboard.Grouped) :
  forall before,
    (before <> None
     \/ exists entry, In entry grouped
                      /\ Spec.isEntryOf userId dateKey entry = true) ->
    exists s, Spec.lastSession settings userMap userId dateKey grouped before
              = Some s.
Proof.
  induction grouped as [|entry rest IH]; intros before Hsome.
  - destruct Hsome as [Hb | (e & [] & _)].
    destruct before as [s|]; [now exists s | contradiction].
  - unfold Spec.lastSession. cbn [fold_left].
    apply IH.
    destruct (Spec.isEntryOf userId dateKey entry) eqn:Hentry;
      [left; discriminate|].
    destruct Hsome as [Hb | (e & [<- | He] & Hkey)].
    + now left.
    + congruence.
    + right. now exists e.
Qed.

(** Every visited key holds one session after the loop, the last one built
    for it. *)
Lemma loop_visited_sessions (settings : BufferSettings)
    (userMap : gmap string UserProfile) (grouped : AdminDashboard.Grouped)
    (refs : list DocId) (db : Db)
    (entry : string * list AdminDashboard.GroupedLog) :
  List.NoDup (map fst (attendanceSessions db)) ->
  List.NoDup refs ->
  (length grouped <= length refs)%nat ->
  In entry grouped ->
  let userId := AdminDashboard.keyUserId (fst entry) in
  let dateKey := AdminDashboard.keyDateKey (fst entry) in
  exists s,
    Spec.lastSession settings userMap userId dateKey grouped None = Some s
    /\ map snd
         (Spec.sessionsOf userId dateKey
            (attendanceSessions
               (AdminDashboard.recomputeLoop settings userMap grouped refs db)))
       = [s].
Proof.
  intros Hids Hrefs Hlen Hin u d.
  destruct (lastSession_of_visited settings userMap u d grouped None)
    as [s Hs].
  { right. exists entry. split; [exact Hin|].
    unfold Spec.isEntryOf. subst u d. now rewrite !String.eqb_refl. }
  exists s. split; [exact Hs|].
  eapply loop_key_sessions; try eassumption. discriminate.
Qed.

(** C6. Idempotence.  Running the aggregator twice over unchanged logs,
    settings and users leaves the same session fields under the key as
    running it once: the session the second run builds is the session the
    first built, it is again the only one of its key, and the logs, the
    sites and the settings are untouched.  The sessions of other keys are
    untouched as well, the ids of the collection being distinct and the id
    of the second run new to it.  For [rebuildSessionsForDay]; and, with
    distinct new ids, for [recomputeSessionsForRange] and every key it
    visits. *)
Theorem aggregation_is_idempotent (db : Db) :
  (forall (u dateKey : string) (profile : UserProfile) (ref1 ref2 : DocId),
      let auth := {| ScannerPage.user := Some u;
                     ScannerPage.profile := Some profile |} in
      let db1 := ScannerPage.rebuildSessionsForDay auth ref1 dateKey db in
      let db2 := ScannerPage.rebuildSessionsForDay auth ref2 dateKey db1 in
      ScannerPage.daySession db1 u profile dateKey
      = ScannerPage.daySession db u profile dateKey
      /\ map snd (Spec.sessionsOf u dateKey (attendanceSessions db1))
         = [ScannerPage.daySession db u profile dateKey]
      /\ map snd (Spec.sessionsOf u dateKey (attendanceSessions db2))
         = map snd (Spec.sessionsOf u dateKey (attendanceSessions db1))
      /\ attendance db2 = attendance db1
      /\ sites db2 = sites db1
      /\ settingsGlobal db2 = settingsGlobal db1
      /\ (Spec.distinct (map fst (attendanceSessions db)) = true ->
          Spec.allFresh [ref2] (attendanceSessions db1) = true ->
          Spec.sessionsElsewhere u dateKey (attendanceSessions db2)
          = Spec.sessionsElsewhere u dateKey (attendanceSessions db1)))
  /\ (forall (startDate endDate : Z) (users : list UserProfile)
             (refs1 refs2 : list DocId),
         let grouped :=
           AdminDashboard.groupLogs
             (AdminDashboard.logsQuery db startDate endDate) in
         let db1 :=
           AdminDashboard.recomputeSessionsForRange startDate endDate users
                                                    refs1 db in
         let db2 :=
           AdminDashboard.recomputeSessionsForRange startDate endDate users
                                                    refs2 db1 in
         attendance db2 = attendance db1
         /\ sites db2 = sites db1
         /\ settingsGlobal db2 = settingsGlobal db1
         /\ (Spec.distinct (map fst (attendanceSessions db)) = true ->
             Spec.distinct refs1 = true ->
             Spec.distinct refs2 = true ->
             (length grouped <= length refs1)%nat ->
             (length grouped <= length refs2)%nat ->
             (forall entry, In entry grouped ->
                let userId := AdminDashboard.keyUserId (fst entry) in
                let dateKey := AdminDashboard.keyDateKey (fst entry) in
                exists s,
                  map snd (Spec.sessionsOf userId dateKey
                             (attendanceSessions db1))
                  = [s]
                  /\ map snd (Spec.sessionsOf userId dateKey
                                (attendanceSessions db2))
                     = [s])
             /\ (Spec.allFresh refs2 (attendanceSessions db1) = true ->
                 List.filter (Spec.unvisited grouped) (attendanceSessions db2)
                 = List.filter (Spec.unvisited grouped)
                               (attendanceSessions db1)))).
Proof.
  split.
  - intros u dateKey profile ref1 ref2 auth db1 db2.
    assert (Hone : forall ref d,
               Spec.sessionsOf u dateKey
                 (attendanceSessions
                    (ScannerPage.rebuildSessionsForDay auth ref dateKey d))
               = [(ref, ScannerPage.daySession d u profile dateKey)])
      by (intros ref d;
          apply (replace_leaves_one u dateKey ref
                   (ScannerPage.daySession d u profile dateKey));
          reflexivity).
    split; [reflexivity|]. subst db2 db1. rewrite !Hone.
    repeat split.
    intros Hids Hfresh. apply distinct_NoDup in Hids.
    apply (replace_preserves
             (fun d => negb (String.eqb (s_userId (snd d)) u
                             && String.eqb (s_dateKey (snd d)) dateKey))).
    + apply replace_keeps_ids_unique. exact Hids.
    + cbn [snd]. change (s_userId (ScannerPage.daySession _ u profile dateKey))
        with u.
      change (s_dateKey (ScannerPage.daySession _ u profile dateKey))
        with dateKey.
      now rewrite !String.eqb_refl.
    + intros x _ Hp Hx. unfold Spec.sessionsOf in Hx.
      apply List.filter_In in Hx as [_ Hx]. rewrite Hx in Hp. discriminate.
    + intros x Hx _. apply (allFresh_other_id [ref2] _ ref2 x Hfresh);
        [apply in_eq | exact Hx].
  - intros startDate endDate users refs1 refs2 grouped db1 db2.
    pose proof (loop_rest_unchanged
                  (AdminDashboard.getBufferSettings db)
                  (AdminDashboard.userMapOf users) grouped refs1 db)
      as (Hlogs & Hsites & Hsettings).
    fold grouped in Hlogs, Hsites, Hsettings.
    change (AdminDashboard.recomputeLoop _ _ grouped refs1 db) with db1
      in Hlogs, Hsites, Hsettings.
    assert (Hrun2 : db2 = AdminDashboard.recomputeLoop
                            (AdminDashboard.getBufferSettings db)
                            (AdminDashboard.userMapOf users) grouped refs2 db1).
    { subst db2. unfold AdminDashboard.recomputeSessionsForRange,
        AdminDashboard.getBufferSettings, AdminDashboard.logsQuery.
      rewrite Hlogs, Hsettings. reflexivity. }
    pose proof (loop_rest_unchanged
                  (AdminDashboard.getBufferSettings db)
                  (AdminDashboard.userMapOf users) grouped refs2 db1)
      as (Hlogs2 & Hsites2 & Hsettings2).
    rewrite <- Hrun2 in Hlogs2, Hsites2, Hsettings2.
    repeat (split; [assumption|]).
    intros Hids Hd1 Hd2 Hl1 Hl2.
    apply distinct_NoDup in Hids, Hd1, Hd2.
    assert (Hids1 : List.NoDup (map fst (attendanceSessions db1)))
      by (apply loop_keeps_ids_unique; exact Hids).
    split.
    + intros entry Hentry u d.
      destruct (loop_visited_sessions
                  (AdminDashboard.getBufferSettings db)
                  (AdminDashboard.userMapOf users) grouped refs1 db entry
                  Hids Hd1 Hl1 Hentry) as (s & Hs & Hfirst).
      destruct (loop_visited_sessions
                  (AdminDashboard.getBufferSettings db)
                  (AdminDashboard.userMapOf users) grouped refs2 db1 entry
                  Hids1 Hd2 Hl2 Hentry) as (s2 & Hs2 & Hsecond).
      exists s. split; [exact Hfirst|].
      rewrite Hrun2. fold u d in Hs, Hs2, Hsecond.
      rewrite Hs in Hs2. injection Hs2 as <-. exact Hsecond.
    + intro Hfresh. rewrite Hrun2.
      apply loop_unvisited; [auto | exact Hids1 |].
      intros r x Hr Hx _. exact (allFresh_other_id refs2 _ r x Hfresh Hr Hx).
Qed.

(** After a whole recompute, with distinct new ids, every key the loop
    visited holds exactly one session document. *)
Lemma recompute_leaves_one_session (db : Db)
    (startDate endDate : Z) (users : list UserProfile) (refs : list DocId) :
  let grouped :=
    AdminDashboard.groupLogs (AdminDashboard.logsQuery db startDate endDate) in
  Spec.distinct (map fst (attendanceSessions db)) = true ->
  Spec.distinct refs = true ->
  (length grouped <= length refs)%nat ->
  forall entry, In entry grouped ->
    length
      (Spec.sessionsOf (AdminDashboard.keyUserId (fst entry))
                       (AdminDashboard.keyDateKey (fst entry))
         (attendanceSessions
            (AdminDashboard.recomputeSessionsForRange startDate endDate users
                                                      refs db)))
    = 1%nat.
Proof.
  intros grouped Hids Hrefs Hlen entry Hentry.
  apply distinct_NoDup in Hids, Hrefs.
  destruct (loop_visited_sessions
              (AdminDashboard.getBufferSettings db)
              (AdminDashboard.userMapOf users) grouped refs db entry
              Hids Hrefs Hlen Hentry) as (s & _ & Hone).
  apply (f_equal (@length _)) in Hone. rewrite length_map in Hone.
  exact Hone.
Qed.

(** C1. One session per key.  A run of [rebuildSessionsForDay] for a signed-in
    user and a day, and a round of the second loop of
    [recomputeSessionsForRange] for a key, each change the session
    collection by one commit of one batch, made of a delete for every
    session document of the key and of the new document; after it the
    collection holds exactly one document of the key, the new one, however
    many it held before.  After a whole run of [recomputeSessionsForRange],
    the ids of the collection and the new ids being distinct, every key it
    visited holds exactly one document. *)
Theorem one_session_per_key_after_run (db : Db) :
  (forall (sessionRef : DocId) (u dateKey : string) (profile : UserProfile),
      let auth := {| ScannerPage.user := Some u;
                     ScannerPage.profile := Some profile |} in
      let session := ScannerPage.daySession db u profile dateKey in
      let db' := ScannerPage.rebuildSessionsForDay auth sessionRef dateKey db in
      attendanceSessions db'
      = commit (map (fun d => Delete (fst d))
                    (Spec.sessionsOf u dateKey (attendanceSessions db))
                ++ [SetDoc sessionRef session])
               (attendanceSessions db)
      /\ Spec.sessionsOf u dateKey (attendanceSessions db')
         = [(sessionRef, session)])
  /\ (forall (sessionRef : DocId) (settings : BufferSettings)
             (userMap : gmap string UserProfile)
             (entry : string * list AdminDashboard.GroupedLog),
         let userId := AdminDashboard.keyUserId (fst entry) in
         let dateKey := AdminDashboard.keyDateKey (fst entry) in
         let session := AdminDashboard.keySession settings userMap entry in
         let db' :=
           AdminDashboard.recomputeKey settings userMap entry sessionRef db in
         attendanceSessions db'
         = commit (map (fun d => Delete (fst d))
                       (Spec.sessionsOf userId dateKey (attendanceSessions db))
                   ++ [SetDoc sessionRef session])
                  (attendanceSessions db)
         /\ Spec.sessionsOf userId dateKey (attendanceSessions db')
            = [(sessionRef, session)])
  /\ (forall (startDate endDate : Z) (users : list UserProfile)
             (refs : list DocId),
         let grouped :=
           AdminDashboard.groupLogs
             (AdminDashboard.logsQuery db startDate endDate) in
         Spec.distinct (map fst (attendanceSessions db)) = true ->
         Spec.distinct refs = true ->
         (length grouped <= length refs)%nat ->
         forall entry, In entry grouped ->
           length
             (Spec.sessionsOf (AdminDashboard.keyUserId (fst entry))
                              (AdminDashboard.keyDateKey (fst entry))
                (attendanceSessions
                   (AdminDashboard.recomputeSessionsForRange
                      startDate endDate users refs db)))
           = 1%nat).
Proof.
  split; [|split].
  - intros sessionRef u d p auth session db'. subst db'.
    split; [reflexivity|].
    apply (replace_leaves_one u d sessionRef session); reflexivity.
  - intros sessionRef settings userMap entry u d session db'. subst db'.
    split; [reflexivity|].
    apply (replace_leaves_one u d sessionRef session); reflexivity.
  - intros startDate endDate users refs. cbv zeta.
    apply recompute_leaves_one_session.
Qed.

End LoopFacts.

Section LoopInstances.
Import Firestore Types.

Lemma idempotence_witness :
  map snd
    (Spec.sessionsOf "u1" "2024-01-01"
       (attendanceSessions
          (ScannerPage.rebuildSessionsForDay (H := Demo.host) Demo.amyAuth
             "new-2" "2024-01-01"
             (ScannerPage.rebuildSessionsForDay (H := Demo.host) Demo.amyAuth
                "new-1" "2024-01-01" Demo.store))))
  = [ScannerPage.daySession (H := Demo.host) Demo.store "u1" Demo.amy
                            "2024-01-01"]
  /\ Spec.sessionsElsewhere "u1" "2024-01-01"
       (attendanceSessions
          (ScannerPage.rebuildSessionsForDay (H := Demo.host) Demo.amyAuth
             "new-2" "2024-01-01"
             (ScannerPage.rebuildSessionsForDay (H := Demo.host) Demo.amyAuth
                "new-1" "2024-01-01" Demo.store)))
     = Spec.sessionsElsewhere "u1" "2024-01-01"
         (attendanceSessions
            (ScannerPage.rebuildSessionsForDay (H := Demo.host) Demo.amyAuth
               "new-1" "2024-01-01" Demo.store)).
Proof.
  destruct (proj1 (aggregation_is_idempotent (H := Demo.host) Demo.store)
              "u1"%string "2024-01-01"%string Demo.amy
              "new-1"%string "new-2"%string)
    as (_ & Hfirst & Hsecond & _ & _ & _ & Helsewhere).
  split; [etransitivity; [exact Hsecond | exact Hfirst]|].
  apply Helsewhere; vm_compute; reflexivity.
Defined.

Lemma recompute_one_session_witness :
  length
    (Spec.sessionsOf "u1" "2024-01-01"
       (attendanceSessions
          (AdminDashboard.recomputeSessionsForRange (H := Demo.host)
             Demo.midnight (Demo.clock 23 59) [Demo.amy] ["new-1"%string]
             Demo.store)))
  = 1%nat.
Proof.
  apply (proj2 (proj2 (one_session_per_key_after_run (H := Demo.host)
                         Demo.store))
           Demo.midnight (Demo.clock 23 59) [Demo.amy]
           ["new-1"%string]
           ltac:(vm_compute; reflexivity) ltac:(vm_compute; reflexivity)
           ltac:(vm_compute; lia)
           ("u1|2024-01-01"%string,
            [ {| AdminDashboard.g_scanType := Some CheckIn;
                 AdminDashboard.g_scanTime := Demo.clock 8 0;
                 AdminDashboard.g_userId := "u1";
                 AdminDashboard.g_userEmail := "amy@example.com";
                 AdminDashboard.g_siteId := "site-a";
                 AdminDashboard.g_siteName := "Depot A";
                 AdminDashboard.g_dateKey := "2024-01-01" |};
              {| AdminDashboard.g_scanType := Some CheckOut;
                 AdminDashboard.g_scanTime := Demo.clock 18 0;
                 AdminDashboard.g_userId := "u1";
                 AdminDashboard.g_userEmail := "amy@example.com";
                 AdminDashboard.g_siteId := "site-a";
                 AdminDashboard.g_siteName := "Depot A";
                 AdminDashboard.g_dateKey := "2024-01-01" |} ])).
  vm_compute. left. reflexivity.
Defined.

End LoopInstances.

(** ** The buffer settings *)

Section SettingsClaims.
Import Firestore Types.
Open Scope Q_scope.

(** C9 (as amended). Both copies of [getBufferSettings] return, for each of
    the four fields, the stored value when [settings/global] exists and
    holds a number other than NaN under that field, whatever its sign and
    whether whole or not, and the default (late 5, early-checkout 5, OT-early
    15, OT-late 60) otherwise; they return a value for every content of the
    document.  When every number stored is a non-negative whole number, so
    are the four values returned. *)
Theorem buffer_settings_read (db : Db) :
  let expected :=
    {| lateBufferMinutes :=
         default 5 (Spec.storedNumber db "lateBufferMinutes");
       earlyCheckoutBufferMinutes :=
         default 5 (Spec.storedNumber db "earlyCheckoutBufferMinutes");
       otEarlyBufferMinutes :=
         default 15 (Spec.storedNumber db "otEarlyBufferMinutes");
       otLateBufferMinutes :=
         default 60 (Spec.storedNumber db "otLateBufferMinutes") |} in
  ScannerPage.getBufferSettings db = expected
  /\ AdminDashboard.getBufferSettings db = expected
  /\ ((forall field q, Spec.storedNumber db field = Some q ->
                       Spec.isMinuteCount q = true) ->
      Spec.allMinuteCounts expected = true).
Proof.
  assert (Hfield : forall field fallback,
             ScannerPage.normalize
               (match settingsGlobal db with Some d => d | None => ∅ end
                  !! field) fallback
             = default fallback (Spec.storedNumber db field)).
  { intros field fallback. unfold Spec.storedNumber.
    destruct (settingsGlobal db) as [data|]; cbn.
    - destruct (data !! field) as [[]|]; reflexivity.
    - rewrite lookup_empty. reflexivity. }
  split; [|split].
  - unfold ScannerPage.getBufferSettings. rewrite !Hfield. reflexivity.
  - unfold AdminDashboard.getBufferSettings.
    change AdminDashboard.normalize with ScannerPage.normalize.
    rewrite !Hfield. reflexivity.
  - intro Hstored. unfold Spec.allMinuteCounts.
    cbn [lateBufferMinutes earlyCheckoutBufferMinutes otEarlyBufferMinutes
         otLateBufferMinutes].
    assert (Hok : forall field fallback,
               Spec.isMinuteCount fallback = true ->
               Spec.isMinuteCount
                 (default fallback (Spec.storedNumber db field)) = true).
    { intros field fallback Hfb.
      destruct (Spec.storedNumber db field) as [q|] eqn:Hq; cbn.
      - exact (Hstored field q Hq).
      - exact Hfb. }
    rewrite !Hok by reflexivity. reflexivity.
Qed.

Lemma buffer_settings_witness :
  ScannerPage.getBufferSettings Demo.tidyStore
  = {| lateBufferMinutes := 10;
       earlyCheckoutBufferMinutes := 5;
       otEarlyBufferMinutes := 15;
       otLateBufferMinutes := 60 |}
  /\ Spec.allMinuteCounts (ScannerPage.getBufferSettings Demo.tidyStore) = true.
Proof.
  split; [vm_compute; reflexivity|].
  destruct (buffer_settings_read Demo.tidyStore) as (-> & _ & Hcounts).
  apply Hcounts. intros field q.
  unfold Spec.storedNumber, Demo.tidyStore, Demo.dbWith, Demo.tidySettings.
  cbn [settingsGlobal].
  destruct (decide ("lateBufferMinutes"%string = field)) as [<- | Hne].
  - rewrite lookup_insert_eq. intros [= <-]. reflexivity.
  - rewrite lookup_insert_ne, lookup_empty by exact Hne. discriminate.
Defined.

(** C9 as stated fails on the stored values: 2.5 and -3 are returned as
    they are, neither of them a non-negative whole number of minutes (the
    text and the missing field give the defaults 15 and 60). *)
Lemma buffers_need_not_be_minute_counts :
  ScannerPage.getBufferSettings Demo.oddStore
  = {| lateBufferMinutes := 5 # 2;
       earlyCheckoutBufferMinutes := -3;
       otEarlyBufferMinutes := 15;
       otLateBufferMinutes := 60 |}
  /\ AdminDashboard.getBufferSettings Demo.oddStore
     = ScannerPage.getBufferSettings Demo.oddStore
  /\ Spec.isMinuteCount (5 # 2) = false
  /\ Spec.isMinuteCount (-3) = false.
Proof. repeat split; vm_compute; reflexivity. Qed.

End SettingsClaims.

(** ** The kind of a scan *)

Section ScanKindClaims.
Import Firestore Types.

Lemma find_head_filter {A} (p : A -> bool) (l : list A) :
  List.find p l = head (List.filter p l).
Proof.
  induction l as [|x l IH]; cbn [List.find List.filter]; [reflexivity|].
  destruct (p x); [reflexivity | exact IH].
Qed.

(** Cutting a list after [n] elements does not change its first element
    satisfying [p] when fewer than [n] of its elements fail [p]. *)
Lemma head_filter_firstn {A} (p : A -> bool) (l : list A) :
  forall n : nat,
    (length (List.filter (fun x => negb (p x)) l) < n)%nat ->
    head (List.filter p (firstn n l)) = head (List.filter p l).
Proof.
  induction l as [|x l IH]; intros n Hn; [now destruct n|].
  destruct n as [|n]; [lia|].
  cbn [firstn List.filter] in *.
  destruct (p x); cbn [negb head length] in *; [reflexivity|].
  apply IH. lia.
Qed.

Lemma count_insert {A} (le : A -> A -> bool) (p : A -> bool) (x : A)
    (l : list A) :
  length (List.filter p (Js.insert le x l))
  = length (List.filter p (x :: l)).
Proof.
  induction l as [|y l IH]; cbn [Js.insert]; [reflexivity|].
  destruct (le x y); [reflexivity|].
  cbn [List.filter] in *. destruct (p y), (p x); cbn [length] in *; lia.
Qed.

Lemma count_sort {A} (le : A -> A -> bool) (p : A -> bool) (l : list A) :
  length (List.filter p (Js.sort le l)) = length (List.filter p l).
Proof.
  induction l as [|x l IH]; cbn [Js.sort]; [reflexivity|].
  rewrite count_insert. cbn [List.filter].
  destruct (p x); cbn [length]; lia.
Qed.

Lemma filter_map_swap {A B} (f : A -> B) (p : B -> bool) (l : list A) :
  List.filter p (map f l) = map f (List.filter (fun x => p (f x)) l).
Proof.
  induction l as [|x l IH]; cbn [map List.filter]; [reflexivity|].
  destruct (p (f x)); cbn [map]; now rewrite IH.
Qed.

Lemma nextScanType_toggle (db : Db) (u site dateKey : string) :
  ScannerPage.nextScanType (ScannerPage.dailyQuery db u site dateKey)
  = Spec.toggle (Spec.mostRecentValidOfTen db u site dateKey).
Proof.
  unfold ScannerPage.nextScanType, Spec.mostRecentValidOfTen, Spec.toggle.
  rewrite find_head_filter.
  change (ScannerPage.dailyQuery db u site dateKey)
    with (firstn 10 (orderByDesc scanTime (Spec.matchingLogs db u site dateKey))).
  destruct (head _) as [l|]; cbn [option_map]; [|reflexivity].
  unfold Spec.isCheckOut. now destruct (scanType l) as [[]|].
Qed.

End ScanKindClaims.

(** ** The scan handler *)

Section ScanClaims.
Context `{Host}.
Import Firestore Types.
Open Scope Q_scope.

(** What an attempt that runs to its end adds to the log. *)
Lemma handleScan_one_event (o : ScannerPage.Outcomes)
    (rawValue : string) (db : Db) (u : string) (profile : UserProfile) :
  let auth := {| ScannerPage.user := Some u;
                 ScannerPage.profile := Some profile |} in
  ScannerPage.processing o = false ->
  (forall a, ScannerPage.timedOut o a = false) ->
  ScannerPage.logFailureError o = None ->
  ScannerPage.catchLogFails o = false ->
  exists event,
    attendance (ScannerPage.db_after
                  (ScannerPage.handleScan o auth rawValue db))
    = attendance db ++ [(ScannerPage.logRef o, event)]
    /\ Spec.ScanEvent o u profile rawValue db event
    /\ (status event = Success <-> Spec.AllPass o rawValue db).
Proof.
  intros auth Hfree Hontime Hlog Hcatch.
  unfold ScannerPage.handleScan. cbn [ScannerPage.user ScannerPage.profile auth].
  rewrite Hfree.
  unfold ScannerPage.failWith, ScannerPage.catchBlock.
  rewrite Hlog, Hcatch, !Hontime.
  fold (Spec.token rawValue).
  destruct (String.eqb (Spec.token rawValue) "") eqn:Htoken.
  { apply String.eqb_eq in Htoken. eexists. split; [reflexivity|].
    split; [now constructor|].
    split; [discriminate|].
    intros (site & coords & ((Hne & _) & _) & _). contradiction. }
  apply String.eqb_neq in Htoken.
  destruct (ScannerPage.siteLookupError o) as [err|] eqn:Hlookup.
  { eexists. split; [reflexivity|]. split; [now constructor|].
    split; [discriminate|].
    intros (site & coords & ((_ & Hnone & _) & _) & _). congruence. }
  destruct (ScannerPage.locationQuery db (Spec.token rawValue))
    as [site|] eqn:Hsite.
  2:{ eexists. split; [reflexivity|]. split; [now constructor|].
      split; [discriminate|].
      intros (site & coords & ((_ & _ & Hsome) & _) & _). congruence. }
  assert (Hfound : Spec.Found o rawValue db site) by (repeat split; assumption).
  destruct (ScannerPage.position o) as [err|coords] eqn:Hpos.
  { eexists. split; [reflexivity|].
    split; [now apply Spec.NoPosition|].
    split; [discriminate|].
    intros (site' & coords' & (_ & Hpos' & _) & _). congruence. }
  fold (Spec.distanceTo site coords).
  destruct (Js.Qgtb (Spec.distanceTo site coords)
                    (site_allowedRadiusMeters (snd site))) eqn:Hfar.
  { apply Qgtb_lt in Hfar. eexists. split; [reflexivity|].
    split; [now apply Spec.OutsideRadius|].
    split; [discriminate|].
    intros (site' & coords' & ((_ & _ & Hsite') & Hpos' & Hnear) & _).
    rewrite Hsite in Hsite'. injection Hsite' as <-.
    rewrite Hpos in Hpos'. injection Hpos' as <-. lra. }
  assert (Hinside : Spec.Inside o rawValue db site coords).
  { repeat split; try assumption.
    apply Qle_bool_iff. unfold Js.Qgtb in Hfar.
    now apply negb_false_iff in Hfar. }
  destruct (ScannerPage.dailyQueryError o) as [err|] eqn:Hdaily.
  { eexists. split; [reflexivity|].
    split; [now apply (Spec.DailyQueryFailed o u profile rawValue db
                         site coords)|].
    split; [discriminate|].
    intros (site' & coords' & _ & Hnone & _). congruence. }
  destruct (ScannerPage.addDocError o) as [err|] eqn:Hadd.
  { eexists. split; [reflexivity|].
    split; [now apply (Spec.WriteFailed o u profile rawValue db
                         site coords)|].
    split; [discriminate|].
    intros (site' & coords' & _ & _ & Hnone). congruence. }
  eexists. split.
  + destruct (ScannerPage.rebuildFails o); reflexivity.
  + split; [now apply Spec.Accepted|].
    split; [|reflexivity].
    intros _. exists site, coords.
    split; [exact Hinside | split; assumption].
Qed.

(** C8 (as amended). One event per attempt.  An invocation of [handleScan]
    by a signed-in user with a profile, while no other scan is being
    processed, that the scan timeout does not cut off and whose failure log
    is written without error, adds exactly one document to the attendance
    log: the success event when every check passes and the daily query and
    the write succeed, and otherwise the fail event of the first step that
    failed ([Spec.ScanEvent]).  That fail event carries no site while the
    site is not found, and the site from then on; it carries the distance
    and the coordinates only when the step that failed is the radius
    check.  A failure of the daily query or of the write is recorded with
    the site alone, although the position and the distance are known by
    then: the [catch] block is given the site only.  No step is retried.
    Without a user or a profile, or while another scan is being processed,
    the invocation changes nothing. *)
Theorem scan_writes_one_event (o : ScannerPage.Outcomes)
    (rawValue : string) (db : Db) :
  (forall (u : string) (profile : UserProfile),
      let auth := {| ScannerPage.user := Some u;
                     ScannerPage.profile := Some profile |} in
      ScannerPage.processing o = false ->
      (forall a, ScannerPage.timedOut o a = false) ->
      ScannerPage.logFailureError o = None ->
      ScannerPage.catchLogFails o = false ->
      exists event,
        attendance (ScannerPage.db_after
                      (ScannerPage.handleScan o auth rawValue db))
        = attendance db ++ [(ScannerPage.logRef o, event)]
        /\ Spec.ScanEvent o u profile rawValue db event
        /\ (status event = Success
            <-> Spec.AllPass o rawValue db))
  /\ (forall auth : ScannerPage.Auth,
         ScannerPage.user auth = None
         \/ ScannerPage.profile auth = None
         \/ ScannerPage.processing o = true ->
         ScannerPage.db_after (ScannerPage.handleScan o auth rawValue db) = db).
Proof.
  split; [apply handleScan_one_event|].
  intros auth Hguard. unfold ScannerPage.handleScan.
  destruct (ScannerPage.user auth), (ScannerPage.profile auth);
    try reflexivity.
  destruct Hguard as [Hu | [Hp | Hbusy]]; try discriminate.
  now rewrite Hbusy.
Qed.

(** C7 (as amended). The kind computed for a scan is the toggle of the most
    recent non-deleted log among the ten latest successful logs of the user
    at the site on the day: check-in when none of the ten is non-deleted or
    the most recent non-deleted one is a check-out, check-out otherwise.
    When fewer than ten of the successful logs of the user at the site on
    the day are deleted, this is the toggle of the most recent non-deleted
    successful log of all; and after a last valid log that is a check-out,
    as after [check-in, check-out], the scan is a check-in.  A scan attempt
    that passes token normalization, site lookup, geolocation and the
    geofence check, and whose daily query and write succeed, writes a
    success event of that kind. *)
Theorem scan_kind_toggles_within_ten (db : Db) (u : string) :
  (forall site dateKey : string,
      let kind :=
        ScannerPage.nextScanType (ScannerPage.dailyQuery db u site dateKey) in
      kind = Spec.toggle (Spec.mostRecentValidOfTen db u site dateKey)
      /\ ((length (List.filter (fun d => negb (ScannerPage.notDeleted (snd d)))
                               (Spec.matchingLogs db u site dateKey)) < 10)%nat ->
          kind = Spec.expectedScanType db u site dateKey
          /\ forall l, Spec.mostRecentValid db u site dateKey = Some l ->
                       scanType l = Some CheckOut -> kind = CheckIn))
  /\ (forall (o : ScannerPage.Outcomes) (rawValue : string)
             (profile : UserProfile) (site : DocId * SiteItem)
             (coords : Q * Q),
         let auth := {| ScannerPage.user := Some u;
                        ScannerPage.profile := Some profile |} in
         ScannerPage.processing o = false ->
         (forall a, ScannerPage.timedOut o a = false) ->
         ScannerPage.logFailureError o = None ->
         ScannerPage.catchLogFails o = false ->
         Spec.Inside o rawValue db site coords ->
         ScannerPage.dailyQueryError o = None ->
         ScannerPage.addDocError o = None ->
         exists event,
           attendance (ScannerPage.db_after
                         (ScannerPage.handleScan o auth rawValue db))
           = attendance db ++ [(ScannerPage.logRef o, event)]
           /\ status event = Success
           /\ scanType event
              = Some (Spec.toggle
                        (Spec.mostRecentValidOfTen db u (fst site)
                           (Utils.getDateKey (ScannerPage.clientNow o))))).
Proof.
  split.
  - intros site dateKey kind. subst kind.
    split; [apply nextScanType_toggle|].
    intro Hfew.
    assert (Hsame : Spec.mostRecentValidOfTen db u site dateKey
                    = Spec.mostRecentValid db u site dateKey).
    { unfold Spec.mostRecentValidOfTen, Spec.mostRecentValid.
      rewrite <- firstn_map. apply head_filter_firstn.
      rewrite filter_map_swap, length_map. unfold orderByDesc.
      rewrite count_sort. exact Hfew. }
    rewrite nextScanType_toggle, Hsame. split; [reflexivity|].
    intros l -> Hout. unfold Spec.toggle, Spec.isCheckOut. now rewrite Hout.
  - intros o rawValue profile site coords auth Hfree Hontime Hlog Hcatch
           Hinside Hdaily Hadd.
    destruct (handleScan_one_event o rawValue db u profile
                Hfree Hontime Hlog Hcatch) as (event & Hafter & Hevent & Hpass).
    assert (Hstatus : status event = Success).
    { apply Hpass. exists site, coords.
      split; [exact Hinside | split; assumption]. }
    exists event. split; [exact Hafter|]. split; [exact Hstatus|].
    destruct Hevent as [ | | | | | | | site' coords' Hinside' _ _];
      try discriminate Hstatus.
    destruct Hinside as ((_ & _ & Hsite) & _).
    destruct Hinside' as ((_ & _ & Hsite') & _).
    rewrite Hsite in Hsite'. injection Hsite' as <-.
    cbn [scanType ScannerPage.successLog]. now rewrite nextScanType_toggle.
Qed.

End ScanClaims.

Section ScanInstances.
Import Firestore Types.

(** C7 as stated fails behind ten deleted logs: the most recent non-deleted
    successful log of the day is the check-in of 08:00, so the scan should
    be a check-out, but the ten latest logs are all deleted and the scan is
    classified check-in. *)
Lemma scan_kind_behind_ten_deleted :
  Spec.mostRecentValid Demo.maskedStore "u1" "site-a" "2024-01-01"
  = Some (Demo.scan (Demo.clock 8 0) (Some CheckIn) false)
  /\ Spec.expectedScanType Demo.maskedStore "u1" "site-a" "2024-01-01"
     = CheckOut
  /\ ScannerPage.nextScanType
       (ScannerPage.dailyQuery Demo.maskedStore "u1" "site-a" "2024-01-01")
     = CheckIn.
Proof. repeat split; vm_compute; reflexivity. Qed.

Lemma scan_kind_witness :
  ScannerPage.nextScanType
    (ScannerPage.dailyQuery Demo.store "u1" "site-a" "2024-01-01")
  = CheckIn.
Proof.
  destruct (proj1 (scan_kind_toggles_within_ten (H := Demo.host)
                     Demo.store "u1")
              "site-a"%string "2024-01-01"%string) as (_ & Hfew).
  destruct Hfew as (_ & Hafter); [vm_compute; lia|].
  apply (Hafter (Demo.scan (Demo.clock 18 0) (Some CheckOut) false));
    vm_compute; reflexivity.
Defined.

Lemma scan_event_witness :
  exists event,
    attendance
      (ScannerPage.db_after
         (ScannerPage.handleScan (H := Demo.host) Demo.smooth Demo.amyAuth
                                 "  Depot   A " Demo.store))
    = attendance Demo.store ++ [("log-new"%string, event)]
    /\ status event = Success.
Proof.
  destruct (proj1 (scan_writes_one_event (H := Demo.host) Demo.smooth
                     "  Depot   A " Demo.store)
              "u1"%string Demo.amy eq_refl (fun _ => eq_refl) eq_refl eq_refl)
    as (event & Hafter & _ & Hpass).
  exists event. split; [exact Hafter|].
  apply Hpass. exists Demo.depot, (3%Q, 101%Q).
  repeat split; try (vm_compute; reflexivity); vm_compute; discriminate.
Defined.

(** C8 as stated fails in five ways.  An invocation made while another
    scan is being processed, one made without a signed-in user, one the
    timeout cuts off during the site lookup, and one whose failure log
    cannot be written, each leave the database as it was: no event.  And
    when the daily query is rejected, the one event written carries the
    site but neither the distance nor the coordinates, although the
    position was fixed and the distance computed before the query. *)
Lemma scans_without_their_event_or_context :
  ScannerPage.db_after
    (ScannerPage.handleScan (H := Demo.host) Demo.busy Demo.amyAuth
                            "Depot A" Demo.store)
  = Demo.store
  /\ ScannerPage.db_after
       (ScannerPage.handleScan (H := Demo.host) Demo.smooth Demo.signedOut
                               "Depot A" Demo.store)
     = Demo.store
  /\ ScannerPage.db_after
       (ScannerPage.handleScan (H := Demo.host) Samples.cutOff Demo.amyAuth
                               "Depot A" Demo.store)
     = Demo.store
  /\ ScannerPage.db_after
       (ScannerPage.handleScan (H := Demo.host) Samples.unlogged Demo.amyAuth
                               "   " Demo.store)
     = Demo.store
  /\ ScannerPage.position Samples.queryDown = inr (3%Q, 101%Q)
  /\ map (fun d => (fst d, status (snd d), siteId (snd d),
                    distanceMeters (snd d), userLat (snd d),
                    userLng (snd d)))
         (skipn (length (attendance Demo.store))
            (attendance
               (ScannerPage.db_after
                  (ScannerPage.handleScan (H := Demo.host) Samples.queryDown
                     Demo.amyAuth "Depot A" Demo.store))))
     = [("log-new"%string, Fail, "site-a"%string, None, None, None)].
Proof. repeat split; reflexivity. Qed.

End ScanInstances.

(** ** The two aggregators against each other *)

Section AgreementFacts.
Context `{Host}.
Import Firestore Types.

Lemma reduce_map {A B} (g : A -> B) (f : A -> A -> A) (f' : B -> B -> B)
    (l : list A) :
  (forall a b, f' (g a) (g b) = g (f a b)) ->
  Js.reduce f' (map g l) = option_map g (Js.reduce f l).
Proof.
  intro Hfg. destruct l as [|x l]; [reflexivity|].
  cbn [map Js.reduce option_map]. f_equal.
  revert x. induction l as [|y l IH]; intro x; [reflexivity|].
  cbn [map fold_left]. rewrite Hfg. apply IH.
Qed.

(** A stable sort leaves a list that is in order as it is. *)
Lemma sort_in_order {A} (le : A -> A -> bool) (l : list A) :
  (fix ordered (l : list A) : bool :=
     match l with
     | [] => true
     | x :: rest =>
         match rest with [] => true | y :: _ => le x y end && ordered rest
     end) l = true ->
  Js.sort le l = l.
Proof.
  induction l as [|x l IH]; [reflexivity|].
  intro Hord. apply andb_true_iff in Hord as [Hhead Hrest].
  cbn [Js.sort]. rewrite (IH Hrest).
  destruct l as [|y l]; [reflexivity|].
  cbn [Js.insert]. now rewrite Hhead.
Qed.

Lemma grouped_in_order (logs : list AttendanceLog) :
  Spec.inScanOrder logs = true ->
  AdminDashboard.sortByScanTime (map Spec.asGrouped logs)
  = map Spec.asGrouped logs.
Proof.
  intro Hord. apply sort_in_order.
  induction logs as [|l logs IH]; [reflexivity|].
  cbn [Spec.inScanOrder] in Hord. apply andb_true_iff in Hord as [Hhead Hrest].
  cbn [map]. rewrite (IH Hrest), andb_true_r.
  destruct logs as [|l' logs]; [reflexivity|exact Hhead].
Qed.

Lemma grouped_of_kind (kind : ScanType) (logs : list AttendanceLog) :
  Spec.allTyped logs = true ->
  List.filter (AdminDashboard.hasScanType kind) (map Spec.asGrouped logs)
  = map Spec.asGrouped (List.filter (ScannerPage.hasScanType kind) logs).
Proof.
  intro Htyped. rewrite filter_map_swap. f_equal.
  induction logs as [|l logs IH]; [reflexivity|].
  cbn [Spec.allTyped forallb] in Htyped.
  apply andb_true_iff in Htyped as [Hl Hrest].
  cbn [List.filter]. rewrite (IH Hrest).
  unfold AdminDashboard.hasScanType, ScannerPage.hasScanType.
  cbn [Spec.asGrouped AdminDashboard.g_scanType].
  destruct (scanType l); [reflexivity | discriminate].
Qed.

Lemma endpoints_agree (logs : list AttendanceLog) :
  Spec.allTyped logs = true ->
  AdminDashboard.endpoints (map Spec.asGrouped logs)
  = ScannerPage.endpoints logs.
Proof.
  intro Htyped. unfold AdminDashboard.endpoints, ScannerPage.endpoints.
  rewrite !grouped_of_kind by exact Htyped.
  rewrite (reduce_map Spec.asGrouped
             (fun prev next =>
                if (toDate (scanTime prev) <=? toDate (scanTime next))%Z
                then prev else next)).
  2:{ intros a b. cbn [Spec.asGrouped AdminDashboard.g_scanTime].
      now destruct (_ <=? _)%Z. }
  rewrite (reduce_map Spec.asGrouped
             (fun prev next =>
                if (toDate (scanTime prev) >=? toDate (scanTime next))%Z
                then prev else next)).
  2:{ intros a b. cbn [Spec.asGrouped AdminDashboard.g_scanTime].
      now destruct (_ >=? _)%Z. }
  destruct (Js.reduce _ (List.filter (ScannerPage.hasScanType CheckIn) logs)),
    (Js.reduce _ (List.filter (ScannerPage.hasScanType CheckOut) logs));
    reflexivity.
Qed.

(** Where every log of the day carries its scan type, and the logs come in
    the order of their scan times (as both queries return them), the round
    of the second loop of [recomputeSessionsForRange] for the key of a known
    user builds the session [rebuildSessionsForDay] builds, field by
    field. *)
Theorem aggregators_agree_on_typed_logs (settings : BufferSettings)
    (userMap : gmap string UserProfile) (profile : UserProfile)
    (key dateKey : string) (logs : list AttendanceLog) :
  Spec.allTyped logs = true ->
  Spec.inScanOrder logs = true ->
  AdminDashboard.keyUserId key = uid profile ->
  AdminDashboard.keyDateKey key = dateKey ->
  userMap !! uid profile = Some profile ->
  AdminDashboard.keySession settings userMap (key, map Spec.asGrouped logs)
  = ScannerPage.sessionData (uid profile) profile dateKey
      (ScannerPage.aggregate profile settings logs).
Proof.
  intros Htyped Hord Hu Hd Hprofile.
  unfold AdminDashboard.keySession. cbn [fst snd].
  rewrite Hu, Hd, Hprofile, (grouped_in_order logs Hord).
  rewrite admin_aggregate_derive, scanner_aggregate_derive.
  rewrite (endpoints_agree logs Htyped).
  reflexivity.
Qed.

End AgreementFacts.

Section AgreementInstances.
Import Firestore Types.

Lemma aggregators_agree_witness :
  AdminDashboard.keySession (H := Demo.host)
    (AdminDashboard.getBufferSettings Demo.store)
    (AdminDashboard.userMapOf [Demo.amy])
    ("u1|2024-01-01"%string, map Spec.asGrouped (map snd Demo.fullDay))
  = ScannerPage.sessionData (H := Demo.host) (uid Demo.amy) Demo.amy
      "2024-01-01"
      (ScannerPage.aggregate (H := Demo.host) Demo.amy
         (AdminDashboard.getBufferSettings Demo.store)
         (map snd Demo.fullDay)).
Proof.
  apply (aggregators_agree_on_typed_logs (H := Demo.host));
    vm_compute; reflexivity.
Defined.

(** On the sample day, whose logs carry their types, the two runs leave the
    same documents. *)
Example runs_agree_on_sample_day :
  Demo.recomputed Demo.store = Demo.rebuilt Demo.store.
Proof. vm_compute. reflexivity. Qed.

(** C5 fails on a success log without scan type: the recompute reads it as
    a check-in (08:00 to 18:00, a complete day paid 90), the rebuild reads
    it as neither check-in nor check-out (no check-in, an incomplete day
    with pay withheld). *)
Lemma aggregators_disagree_on_untyped_log :
  map (fun d => (checkInTime (snd d), s_status (snd d), totalHours (snd d),
                 amountRM (snd d), abnormalReasons (snd d)))
      (Demo.rebuilt Demo.legacyStore)
  = [(None, Incomplete, None, None, ["Missing check-in"%string])]
  /\ map (fun d => (checkInTime (snd d), s_status (snd d), totalHours (snd d),
                    amountRM (snd d), abnormalReasons (snd d)))
         (Demo.recomputed Demo.legacyStore)
     = [(Some (Demo.clock 8 0), Complete, Some 10%Q, Some 90%Q, [])].
Proof. split; vm_compute; reflexivity. Qed.

End AgreementInstances.

(** * Further properties of the code *)

(** ** The endpoints of a session *)

Section ExtremeFacts.
Import Firestore Types.

Lemma fold_earliest {A} (key : A -> Z) (l : list A) (x : A) :
  let m := fold_left (fun prev next => if (key prev <=? key next)%Z
                                       then prev else next) l x in
  (m = x \/ In m l) /\ (key m <= key x)%Z
  /\ forall y, In y l -> (key m <= key y)%Z.
Proof.
  revert x. induction l as [|a l IH]; intro x; cbn [fold_left].
  - split; [now left|]. split; [lia|]. intros y [].
  - destruct (Z.leb_spec (key x) (key a)) as [Hle|Hlt].
    + destruct (IH x) as (Hin & Hx & Hall).
      split; [destruct Hin; [now left | right; now right]|].
      split; [exact Hx|].
      intros y [<-|Hy]; [lia | now apply Hall].
    + destruct (IH a) as (Hin & Ha & Hall).
      split; [right; destruct Hin as [->|Hin]; [now left | now right]|].
      split; [lia|].
      intros y [<-|Hy]; [exact Ha | now apply Hall].
Qed.

Lemma fold_latest {A} (key : A -> Z) (l : list A) (x : A) :
  let m := fold_left (fun prev next => if (key prev >=? key next)%Z
                                       then prev else next) l x in
  (m = x \/ In m l) /\ (key x <= key m)%Z
  /\ forall y, In y l -> (key y <= key m)%Z.
Proof.
  revert x. induction l as [|a l IH]; intro x; cbn [fold_left].
  - split; [now left|]. split; [lia|]. intros y [].
  - destruct (Z.geb_spec (key x) (key a)) as [Hle|Hlt].
    + destruct (IH x) as (Hin & Hx & Hall).
      split; [destruct Hin; [now left | right; now right]|].
      split; [exact Hx|].
      intros y [<-|Hy]; [lia | now apply Hall].
    + destruct (IH a) as (Hin & Ha & Hall).
      split; [right; destruct Hin as [->|Hin]; [now left | now right]|].
      split; [lia|].
      intros y [<-|Hy]; [exact Ha | now apply Hall].
Qed.

Lemma reduce_earliest {A} (time : A -> Z) (isKind : A -> bool)
    (logs : list A) :
  Props.EarliestOf time isKind logs
    (Js.reduce (fun prev next => if (time prev <=? time next)%Z
                                 then prev else next)
               (List.filter isKind logs)).
Proof.
  unfold Js.reduce, Props.EarliestOf.
  destruct (List.filter isKind logs) as [|x l] eqn:Hf.
  - intros l' Hl'. destruct (isKind l') eqn:Hk; [|reflexivity].
    assert (Hin : In l' (List.filter isKind logs))
      by (apply List.filter_In; now split).
    rewrite Hf in Hin. destruct Hin.
  - destruct (fold_earliest time l x) as (Hin & Hx & Hall).
    assert (Hm : In (fold_left (fun prev next =>
                                  if (time prev <=? time next)%Z
                                  then prev else next) l x)
                    (List.filter isKind logs)).
    { rewrite Hf. destruct Hin as [->|Hin]; [now left | now right]. }
    apply List.filter_In in Hm as [Hm Hk].
    split; [exact Hm|]. split; [exact Hk|].
    intros l' Hl' Hk'.
    assert (Hin' : In l' (x :: l))
      by (rewrite <- Hf; apply List.filter_In; now split).
    destruct Hin' as [<-|Hin']; [exact Hx | now apply Hall].
Qed.

Lemma reduce_latest {A} (time : A -> Z) (isKind : A -> bool)
    (logs : list A) :
  Props.LatestOf time isKind logs
    (Js.reduce (fun prev next => if (time prev >=? time next)%Z
                                 then prev else next)
               (List.filter isKind logs)).
Proof.
  unfold Js.reduce, Props.LatestOf.
  destruct (List.filter isKind logs) as [|x l] eqn:Hf.
  - intros l' Hl'. destruct (isKind l') eqn:Hk; [|reflexivity].
    assert (Hin : In l' (List.filter isKind logs))
      by (apply List.filter_In; now split).
    rewrite Hf in Hin. destruct Hin.
  - destruct (fold_latest time l x) as (Hin & Hx & Hall).
    assert (Hm : In (fold_left (fun prev next =>
                                  if (time prev >=? time next)%Z
                                  then prev else next) l x)
                    (List.filter isKind logs)).
    { rewrite Hf. destruct Hin as [->|Hin]; [now left | now right]. }
    apply List.filter_In in Hm as [Hm Hk].
    split; [exact Hm|]. split; [exact Hk|].
    intros l' Hl' Hk'.
    assert (Hin' : In l' (x :: l))
      by (rewrite <- Hf; apply List.filter_In; now split).
    destruct Hin' as [<-|Hin']; [exact Hx | now apply Hall].
Qed.

End ExtremeFacts.

Section ExtremeClaims.
Context `{Host}.
Import Firestore Types.

(** X2. The endpoints of a session are extreme.  In the session either
    aggregator builds from the logs of a key, the check-in time and the
    check-in site are those of one log: a check-in of the key that no other
    check-in of the key precedes; the check-out time and site are those of a
    check-out that no other check-out of the key follows; and an endpoint is
    missing only when the key has no log of the kind. *)
Theorem session_endpoints_are_extreme (settings : BufferSettings) :
  (forall (uid day : string) (profile : UserProfile)
          (logs : list AttendanceLog),
      let s := ScannerPage.sessionData uid profile day
                 (ScannerPage.aggregate profile settings logs) in
      exists firstIn lastOut : option AttendanceLog,
        Props.EarliestOf (fun l => toDate (scanTime l))
                         (ScannerPage.hasScanType CheckIn) logs firstIn
        /\ Props.LatestOf (fun l => toDate (scanTime l))
                          (ScannerPage.hasScanType CheckOut) logs lastOut
        /\ checkInTime s = option_map (fun l => toDate (scanTime l)) firstIn
        /\ siteInId s = option_map siteId firstIn
        /\ siteInName s = option_map siteName firstIn
        /\ checkOutTime s = option_map (fun l => toDate (scanTime l)) lastOut
        /\ siteOutId s = option_map siteId lastOut
        /\ siteOutName s = option_map siteName lastOut)
  /\ (forall (userItem : option UserProfile) (userId day : string)
             (logs : list AdminDashboard.GroupedLog),
         let s := AdminDashboard.sessionData userItem userId day logs
                    (AdminDashboard.aggregate userItem settings logs) in
         exists firstIn lastOut : option AdminDashboard.GroupedLog,
           Props.EarliestOf AdminDashboard.g_scanTime
                            (AdminDashboard.hasScanType CheckIn) logs firstIn
           /\ Props.LatestOf AdminDashboard.g_scanTime
                             (AdminDashboard.hasScanType CheckOut) logs lastOut
           /\ checkInTime s = option_map AdminDashboard.g_scanTime firstIn
           /\ siteInId s = option_map AdminDashboard.g_siteId firstIn
           /\ siteInName s = option_map AdminDashboard.g_siteName firstIn
           /\ checkOutTime s = option_map AdminDashboard.g_scanTime lastOut
           /\ siteOutId s = option_map AdminDashboard.g_siteId lastOut
           /\ siteOutName s = option_map AdminDashboard.g_siteName lastOut).
Proof.
  split.
  - intros uid day profile logs s.
    eexists _, _.
    split; [apply (reduce_earliest (fun l => toDate (scanTime l)))|].
    split; [apply (reduce_latest (fun l => toDate (scanTime l)))|].
    repeat split.
  - intros userItem userId day logs s.
    eexists _, _.
    split; [apply (reduce_earliest AdminDashboard.g_scanTime)|].
    split; [apply (reduce_latest AdminDashboard.g_scanTime)|].
    repeat split.
Qed.

End ExtremeClaims.

(** ** The aggregation, step by step, from the events

    The three statements below read the session off the events.  The
    endpoints are an earliest check-in and a latest check-out among the
    logs the aggregator is given; the steps are those of [Spec], which has
    a clock of its own ([Spec.minutesOfDay]).  The scan times are taken
    from 1982 on ([Props.modern]), where the clock of the model is the
    clock of the code. *)

Section EventClaims.
Context `{Host}.
Import Firestore Types.
Open Scope Q_scope.

(** C4. Total hours.  For either aggregator and logs scanned from 1982 on:
    with [checkIn] the time of an earliest check-in among the logs and
    [checkOut] the time of a latest check-out, [totalHoursRaw] is
    max(0, (checkOut - checkIn) in hours) when both exist; when the
    checkout minutes lie within [17:00 - earlyCheckoutBufferMinutes,
    17:00], (17:00 - checkout minutes) / 60 hours are added to it, and
    nothing otherwise; the [totalHours] stored in the session is that sum
    rounded to two decimals.  When the logs hold no check-in or no
    check-out, [totalHoursRaw] and the stored [totalHours] are null. *)
Theorem total_hours_from_the_events (settings : BufferSettings) :
  (forall (uid dateKey : string) (profile : UserProfile)
          (logs : list AttendanceLog),
      (forall l, In l logs -> Props.modern (toDate (scanTime l))) ->
      let a := ScannerPage.aggregate profile settings logs in
      let s := ScannerPage.sessionData uid profile dateKey a in
      exists firstIn lastOut : option AttendanceLog,
        Props.EarliestOf (fun l => toDate (scanTime l))
                         (ScannerPage.hasScanType CheckIn) logs firstIn
        /\ Props.LatestOf (fun l => toDate (scanTime l))
                          (ScannerPage.hasScanType CheckOut) logs lastOut
        /\ Spec.TotalHours settings
             (option_map (fun l => toDate (scanTime l)) firstIn)
             (option_map (fun l => toDate (scanTime l)) lastOut)
             (Aggregate.totalHoursRaw a) (totalHours s))
  /\ (forall (userItem : option UserProfile) (userId dateKey : string)
             (logs : list AdminDashboard.GroupedLog),
         (forall l, In l logs -> Props.modern (AdminDashboard.g_scanTime l)) ->
         let a := AdminDashboard.aggregate userItem settings logs in
         let s := AdminDashboard.sessionData userItem userId dateKey logs a in
         exists firstIn lastOut : option AdminDashboard.GroupedLog,
           Props.EarliestOf AdminDashboard.g_scanTime
                            (AdminDashboard.hasScanType CheckIn) logs firstIn
           /\ Props.LatestOf AdminDashboard.g_scanTime
                             (AdminDashboard.hasScanType CheckOut) logs lastOut
           /\ Spec.TotalHours settings
                (option_map AdminDashboard.g_scanTime firstIn)
                (option_map AdminDashboard.g_scanTime lastOut)
                (Aggregate.totalHoursRaw a) (totalHours s)).
Proof.
  split.
  - intros uid dateKey profile logs _ a s. subst s a.
    eexists _, _.
    split; [apply (reduce_earliest (fun l => toDate (scanTime l)))|].
    split; [apply (reduce_latest (fun l => toDate (scanTime l)))|].
    rewrite scanner_aggregate_derive.
    exact (derive_TotalHours settings _ _ (ScannerPage.endpoints logs)).
  - intros userItem userId dateKey logs _ a s. subst s a.
    eexists _, _.
    split; [apply (reduce_earliest AdminDashboard.g_scanTime)|].
    split; [apply (reduce_latest AdminDashboard.g_scanTime)|].
    rewrite admin_aggregate_derive.
    exact (derive_TotalHours settings _ _ (AdminDashboard.endpoints logs)).
Qed.

Lemma derive_ot_written (b : BufferSettings) (r1 r2 : Q)
    (e : Aggregate.Endpoints) :
  let a := Aggregate.derive b r1 r2 e in
  Aggregate.otHoursRounded a
  = if Aggregate.isAbnormal a then None else Some (Aggregate.otHours a).
Proof.
  cbv zeta. unfold Aggregate.derive.
  cbn [Aggregate.otHoursRounded Aggregate.isAbnormal Aggregate.otHours].
  now destruct (0 <? _)%nat.
Qed.

(** C3. Overtime.  For either aggregator and logs scanned from 1982 on:
    with [checkOut] the time of a latest check-out among the logs, the
    effective overtime checkout is exactly 22:00 if the checkout minutes
    lie within [22:00 - otEarlyBufferMinutes, 22:00 + otLateBufferMinutes],
    and the checkout minutes themselves otherwise; the overtime hours are
    0 unless the total of the session (the total of C4, from the same
    endpoints) is at least 9 and there is a check-out, and then 4 for an
    effective checkout from 22:00, 2 for one from 19:00, 0 before.  The
    session stores these overtime hours, or null when it is abnormal. *)
Theorem overtime_from_the_events (settings : BufferSettings) :
  (forall (uid dateKey : string) (profile : UserProfile)
          (logs : list AttendanceLog),
      (forall l, In l logs -> Props.modern (toDate (scanTime l))) ->
      let a := ScannerPage.aggregate profile settings logs in
      let s := ScannerPage.sessionData uid profile dateKey a in
      exists firstIn lastOut : option AttendanceLog,
        Props.EarliestOf (fun l => toDate (scanTime l))
                         (ScannerPage.hasScanType CheckIn) logs firstIn
        /\ Props.LatestOf (fun l => toDate (scanTime l))
                          (ScannerPage.hasScanType CheckOut) logs lastOut
        /\ Spec.TotalHours settings
             (option_map (fun l => toDate (scanTime l)) firstIn)
             (option_map (fun l => toDate (scanTime l)) lastOut)
             (Aggregate.totalHoursRaw a) (totalHours s)
        /\ Spec.Overtime settings
             (option_map (fun l => toDate (scanTime l)) lastOut)
             (totalHours s) (Aggregate.effectiveOtCheckoutMinutes a)
             (Aggregate.otHours a)
        /\ otHours s
           = if isAbnormal s then None else Some (Aggregate.otHours a))
  /\ (forall (userItem : option UserProfile) (userId dateKey : string)
             (logs : list AdminDashboard.GroupedLog),
         (forall l, In l logs -> Props.modern (AdminDashboard.g_scanTime l)) ->
         let a := AdminDashboard.aggregate userItem settings logs in
         let s := AdminDashboard.sessionData userItem userId dateKey logs a in
         exists firstIn lastOut : option AdminDashboard.GroupedLog,
           Props.EarliestOf AdminDashboard.g_scanTime
                            (AdminDashboard.hasScanType CheckIn) logs firstIn
           /\ Props.LatestOf AdminDashboard.g_scanTime
                             (AdminDashboard.hasScanType CheckOut) logs lastOut
           /\ Spec.TotalHours settings
                (option_map AdminDashboard.g_scanTime firstIn)
                (option_map AdminDashboard.g_scanTime lastOut)
                (Aggregate.totalHoursRaw a) (totalHours s)
           /\ Spec.Overtime settings
                (option_map AdminDashboard.g_scanTime lastOut)
                (totalHours s) (Aggregate.effectiveOtCheckoutMinutes a)
                (Aggregate.otHours a)
           /\ otHours s
              = if isAbnormal s then None else Some (Aggregate.otHours a)).
Proof.
  split.
  - intros uid dateKey profile logs _ a s. subst s a.
    eexists _, _.
    split; [apply (reduce_earliest (fun l => toDate (scanTime l)))|].
    split; [apply (reduce_latest (fun l => toDate (scanTime l)))|].
    rewrite scanner_aggregate_derive.
    split;
      [exact (derive_TotalHours settings _ _ (ScannerPage.endpoints logs))|].
    split;
      [exact (derive_Overtime settings _ _ (ScannerPage.endpoints logs))|].
    exact (derive_ot_written settings _ _ (ScannerPage.endpoints logs)).
  - intros userItem userId dateKey logs _ a s. subst s a.
    eexists _, _.
    split; [apply (reduce_earliest AdminDashboard.g_scanTime)|].
    split; [apply (reduce_latest AdminDashboard.g_scanTime)|].
    rewrite admin_aggregate_derive.
    split;
      [exact (derive_TotalHours settings _ _ (AdminDashboard.endpoints logs))|].
    split;
      [exact (derive_Overtime settings _ _ (AdminDashboard.endpoints logs))|].
    exact (derive_ot_written settings _ _ (AdminDashboard.endpoints logs)).
Qed.

(** C2. Abnormality and pay.  For either aggregator and logs scanned from
    1982 on: with [checkIn] the time of an earliest check-in among the
    logs, [checkOut] the time of a latest check-out and [totalHours] the
    stored total (the total of C4, from the same endpoints), the list of
    abnormal reasons of the session holds, each once, exactly the reasons
    that apply among: missing check-in, missing check-out, total hours
    (when known) below 9, checkout minutes after 22:00 +
    otLateBufferMinutes.  The stored [normalHours], [otHours] and
    [amountRM] are all null if and only if the list is not empty;
    otherwise [normalHours] is min(totalHours, 9) rounded to two decimals,
    [otHours] is the overtime of the rule of C3, and [amountRM] is
    normalHours x normalRate + otHours x otRate rounded to two decimals,
    the rates being those of the user, 0 for one that is missing. *)
Theorem abnormality_and_pay_from_the_events (settings : BufferSettings) :
  (forall (uid dateKey : string) (profile : UserProfile)
          (logs : list AttendanceLog),
      (forall l, In l logs -> Props.modern (toDate (scanTime l))) ->
      let s := ScannerPage.sessionData uid profile dateKey
                 (ScannerPage.aggregate profile settings logs) in
      exists (firstIn lastOut : option AttendanceLog)
             (raw effective : option Q) (ot : Q),
        Props.EarliestOf (fun l => toDate (scanTime l))
                         (ScannerPage.hasScanType CheckIn) logs firstIn
        /\ Props.LatestOf (fun l => toDate (scanTime l))
                          (ScannerPage.hasScanType CheckOut) logs lastOut
        /\ Spec.TotalHours settings
             (option_map (fun l => toDate (scanTime l)) firstIn)
             (option_map (fun l => toDate (scanTime l)) lastOut)
             raw (totalHours s)
        /\ Spec.Abnormality settings
             (option_map (fun l => toDate (scanTime l)) firstIn)
             (option_map (fun l => toDate (scanTime l)) lastOut)
             (totalHours s) (abnormalReasons s)
        /\ Spec.Overtime settings
             (option_map (fun l => toDate (scanTime l)) lastOut)
             (totalHours s) effective ot
        /\ Spec.Pay (default 0 (normalRate profile))
                    (default 0 (otRate profile)) ot s)
  /\ (forall (userItem : option UserProfile) (userId dateKey : string)
             (logs : list AdminDashboard.GroupedLog),
         (forall l, In l logs -> Props.modern (AdminDashboard.g_scanTime l)) ->
         let s := AdminDashboard.sessionData userItem userId dateKey logs
                    (AdminDashboard.aggregate userItem settings logs) in
         exists (firstIn lastOut : option AdminDashboard.GroupedLog)
                (raw effective : option Q) (ot : Q),
           Props.EarliestOf AdminDashboard.g_scanTime
                            (AdminDashboard.hasScanType CheckIn) logs firstIn
           /\ Props.LatestOf AdminDashboard.g_scanTime
                             (AdminDashboard.hasScanType CheckOut) logs lastOut
           /\ Spec.TotalHours settings
                (option_map AdminDashboard.g_scanTime firstIn)
                (option_map AdminDashboard.g_scanTime lastOut)
                raw (totalHours s)
           /\ Spec.Abnormality settings
                (option_map AdminDashboard.g_scanTime firstIn)
                (option_map AdminDashboard.g_scanTime lastOut)
                (totalHours s) (abnormalReasons s)
           /\ Spec.Overtime settings
                (option_map AdminDashboard.g_scanTime lastOut)
                (totalHours s) effective ot
           /\ Spec.Pay (default 0 (userItem ≫= normalRate))
                       (default 0 (userItem ≫= otRate)) ot s).
Proof.
  split.
  - intros uid dateKey profile logs _ s. subst s.
    eexists _, _, _, _, _.
    split; [apply (reduce_earliest (fun l => toDate (scanTime l)))|].
    split; [apply (reduce_latest (fun l => toDate (scanTime l)))|].
    rewrite scanner_aggregate_derive.
    split;
      [exact (derive_TotalHours settings _ _ (ScannerPage.endpoints logs))|].
    split;
      [exact (derive_Abnormality settings _ _ (ScannerPage.endpoints logs))|].
    split;
      [exact (derive_Overtime settings _ _ (ScannerPage.endpoints logs))|].
    apply (pay_of_fields settings); reflexivity.
  - intros userItem userId dateKey logs _ s. subst s.
    eexists _, _, _, _, _.
    split; [apply (reduce_earliest AdminDashboard.g_scanTime)|].
    split; [apply (reduce_latest AdminDashboard.g_scanTime)|].
    rewrite admin_aggregate_derive.
    split;
      [exact (derive_TotalHours settings _ _ (AdminDashboard.endpoints logs))|].
    split;
      [exact (derive_Abnormality settings _ _
                (AdminDashboard.endpoints logs))|].
    split;
      [exact (derive_Overtime settings _ _ (AdminDashboard.endpoints logs))|].
    apply (pay_of_fields settings); reflexivity.
Qed.

End EventClaims.

Section EventInstances.
Import Firestore Types.
Open Scope Q_scope.

Lemma total_hours_witness :
  exists firstIn lastOut : option AttendanceLog,
    Props.EarliestOf (fun l => toDate (scanTime l))
                     (ScannerPage.hasScanType CheckIn)
                     (map snd Samples.earlyDay) firstIn
    /\ Props.LatestOf (fun l => toDate (scanTime l))
                      (ScannerPage.hasScanType CheckOut)
                      (map snd Samples.earlyDay) lastOut
    /\ Spec.TotalHours ScannerPage.DEFAULT_BUFFER_SETTINGS
         (option_map (fun l => toDate (scanTime l)) firstIn)
         (option_map (fun l => toDate (scanTime l)) lastOut)
         (Aggregate.totalHoursRaw
            (ScannerPage.aggregate (H := Demo.host) Demo.amy
               ScannerPage.DEFAULT_BUFFER_SETTINGS
               (map snd Samples.earlyDay)))
         (totalHours (Demo.sessionOf Demo.amy Samples.earlyDay)).
Proof.
  apply (proj1 (total_hours_from_the_events
                  (H := Demo.host) ScannerPage.DEFAULT_BUFFER_SETTINGS)
           "u1"%string "2024-01-01"%string Demo.amy
           (map snd Samples.earlyDay)).
  intros l [<- | [<- | []]]; vm_compute; discriminate.
Defined.

Lemma overtime_witness :
  exists firstIn lastOut : option AttendanceLog,
    Props.EarliestOf (fun l => toDate (scanTime l))
                     (ScannerPage.hasScanType CheckIn)
                     (map snd Samples.lateShift) firstIn
    /\ Props.LatestOf (fun l => toDate (scanTime l))
                      (ScannerPage.hasScanType CheckOut)
                      (map snd Samples.lateShift) lastOut
    /\ Spec.TotalHours ScannerPage.DEFAULT_BUFFER_SETTINGS
         (option_map (fun l => toDate (scanTime l)) firstIn)
         (option_map (fun l => toDate (scanTime l)) lastOut)
         (Aggregate.totalHoursRaw
            (ScannerPage.aggregate (H := Demo.host) Demo.amy
               ScannerPage.DEFAULT_BUFFER_SETTINGS
               (map snd Samples.lateShift)))
         (totalHours (Demo.sessionOf Demo.amy Samples.lateShift))
    /\ Spec.Overtime ScannerPage.DEFAULT_BUFFER_SETTINGS
         (option_map (fun l => toDate (scanTime l)) lastOut)
         (totalHours (Demo.sessionOf Demo.amy Samples.lateShift))
         (Some (22 * 60)) 4
    /\ otHours (Demo.sessionOf Demo.amy Samples.lateShift) = Some 4.
Proof.
  apply (proj1 (overtime_from_the_events
                  (H := Demo.host) ScannerPage.DEFAULT_BUFFER_SETTINGS)
           "u1"%string "2024-01-01"%string Demo.amy
           (map snd Samples.lateShift)).
  intros l [<- | [<- | []]]; vm_compute; discriminate.
Defined.

Lemma abnormality_and_pay_witness :
  exists (firstIn lastOut : option AttendanceLog)
         (raw effective : option Q) (ot : Q),
    Props.EarliestOf (fun l => toDate (scanTime l))
                     (ScannerPage.hasScanType CheckIn)
                     (map snd Demo.fullDay) firstIn
    /\ Props.LatestOf (fun l => toDate (scanTime l))
                      (ScannerPage.hasScanType CheckOut)
                      (map snd Demo.fullDay) lastOut
    /\ Spec.TotalHours ScannerPage.DEFAULT_BUFFER_SETTINGS
         (option_map (fun l => toDate (scanTime l)) firstIn)
         (option_map (fun l => toDate (scanTime l)) lastOut)
         raw (totalHours (Demo.sessionOf Demo.amy Demo.fullDay))
    /\ Spec.Abnormality ScannerPage.DEFAULT_BUFFER_SETTINGS
         (option_map (fun l => toDate (scanTime l)) firstIn)
         (option_map (fun l => toDate (scanTime l)) lastOut)
         (totalHours (Demo.sessionOf Demo.amy Demo.fullDay))
         (abnormalReasons (Demo.sessionOf Demo.amy Demo.fullDay))
    /\ Spec.Overtime ScannerPage.DEFAULT_BUFFER_SETTINGS
         (option_map (fun l => toDate (scanTime l)) lastOut)
         (totalHours (Demo.sessionOf Demo.amy Demo.fullDay)) effective ot
    /\ Spec.Pay 10 15 ot (Demo.sessionOf Demo.amy Demo.fullDay).
Proof.
  apply (proj1 (abnormality_and_pay_from_the_events
                  (H := Demo.host) ScannerPage.DEFAULT_BUFFER_SETTINGS)
           "u1"%string "2024-01-01"%string Demo.amy
           (map snd Demo.fullDay)).
  intros l [<- | [<- | []]]; vm_compute; discriminate.
Defined.

End EventInstances.

(** ** The ranges of the values of a session *)

Section RangeFacts.
Context `{Host}.
Import Types.
Open Scope Q_scope.

Lemma toFixed2_nonneg (x : Q) : 0 <= x -> 0 <= Js.toFixed2 x.
Proof.
  intro Hx. unfold Js.toFixed2.
  assert (Hneg : Js.Qltb x 0 = false) by (apply Qltb_ge; exact Hx).
  rewrite Hneg, Qred_correct.
  assert (Hn : (0 <= Qfloor (Qabs x * inject_Z 100 + (1 # 2)))%Z).
  { change 0%Z with (Qfloor 0). apply Qfloor_resp_le.
    pose proof (Qabs_nonneg x) as Habs.
    change (inject_Z 100) with 100. lra. }
  apply Qle_shift_div_l; [reflexivity|].
  rewrite Qmult_0_l. change 0 with (inject_Z 0). rewrite <- Zle_Qle. exact Hn.
Qed.

Lemma max_0_nonneg (x : Q) : 0 <= Js.max x 0.
Proof. unfold Js.max. apply Q.le_max_r. Qed.

Lemma derive_total_nonneg (b : BufferSettings) (r1 r2 : Q)
    (e : Aggregate.Endpoints) (t : Q) :
  Aggregate.totalHoursRounded (Aggregate.derive b r1 r2 e) = Some t -> 0 <= t.
Proof.
  unfold Aggregate.derive. cbn [Aggregate.totalHoursRounded].
  destruct (Aggregate.firstTime e) as [tin|], (Aggregate.lastTime e) as [tout|];
    cbn [option_map]; try discriminate.
  pose proof (max_0_nonneg (inject_Z (tout - tin) / inject_Z 3600000)) as Hraw.
  pose proof (max_0_nonneg (17 * 60 - inject_Z (Utils.getTimeMinutes tout)))
    as Hpad.
  destruct (_ && _); cbn [option_map]; intro Ht; injection Ht as <-;
    apply toFixed2_nonneg; [|exact Hraw].
  set (raw := Js.max (inject_Z (tout - tin) / inject_Z 3600000) 0) in *.
  set (pad := Js.max (17 * 60 - inject_Z (Utils.getTimeMinutes tout)) 0) in *.
  unfold Qdiv. change (/ 60) with (1 # 60). lra.
Qed.

Lemma derive_ot_values (b : BufferSettings) (r1 r2 : Q)
    (e : Aggregate.Endpoints) :
  let ot := Aggregate.otHours (Aggregate.derive b r1 r2 e) in
  ot = 0 \/ ot = 2 \/ ot = 4.
Proof.
  unfold Aggregate.derive. cbn [Aggregate.otHours].
  repeat match goal with
         | |- context [match ?x with _ => _ end] => destruct x
         end; auto.
Qed.

Lemma derive_amount_nonneg (b : BufferSettings) (r1 r2 : Q)
    (e : Aggregate.Endpoints) (x : Q) :
  0 <= r1 -> 0 <= r2 ->
  Aggregate.amountRM (Aggregate.derive b r1 r2 e) = Some x -> 0 <= x.
Proof.
  intros Hr1 Hr2 Hx.
  pose proof (derive_pay b r1 r2 e) as Hpay. cbv zeta in Hpay.
  pose proof (derive_ot_values b r1 r2 e) as Hot. cbv zeta in Hot.
  destruct (Aggregate.abnormalReasons (Aggregate.derive b r1 r2 e)).
  - destruct Hpay as (total & _ & Hge & _ & _ & Hpaid).
    rewrite toFixed2_min_9 in Hpaid by exact Hge.
    assert (Hval : x = Js.toFixed2
                         (9 * r1
                          + Aggregate.otHours (Aggregate.derive b r1 r2 e) * r2))
      by congruence.
    rewrite Hval. apply toFixed2_nonneg.
    destruct Hot as [-> | [-> | ->]]; lra.
  - destruct Hpay as (_ & _ & Hnone). congruence.
Qed.

Lemma derive_ot_stored (b : BufferSettings) (r1 r2 : Q)
    (e : Aggregate.Endpoints) (q : Q) :
  Aggregate.otHoursRounded (Aggregate.derive b r1 r2 e) = Some q ->
  q = Aggregate.otHours (Aggregate.derive b r1 r2 e).
Proof.
  unfold Aggregate.derive at 1. cbn [Aggregate.otHoursRounded].
  destruct (negb _); [|discriminate].
  intro Hq. injection Hq as <-. reflexivity.
Qed.

(** X3. The values of a session stay in range.  In the session either
    aggregator writes, the total hours are never negative, the overtime
    hours are 0, 2 or 4, and with pay rates that are not negative the amount
    is not negative. *)
Theorem session_values_in_range (settings : BufferSettings) :
  (forall (uid day : string) (profile : UserProfile)
          (logs : list AttendanceLog),
      let s := ScannerPage.sessionData uid profile day
                 (ScannerPage.aggregate profile settings logs) in
      (forall t, totalHours s = Some t -> 0 <= t)
      /\ (forall q, otHours s = Some q -> q = 0 \/ q = 2 \/ q = 4)
      /\ ((forall r, normalRate profile = Some r -> 0 <= r) ->
          (forall r, otRate profile = Some r -> 0 <= r) ->
          forall x, amountRM s = Some x -> 0 <= x))
  /\ (forall (userItem : option UserProfile) (userId day : string)
             (logs : list AdminDashboard.GroupedLog),
         let s := AdminDashboard.sessionData userItem userId day logs
                    (AdminDashboard.aggregate userItem settings logs) in
         (forall t, totalHours s = Some t -> 0 <= t)
         /\ (forall q, otHours s = Some q -> q = 0 \/ q = 2 \/ q = 4)
         /\ ((forall u r, userItem = Some u -> normalRate u = Some r -> 0 <= r) ->
             (forall u r, userItem = Some u -> otRate u = Some r -> 0 <= r) ->
             forall x, amountRM s = Some x -> 0 <= x)).
Proof.
  split.
  - intros uid day profile logs s. subst s.
    rewrite scanner_aggregate_derive.
    unfold ScannerPage.sessionData. cbn [totalHours otHours amountRM].
    split; [intro t; apply derive_total_nonneg|].
    split.
    + intros q Hq. apply derive_ot_stored in Hq. rewrite Hq.
      apply derive_ot_values.
    + intros Hn Ho x. apply derive_amount_nonneg.
      * destruct (normalRate profile) as [r|]; [now apply Hn | cbn; lra].
      * destruct (otRate profile) as [r|]; [now apply Ho | cbn; lra].
  - intros userItem userId day logs s. subst s.
    rewrite admin_aggregate_derive.
    unfold AdminDashboard.sessionData. cbn [totalHours otHours amountRM].
    split; [intro t; apply derive_total_nonneg|].
    split.
    + intros q Hq. apply derive_ot_stored in Hq. rewrite Hq.
      apply derive_ot_values.
    + intros Hn Ho x. apply derive_amount_nonneg.
      * destruct userItem as [u|]; [|cbn; lra].
        cbn. destruct (normalRate u) as [r|] eqn:Hr; [now apply (Hn u) | cbn; lra].
      * destruct userItem as [u|]; [|cbn; lra].
        cbn. destruct (otRate u) as [r|] eqn:Hr; [now apply (Ho u) | cbn; lra].
Qed.

End RangeFacts.

Section RangeInstances.
Import Types.
Open Scope Q_scope.

Lemma session_values_witness :
  amountRM (Demo.sessionOf Demo.amy Demo.fullDay) = Some 90 /\ 0 <= 90.
Proof.
  split; [vm_compute; reflexivity|].
  apply (proj2 (proj2 (proj1 (session_values_in_range
                                (H := Demo.host)
                                ScannerPage.DEFAULT_BUFFER_SETTINGS)
                         "u1"%string "2024-01-01"%string Demo.amy
                         (map snd Demo.fullDay)))).
  - intros r Hr. injection Hr as <-. vm_compute. discriminate.
  - intros r Hr. injection Hr as <-. vm_compute. discriminate.
  - vm_compute; reflexivity.
Defined.

End RangeInstances.

(** ** The fields of a session agree with one another *)

Section ConsistencyFacts.
Context `{Host}.
Import Types.
Open Scope Q_scope.

Lemma derive_consistent (b : BufferSettings) (r1 r2 : Q)
    (e : Aggregate.Endpoints) :
  let a := Aggregate.derive b r1 r2 e in
  (Aggregate.status a = Complete
   <-> Aggregate.checkInTime a <> None /\ Aggregate.checkOutTime a <> None)
  /\ (Aggregate.isAbnormal a = true <-> Aggregate.abnormalReasons a <> [])
  /\ (Aggregate.status a = Incomplete -> Aggregate.isAbnormal a = true)
  /\ (Aggregate.amountRM a <> None <-> Aggregate.isAbnormal a = false)
  /\ (Aggregate.amountRM a <> None ->
      Aggregate.status a = Complete
      /\ exists t, Aggregate.totalHoursRounded a = Some t /\ 9 <= t)
  /\ (Aggregate.isLate a = true <-> Aggregate.lateReason a <> None)
  /\ (Aggregate.isLate a = true -> Aggregate.checkInTime a <> None).
Proof.
  intro a.
  assert (Hflag : Aggregate.isAbnormal a
                  = (0 <? length (Aggregate.abnormalReasons a))%nat)
    by reflexivity.
  assert (Hpaid : Aggregate.amountRM a <> None
                  <-> Aggregate.isAbnormal a = false).
  { subst a. unfold Aggregate.derive.
    cbn [Aggregate.amountRM Aggregate.isAbnormal].
    destruct (0 <? _)%nat; split; congruence. }
  assert (Hstatus : Aggregate.status a = Complete
                    <-> Aggregate.checkInTime a <> None
                        /\ Aggregate.checkOutTime a <> None).
  { subst a. unfold Aggregate.derive.
    cbn [Aggregate.status Aggregate.checkInTime Aggregate.checkOutTime].
    destruct (Aggregate.firstTime e), (Aggregate.lastTime e);
      split; try congruence; try (intros [? ?]; congruence);
      intros _; split; congruence. }
  assert (Hmissing : Aggregate.status a = Incomplete ->
                     Aggregate.isAbnormal a = true).
  { subst a. unfold Aggregate.derive.
    cbn [Aggregate.status Aggregate.isAbnormal].
    destruct (Aggregate.firstTime e), (Aggregate.lastTime e);
      try discriminate; intros _; reflexivity. }
  split; [exact Hstatus|].
  split.
  { rewrite Hflag. destruct (Aggregate.abnormalReasons a); cbn;
      split; congruence. }
  split; [exact Hmissing|].
  split; [exact Hpaid|].
  split.
  { intro Hamount. split.
    - destruct (Aggregate.status a) eqn:Hs; [reflexivity|].
      apply Hpaid in Hamount. rewrite Hmissing in Hamount by reflexivity.
      discriminate.
    - pose proof (derive_pay b r1 r2 e) as Hpay. cbv zeta in Hpay.
      fold a in Hpay.
      destruct (Aggregate.abnormalReasons a).
      + destruct Hpay as (total & Htotal & Hge & _). now exists total.
      + destruct Hpay as (_ & _ & Hnone). contradiction. }
  subst a. unfold Aggregate.derive.
  cbn [Aggregate.isLate Aggregate.lateReason Aggregate.checkInTime].
  split.
  - destruct (match option_map Utils.getTimeMinutes (Aggregate.firstTime e)
              with Some m => _ | None => false end); split; congruence.
  - destruct (Aggregate.firstTime e); cbn [option_map]; congruence.
Qed.

(** X4. The fields of a session agree with one another.  In the session
    either aggregator writes: the status is complete exactly when both
    endpoints are present; the abnormal flag is set exactly when the list
    of reasons is not empty, and it is set on every incomplete session; an
    amount is present exactly when the session is not abnormal, and then
    the session is complete with at least nine total hours; the late flag
    is set exactly when a late reason is present, and only on a session
    with a check-in. *)
Theorem session_fields_are_consistent (settings : BufferSettings) :
  (forall (uid day : string) (profile : UserProfile)
          (logs : list AttendanceLog),
      let s := ScannerPage.sessionData uid profile day
                 (ScannerPage.aggregate profile settings logs) in
      (s_status s = Complete
       <-> checkInTime s <> None /\ checkOutTime s <> None)
      /\ (isAbnormal s = true <-> abnormalReasons s <> [])
      /\ (s_status s = Incomplete -> isAbnormal s = true)
      /\ (amountRM s <> None <-> isAbnormal s = false)
      /\ (amountRM s <> None ->
          s_status s = Complete
          /\ exists t, totalHours s = Some t /\ 9 <= t)
      /\ (isLate s = true <-> lateReason s <> None)
      /\ (isLate s = true -> checkInTime s <> None))
  /\ (forall (userItem : option UserProfile) (userId day : string)
             (logs : list AdminDashboard.GroupedLog),
         let s := AdminDashboard.sessionData userItem userId day logs
                    (AdminDashboard.aggregate userItem settings logs) in
         (s_status s = Complete
          <-> checkInTime s <> None /\ checkOutTime s <> None)
         /\ (isAbnormal s = true <-> abnormalReasons s <> [])
         /\ (s_status s = Incomplete -> isAbnormal s = true)
         /\ (amountRM s <> None <-> isAbnormal s = false)
         /\ (amountRM s <> None ->
             s_status s = Complete
             /\ exists t, totalHours s = Some t /\ 9 <= t)
         /\ (isLate s = true <-> lateReason s <> None)
         /\ (isLate s = true -> checkInTime s <> None)).
Proof.
  split.
  - intros uid day profile logs s. subst s.
    rewrite scanner_aggregate_derive. apply derive_consistent.
  - intros userItem userId day logs s. subst s.
    rewrite admin_aggregate_derive. apply derive_consistent.
Qed.

End ConsistencyFacts.

(** ** The clock *)

Section ClockFacts.
Import Types.

Lemma getTimeMinutes_msOfDay (date : Z) :
  Utils.getTimeMinutes date = Props.msOfDay date / 60000.
Proof.
  unfold Utils.getTimeMinutes, Props.msOfDay. cbv zeta.
  Z.div_mod_to_equations. lia.
Qed.

End ClockFacts.

(** ** Lateness *)

Section LateFacts.
Context `{Host}.
Import Firestore Types.
Open Scope Q_scope.

Lemma derive_late (settings : BufferSettings) (r1 r2 : Q)
    (e : Aggregate.Endpoints) (b : Z) :
  lateBufferMinutes settings == inject_Z b ->
  let a := Aggregate.derive settings r1 r2 e in
  Aggregate.isLate a = true
  <-> exists tin, Aggregate.checkInTime a = Some tin
                  /\ ((481 + b) * 60000 <= Props.msOfDay tin)%Z.
Proof.
  intros Hb a. subst a. unfold Aggregate.derive.
  cbn [Aggregate.isLate Aggregate.checkInTime].
  destruct (Aggregate.firstTime e) as [tin|]; cbn [option_map].
  - rewrite Qgtb_lt, Hb, getTimeMinutes_msOfDay.
    change (8 * 60) with (inject_Z 480).
    rewrite <- inject_Z_plus, <- Zlt_Qlt.
    split.
    + intro Hlate. exists tin. split; [reflexivity|].
      Z.div_mod_to_equations. lia.
    + intros (tin' & Heq & Hms). injection Heq as <-.
      Z.div_mod_to_equations. lia.
  - split; [discriminate|]. intros (tin & Heq & _). discriminate.
Qed.

(** X6. Lateness is decided on whole minutes.  With a late buffer of [b]
    whole minutes and logs scanned from 1982 on, the session either
    aggregator writes is late exactly when its check-in falls, on the
    clock of Kuala Lumpur (eight hours ahead of UTC for such logs), at or
    after 08:00 plus [b + 1] minutes: a check-in during the minute
    08:00 + [b] is still on time, whatever its seconds. *)
Theorem late_from_the_next_minute (settings : BufferSettings) (b : Z) :
  lateBufferMinutes settings == inject_Z b ->
  (forall (uid day : string) (profile : UserProfile)
          (logs : list AttendanceLog),
      (forall l, In l logs -> Props.modern (toDate (scanTime l))) ->
      let s := ScannerPage.sessionData uid profile day
                 (ScannerPage.aggregate profile settings logs) in
      isLate s = true
      <-> exists tin, checkInTime s = Some tin
                      /\ Props.modern tin
                      /\ ((481 + b) * 60000 <= Props.msOfDay tin)%Z)
  /\ (forall (userItem : option UserProfile) (userId day : string)
             (logs : list AdminDashboard.GroupedLog),
         (forall l, In l logs -> Props.modern (AdminDashboard.g_scanTime l)) ->
         let s := AdminDashboard.sessionData userItem userId day logs
                    (AdminDashboard.aggregate userItem settings logs) in
         isLate s = true
         <-> exists tin, checkInTime s = Some tin
                         /\ Props.modern tin
                         /\ ((481 + b) * 60000 <= Props.msOfDay tin)%Z).
Proof.
  intro Hb. split.
  - intros uid day profile logs Hmodern s. subst s.
    rewrite scanner_aggregate_derive.
    unfold ScannerPage.sessionData. cbn [isLate checkInTime].
    rewrite (derive_late settings _ _ _ b Hb).
    split; intros (tin & Htin & Hrest); exists tin;
      [|split; [exact Htin | apply Hrest]].
    split; [exact Htin|]. split; [|exact Hrest].
    pose proof (reduce_earliest (fun l => toDate (scanTime l))
                  (ScannerPage.hasScanType CheckIn) logs) as Hfirst.
    unfold Aggregate.derive in Htin. cbn [Aggregate.checkInTime] in Htin.
    unfold ScannerPage.endpoints in Htin. cbn [Aggregate.firstTime] in Htin.
    destruct (Js.reduce _ _) as [l|]; [|discriminate].
    injection Htin as <-. apply Hmodern. apply Hfirst.
  - intros userItem userId day logs Hmodern s. subst s.
    rewrite admin_aggregate_derive.
    unfold AdminDashboard.sessionData. cbn [isLate checkInTime].
    rewrite (derive_late settings _ _ _ b Hb).
    split; intros (tin & Htin & Hrest); exists tin;
      [|split; [exact Htin | apply Hrest]].
    split; [exact Htin|]. split; [|exact Hrest].
    pose proof (reduce_earliest AdminDashboard.g_scanTime
                  (AdminDashboard.hasScanType CheckIn) logs) as Hfirst.
    unfold Aggregate.derive in Htin. cbn [Aggregate.checkInTime] in Htin.
    unfold AdminDashboard.endpoints in Htin. cbn [Aggregate.firstTime] in Htin.
    destruct (Js.reduce _ _) as [l|]; [|discriminate].
    injection Htin as <-. apply Hmodern. apply Hfirst.
Qed.

End LateFacts.

Section LateInstances.
Import Types.
Open Scope Q_scope.

Lemma late_witness :
  isLate (Demo.sessionOf Demo.amy Samples.lateDay) = true.
Proof.
  apply (proj2 (proj1 (late_from_the_next_minute
                         (H := Demo.host) ScannerPage.DEFAULT_BUFFER_SETTINGS
                         5 (Qeq_refl _))
                  "u1"%string "2024-01-01"%string Demo.amy
                  (map snd Samples.lateDay)
                  ltac:(intros l [<- | []]; vm_compute; discriminate))).
  exists (Demo.clock 8 6).
  split; [vm_compute; reflexivity|].
  split; vm_compute; discriminate.
Defined.

Lemma session_consistency_witness :
  s_status (Demo.sessionOf Demo.amy Demo.fullDay) = Complete.
Proof.
  apply (proj2 (proj2 (proj2 (proj2 (proj1 (session_fields_are_consistent
                         (H := Demo.host) ScannerPage.DEFAULT_BUFFER_SETTINGS)
                  "u1"%string "2024-01-01"%string Demo.amy
                  (map snd Demo.fullDay)))))).
  vm_compute. discriminate.
Defined.

End LateInstances.

(** ** The logs a session is built from *)

Section DayLogFacts.
Import Firestore Types.

Lemma insert_In {A} (le : A -> A -> bool) (x y : A) (l : list A) :
  In y (Js.insert le x l) <-> y = x \/ In y l.
Proof.
  induction l as [|a l IH]; cbn [Js.insert].
  - cbn. intuition congruence.
  - destruct (le x a); cbn [In]; [intuition congruence|].
    rewrite IH. intuition congruence.
Qed.

Lemma sort_In {A} (le : A -> A -> bool) (y : A) (l : list A) :
  In y (Js.sort le l) <-> In y l.
Proof.
  induction l as [|a l IH]; cbn [Js.sort]; [reflexivity|].
  rewrite insert_In, IH. cbn. intuition congruence.
Qed.

Lemma notDeleted_true (l : AttendanceLog) :
  ScannerPage.notDeleted l = true <-> isDeleted l <> Some true.
Proof.
  unfold ScannerPage.notDeleted, Js.truthy.
  destruct (isDeleted l) as [[|]|]; cbn; split; congruence.
Qed.

Lemma hasDateKey_true (day : string) (l : AttendanceLog) :
  ScannerPage.hasDateKey day l = true <-> dateKey l = Some day.
Proof.
  unfold ScannerPage.hasDateKey. destruct (dateKey l) as [k|].
  - rewrite String.eqb_eq. split; congruence.
  - split; discriminate.
Qed.

Lemma day_logs_membership (db : Db) (u day : string) (l : AttendanceLog) :
  In l (ScannerPage.dayLogs db u day)
  <-> (exists id, In (id, l) (attendance db)) /\ Props.countsFor u day l.
Proof.
  unfold ScannerPage.dayLogs, ScannerPage.logsQuery, orderByAsc,
    Props.countsFor.
  rewrite List.filter_In, List.in_map_iff, notDeleted_true.
  split.
  - intros [((id & l') & <- & Hin) Hlive].
    apply sort_In, List.filter_In in Hin as [Hin Hq]. cbn [snd] in *.
    apply andb_true_iff in Hq as [Hq Hday].
    apply andb_true_iff in Hq as [Huser Hok].
    apply String.eqb_eq in Huser. apply hasDateKey_true in Hday.
    split; [now exists id|].
    repeat split; try assumption.
    destruct (status l'); [reflexivity | discriminate].
  - intros [(id & Hin) (Huser & Hok & Hday & Hlive)].
    split; [|exact Hlive].
    exists (id, l). split; [reflexivity|].
    apply sort_In, List.filter_In. split; [exact Hin|]. cbn [snd].
    rewrite Huser, String.eqb_refl, Hok.
    apply hasDateKey_true in Hday. rewrite Hday. reflexivity.
Qed.

End DayLogFacts.

Section DaySessionClaims.
Context `{Host}.
Import Firestore Types.

Lemma hasScanType_true (kind : ScanType) (l : AttendanceLog) :
  ScannerPage.hasScanType kind l = true <-> scanType l = Some kind.
Proof.
  unfold ScannerPage.hasScanType.
  destruct (scanType l) as [[|]|], kind; cbn; split; congruence.
Qed.

Lemma earliest_of_the_day (db : Db) (u day : string) (kind : ScanType)
    (x : option AttendanceLog) :
  Props.EarliestOf (fun l => toDate (scanTime l))
                   (ScannerPage.hasScanType kind)
                   (ScannerPage.dayLogs db u day) x ->
  Props.EarliestAmong (fun l => toDate (scanTime l))
                      (Props.countsAs db u day kind) x.
Proof.
  unfold Props.EarliestOf, Props.EarliestAmong, Props.countsAs.
  destruct x as [l|].
  - intros (Hin & Hkind & Hmin).
    apply day_logs_membership in Hin as [Hstored Hcounts].
    apply hasScanType_true in Hkind.
    split; [split; [exact Hstored | split; [exact Hcounts | exact Hkind]]|].
    intros l' (Hstored' & Hcounts' & Hkind').
    apply Hmin; [|now apply hasScanType_true].
    apply day_logs_membership. now split.
  - intros Hnone l' (Hstored' & Hcounts' & Hkind').
    apply hasScanType_true in Hkind'.
    rewrite Hnone in Hkind'; [discriminate|].
    apply day_logs_membership. now split.
Qed.

Lemma latest_of_the_day (db : Db) (u day : string) (kind : ScanType)
    (x : option AttendanceLog) :
  Props.LatestOf (fun l => toDate (scanTime l))
                 (ScannerPage.hasScanType kind)
                 (ScannerPage.dayLogs db u day) x ->
  Props.LatestAmong (fun l => toDate (scanTime l))
                    (Props.countsAs db u day kind) x.
Proof.
  unfold Props.LatestOf, Props.LatestAmong, Props.countsAs.
  destruct x as [l|].
  - intros (Hin & Hkind & Hmax).
    apply day_logs_membership in Hin as [Hstored Hcounts].
    apply hasScanType_true in Hkind.
    split; [split; [exact Hstored | split; [exact Hcounts | exact Hkind]]|].
    intros l' (Hstored' & Hcounts' & Hkind').
    apply Hmax; [|now apply hasScanType_true].
    apply day_logs_membership. now split.
  - intros Hnone l' (Hstored' & Hcounts' & Hkind').
    apply hasScanType_true in Hkind'.
    rewrite Hnone in Hkind'; [discriminate|].
    apply day_logs_membership. now split.
Qed.

(** X7. The session of a day is built from the live successes.  The
    session [rebuildSessionsForDay] writes for a signed-in user takes its
    check-in, time and site, from an earliest check-in among the documents
    of the attendance log that are successful, belong to the user and to
    the day and are not soft-deleted, and its check-out from a latest such
    check-out; an endpoint is missing exactly when no document counts for
    it.  So a failed or a deleted log, or a log of another user or day,
    never reaches the session. *)
Theorem day_session_reads_the_live_successes (db : Db) (u : string)
    (profile : UserProfile) (sessionRef : DocId) (day : string) :
  let auth := {| ScannerPage.user := Some u;
                 ScannerPage.profile := Some profile |} in
  exists (s : AttendanceSession) (firstIn lastOut : option AttendanceLog),
    In (sessionRef, s)
       (attendanceSessions
          (ScannerPage.rebuildSessionsForDay auth sessionRef day db))
    /\ Props.EarliestAmong (fun l => toDate (scanTime l))
                           (Props.countsAs db u day CheckIn) firstIn
    /\ Props.LatestAmong (fun l => toDate (scanTime l))
                         (Props.countsAs db u day CheckOut) lastOut
    /\ checkInTime s = option_map (fun l => toDate (scanTime l)) firstIn
    /\ siteInId s = option_map siteId firstIn
    /\ siteInName s = option_map siteName firstIn
    /\ checkOutTime s = option_map (fun l => toDate (scanTime l)) lastOut
    /\ siteOutId s = option_map siteId lastOut
    /\ siteOutName s = option_map siteName lastOut.
Proof.
  intro auth.
  exists (ScannerPage.daySession db u profile day).
  eexists _, _.
  split.
  { unfold ScannerPage.rebuildSessionsForDay, ScannerPage.rebuildBatch.
    cbn [ScannerPage.user ScannerPage.profile auth attendanceSessions
         withSessions].
    rewrite commit_app. cbn [commit fold_left applyWrite].
    apply in_or_app. right. now left. }
  split.
  { apply earliest_of_the_day.
    apply (reduce_earliest (fun l => toDate (scanTime l))). }
  split.
  { apply latest_of_the_day.
    apply (reduce_latest (fun l => toDate (scanTime l))). }
  repeat split.
Qed.

End DaySessionClaims.


(** ** The first loop of [recomputeSessionsForRange] *)

Section GroupFacts.
Import Firestore Types.

Lemma mapGet_mapSet_same (k : string) (v : list AdminDashboard.GroupedLog)
    (m : AdminDashboard.Grouped) :
  AdminDashboard.mapGet k (AdminDashboard.mapSet k v m) = Some v.
Proof.
  induction m as [|[k0 v0] m IH];
    cbn [AdminDashboard.mapSet AdminDashboard.mapGet].
  - now rewrite String.eqb_refl.
  - destruct (String.eqb k0 k) eqn:Hk; cbn [AdminDashboard.mapGet];
      rewrite Hk; [reflexivity | exact IH].
Qed.

Lemma mapGet_mapSet_other (k k' : string)
    (v : list AdminDashboard.GroupedLog) (m : AdminDashboard.Grouped) :
  k' <> k ->
  AdminDashboard.mapGet k' (AdminDashboard.mapSet k v m)
  = AdminDashboard.mapGet k' m.
Proof.
  intro Hne.
  induction m as [|[k0 v0] m IH];
    cbn [AdminDashboard.mapSet AdminDashboard.mapGet].
  - destruct (String.eqb_spec k k'); [congruence | reflexivity].
  - destruct (String.eqb_spec k0 k) as [->|Hk0];
      cbn [AdminDashboard.mapGet].
    + destruct (String.eqb_spec k k'); [congruence | reflexivity].
    + destruct (String.eqb k0 k'); [reflexivity | exact IH].
Qed.

Lemma mapSet_keys (k : string) (v : list AdminDashboard.GroupedLog)
    (m : AdminDashboard.Grouped) :
  map fst (AdminDashboard.mapSet k v m)
  = match AdminDashboard.mapGet k m with
    | Some _ => map fst m
    | None => map fst m ++ [k]
    end.
Proof.
  induction m as [|[k0 v0] m IH];
    cbn [AdminDashboard.mapSet AdminDashboard.mapGet map fst app];
    [reflexivity|].
  destruct (String.eqb k0 k); cbn [map fst]; [reflexivity|].
  rewrite IH. now destruct (AdminDashboard.mapGet k m).
Qed.

Lemma mapGet_In (k : string) (v : list AdminDashboard.GroupedLog)
    (m : AdminDashboard.Grouped) :
  AdminDashboard.mapGet k m = Some v -> In (k, v) m.
Proof.
  induction m as [|[k0 v0] m IH]; cbn [AdminDashboard.mapGet];
    [discriminate|].
  destruct (String.eqb_spec k0 k) as [->|Hk0].
  - intro Hv. injection Hv as <-. now left.
  - intro Hv. right. now apply IH.
Qed.

Lemma mapGet_None (k : string) (m : AdminDashboard.Grouped) :
  AdminDashboard.mapGet k m = None -> ~ In k (map fst m).
Proof.
  induction m as [|[k0 v0] m IH]; cbn [AdminDashboard.mapGet map fst];
    [intros _ []|].
  destruct (String.eqb_spec k0 k) as [->|Hk0]; [discriminate|].
  intros Hnone [Heq|Hin]; [contradiction | now apply IH].
Qed.

Lemma In_mapGet (k : string) (v : list AdminDashboard.GroupedLog)
    (m : AdminDashboard.Grouped) :
  List.NoDup (map fst m) -> In (k, v) m ->
  AdminDashboard.mapGet k m = Some v.
Proof.
  induction m as [|[k0 v0] m IH]; cbn [AdminDashboard.mapGet map fst];
    [intros _ []|].
  intros Hnd Hin. apply List.NoDup_cons_iff in Hnd as [Hk0 Hnd].
  destruct Hin as [Heq|Hin].
  - injection Heq as -> ->. now rewrite String.eqb_refl.
  - destruct (String.eqb_spec k0 k) as [->|Hne]; [|now apply IH].
    exfalso. apply Hk0.
    change k with (fst (k, v)). now apply List.in_map.
Qed.

Lemma groupLogs_classes (docs : Collection AttendanceLog) :
  List.NoDup (map fst (AdminDashboard.groupLogs docs))
  /\ forall k, AdminDashboard.mapGet k (AdminDashboard.groupLogs docs)
               = Props.classOf k (Props.liveLogs docs).
Proof.
  unfold AdminDashboard.groupLogs, Props.liveLogs.
  match goal with |- context [fold_left ?f _ _] => set (step := f) end.
  induction docs as [|d docs IH] using rev_ind.
  - cbn. split; [constructor | reflexivity].
  - rewrite fold_left_app, map_app, List.filter_app, map_app.
    cbn [fold_left map List.filter].
    set (grouped := fold_left step docs []) in *.
    set (live := map Spec.asGrouped
                     (List.filter ScannerPage.notDeleted (map snd docs))) in *.
    destruct IH as [Hnd Hget].
    unfold step at 1 2. unfold ScannerPage.notDeleted at 1.
    destruct (Js.truthy (isDeleted (snd d))); cbn [negb map].
    { rewrite app_nil_r. now split. }
    set (g := Spec.asGrouped (snd d)).
    change (AdminDashboard.Build_GroupedLog _ _ _ _ _ _ _) with g.
    set (key := (userId (snd d) ++ "|"
                 ++ default (Utils.getDateKey (toDate (scanTime (snd d))))
                            (dateKey (snd d)))%string).
    assert (Hkey : Props.keyOf g = key) by reflexivity.
    split.
    + rewrite mapSet_keys.
      destruct (AdminDashboard.mapGet key grouped) eqn:Hk; [exact Hnd|].
      apply List.NoDup_app; [exact Hnd | repeat constructor; intros [] |].
      intros a Ha [<- | []]. now apply mapGet_None in Hk.
    + intro k. unfold Props.classOf. rewrite List.filter_app.
      cbn [List.filter]. rewrite Hkey.
      destruct (String.eqb_spec key k) as [<-|Hne].
      * rewrite mapGet_mapSet_same, Hget. unfold Props.classOf.
        destruct (List.filter _ live); reflexivity.
      * rewrite mapGet_mapSet_other by congruence.
        rewrite app_nil_r. apply Hget.
Qed.

(** X8. What the first loop of [recomputeSessionsForRange] collects.  The
    keys of [grouped] are pairwise distinct, and its entries are exactly the
    classes of the documents that are not deleted: under a key stand the
    elements pushed for the documents of that user and day, all of them, in
    the order of the query, and no entry is empty (so [list[0]] exists). *)
Theorem groupLogs_groups_the_live_logs (docs : Collection AttendanceLog) :
  let grouped := AdminDashboard.groupLogs docs in
  List.NoDup (map fst grouped)
  /\ forall (k : string) (v : list AdminDashboard.GroupedLog),
       In (k, v) grouped
       <-> v <> []
           /\ v = List.filter (fun g => String.eqb (Props.keyOf g) k)
                              (Props.liveLogs docs).
Proof.
  intro grouped. destruct (groupLogs_classes docs) as [Hnd Hget].
  fold grouped in Hnd, Hget.
  split; [exact Hnd|].
  intros k v. split.
  - intro Hin. apply (In_mapGet k v grouped Hnd) in Hin.
    rewrite Hget in Hin. unfold Props.classOf in Hin.
    destruct (List.filter _ (Props.liveLogs docs)); [discriminate|].
    injection Hin as <-. split; [discriminate | reflexivity].
  - intros [Hne ->]. apply mapGet_In. rewrite Hget. unfold Props.classOf.
    destruct (List.filter _ (Props.liveLogs docs)); [contradiction|].
    reflexivity.
Qed.

End GroupFacts.

(** ** The keys of [grouped] *)

Section KeyFacts.
Context `{Host}.
Import Firestore Types.

Lemma split_noBar (d : string) :
  Props.noBar d = true -> AdminDashboard.split "|" d = [d].
Proof.
  induction d as [|c d IH]; cbn [Props.noBar AdminDashboard.split];
    [reflexivity|].
  intro Hd. apply andb_true_iff in Hd as [Hc Hd].
  apply negb_true_iff in Hc. rewrite Hc, (IH Hd). reflexivity.
Qed.

Lemma split_bar_head (u rest : string) :
  Props.noBar u = true ->
  AdminDashboard.split "|" (u ++ String "|" rest)
  = u :: AdminDashboard.split "|" rest.
Proof.
  induction u as [|c u IH]; cbn [Props.noBar].
  - intros _. reflexivity.
  - intro Hu. apply andb_true_iff in Hu as [Hc Hu].
    apply negb_true_iff in Hc.
    change (String c u ++ String "|" rest)%string
      with (String c (u ++ String "|" rest)).
    cbn [AdminDashboard.split]. rewrite Hc, (IH Hu). reflexivity.
Qed.

Lemma key_parts (u d : string) :
  Props.noBar u = true ->
  AdminDashboard.keyUserId (u ++ "|" ++ d) = u
  /\ (Props.noBar d = true -> AdminDashboard.keyDateKey (u ++ "|" ++ d) = d).
Proof.
  intro Hu. unfold AdminDashboard.keyUserId, AdminDashboard.keyDateKey.
  change ("|" ++ d)%string with (String "|" d).
  rewrite (split_bar_head u d Hu). cbn [nth].
  split; [reflexivity|].
  intro Hd. now rewrite (split_noBar d Hd).
Qed.

Lemma digits_noBar (width : nat) :
  forall (n : Z) (acc : string),
    Props.noBar acc = true -> Props.noBar (Utils.digits width n acc) = true.
Proof.
  induction width as [|w IH]; intros n acc Hacc; cbn [Utils.digits];
    [exact Hacc|].
  apply IH. cbn [Props.noBar]. rewrite Hacc, andb_true_r.
  assert (Hd : (0 <= n mod 10 < 10)%Z) by (apply Z.mod_pos_bound; lia).
  assert (Hcases : (n mod 10 = 0 \/ n mod 10 = 1 \/ n mod 10 = 2
                    \/ n mod 10 = 3 \/ n mod 10 = 4 \/ n mod 10 = 5
                    \/ n mod 10 = 6 \/ n mod 10 = 7 \/ n mod 10 = 8
                    \/ n mod 10 = 9)%Z) by lia.
  repeat destruct Hcases as [-> | Hcases]; try reflexivity.
  rewrite Hcases. reflexivity.
Qed.

Lemma getDateKey_noBar (date : Z) :
  Props.noBar (Utils.getDateKey date) = true.
Proof.
  unfold Utils.getDateKey. cbv zeta.
  apply digits_noBar. cbn [Props.noBar]. rewrite andb_true_l.
  apply digits_noBar. cbn [Props.noBar]. rewrite andb_true_l.
  apply digits_noBar. reflexivity.
Qed.

(** X9. The keys of [grouped] are read back as they were built.  A key
    [userId|dateKey] splits into its user id and its date key when neither
    holds the separator; a date key [getDateKey] computes never holds it.
    So the session [recomputeSessionsForRange] builds for an entry of
    [grouped] carries the user id and the date key of every log of the
    entry. *)
Theorem grouped_keys_round_trip :
  (forall u d : string,
      Props.noBar u = true ->
      AdminDashboard.keyUserId (u ++ "|" ++ d) = u
      /\ (Props.noBar d = true ->
          AdminDashboard.keyDateKey (u ++ "|" ++ d) = d))
  /\ (forall date : Z, Props.noBar (Utils.getDateKey date) = true)
  /\ (forall (settings : BufferSettings) (userMap : gmap string UserProfile)
             (docs : Collection AttendanceLog)
             (entry : string * list AdminDashboard.GroupedLog)
             (g : AdminDashboard.GroupedLog),
         In entry (AdminDashboard.groupLogs docs) ->
         In g (snd entry) ->
         Props.noBar (AdminDashboard.g_userId g) = true ->
         Props.noBar (AdminDashboard.g_dateKey g) = true ->
         let s := AdminDashboard.keySession settings userMap entry in
         s_userId s = AdminDashboard.g_userId g
         /\ s_dateKey s = AdminDashboard.g_dateKey g).
Proof.
  split; [exact key_parts|]. split; [exact getDateKey_noBar|].
  intros settings userMap docs [k v] g Hentry Hg Hu Hd s. subst s.
  cbn [snd] in Hg.
  destruct (groupLogs_classes docs) as [Hnd Hget].
  apply (In_mapGet k v _ Hnd) in Hentry. rewrite Hget in Hentry.
  unfold Props.classOf in Hentry.
  destruct (List.filter _ (Props.liveLogs docs)) as [|g0 rest] eqn:Hclass;
    [discriminate|].
  injection Hentry as <-. rewrite <- Hclass in Hg.
  apply List.filter_In in Hg as [_ Hkey]. apply String.eqb_eq in Hkey.
  unfold AdminDashboard.keySession, AdminDashboard.sessionData.
  cbn [s_userId s_dateKey fst]. rewrite <- Hkey. unfold Props.keyOf.
  destruct (key_parts (AdminDashboard.g_userId g) (AdminDashboard.g_dateKey g)
              Hu) as [Huser Hday].
  split; [exact Huser | exact (Hday Hd)].
Qed.

End KeyFacts.

Section KeyInstances.
Import Firestore Types.

Lemma grouped_keys_witness :
  AdminDashboard.keyUserId "u1|2024-01-01" = "u1"%string
  /\ AdminDashboard.keyDateKey "u1|2024-01-01" = "2024-01-01"%string.
Proof.
  destruct (proj1 (grouped_keys_round_trip (H := Demo.host))
              "u1"%string "2024-01-01"%string eq_refl) as [Huser Hday].
  split; [exact Huser | exact (Hday eq_refl)].
Defined.

End KeyInstances.

(** ** A recompute over a range without logs *)

Section EmptyRangeFacts.
Context `{Host}.
Import Firestore Types.

Lemma groupLogs_all_deleted (docs : Collection AttendanceLog) :
  (forall d, In d docs -> Js.truthy (isDeleted (snd d)) = true) ->
  AdminDashboard.groupLogs docs = [].
Proof.
  intro Hall.
  destruct (groupLogs_classes docs) as [_ Hget].
  assert (Hlive : Props.liveLogs docs = []).
  { unfold Props.liveLogs. rewrite filter_none; [reflexivity|].
    intros l Hl. apply List.in_map_iff in Hl as (d & <- & Hd).
    unfold ScannerPage.notDeleted. now rewrite (Hall d Hd). }
  rewrite Hlive in Hget.
  destruct (AdminDashboard.groupLogs docs) as [|[k v] rest]; [reflexivity|].
  specialize (Hget k). cbn [AdminDashboard.mapGet] in Hget.
  rewrite String.eqb_refl in Hget. discriminate.
Qed.

(** X10. A recompute over a range without live logs changes nothing.  When
    every successful log the range query returns is soft-deleted (or it
    returns none), [recomputeSessionsForRange] writes nothing: the sessions
    computed earlier for those days stay as they are. *)
Theorem recompute_without_live_logs_changes_nothing (db : Db)
    (startDate endDate : Z) (users : list UserProfile) (refs : list DocId) :
  (forall d, In d (AdminDashboard.logsQuery db startDate endDate) ->
             Js.truthy (isDeleted (snd d)) = true) ->
  AdminDashboard.recomputeSessionsForRange startDate endDate users refs db
  = db.
Proof.
  intro Hall. unfold AdminDashboard.recomputeSessionsForRange.
  rewrite (groupLogs_all_deleted _ Hall). reflexivity.
Qed.

End EmptyRangeFacts.

Section EmptyRangeInstances.
Import Firestore Types.

Lemma recompute_without_live_logs_witness :
  AdminDashboard.recomputeSessionsForRange (H := Demo.host) Demo.midnight
    (Demo.clock 23 59) [Demo.amy] ["new-1"%string] Samples.orphanStore
  = Samples.orphanStore.
Proof.
  apply (recompute_without_live_logs_changes_nothing (H := Demo.host)).
  intros d Hd. vm_compute in Hd. destruct Hd as [<- | []]. reflexivity.
Defined.

End EmptyRangeInstances.

(** ** What a scan touches *)

Section FootprintFacts.
Context `{Host}.
Import Firestore Types.

(** X11. What a scan touches.  Whatever happens during a call of
    [handleScan], it never changes a site or the settings, never changes or
    removes a document of the attendance log, and adds at most one: a log
    of the signed-in user, under the id generated for it.  Sessions are
    rewritten only when the document added is a success. *)
Theorem scan_footprint (o : ScannerPage.Outcomes) (auth : ScannerPage.Auth)
    (rawValue : string) (db : Db) :
  let db' := ScannerPage.db_after (ScannerPage.handleScan o auth rawValue db) in
  sites db' = sites db
  /\ settingsGlobal db' = settingsGlobal db
  /\ ((attendance db' = attendance db
       /\ attendanceSessions db' = attendanceSessions db)
      \/ exists event,
           attendance db' = attendance db ++ [(ScannerPage.logRef o, event)]
           /\ ScannerPage.user auth = Some (userId event)
           /\ (status event = Fail ->
               attendanceSessions db' = attendanceSessions db)).
Proof.
  intro db'. subst db'.
  unfold ScannerPage.handleScan, ScannerPage.failWith, ScannerPage.catchBlock,
    ScannerPage.quiet, ScannerPage.logAttendanceFailure,
    ScannerPage.rebuildSessionsForDay.
  destruct (ScannerPage.user auth) as [uid|] eqn:Huser;
    [|repeat split; now left].
  destruct (ScannerPage.profile auth) as [profile|] eqn:Hprofile;
    [|repeat split; now left].
  repeat match goal with
         | |- context [match ?x with _ => _ end] => destruct x eqn:?
         end;
    cbn [ScannerPage.db_after sites settingsGlobal attendance
         attendanceSessions withAttendance withSessions addDoc];
    (split; [reflexivity|]); (split; [reflexivity|]);
    first [ left; split; reflexivity
          | right; eexists; split; [reflexivity|];
            split; [reflexivity|];
            first [intros _; reflexivity | discriminate] ].
Qed.

End FootprintFacts.

Section FootprintInstances.
Import Firestore Types.

Lemma scan_footprint_witness :
  attendanceSessions
    (ScannerPage.db_after
       (ScannerPage.handleScan (H := Demo.host) Demo.smooth Demo.amyAuth
                               "nowhere" Demo.store))
  = attendanceSessions Demo.store.
Proof.
  destruct (scan_footprint (H := Demo.host) Demo.smooth Demo.amyAuth
              "nowhere" Demo.store)
    as (_ & _ & [[_ Hsame] | (event & Hlog & _ & Hfail)]);
    [exact Hsame|].
  apply Hfail.
  assert (Hevent : attendance
                     (ScannerPage.db_after
                        (ScannerPage.handleScan (H := Demo.host) Demo.smooth
                           Demo.amyAuth "nowhere" Demo.store))
                   = attendance Demo.store
                     ++ [(ScannerPage.logRef Demo.smooth,
                          ScannerPage.failureLog (H := Demo.host) Demo.smooth
                            "u1" Demo.amy "Site not found." None None None)])
    by reflexivity.
  rewrite Hevent in Hlog. apply app_inv_head in Hlog.
  injection Hlog as <-. reflexivity.
Defined.

End FootprintInstances.

(** ** A scan that is accepted *)

Section AcceptedFacts.
Context `{Host}.
Import Firestore Types.
Open Scope Q_scope.

(** The database an accepted scan leaves. *)
Lemma handleScan_accepted (o : ScannerPage.Outcomes) (rawValue : string)
    (db : Db) (u : string) (profile : UserProfile)
    (site : DocId * SiteItem) (coords : Q * Q) :
  let auth := {| ScannerPage.user := Some u;
                 ScannerPage.profile := Some profile |} in
  let today := Utils.getDateKey (ScannerPage.clientNow o) in
  let event :=
    ScannerPage.successLog o u profile site coords
      (Spec.distanceTo site coords)
      (ScannerPage.nextScanType (ScannerPage.dailyQuery db u (fst site) today))
  in
  let db1 :=
    withAttendance db (attendance db ++ [(ScannerPage.logRef o, event)]) in
  ScannerPage.processing o = false ->
  (forall a, ScannerPage.timedOut o a = false) ->
  Spec.Inside o rawValue db site coords ->
  ScannerPage.dailyQueryError o = None ->
  ScannerPage.addDocError o = None ->
  ScannerPage.db_after (ScannerPage.handleScan o auth rawValue db)
  = if ScannerPage.rebuildFails o then db1
    else ScannerPage.rebuildSessionsForDay auth (ScannerPage.sessionRef o)
                                           today db1.
Proof.
  intros auth today event db1 Hfree Hontime
         ((Htoken & Hlookup & Hsite) & Hpos & Hnear) Hdaily Hadd.
  unfold ScannerPage.handleScan.
  cbn [ScannerPage.user ScannerPage.profile auth].
  rewrite Hfree, !Hontime, Hlookup, Hpos, Hdaily, Hadd.
  fold (Spec.token rawValue). rewrite Hsite.
  apply String.eqb_neq in Htoken. rewrite Htoken.
  fold (Spec.distanceTo site coords).
  assert (Hfar : Js.Qgtb (Spec.distanceTo site coords)
                         (site_allowedRadiusMeters (snd site)) = false).
  { unfold Js.Qgtb. apply negb_false_iff, Qle_bool_iff. exact Hnear. }
  rewrite Hfar. reflexivity.
Qed.

Lemma reduce_some {A} (f : A -> A -> A) (l : list A) :
  l <> [] -> Js.reduce f l <> None.
Proof. destruct l; [congruence | discriminate]. Qed.

(** X12. An accepted scan is in the day's session.  When every check of a
    scan passes, the write succeeds and the rebuild that follows does not
    fail, the user holds exactly one session for the day, under the id
    generated for it: the session of the day's logs, the new one among
    them, so that it has a check-in or a check-out. *)
Theorem accepted_scan_rebuilds_the_session (o : ScannerPage.Outcomes)
    (rawValue : string) (db : Db) (u : string) (profile : UserProfile) :
  let auth := {| ScannerPage.user := Some u;
                 ScannerPage.profile := Some profile |} in
  let today := Utils.getDateKey (ScannerPage.clientNow o) in
  let db' := ScannerPage.db_after (ScannerPage.handleScan o auth rawValue db) in
  let session := ScannerPage.daySession db' u profile today in
  ScannerPage.processing o = false ->
  (forall a, ScannerPage.timedOut o a = false) ->
  Spec.AllPass o rawValue db ->
  ScannerPage.rebuildFails o = false ->
  exists event,
    attendance db' = attendance db ++ [(ScannerPage.logRef o, event)]
    /\ In event (ScannerPage.dayLogs db' u today)
    /\ Spec.sessionsOf u today (attendanceSessions db')
       = [(ScannerPage.sessionRef o, session)]
    /\ (checkInTime session <> None \/ checkOutTime session <> None).
Proof.
  intros auth today db' session Hfree Hontime
         (site & coords & Hinside & Hdaily & Hadd) Hrebuild.
  pose proof (handleScan_accepted o rawValue db u profile site coords
                Hfree Hontime Hinside Hdaily Hadd) as Hdb.
  cbv zeta in Hdb. rewrite Hrebuild in Hdb.
  fold auth today in Hdb. fold db' in Hdb.
  set (event := ScannerPage.successLog o u profile site coords _ _) in Hdb.
  set (db1 := withAttendance db _) in Hdb.
  assert (Hlogs : attendance db' = attendance db1)
    by (rewrite Hdb; reflexivity).
  assert (Hday : ScannerPage.dayLogs db' u today
                 = ScannerPage.dayLogs db1 u today)
    by (unfold ScannerPage.dayLogs, ScannerPage.logsQuery;
        now rewrite Hlogs).
  assert (Hsession : session = ScannerPage.daySession db1 u profile today).
  { subst session. unfold ScannerPage.daySession.
    rewrite Hday. rewrite Hdb. reflexivity. }
  assert (Hevent : In event (ScannerPage.dayLogs db' u today)).
  { rewrite Hday. apply day_logs_membership.
    split.
    - exists (ScannerPage.logRef o). subst db1. cbn [attendance withAttendance].
      apply in_or_app. right. now left.
    - repeat split. discriminate. }
  exists event.
  split; [exact Hlogs|]. split; [exact Hevent|].
  split.
  - rewrite Hsession, Hdb.
    apply (replace_leaves_one u today (ScannerPage.sessionRef o)
             (ScannerPage.daySession db1 u profile today)); reflexivity.
  - subst session. unfold ScannerPage.daySession.
    set (logs := ScannerPage.dayLogs db' u today) in *.
    unfold ScannerPage.sessionData, ScannerPage.aggregate.
    cbn [checkInTime checkOutTime Aggregate.checkInTime
         Aggregate.checkOutTime].
    destruct (ScannerPage.nextScanType
                (ScannerPage.dailyQuery db u (fst site) today)) eqn:Hkind.
    + left. intro Hnone.
      destruct (Js.reduce _ (List.filter (ScannerPage.hasScanType CheckIn)
                                         logs)) eqn:Hred;
        [discriminate|].
      revert Hred. apply reduce_some.
      intro Hempty.
      assert (Hin : In event (List.filter (ScannerPage.hasScanType CheckIn)
                                          logs)).
      { apply List.filter_In. split; [exact Hevent|].
        subst event. unfold ScannerPage.hasScanType, ScannerPage.successLog.
        cbn [scanType]. reflexivity. }
      rewrite Hempty in Hin. destruct Hin.
    + right. intro Hnone.
      destruct (Js.reduce _ (List.filter (ScannerPage.hasScanType CheckOut)
                                         logs)) eqn:Hred;
        [discriminate|].
      revert Hred. apply reduce_some.
      intro Hempty.
      assert (Hin : In event (List.filter (ScannerPage.hasScanType CheckOut)
                                          logs)).
      { apply List.filter_In. split; [exact Hevent|].
        subst event. unfold ScannerPage.hasScanType, ScannerPage.successLog.
        cbn [scanType]. reflexivity. }
      rewrite Hempty in Hin. destruct Hin.
Qed.

End AcceptedFacts.

Section AcceptedInstances.
Import Firestore Types.

Lemma accepted_scan_witness :
  exists event,
    attendance
      (ScannerPage.db_after
         (ScannerPage.handleScan (H := Demo.host) Demo.smooth Demo.amyAuth
                                 "  Depot   A " Demo.store))
    = attendance Demo.store ++ [("log-new"%string, event)]
    /\ In event
         (ScannerPage.dayLogs
            (ScannerPage.db_after
               (ScannerPage.handleScan (H := Demo.host) Demo.smooth
                                       Demo.amyAuth "  Depot   A " Demo.store))
            "u1" "2024-01-01").
Proof.
  destruct (accepted_scan_rebuilds_the_session (H := Demo.host) Demo.smooth
              "  Depot   A " Demo.store "u1"%string Demo.amy
              eq_refl (fun _ => eq_refl))
    as (event & Hafter & Hin & _).
  - exists Demo.depot, (3%Q, 101%Q).
    repeat split; try (vm_compute; reflexivity); vm_compute; discriminate.
  - reflexivity.
  - exists event. split; [exact Hafter | exact Hin].
Defined.

End AcceptedInstances.

(** ** Two scans in a row *)

Section AlternationFacts.
Context `{Host}.
Import Firestore Types.
Open Scope Z_scope.

Lemma sort_new_first {A} (le : A -> A -> bool) (l : list A) (x : A) :
  (forall a, In a l -> le a x = false) ->
  Js.sort le (l ++ [x]) = x :: Js.sort le l.
Proof.
  induction l as [|a l IH]; intro Hall; [reflexivity|].
  cbn [app Js.sort]. rewrite IH by (intros b Hb; apply Hall; now right).
  cbn [Js.insert]. rewrite (Hall a) by now left. reflexivity.
Qed.

(** X13. Two scans in a row alternate.  After an accepted scan whose server
    time is later than that of every successful log of the user at the site
    on the day, the next scan of the user at the site on that day is of the
    other kind: a check-out after a check-in, a check-in after a
    check-out. *)
Theorem successive_scans_alternate (o : ScannerPage.Outcomes)
    (rawValue : string) (db : Db) (u : string) (profile : UserProfile)
    (site : DocId * SiteItem) (coords : Q * Q) :
  let auth := {| ScannerPage.user := Some u;
                 ScannerPage.profile := Some profile |} in
  let today := Utils.getDateKey (ScannerPage.clientNow o) in
  let db' := ScannerPage.db_after (ScannerPage.handleScan o auth rawValue db) in
  ScannerPage.processing o = false ->
  (forall a, ScannerPage.timedOut o a = false) ->
  Spec.Inside o rawValue db site coords ->
  ScannerPage.dailyQueryError o = None ->
  ScannerPage.addDocError o = None ->
  (forall d, In d (Spec.matchingLogs db u (fst site) today) ->
             toNanos (scanTime (snd d)) < toNanos (ScannerPage.serverNow o)) ->
  ScannerPage.nextScanType (ScannerPage.dailyQuery db' u (fst site) today)
  = Props.opposite
      (ScannerPage.nextScanType (ScannerPage.dailyQuery db u (fst site) today)).
Proof.
  intros auth today db' Hfree Hontime Hinside Hdaily Hadd Hlater.
  pose proof (handleScan_accepted o rawValue db u profile site coords
                Hfree Hontime Hinside Hdaily Hadd) as Hdb.
  cbv zeta in Hdb. fold auth today in Hdb. fold db' in Hdb.
  set (kind := ScannerPage.nextScanType
                 (ScannerPage.dailyQuery db u (fst site) today)) in *.
  set (event := ScannerPage.successLog o u profile site coords _ kind) in Hdb.
  assert (Hlogs : attendance db'
                  = attendance db ++ [(ScannerPage.logRef o, event)])
    by (rewrite Hdb; destruct (ScannerPage.rebuildFails o); reflexivity).
  unfold ScannerPage.dailyQuery at 1. rewrite Hlogs, List.filter_app.
  cbn [List.filter snd].
  assert (Hmatch : String.eqb (userId event) u
                   && String.eqb (siteId event) (fst site)
                   && isSuccess (status event)
                   && ScannerPage.hasDateKey today event = true).
  { subst event. unfold ScannerPage.successLog, ScannerPage.hasDateKey.
    cbn [userId siteId status dateKey isSuccess]. fold today.
    now rewrite !String.eqb_refl. }
  rewrite Hmatch. unfold orderByDesc.
  rewrite sort_new_first.
  - unfold limit. cbn [firstn map snd].
    unfold ScannerPage.nextScanType at 1. cbn [map snd List.find].
    assert (Hlive : ScannerPage.notDeleted event = true) by reflexivity.
    rewrite Hlive. cbn [option_map]. subst event.
    unfold ScannerPage.successLog. cbn [scanType default].
    now destruct kind.
  - intros d Hd. specialize (Hlater d Hd). unfold docLe. cbn [snd fst].
    change (scanTime event) with (ScannerPage.serverNow o).
    apply orb_false_iff. split; [apply Z.ltb_ge; lia|].
    apply andb_false_iff. left. apply Z.eqb_neq. lia.
Qed.

End AlternationFacts.

Section AlternationInstances.
Import Firestore Types.

Lemma successive_scans_witness :
  ScannerPage.nextScanType
    (ScannerPage.dailyQuery
       (ScannerPage.db_after
          (ScannerPage.handleScan (H := Demo.host) Demo.smooth Demo.amyAuth
                                  "  Depot   A " Demo.store))
       "u1" "site-a" "2024-01-01")
  = CheckOut.
Proof.
  apply (successive_scans_alternate (H := Demo.host) Demo.smooth
           "  Depot   A " Demo.store "u1"%string Demo.amy Demo.depot
           (3%Q, 101%Q) eq_refl (fun _ => eq_refl)).
  - repeat split; try (vm_compute; reflexivity); vm_compute; discriminate.
  - reflexivity.
  - reflexivity.
  - intros d Hd. vm_compute in Hd.
    destruct Hd as [<- | [<- | []]]; vm_compute; reflexivity.
Defined.

End AlternationInstances.

(** ** [trim] and [normalizeSiteName] *)

Section TextFacts.

Lemma isSpace_toLower (c : ascii) :
  Utils.isSpace (Utils.toLower c) = Utils.isSpace c.
Proof. destruct c as [[] [] [] [] [] [] [] []]; reflexivity. Qed.

Lemma toLower_idem (c : ascii) :
  Utils.toLower (Utils.toLower c) = Utils.toLower c.
Proof. destruct c as [[] [] [] [] [] [] [] []]; reflexivity. Qed.

Lemma toLower_space (c : ascii) :
  Utils.isSpace c = true -> Utils.toLower c = c.
Proof. destruct c as [[] [] [] [] [] [] [] []]; (reflexivity || discriminate). Qed.

Lemma dropSpaces_nil (l : list ascii) :
  Utils.dropSpaces l = [] <-> forallb Utils.isSpace l = true.
Proof.
  induction l as [|c l IH]; cbn [Utils.dropSpaces forallb]; [tauto|].
  destruct (Utils.isSpace c); cbn [andb]; [exact IH|].
  split; discriminate.
Qed.

Lemma dropSpaces_head (l : list ascii) (c : ascii) (r : list ascii) :
  Utils.dropSpaces l = c :: r -> Utils.isSpace c = false.
Proof.
  induction l as [|a l IH]; cbn [Utils.dropSpaces]; [discriminate|].
  destruct (Utils.isSpace a) eqn:Ha; [exact IH|].
  intro Heq. injection Heq as <- _. exact Ha.
Qed.

Lemma dropSpaces_fixed (c : ascii) (r : list ascii) :
  Utils.isSpace c = false -> Utils.dropSpaces (c :: r) = c :: r.
Proof. intro Hc. cbn [Utils.dropSpaces]. now rewrite Hc. Qed.

Lemma dropSpaces_app (a : list ascii) (c : ascii) (b : list ascii) :
  Utils.isSpace c = false ->
  Utils.dropSpaces (a ++ c :: b) = Utils.dropSpaces a ++ c :: b.
Proof.
  intro Hc. induction a as [|x a IH]; cbn [app Utils.dropSpaces].
  - now rewrite Hc.
  - destruct (Utils.isSpace x); [exact IH | reflexivity].
Qed.

Lemma lastIsSpace_app (b : bool) (p x : list ascii) :
  Props.lastIsSpace b (p ++ x) = Props.lastIsSpace (Props.lastIsSpace b p) x.
Proof.
  revert b. induction p as [|c p IH]; intro b; cbn [app Props.lastIsSpace];
    [reflexivity | apply IH].
Qed.

(** The shape of a trimmed text. *)
Lemma trim_shape (l : list ascii) :
  (forallb Utils.isSpace l = true /\ Utils.trim l = [])
  \/ exists h t, Utils.isSpace h = false
                 /\ Utils.trim l = h :: t
                 /\ Props.lastIsSpace false (h :: t) = false.
Proof.
  unfold Utils.trim.
  destruct (Utils.dropSpaces l) as [|h t] eqn:Hdrop.
  - left. split; [now apply dropSpaces_nil | reflexivity].
  - right. pose proof (dropSpaces_head l h t Hdrop) as Hh.
    cbn [rev]. rewrite (dropSpaces_app (rev t) h [] Hh), rev_app_distr.
    cbn [rev app].
    exists h, (rev (Utils.dropSpaces (rev t))).
    split; [exact Hh|]. split; [reflexivity|].
    cbn [Props.lastIsSpace]. rewrite Hh.
    destruct (Utils.dropSpaces (rev t)) as [|c m] eqn:Hm; [reflexivity|].
    cbn [rev]. rewrite lastIsSpace_app. cbn [Props.lastIsSpace].
    exact (dropSpaces_head _ _ _ Hm).
Qed.

Lemma trim_fixed (h : ascii) (t : list ascii) :
  Utils.isSpace h = false ->
  Props.lastIsSpace false (h :: t) = false ->
  Utils.trim (h :: t) = h :: t.
Proof.
  intros Hh Hlast. unfold Utils.trim.
  rewrite (dropSpaces_fixed h t Hh).
  destruct (rev (h :: t)) as [|c m] eqn:Hrev.
  - apply (f_equal (@rev ascii)) in Hrev. rewrite rev_involutive in Hrev.
    discriminate.
  - assert (Hl : h :: t = rev m ++ [c]).
    { apply (f_equal (@rev ascii)) in Hrev.
      now rewrite rev_involutive in Hrev. }
    rewrite Hl, lastIsSpace_app in Hlast. cbn [Props.lastIsSpace] in Hlast.
    rewrite (dropSpaces_fixed c m Hlast), <- Hrev. apply rev_involutive.
Qed.

Lemma trim_idem (l : list ascii) : Utils.trim (Utils.trim l) = Utils.trim l.
Proof.
  destruct (trim_shape l) as [[_ ->] | (h & t & Hh & -> & Hlast)];
    [reflexivity | now apply trim_fixed].
Qed.

Lemma trim_nil (l : list ascii) :
  Utils.trim l = [] <-> forallb Utils.isSpace l = true.
Proof.
  split.
  - intro Hnil.
    destruct (trim_shape l) as [[Hb _] | (h & t & _ & Heq & _)];
      [exact Hb | congruence].
  - intro Hb. apply dropSpaces_nil in Hb. unfold Utils.trim.
    now rewrite Hb.
Qed.

Lemma map_toLower_last (b : bool) (l : list ascii) :
  Props.lastIsSpace b (map Utils.toLower l) = Props.lastIsSpace b l.
Proof.
  revert b. induction l as [|c l IH]; intro b; cbn [map Props.lastIsSpace];
    [reflexivity|].
  now rewrite isSpace_toLower.
Qed.

Lemma collapse_normal (m : list ascii) :
  forall b : bool,
    (forall c, In c m -> Utils.toLower c = c) ->
    Props.lastIsSpace b m = false ->
    Props.normalFrom b (Utils.collapse b m) = true.
Proof.
  induction m as [|c m IH]; intros b Hlow Hlast;
    cbn [Utils.collapse Props.normalFrom Props.lastIsSpace] in *.
  - now rewrite Hlast.
  - assert (Hm : forall x, In x m -> Utils.toLower x = x)
      by (intros x Hx; apply Hlow; now right).
    destruct (Utils.isSpace c) eqn:Hc.
    + destruct b; [now apply IH|].
      cbn [Props.normalFrom]. change (Utils.isSpace " ") with true.
      cbn [negb andb]. rewrite Ascii.eqb_refl. now apply IH.
    + cbn [Props.normalFrom]. rewrite Hc, (Hlow c) by now left.
      rewrite Ascii.eqb_refl. now apply IH.
Qed.

Lemma normalFrom_last (l : list ascii) :
  forall b : bool,
    Props.normalFrom b l = true -> Props.lastIsSpace b l = false.
Proof.
  induction l as [|c l IH]; intros b Hn;
    cbn [Props.normalFrom Props.lastIsSpace] in *.
  - now apply negb_true_iff in Hn.
  - destruct (Utils.isSpace c).
    + apply andb_true_iff in Hn as [_ Hn]. now apply IH.
    + apply andb_true_iff in Hn as [_ Hn]. now apply IH.
Qed.

Lemma normalFrom_lower (l : list ascii) :
  forall b : bool,
    Props.normalFrom b l = true -> map Utils.toLower l = l.
Proof.
  induction l as [|c l IH]; intros b Hn;
    cbn [Props.normalFrom map] in *; [reflexivity|].
  destruct (Utils.isSpace c) eqn:Hc.
  - apply andb_true_iff in Hn as [_ Hn].
    now rewrite (toLower_space c Hc), (IH true Hn).
  - apply andb_true_iff in Hn as [Hlow Hn].
    apply Ascii.eqb_eq in Hlow. now rewrite Hlow, (IH false Hn).
Qed.

Lemma normalFrom_collapse (l : list ascii) :
  forall b : bool,
    Props.normalFrom b l = true -> Utils.collapse b l = l.
Proof.
  induction l as [|c l IH]; intros b Hn;
    cbn [Props.normalFrom Utils.collapse] in *; [reflexivity|].
  destruct (Utils.isSpace c) eqn:Hc.
  - apply andb_true_iff in Hn as [Hn Hrest].
    apply andb_true_iff in Hn as [Hb Hsp].
    apply negb_true_iff in Hb. apply Ascii.eqb_eq in Hsp. subst b c.
    now rewrite (IH true Hrest).
  - apply andb_true_iff in Hn as [_ Hn]. now rewrite (IH false Hn).
Qed.

(** [normalizeSiteName] on the characters of the text. *)
Lemma normalize_normal (l : list ascii) :
  match Utils.collapse false (map Utils.toLower (Utils.trim l)) with
  | [] => forallb Utils.isSpace l = true
  | n => Props.normalFrom true n = true /\ forallb Utils.isSpace l = false
  end.
Proof.
  destruct (trim_shape l) as [[Hb ->] | (h & t & Hh & Ht & Hlast)];
    [exact Hb|].
  assert (Hnb : forallb Utils.isSpace l = false).
  { destruct (forallb Utils.isSpace l) eqn:Hb; [|reflexivity].
    apply trim_nil in Hb. congruence. }
  rewrite Ht.
  pose proof (collapse_normal (map Utils.toLower (h :: t)) false) as Hn.
  rewrite map_toLower_last in Hn.
  specialize (Hn ltac:(intros c Hc; apply List.in_map_iff in Hc as (x & <- & _);
                       apply toLower_idem) Hlast).
  cbn [map Utils.collapse] in *. rewrite isSpace_toLower, Hh in *.
  cbn [Props.normalFrom] in *. rewrite isSpace_toLower, Hh in *.
  split; [exact Hn | exact Hnb].
Qed.

Lemma normalized_fixed (l : list ascii) :
  Props.normalFrom true l = true ->
  Utils.collapse false (map Utils.toLower (Utils.trim l)) = l.
Proof.
  intro Hn. destruct l as [|h t]; [discriminate|].
  pose proof (normalFrom_last _ _ Hn) as Hlast.
  pose proof (normalFrom_lower _ _ Hn) as Hlow.
  cbn [Props.normalFrom Props.lastIsSpace] in Hn, Hlast.
  destruct (Utils.isSpace h) eqn:Hh; [discriminate|].
  rewrite trim_fixed; [| exact Hh | cbn [Props.lastIsSpace]; now rewrite Hh].
  rewrite Hlow. cbn [Utils.collapse]. rewrite Hh.
  apply andb_true_iff in Hn as [_ Hn].
  now rewrite (normalFrom_collapse t false Hn).
Qed.

Lemma normalizeSiteName_normal (v : string) :
  Props.isNormalized (Utils.normalizeSiteName v) = true.
Proof.
  unfold Props.isNormalized, Utils.normalizeSiteName.
  rewrite list_ascii_of_string_of_list_ascii.
  pose proof (normalize_normal (list_ascii_of_string v)) as Hn.
  destruct (Utils.collapse false _); [reflexivity | apply Hn].
Qed.

Lemma normalizeSiteName_fixed (v : string) :
  Props.isNormalized v = true -> Utils.normalizeSiteName v = v.
Proof.
  intro Hv. unfold Props.isNormalized in Hv.
  unfold Utils.normalizeSiteName.
  destruct (list_ascii_of_string v) as [|h t] eqn:Hl.
  - cbn. rewrite <- (string_of_list_ascii_of_string v), Hl. reflexivity.
  - rewrite (normalized_fixed _ Hv), <- Hl.
    apply string_of_list_ascii_of_string.
Qed.

Lemma normalizeSiteName_blank (v : string) :
  Utils.normalizeSiteName v = ""%string <-> Props.isBlank v = true.
Proof.
  unfold Props.isBlank, Utils.normalizeSiteName.
  pose proof (normalize_normal (list_ascii_of_string v)) as Hn.
  destruct (Utils.collapse false _) as [|c n]; cbn [string_of_list_ascii].
  - tauto.
  - destruct Hn as [_ Hn]. rewrite Hn. split; discriminate.
Qed.

Lemma normalizeSiteName_trimmed (v : string) :
  Utils.normalizeSiteName (Utils.trimString v) = Utils.normalizeSiteName v.
Proof.
  unfold Utils.normalizeSiteName, Utils.trimString.
  now rewrite list_ascii_of_string_of_list_ascii, trim_idem.
Qed.

(** X14. [normalizeSiteName] computes a normal form.  Its result holds no
    upper-case letter, no white space at either end and single spaces
    between words; a text is left as it is exactly when it is in that form
    already, so normalizing twice is normalizing once; and the result is
    empty exactly for a text of white space only, the texts [handleScan]
    rejects as an invalid QR code. *)
Theorem normalizeSiteName_normal_form (value : string) :
  Props.isNormalized (Utils.normalizeSiteName value) = true
  /\ (Utils.normalizeSiteName value = value
      <-> Props.isNormalized value = true)
  /\ Utils.normalizeSiteName (Utils.normalizeSiteName value)
     = Utils.normalizeSiteName value
  /\ (Utils.normalizeSiteName value = ""%string
      <-> Props.isBlank value = true).
Proof.
  split; [apply normalizeSiteName_normal|].
  split; [split; [intros <-; apply normalizeSiteName_normal
                 | apply normalizeSiteName_fixed]|].
  split; [apply normalizeSiteName_fixed, normalizeSiteName_normal|].
  apply normalizeSiteName_blank.
Qed.

End TextFacts.

(** ** [formatPhone] *)

Section PhoneFacts.

Lemma trimString_chars (s : string) :
  list_ascii_of_string (Utils.trimString s)
  = Utils.trim (list_ascii_of_string s).
Proof. apply list_ascii_of_string_of_list_ascii. Qed.

Lemma trimString_blank (s : string) :
  Utils.trimString s = ""%string <-> Props.isBlank s = true.
Proof.
  unfold Props.isBlank. rewrite <- trim_nil. unfold Utils.trimString.
  split.
  - intro Hs. apply (f_equal list_ascii_of_string) in Hs.
    now rewrite list_ascii_of_string_of_list_ascii in Hs.
  - now intros ->.
Qed.

Lemma trimString_fixed (s : string) :
  Utils.dropSpaces (list_ascii_of_string s) = list_ascii_of_string s ->
  Props.lastIsSpace false (list_ascii_of_string s) = false ->
  Utils.trimString s = s.
Proof.
  intros Hhead Hlast. unfold Utils.trimString.
  rewrite <- (string_of_list_ascii_of_string s) at 2. f_equal.
  destruct (list_ascii_of_string s) as [|h t]; [reflexivity|].
  apply trim_fixed; [|exact Hlast].
  exact (dropSpaces_head _ _ _ Hhead).
Qed.

Lemma trimString_last (s : string) :
  Props.lastIsSpace false (list_ascii_of_string (Utils.trimString s)) = false.
Proof.
  rewrite trimString_chars.
  destruct (trim_shape (list_ascii_of_string s))
    as [[_ ->] | (h & t & _ & -> & Hlast)]; [reflexivity | exact Hlast].
Qed.

Lemma dropZeros_last (s : string) (b : bool) :
  Props.lastIsSpace b (list_ascii_of_string s) = false ->
  Props.lastIsSpace false (list_ascii_of_string (Utils.dropZeros s)) = false.
Proof.
  revert b. induction s as [|c s IH]; intros b Hlast;
    cbn [Utils.dropZeros list_ascii_of_string Props.lastIsSpace] in *;
    [reflexivity|].
  destruct (Ascii.eqb c "0"); [now apply (IH (Utils.isSpace c))|].
  exact Hlast.
Qed.

Lemma prefix_app (p x : string) : String.prefix p (p ++ x) = true.
Proof.
  induction p as [|c p IH]; [now destruct x|].
  change (String c p ++ x)%string with (String c (p ++ x)).
  cbn [String.prefix]. destruct (ascii_dec c c); [exact IH | congruence].
Qed.

Lemma formatPhone_fixed (r : string) :
  String.prefix "+60" r = true ->
  Props.lastIsSpace false (list_ascii_of_string r) = false ->
  Utils.formatPhone r = r.
Proof.
  intros Hprefix Hlast.
  destruct r as [|c r]; [discriminate|].
  assert (Hc : c = "+"%char).
  { cbn [String.prefix] in Hprefix.
    destruct (ascii_dec "+" c); [congruence | discriminate]. }
  subst c.
  assert (Htrim : Utils.trimString (String "+" r) = String "+" r)
    by (apply trimString_fixed; [reflexivity | exact Hlast]).
  unfold Utils.formatPhone. cbv zeta. rewrite Htrim, Hprefix. reflexivity.
Qed.

(** X15. [formatPhone] puts a number in the +60 form, once.  The result
    is empty exactly for a text of white space only; otherwise it starts
    with [+60]; and a result is left as it is when formatted again. *)
Theorem formatPhone_gives_the_plus60_form (raw : string) :
  (Utils.formatPhone raw = ""%string <-> Props.isBlank raw = true)
  /\ (Props.isBlank raw = false ->
      String.prefix "+60" (Utils.formatPhone raw) = true)
  /\ Utils.formatPhone (Utils.formatPhone raw) = Utils.formatPhone raw.
Proof.
  pose proof (trimString_blank raw) as Hblank.
  pose proof (trimString_last raw) as Hlast.
  assert (Hcases :
            Utils.formatPhone raw
            = let trimmed := Utils.trimString raw in
              if String.eqb trimmed "" then ""%string
              else if String.prefix "+60" trimmed then trimmed
              else if String.prefix "60" trimmed then ("+" ++ trimmed)%string
              else if String.prefix "0" trimmed
              then ("+60" ++ Utils.dropZeros trimmed)%string
              else ("+60" ++ trimmed)%string) by reflexivity.
  cbv zeta in Hcases.
  set (trimmed := Utils.trimString raw) in *.
  destruct (String.eqb_spec trimmed "") as [Hempty|Hfull].
  { rewrite Hcases. split; [tauto|]. split; [|reflexivity].
    intro Hnb. apply Hblank in Hempty. congruence. }
  assert (Hnb : Props.isBlank raw <> true) by tauto.
  destruct (String.prefix "+60" trimmed) eqn:H1.
  { rewrite Hcases. split; [tauto|]. split; [tauto|].
    now apply formatPhone_fixed. }
  destruct (String.prefix "60" trimmed) eqn:H2.
  { rewrite Hcases.
    assert (Hp : String.prefix "+60" ("+" ++ trimmed) = true) by exact H2.
    split; [split; [discriminate | tauto]|]. split; [tauto|].
    apply formatPhone_fixed; [exact Hp | exact Hlast]. }
  destruct (String.prefix "0" trimmed) eqn:H3.
  { rewrite Hcases.
    split; [split; [discriminate | tauto]|].
    split; [intros _; apply prefix_app|].
    apply formatPhone_fixed; [apply prefix_app|].
    change ("+60" ++ Utils.dropZeros trimmed)%string
      with (String "+" (String "6" (String "0" (Utils.dropZeros trimmed)))).
    cbn [list_ascii_of_string Props.lastIsSpace].
    change (Utils.isSpace "0") with false.
    exact (dropZeros_last trimmed false Hlast). }
  rewrite Hcases.
  split; [split; [discriminate | tauto]|].
  split; [intros _; apply prefix_app|].
  apply formatPhone_fixed; [apply prefix_app|].
  change ("+60" ++ trimmed)%string
    with (String "+" (String "6" (String "0" trimmed))).
  cbn [list_ascii_of_string Props.lastIsSpace].
  change (Utils.isSpace "0") with false. exact Hlast.
Qed.

End PhoneFacts.

Section PhoneInstances.

Lemma formatPhone_witness :
  String.prefix "+60" (Utils.formatPhone " 012-345 6789 ") = true.
Proof.
  apply (proj1 (proj2 (formatPhone_gives_the_plus60_form " 012-345 6789 "))).
  reflexivity.
Defined.

End PhoneInstances.

(** ** The search index *)

Section PrefixFacts.

Lemma existsb_eqb_iff (x : string) (s : list string) :
  existsb (String.eqb x) s = true <-> In x s.
Proof.
  rewrite List.existsb_exists. split.
  - intros (y & Hy & Heq). apply String.eqb_eq in Heq. now subst.
  - intro Hx. exists x. split; [exact Hx | apply String.eqb_refl].
Qed.

Lemma In_setAdd (x y : string) (s : list string) :
  In x (Utils.setAdd y s) <-> x = y \/ In x s.
Proof.
  unfold Utils.setAdd. destruct (existsb (String.eqb y) s) eqn:Hy.
  - apply existsb_eqb_iff in Hy. split; [now right|].
    intros [-> | Hx]; assumption.
  - rewrite List.in_app_iff. cbn. intuition congruence.
Qed.

Lemma NoDup_setAdd (y : string) (s : list string) :
  List.NoDup s -> List.NoDup (Utils.setAdd y s).
Proof.
  intro Hs. unfold Utils.setAdd.
  destruct (existsb (String.eqb y) s) eqn:Hy; [exact Hs|].
  apply List.NoDup_app; [exact Hs | repeat constructor; intros [] |].
  intros a Ha [<- | []].
  apply existsb_eqb_iff in Ha. congruence.
Qed.

Lemma addAll_spec (xs : list string) :
  forall acc : list string,
    let s := fold_left (fun prefixes x => Utils.setAdd x prefixes) xs acc in
    (forall x, In x s <-> In x acc \/ In x xs)
    /\ (List.NoDup acc -> List.NoDup s).
Proof.
  induction xs as [|y xs IH]; intro acc; cbn [fold_left].
  - split; [cbn; tauto | tauto].
  - destruct (IH (Utils.setAdd y acc)) as [Hin Hnd]. split.
    + intro x. rewrite Hin, In_setAdd. cbn. intuition congruence.
    + intro Hacc. now apply Hnd, NoDup_setAdd.
Qed.

Lemma addEach_spec {A} (g : A -> list string) (parts : list A) :
  forall acc : list string,
    let s := fold_left
               (fun prefixes part =>
                  fold_left (fun prefixes x => Utils.setAdd x prefixes)
                            (g part) prefixes)
               parts acc in
    (forall x, In x s <-> In x acc \/ exists part, In part parts /\ In x (g part))
    /\ (List.NoDup acc -> List.NoDup s).
Proof.
  induction parts as [|p parts IH]; intro acc; cbn [fold_left].
  - split; [|tauto]. intro x. split; [now left|].
    intros [Hx | (part & [] & _)]. exact Hx.
  - destruct (addAll_spec (g p) acc) as [Hin1 Hnd1].
    destruct (IH (fold_left (fun prefixes x => Utils.setAdd x prefixes)
                            (g p) acc)) as [Hin Hnd].
    split.
    + intro x. rewrite Hin, Hin1. split.
      * intros [[Hx | Hx] | (part & Hpart & Hx)];
          [now left | right; exists p; split; [now left | exact Hx]
          | right; exists part; split; [now right | exact Hx]].
      * intros [Hx | (part & [<- | Hpart] & Hx)];
          [left; now left | left; now right
          | right; exists part; now split].
    + intro Hacc. now apply Hnd, Hnd1.
Qed.

Lemma string_of_list_app (a b : list ascii) :
  string_of_list_ascii (a ++ b)
  = (string_of_list_ascii a ++ string_of_list_ascii b)%string.
Proof.
  induction a as [|c a IH]; [reflexivity|].
  cbn [app string_of_list_ascii]. rewrite IH. reflexivity.
Qed.

Lemma list_of_string_app (a b : string) :
  list_ascii_of_string (a ++ b)
  = list_ascii_of_string a ++ list_ascii_of_string b.
Proof.
  induction a as [|c a IH]; [reflexivity|].
  change (String c a ++ b)%string with (String c (a ++ b)).
  cbn [list_ascii_of_string app]. now rewrite IH.
Qed.

Lemma In_slices (p : string) (w : list ascii) :
  In p (Utils.slices w) <-> Props.isPrefixOf p w.
Proof.
  unfold Utils.slices, Props.isPrefixOf. rewrite List.in_map_iff. split.
  - intros (i & <- & Hi). apply List.in_seq in Hi.
    split.
    + destruct w as [|c w]; [cbn in Hi; lia|].
      destruct i as [|i]; [lia | discriminate].
    + exists (string_of_list_ascii (skipn i w)).
      now rewrite <- string_of_list_app, firstn_skipn.
  - intros (Hne & rest & Hw).
    exists (List.length (list_ascii_of_string p)).
    apply (f_equal list_ascii_of_string) in Hw.
    rewrite list_ascii_of_string_of_list_ascii, list_of_string_app in Hw.
    split.
    + rewrite Hw, firstn_app, Nat.sub_diag, firstn_all. cbn [firstn].
      rewrite app_nil_r. apply string_of_list_ascii_of_string.
    + apply List.in_seq. rewrite Hw, List.length_app.
      destruct p as [|c p]; [congruence|]. cbn. lia.
Qed.

(** What [buildPrefixes] returns for a value. *)
Lemma buildPrefixes_spec (value : string) :
  (forall p, In p (Utils.buildPrefixes value)
             <-> Props.isPrefixOf p (Utils.condensedOf value)
                 \/ exists part, In part (Utils.partsOf value)
                                 /\ Props.isPrefixOf p part)
  /\ List.NoDup (Utils.buildPrefixes value).
Proof.
  unfold Utils.buildPrefixes. cbv zeta.
  destruct (addAll_spec (Utils.slices (Utils.condensedOf value)) [])
    as [Hin1 Hnd1].
  destruct (addEach_spec Utils.slices (Utils.partsOf value)
              (fold_left (fun prefixes x => Utils.setAdd x prefixes)
                         (Utils.slices (Utils.condensedOf value)) []))
    as [Hin Hnd].
  split.
  - intro p. rewrite Hin, Hin1, <- In_slices. cbn [In]. split.
    + intros [[[] | Hp] | (part & Hpart & Hp)];
        [now left | right; exists part; split;
                    [exact Hpart | now apply In_slices]].
    + intros [Hp | (part & Hpart & Hp)];
        [left; now right | right; exists part; split;
                           [exact Hpart | now apply In_slices]].
  - apply Hnd, Hnd1. constructor.
Qed.

Lemma splitRuns_clean (l : list ascii) :
  forall (b : bool) (piece : list ascii),
    In piece (Utils.splitRuns b l) ->
    forallb (fun c => negb (Utils.isSeparator c)) piece = true.
Proof.
  induction l as [|c l IH]; intros b piece; cbn [Utils.splitRuns].
  - intros [<- | []]. reflexivity.
  - destruct (Utils.isSeparator c) eqn:Hc.
    + destruct b; [apply IH|].
      intros [<- | Hin]; [reflexivity | now apply (IH true)].
    + specialize (IH false).
      destruct (Utils.splitRuns false l) as [|piece0 rest].
      * intros [<- | []]. cbn. now rewrite Hc.
      * intros [<- | Hin].
        -- cbn [forallb]. rewrite Hc. cbn [negb andb].
           apply IH. now left.
        -- apply IH. now right.
Qed.

Lemma prefix_noSpace (p : string) (w : list ascii) :
  Props.isPrefixOf p w ->
  forallb (fun c => negb (Utils.isSpace c)) w = true ->
  Props.noSpace p = true.
Proof.
  intros (_ & rest & Hw) Hclean. unfold Props.noSpace.
  apply (f_equal list_ascii_of_string) in Hw.
  rewrite list_ascii_of_string_of_list_ascii, list_of_string_app in Hw.
  rewrite Hw, forallb_app in Hclean.
  now apply andb_true_iff in Hclean as [Hp _].
Qed.

(** X16. What the search index holds.  [buildSearchPrefixes] returns,
    without repetition, exactly the texts that are a non-empty prefix of
    one of the values with its white space removed, or of one of its words
    (the pieces between white space, [@], [.], [_] and [-]), the value
    being trimmed and in lower case; none of them holds white space. *)
Theorem search_index_holds_the_prefixes (values : list string) :
  (forall p : string,
      In p (Utils.buildSearchPrefixes values)
      <-> exists value,
            In value values
            /\ (Props.isPrefixOf p (Utils.condensedOf value)
                \/ exists part, In part (Utils.partsOf value)
                                /\ Props.isPrefixOf p part))
  /\ List.NoDup (Utils.buildSearchPrefixes values)
  /\ (forall p : string,
         In p (Utils.buildSearchPrefixes values) -> Props.noSpace p = true).
Proof.
  destruct (addEach_spec Utils.buildPrefixes values []) as [Hin Hnd].
  assert (Hspec : forall p : string,
             In p (Utils.buildSearchPrefixes values)
             <-> exists value,
                   In value values
                   /\ (Props.isPrefixOf p (Utils.condensedOf value)
                       \/ exists part, In part (Utils.partsOf value)
                                       /\ Props.isPrefixOf p part)).
  { intro p. unfold Utils.buildSearchPrefixes. rewrite Hin. cbn [In]. split.
    - intros [[] | (value & Hvalue & Hp)].
      exists value. split; [exact Hvalue|].
      now apply (proj1 (buildPrefixes_spec value)).
    - intros (value & Hvalue & Hp). right. exists value.
      split; [exact Hvalue|]. now apply (proj1 (buildPrefixes_spec value)). }
  split; [exact Hspec|].
  split; [apply Hnd; constructor|].
  intros p Hp. apply Hspec in Hp as (value & _ & [Hp | (part & Hpart & Hp)]).
  - apply (prefix_noSpace p _ Hp). unfold Utils.condensedOf.
    apply forallb_forall. intros c Hc.
    now apply List.filter_In in Hc as [_ Hc].
  - apply (prefix_noSpace p _ Hp). unfold Utils.partsOf in Hpart.
    apply List.filter_In in Hpart as [Hpart _].
    apply splitRuns_clean in Hpart.
    apply forallb_forall. intros c Hc.
    rewrite forallb_forall in Hpart. specialize (Hpart c Hc).
    unfold Utils.isSeparator in Hpart.
    destruct (Utils.isSpace c); [discriminate | reflexivity].
Qed.

End PrefixFacts.

Section PrefixInstances.

Lemma search_index_witness :
  In "lee"%string (Utils.buildSearchPrefixes ["Amy  Lee"%string])
  /\ Props.noSpace "lee" = true.
Proof.
  assert (Hin : In "lee"%string (Utils.buildSearchPrefixes ["Amy  Lee"%string])).
  { apply (proj1 (search_index_holds_the_prefixes ["Amy  Lee"%string])).
    exists "Amy  Lee"%string. split; [now left|].
    right. exists (list_ascii_of_string "lee").
    split; [vm_compute; tauto|].
    split; [discriminate | now exists EmptyString]. }
  split; [exact Hin|].
  exact (proj2 (proj2 (search_index_holds_the_prefixes ["Amy  Lee"%string]))
           "lee"%string Hin).
Defined.

End PrefixInstances.

(** ** Saving the buffers *)

Section MaintenanceFacts.
Import Firestore Types.
Open Scope Q_scope.

Lemma saved_settings_read (late early otEarly otLate : Q)
    (data : gmap string Value) (db : Db) :
  settingsGlobal db
  = Some (<["lateBufferMinutes"%string := VNumber late]>
            (<["earlyCheckoutBufferMinutes"%string := VNumber early]>
               (<["otEarlyBufferMinutes"%string := VNumber otEarly]>
                  (<["otLateBufferMinutes"%string := VNumber otLate]> data)))) ->
  ScannerPage.getBufferSettings db
  = {| lateBufferMinutes := late; earlyCheckoutBufferMinutes := early;
       otEarlyBufferMinutes := otEarly; otLateBufferMinutes := otLate |}
  /\ AdminDashboard.getBufferSettings db
     = {| lateBufferMinutes := late; earlyCheckoutBufferMinutes := early;
          otEarlyBufferMinutes := otEarly; otLateBufferMinutes := otLate |}.
Proof.
  intro Hdata.
  unfold ScannerPage.getBufferSettings, AdminDashboard.getBufferSettings.
  rewrite Hdata.
  rewrite !lookup_insert_eq.
  rewrite !(lookup_insert_ne _ "lateBufferMinutes"%string) by discriminate.
  rewrite !lookup_insert_eq.
  rewrite !(lookup_insert_ne _ "earlyCheckoutBufferMinutes"%string)
    by discriminate.
  rewrite !lookup_insert_eq.
  rewrite !(lookup_insert_ne _ "otEarlyBufferMinutes"%string) by discriminate.
  rewrite !lookup_insert_eq.
  split; reflexivity.
Qed.

(** X17. Saving the buffers.  Four values that are numbers and not
    negative are stored by [handleSave] of the maintenance panel and read
    back unchanged by [getBufferSettings], of the scanner and of the
    dashboard; a value that is not a number or is negative makes it store
    nothing.  So buffers that are saved through the panel only are never
    negative.  Sites, logs and sessions are not touched. *)
Theorem saved_buffers_are_read_back
    (lateValue earlyValue otEarlyValue otLateValue : option Q) (db : Db) :
  let db' := fst (MaintenancePanel.handleSave lateValue earlyValue
                    otEarlyValue otLateValue db) in
  (forall late early otEarly otLate : Q,
      lateValue = Some late -> earlyValue = Some early ->
      otEarlyValue = Some otEarly -> otLateValue = Some otLate ->
      0 <= late -> 0 <= early -> 0 <= otEarly -> 0 <= otLate ->
      ScannerPage.getBufferSettings db'
      = {| lateBufferMinutes := late; earlyCheckoutBufferMinutes := early;
           otEarlyBufferMinutes := otEarly; otLateBufferMinutes := otLate |}
      /\ AdminDashboard.getBufferSettings db'
         = ScannerPage.getBufferSettings db')
  /\ (existsb MaintenancePanel.rejected
              [lateValue; earlyValue; otEarlyValue; otLateValue] = true ->
      db' = db)
  /\ (Props.nonNegative (ScannerPage.getBufferSettings db) ->
      Props.nonNegative (ScannerPage.getBufferSettings db'))
  /\ sites db' = sites db
  /\ attendance db' = attendance db
  /\ attendanceSessions db' = attendanceSessions db.
Proof.
  intro db'.
  assert (Hsaved : forall late early otEarly otLate : Q,
             lateValue = Some late -> earlyValue = Some early ->
             otEarlyValue = Some otEarly -> otLateValue = Some otLate ->
             0 <= late -> 0 <= early -> 0 <= otEarly -> 0 <= otLate ->
             ScannerPage.getBufferSettings db'
             = {| lateBufferMinutes := late;
                  earlyCheckoutBufferMinutes := early;
                  otEarlyBufferMinutes := otEarly;
                  otLateBufferMinutes := otLate |}
             /\ AdminDashboard.getBufferSettings db'
                = ScannerPage.getBufferSettings db').
  { intros late early otEarly otLate -> -> -> -> H1 H2 H3 H4.
    apply Qltb_ge in H1, H2, H3, H4.
    subst db'. unfold MaintenancePanel.handleSave.
    cbn [existsb MaintenancePanel.rejected]. rewrite H1, H2, H3, H4.
    cbn [orb fst MaintenancePanel.toValue].
    destruct (saved_settings_read late early otEarly otLate
                (default ∅ (settingsGlobal db))
                (MaintenancePanel.withSettings db
                   (<["lateBufferMinutes"%string := VNumber late]>
                      (<["earlyCheckoutBufferMinutes"%string := VNumber early]>
                         (<["otEarlyBufferMinutes"%string := VNumber otEarly]>
                            (<["otLateBufferMinutes"%string := VNumber otLate]>
                               (default ∅ (settingsGlobal db)))))))
                eq_refl) as [Hscan Hadmin].
    split; [exact Hscan | now rewrite Hadmin, Hscan]. }
  split; [exact Hsaved|].
  subst db'. unfold MaintenancePanel.handleSave in *.
  destruct (existsb MaintenancePanel.rejected
              [lateValue; earlyValue; otEarlyValue; otLateValue]) eqn:Hrej;
    cbn [fst] in *.
  - split; [reflexivity|]. split; [tauto|]. repeat split.
  - split; [discriminate|].
    split; [|repeat split].
    intros _. cbn [existsb] in Hrej.
    repeat (apply orb_false_iff in Hrej as [? Hrej]).
    destruct lateValue as [late|], earlyValue as [early|],
      otEarlyValue as [otEarly|], otLateValue as [otLate|];
      try discriminate.
    cbn [MaintenancePanel.rejected] in *.
    repeat match goal with
           | Hq : Js.Qltb _ 0 = false |- _ => apply Qltb_ge in Hq
           end.
    destruct (Hsaved late early otEarly otLate) as [-> _]; auto.
    repeat split; assumption.
Qed.

End MaintenanceFacts.

Section MaintenanceInstances.
Import Firestore Types.
Open Scope Q_scope.

Lemma saved_buffers_witness :
  ScannerPage.getBufferSettings
    (fst (MaintenancePanel.handleSave (Some 10) (Some 0) (Some (5 # 2))
                                      (Some 60) Demo.oddStore))
  = {| lateBufferMinutes := 10; earlyCheckoutBufferMinutes := 0;
       otEarlyBufferMinutes := 5 # 2; otLateBufferMinutes := 60 |}.
Proof.
  apply (proj1 (saved_buffers_are_read_back (Some 10) (Some 0) (Some (5 # 2))
                  (Some 60) Demo.oddStore) 10 0 (5 # 2) 60);
    try reflexivity; vm_compute; discriminate.
Defined.

End MaintenanceInstances.

(** ** The sites tab *)

Section SiteFacts.
Import Firestore Types.
Open Scope Q_scope.

Lemma NoDup_map_inj {A B} (f : A -> B) (l : list A) (x y : A) :
  List.NoDup (map f l) -> In x l -> In y l -> f x = f y -> x = y.
Proof.
  induction l as [|a l IH]; cbn [map]; [intros _ []|].
  intros Hnd Hx Hy Heq. apply List.NoDup_cons_iff in Hnd as [Ha Hnd].
  destruct Hx as [<-|Hx], Hy as [<-|Hy]; [reflexivity | | | now apply IH].
  - exfalso. apply Ha. rewrite Heq. now apply List.in_map.
  - exfalso. apply Ha. rewrite <- Heq. now apply List.in_map.
Qed.

Lemma find_app_none {A} (p : A -> bool) (l l' : list A) :
  List.find p l = None -> List.find p (l ++ l') = List.find p l'.
Proof.
  induction l as [|a l IH]; cbn [List.find app]; [reflexivity|].
  destruct (p a); [discriminate | exact IH].
Qed.

(** What an accepted form holds. *)
Lemma validate_accepts (form : Locations.LocationFormState) (db : Db) :
  Locations.validateLocationForm form db = None ->
  Utils.trimString (Locations.f_name form) <> ""%string
  /\ (exists latitude longitude radius,
         Locations.f_lat form = Some latitude
         /\ Locations.f_lng form = Some longitude
         /\ Locations.f_allowedRadiusMeters form = Some radius
         /\ Js.Qgtb radius 0 = true)
  /\ match Locations.existingQuery db
             (Utils.normalizeSiteName (Locations.f_name form)) with
     | Some existing => Locations.formId form = Some (fst existing)
     | None => True
     end.
Proof.
  unfold Locations.validateLocationForm.
  destruct (String.eqb_spec (Utils.trimString (Locations.f_name form)) "")
    as [|Hname]; [discriminate|].
  destruct (Locations.f_lat form) as [latitude|]; [|discriminate].
  destruct (Locations.f_lng form) as [longitude|]; [|discriminate].
  destruct (Locations.f_allowedRadiusMeters form) as [radius|];
    cbn [negb]; [|discriminate].
  destruct (Js.Qgtb radius 0) eqn:Hradius; cbn [negb]; [|discriminate].
  cbv zeta. intro Hunique.
  split; [exact Hname|].
  split; [now exists latitude, longitude, radius|].
  destruct (Locations.existingQuery db _) as [existing|]; [|exact I].
  destruct (Locations.formId form) as [id|]; [|discriminate].
  destruct (String.eqb_spec (fst existing) id) as [->|]; [reflexivity|].
  discriminate.
Qed.

Lemma payload_wellFormed (name : string) (latitude longitude radius : Q)
    (created updated : option Timestamp) :
  Utils.trimString name <> ""%string ->
  Js.Qgtb radius 0 = true ->
  Props.wellFormedSite
    {| site_name := Utils.trimString name;
       nameNormalized := Utils.normalizeSiteName name;
       lat := latitude; lng := longitude;
       site_allowedRadiusMeters := radius;
       site_createdAt := created; site_updatedAt := updated |} = true.
Proof.
  intros Hname Hradius. unfold Props.wellFormedSite.
  cbn [site_name nameNormalized site_allowedRadiusMeters].
  rewrite Hradius, normalizeSiteName_trimmed, String.eqb_refl.
  assert (Htrim : Utils.trimString (Utils.trimString name)
                  = Utils.trimString name).
  { unfold Utils.trimString.
    now rewrite list_ascii_of_string_of_list_ascii, trim_idem. }
  rewrite Htrim, String.eqb_refl.
  apply String.eqb_neq in Hname. now rewrite Hname.
Qed.

Lemma replace_ids {A} (id : DocId) (f : DocId * A -> A) (c : Collection A) :
  map fst (map (fun d => if String.eqb (fst d) id
                         then (fst d, f d) else d) c)
  = map fst c.
Proof.
  rewrite map_map. apply map_ext. intro d. cbv beta.
  match goal with
  | |- context [String.eqb ?x id] => now destruct (String.eqb x id)
  end.
Qed.

Lemma replace_absent {A} (id : DocId) (f : DocId * A -> A) (c : Collection A) :
  (forall d, In d c -> fst d <> id) ->
  map (fun d => if String.eqb (fst d) id then (fst d, f d) else d) c
  = c.
Proof.
  intro Hall. rewrite <- (map_id c) at 2. apply map_ext_in.
  intros d Hd. apply Hall in Hd. cbv beta.
  match goal with
  | |- context [String.eqb ?x id] =>
      destruct (String.eqb_spec x id); [contradiction | reflexivity]
  end.
Qed.

(** Replacing the document [id] by one whose key is [k] keeps the keys
    distinct when no other document has the key [k]. *)
Lemma replace_keys {A B} (key : A -> B) (id : DocId) (f : DocId * A -> A)
    (k : B) (c : Collection A) :
  (forall x, key (f x) = k) ->
  List.NoDup (map fst c) ->
  List.NoDup (map (fun d => key (snd d)) c) ->
  (forall d, In d c -> fst d <> id -> key (snd d) <> k) ->
  List.NoDup
    (map (fun d => key (snd d))
         (map (fun d => if String.eqb (fst d) id
                        then (fst d, f d) else d) c)).
Proof.
  unfold Collection, DocId in *. intro Hk.
  induction c as [|d c IH]; cbn [map]; [constructor|].
  intros Hids Hkeys Hother.
  apply List.NoDup_cons_iff in Hids as [Hid Hids].
  apply List.NoDup_cons_iff in Hkeys as [Hkey Hkeys].
  match goal with
  | |- context [String.eqb ?x id] =>
      destruct (String.eqb_spec x id) as [Heq|Hne]; cbn [snd]
  end.
  - rewrite replace_absent.
    + constructor; [|exact Hkeys].
      intro Hin. apply List.in_map_iff in Hin as (x & Hx & Hin).
      apply (Hother x); [now right | | now rewrite Hx, Hk].
      intro Hxid. apply Hid. rewrite Heq, <- Hxid. now apply List.in_map.
    + intros x Hx Hxid. apply Hid. rewrite Heq, <- Hxid.
      now apply List.in_map.
  - constructor.
    + intro Hin. apply List.in_map_iff in Hin as (x & Hx & Hin).
      apply List.in_map_iff in Hin as (y & <- & Hy).
      match type of Hx with
      | context [String.eqb ?x id] =>
          destruct (String.eqb x id); cbn [snd] in Hx
      end.
      * apply (Hother d); [now left | exact Hne |].
        now rewrite <- Hx, Hk.
      * apply Hkey. rewrite <- Hx.
        now apply (List.in_map (fun d => key (snd d))).
    + apply IH; [exact Hids | exact Hkeys|].
      intros x Hx. apply Hother. now right.
Qed.

(** X18. The form keeps the sites in order.  In a database whose sites have
    pairwise distinct ids and normalized names and are well formed (the
    name trimmed and not empty, the normalized name computed from it, a
    positive radius), they still are after [handleSaveLocation], for any
    form and any new id, and after [handleDeleteLocation]: the form never
    leaves two sites that one QR code would name. *)
Theorem sites_stay_unique_and_well_formed (db : Db) :
  Props.SitesOk db ->
  (forall (docRef : DocId) (serverNow : Timestamp)
          (form : Locations.LocationFormState),
      ~ In docRef (map fst (sites db)) ->
      Props.SitesOk (Locations.handleSaveLocation docRef serverNow form db))
  /\ (forall id : DocId,
         Props.SitesOk (Locations.handleDeleteLocation id db)).
Proof.
  intros (Hids & Hnames & Hwf). split.
  - intros docRef serverNow form Hfresh.
    unfold Locations.handleSaveLocation.
    destruct (Locations.validateLocationForm form db) eqn:Hvalid;
      [now repeat split|].
    apply validate_accepts in Hvalid
      as (Hname & (latitude & longitude & radius & -> & -> & -> & Hradius)
          & Hexisting).
    cbv zeta.
    assert (Hpayload : forall created updated,
               Props.wellFormedSite
                 {| site_name := Utils.trimString (Locations.f_name form);
                    nameNormalized :=
                      Utils.normalizeSiteName (Locations.f_name form);
                    lat := latitude; lng := longitude;
                    site_allowedRadiusMeters := radius;
                    site_createdAt := created;
                    site_updatedAt := updated |} = true)
      by (intros; now apply payload_wellFormed).
    unfold Locations.existingQuery in Hexisting.
    destruct (Locations.formId form) as [id|].
    + unfold updateDoc.
      match goal with
      | |- context [existsb ?f ?l] =>
          destruct (existsb f l); [|now repeat split]
      end.
      unfold Props.SitesOk. cbn [sites Locations.withSites].
      split; [now rewrite replace_ids|].
      split.
      * apply (replace_keys nameNormalized _ _
                 (Utils.normalizeSiteName (Locations.f_name form)));
          [reflexivity | exact Hids | exact Hnames|].
        intros d Hd Hne Hsame.
        match type of Hexisting with
        | context [List.find ?f ?l] =>
            destruct (List.find f l) as [existing|] eqn:Hfind
        end.
        -- apply List.find_some in Hfind as [Hin Hkey].
           apply String.eqb_eq in Hkey.
           injection Hexisting as Hid. apply Hne. rewrite Hid.
           f_equal.
           apply (NoDup_map_inj (fun d => nameNormalized (snd d))
                                (sites db) d existing Hnames Hd Hin).
           now rewrite Hsame, Hkey.
        -- apply (List.find_none _ _ Hfind) in Hd.
           apply String.eqb_neq in Hd. now apply Hd.
      * apply forallb_forall. intros x Hx.
        apply List.in_map_iff in Hx as (y & <- & Hy).
        match goal with
        | |- context [String.eqb ?x id] =>
            destruct (String.eqb x id); [apply Hpayload|]
        end.
        rewrite forallb_forall in Hwf. now apply Hwf.
    + match type of Hexisting with
      | context [List.find ?f ?l] =>
          destruct (List.find f l) eqn:Hfind; [discriminate|]
      end.
      unfold Props.SitesOk. cbn [sites Locations.withSites]. unfold addDoc.
      rewrite !map_app. cbn [map fst snd].
      split; [|split].
      * apply List.NoDup_app; [exact Hids | repeat constructor; intros [] |].
        intros a Ha [<- | []]. contradiction.
      * apply List.NoDup_app; [exact Hnames | repeat constructor; intros [] |].
        intros a Ha [<- | []].
        apply List.in_map_iff in Ha as (d & Hd & Hin).
        apply (List.find_none _ _ Hfind) in Hin.
        apply String.eqb_neq in Hin. now apply Hin.
      * rewrite forallb_app, Hwf. cbn [forallb snd]. now rewrite Hpayload.
  - intro id. unfold Locations.handleDeleteLocation, without, Props.SitesOk.
    cbn [sites Locations.withSites].
    assert (Hsub : forall {B} (f : DocId * SiteItem -> B) l,
               List.NoDup (map f l) ->
               List.NoDup
                 (map f (List.filter
                           (fun d => negb (String.eqb (fst d) id)) l))).
    { intros B f l. induction l as [|d l IH]; cbn [List.filter map];
        intro Hnd; [constructor|].
      apply List.NoDup_cons_iff in Hnd as [Hd Hnd].
      destruct (negb _); cbn [map]; [|now apply IH].
      constructor; [|now apply IH].
      intro Hin. apply Hd. apply List.in_map_iff in Hin as (y & Hy & Hin).
      apply List.filter_In in Hin as [Hin _].
      rewrite <- Hy. now apply List.in_map. }
    split; [now apply Hsub|]. split; [now apply Hsub|].
    apply forallb_forall. intros x Hx.
    apply List.filter_In in Hx as [Hx _].
    rewrite forallb_forall in Hwf. now apply Hwf.
Qed.

(** X19. A site that was just created is found by its QR code.  When the
    form of a new site passes validation, the site [handleSaveLocation]
    adds is the one the scanner's site query returns for every text that
    normalizes as the name typed in the form does, whatever its case and
    spacing; and no such text is rejected as an invalid code. *)
Theorem created_site_is_found_by_scan (docRef : DocId)
    (serverNow : Timestamp) (form : Locations.LocationFormState) (db : Db)
    (rawValue : string) :
  Locations.validateLocationForm form db = None ->
  Locations.formId form = None ->
  Utils.normalizeSiteName rawValue
  = Utils.normalizeSiteName (Locations.f_name form) ->
  Utils.normalizeSiteName rawValue <> ""%string
  /\ exists site,
       ScannerPage.locationQuery
         (Locations.handleSaveLocation docRef serverNow form db)
         (Utils.normalizeSiteName rawValue)
       = Some (docRef, site)
       /\ site_name site = Utils.trimString (Locations.f_name form)
       /\ Locations.f_lat form = Some (lat site)
       /\ Locations.f_lng form = Some (lng site)
       /\ Locations.f_allowedRadiusMeters form
          = Some (site_allowedRadiusMeters site).
Proof.
  intros Hvalid Hnew Hsame.
  unfold Locations.handleSaveLocation. rewrite Hvalid.
  apply validate_accepts in Hvalid
    as (Hname & (latitude & longitude & radius & -> & -> & -> & Hradius)
        & Hexisting).
  rewrite Hnew in *. cbv zeta. split.
  - rewrite Hsame. intro Hempty. apply normalizeSiteName_blank in Hempty.
    apply trimString_blank in Hempty. contradiction.
  - eexists. unfold ScannerPage.locationQuery.
    cbn [sites Locations.withSites]. unfold addDoc.
    unfold Locations.existingQuery in Hexisting.
    match type of Hexisting with
    | context [List.find ?f ?l] =>
        destruct (List.find f l) eqn:Hfind; [discriminate|]
    end.
    rewrite Hsame, find_app_none by exact Hfind.
    cbn [List.find snd nameNormalized]. rewrite String.eqb_refl.
    repeat split.
Qed.

(** X20. Opening a site and saving it unchanged only stamps it.  In a
    database whose sites are distinct and well formed, the form
    [handleEdit] opens for a site passes validation, and what
    [handleSaveLocation] then writes differs from the database in one
    field only: the [updatedAt] of that site becomes the time of the
    server.  Its name, normalized name, coordinates, radius and
    [createdAt], and every other document, are as before. *)
Theorem saving_an_unchanged_site_only_stamps_it (docRef : DocId)
    (serverNow : Timestamp) (db : Db) (item : DocId * SiteItem) :
  Props.SitesOk db ->
  In item (sites db) ->
  fst item <> ""%string ->
  Locations.validateLocationForm (Locations.handleEdit item) db = None
  /\ Locations.handleSaveLocation docRef serverNow (Locations.handleEdit item)
       db
     = Locations.withSites db
         (map (fun d => if String.eqb (fst d) (fst item)
                        then (fst item, Props.stamped serverNow (snd item))
                        else d)
              (sites db)).
Proof.
  intros (Hids & Hnames & Hwf) Hitem Hid.
  rewrite forallb_forall in Hwf. specialize (Hwf item Hitem).
  unfold Props.wellFormedSite in Hwf.
  apply andb_true_iff in Hwf as [Hwf Hradius].
  apply andb_true_iff in Hwf as [Hwf Hnorm].
  apply andb_true_iff in Hwf as [Htrim Hname].
  apply String.eqb_eq in Htrim, Hnorm. apply negb_true_iff in Hname.
  assert (Hfind : Locations.existingQuery db
                    (Utils.normalizeSiteName (site_name (snd item)))
                  = Some item).
  { unfold Locations.existingQuery.
    match goal with
    | |- List.find ?f ?l = _ => destruct (List.find f l) as [x|] eqn:Hx
    end.
    - apply List.find_some in Hx as [Hin Hkey]. apply String.eqb_eq in Hkey.
      f_equal.
      apply (NoDup_map_inj (fun d => nameNormalized (snd d)) (sites db)
                           x item Hnames Hin Hitem).
      now rewrite Hkey, Hnorm.
    - apply (List.find_none _ _ Hx) in Hitem.
      rewrite Hnorm, String.eqb_refl in Hitem. discriminate. }
  assert (Hform : Locations.formId (Locations.handleEdit item)
                  = Some (fst item)).
  { unfold Locations.formId, Locations.handleEdit. cbn [Locations.f_id].
    apply String.eqb_neq in Hid. now rewrite Hid. }
  assert (Hvalid : Locations.validateLocationForm (Locations.handleEdit item)
                     db = None).
  { unfold Locations.validateLocationForm. rewrite Hform.
    unfold Locations.handleEdit at 1 2 3 4 5.
    cbn [Locations.f_name Locations.f_lat Locations.f_lng
         Locations.f_allowedRadiusMeters].
    rewrite Htrim, Hname, Hradius. cbn [negb]. cbv zeta.
    rewrite Hfind. now rewrite String.eqb_refl. }
  split; [exact Hvalid|].
  unfold Locations.handleSaveLocation. rewrite Hvalid, Hform.
  unfold Locations.handleEdit.
  cbn [Locations.f_name Locations.f_lat Locations.f_lng
       Locations.f_allowedRadiusMeters].
  cbv zeta. rewrite Htrim, <- Hnorm. unfold updateDoc.
  match goal with
  | |- context [existsb ?f ?l] => assert (Hexists : existsb f l = true)
  end.
  { apply List.existsb_exists. exists item.
    split; [exact Hitem | apply String.eqb_refl]. }
  rewrite Hexists. f_equal. apply map_ext_in. intros d Hd. cbv beta.
  match goal with
  | |- context [String.eqb ?x (fst item)] =>
      destruct (String.eqb_spec x (fst item)) as [Hsame|]; [|reflexivity]
  end.
  now rewrite (NoDup_map_inj fst (sites db) d item Hids Hd Hitem Hsame).
Qed.

End SiteFacts.

Section SiteInstances.
Import Firestore Types.

Lemma demo_sites_ok : Props.SitesOk Demo.store.
Proof.
  repeat split; try (repeat constructor; intros []).
Qed.

Lemma sites_stay_ok_witness :
  Props.SitesOk
    (Locations.handleSaveLocation "site-b" (fromDate (Demo.clock 9 0))
       Samples.depotB Demo.store).
Proof.
  apply (proj1 (sites_stay_unique_and_well_formed Demo.store demo_sites_ok)).
  vm_compute. intros [Heq | []]. discriminate.
Defined.

Lemma created_site_witness :
  exists site,
    ScannerPage.locationQuery
      (Locations.handleSaveLocation "site-b" (fromDate (Demo.clock 9 0))
         Samples.depotB Demo.store)
      (Utils.normalizeSiteName "DEPOT b")
    = Some ("site-b"%string, site)
    /\ site_name site = "Depot  B"%string.
Proof.
  destruct (created_site_is_found_by_scan "site-b"
              (fromDate (Demo.clock 9 0)) Samples.depotB Demo.store
              "DEPOT b" eq_refl eq_refl eq_refl)
    as (_ & site & Hfound & Hname & _).
  exists site. split; [exact Hfound | exact Hname].
Defined.

Lemma unchanged_site_witness :
  sites (Locations.handleSaveLocation "site-b" (fromDate (Demo.clock 9 0))
           (Locations.handleEdit Demo.depot) Demo.store)
  = [(fst Demo.depot,
      Props.stamped (fromDate (Demo.clock 9 0)) (snd Demo.depot))].
Proof.
  rewrite (proj2 (saving_an_unchanged_site_only_stamps_it "site-b"
                    (fromDate (Demo.clock 9 0)) Demo.store Demo.depot
                    demo_sites_ok (or_introl eq_refl)
                    ltac:(discriminate))).
  reflexivity.
Defined.

End SiteInstances.

(** ** Notes and rebuilds *)

Section NoteFacts.
Context `{Host}.
Import Firestore Types.

Lemma updateDoc_changes {A} (id : DocId) (change : A -> A) (x : A)
    (c : Collection A) :
  In (id, x) c ->
  exists c', updateDoc id change c = Some c' /\ In (id, change x) c'.
Proof.
  intro Hin. unfold updateDoc.
  match goal with
  | |- context [existsb ?f ?l] => assert (Hexists : existsb f l = true)
  end.
  { apply List.existsb_exists. exists (id, x).
    split; [exact Hin | apply String.eqb_refl]. }
  rewrite Hexists. eexists. split; [reflexivity|].
  apply List.in_map_iff. exists (id, x). split; [|exact Hin].
  cbn [fst snd]. now rewrite String.eqb_refl.
Qed.

(** X21. A note does not survive a rebuild.  The note an administrator
    saves on a session, in the late panel or in the abnormal panel, is
    stored on that session; but once the scanner rebuilds the day of the
    session, or a recompute visits its key, the one session the user holds
    for the day carries no note. *)
Theorem notes_do_not_survive_a_rebuild (db : Db) (id : DocId)
    (s : AttendanceSession) (reason : string) :
  In (id, s) (attendanceSessions db) ->
  let noted1 := LatePanel.handleSaveReason (Some id) reason db in
  let noted2 := AbnormalPanel.handleSaveReason (Some id) reason db in
  (exists s1, In (id, s1) (attendanceSessions noted1)
              /\ lateNote s1 = Some (Utils.trimString reason))
  /\ (exists s2, In (id, s2) (attendanceSessions noted2)
                 /\ abnormalNote s2 = Some (Utils.trimString reason))
  /\ (forall (noted : Db) (profile : UserProfile) (sessionRef : DocId),
         noted = noted1 \/ noted = noted2 ->
         let auth := {| ScannerPage.user := Some (s_userId s);
                        ScannerPage.profile := Some profile |} in
         exists s',
           Spec.sessionsOf (s_userId s) (s_dateKey s)
             (attendanceSessions
                (ScannerPage.rebuildSessionsForDay auth sessionRef
                                                   (s_dateKey s) noted))
           = [(sessionRef, s')]
           /\ lateNote s' = None /\ abnormalNote s' = None)
  /\ (forall (noted : Db) (settings : BufferSettings)
             (userMap : gmap string UserProfile)
             (entry : string * list AdminDashboard.GroupedLog)
             (sessionRef : DocId),
         noted = noted1 \/ noted = noted2 ->
         AdminDashboard.keyUserId (fst entry) = s_userId s ->
         AdminDashboard.keyDateKey (fst entry) = s_dateKey s ->
         exists s',
           Spec.sessionsOf (s_userId s) (s_dateKey s)
             (attendanceSessions
                (AdminDashboard.recomputeKey settings userMap entry
                                             sessionRef noted))
           = [(sessionRef, s')]
           /\ lateNote s' = None /\ abnormalNote s' = None).
Proof.
  intros Hin noted1 noted2. split; [|split; [|split]].
  - subst noted1. unfold LatePanel.handleSaveReason.
    destruct (updateDoc_changes id
                (LatePanel.withLateNote (Utils.trimString reason)) s _ Hin)
      as (c' & -> & Hc').
    eexists. split; [exact Hc' | reflexivity].
  - subst noted2. unfold AbnormalPanel.handleSaveReason.
    destruct (updateDoc_changes id
                (AbnormalPanel.withAbnormalNote (Utils.trimString reason))
                s _ Hin)
      as (c' & -> & Hc').
    eexists. split; [exact Hc' | reflexivity].
  - intros noted profile sessionRef _ auth.
    exists (ScannerPage.daySession noted (s_userId s) profile (s_dateKey s)).
    split; [|split; reflexivity].
    apply (replace_leaves_one (s_userId s) (s_dateKey s) sessionRef
             (ScannerPage.daySession noted (s_userId s) profile
                                     (s_dateKey s)));
      reflexivity.
  - intros noted settings userMap entry sessionRef _ Huser Hday.
    exists (AdminDashboard.keySession settings userMap entry).
    split; [|split; reflexivity].
    unfold AdminDashboard.recomputeKey, AdminDashboard.keyBatch.
    cbn [attendanceSessions withSessions].
    unfold AdminDashboard.sessionQuery. rewrite Huser, Hday.
    apply (replace_leaves_one (s_userId s) (s_dateKey s) sessionRef
             (AdminDashboard.keySession settings userMap entry)).
    + unfold AdminDashboard.keySession, AdminDashboard.sessionData.
      cbn [s_userId]. exact Huser.
    + unfold AdminDashboard.keySession, AdminDashboard.sessionData.
      cbn [s_dateKey]. exact Hday.
Qed.

End NoteFacts.

Section NoteInstances.
Import Firestore Types.

Lemma notes_witness :
  (exists s2,
      In ("old-1"%string, s2)
         (attendanceSessions
            (AbnormalPanel.handleSaveReason (Some "old-1"%string)
                                            " traffic jam " Demo.store))
      /\ abnormalNote s2 = Some "traffic jam"%string)
  /\ exists s',
       Spec.sessionsOf "u1" "2024-01-01"
         (attendanceSessions
            (ScannerPage.rebuildSessionsForDay (H := Demo.host) Demo.amyAuth
               "new-1" "2024-01-01"
               (AbnormalPanel.handleSaveReason (Some "old-1"%string)
                                               " traffic jam " Demo.store)))
       = [("new-1"%string, s')]
       /\ abnormalNote s' = None.
Proof.
  destruct (notes_do_not_survive_a_rebuild (H := Demo.host) Demo.store
              "old-1" (Demo.sessionOf Demo.amy []) " traffic jam "
              ltac:(now left))
    as (_ & Hnoted & Hscan & _).
  split; [exact Hnoted|].
  destruct (Hscan (AbnormalPanel.handleSaveReason (Some "old-1"%string)
                     " traffic jam " Demo.store)
                  Demo.amy "new-1"%string ltac:(now right))
    as (s' & Hone & _ & Hnote).
  exists s'. split; [exact Hone | exact Hnote].
Defined.

End NoteInstances.

(** ** The pages of a table *)

Section PagingFacts.

Lemma pageCount_bounds (rows : nat) (pageSize : positive) :
  let n := Paging.pageCount rows pageSize in
  (1 <= n)%Z
  /\ (Z.of_nat rows <= n * Z.pos pageSize)%Z
  /\ ((0 < rows)%nat -> ((n - 1) * Z.pos pageSize < Z.of_nat rows)%Z).
Proof.
  unfold Paging.pageCount, Qceiling, Qfloor. cbn.
  rewrite Z.mul_1_r, Pos.mul_1_l.
  assert (Ha : (0 <= Z.of_nat rows)%Z) by lia.
  assert (Hrows : (0 < rows)%nat -> (0 < Z.of_nat rows)%Z) by lia.
  set (a := Z.of_nat rows) in *.
  pose proof (Z.div_mod (- a) (Z.pos pageSize) ltac:(lia)) as Hdiv.
  pose proof (Z.mod_pos_bound (- a) (Z.pos pageSize) ltac:(lia)) as Hmod.
  set (q := (- a / Z.pos pageSize)%Z) in *.
  set (r := (- a mod Z.pos pageSize)%Z) in *.
  set (b := Z.pos pageSize) in *.
  assert (Hb : (0 < b)%Z) by (subst b; lia).
  clearbody q r b a.
  destruct (Z.max_spec 1 (- q)) as [[Hlt ->] | [Hge ->]].
  - split; [lia|]. split; [nia|]. intros _.
    assert (Hmul : ((- q - 1) * b = - (b * q) - b)%Z) by ring. lia.
  - split; [lia|]. split; [nia|]. intros Hpos. specialize (Hrows Hpos). lia.
Qed.

Lemma firstn_add {A} (a b : nat) (l : list A) :
  firstn (a + b) l = firstn a l ++ firstn b (skipn a l).
Proof.
  revert l. induction a as [|a IH]; intro l; [reflexivity|].
  destruct l as [|x l]; cbn [Nat.add firstn skipn app].
  - now rewrite firstn_nil.
  - now rewrite IH.
Qed.

Lemma pages_concat {A} (size : nat) (l : list A) (n : nat) :
  concat (map (fun i => firstn size (skipn (i * size) l)) (seq 0 n))
  = firstn (n * size) l.
Proof.
  induction n as [|n IH]; [reflexivity|].
  rewrite seq_S, map_app, concat_app, IH. cbn [map concat Nat.add].
  rewrite app_nil_r. change (S n * size)%nat with (size + n * size)%nat.
  now rewrite (Nat.add_comm size), firstn_add.
Qed.

Lemma paged_nat {A} (rows : list A) (i : nat) (pageSize : positive) :
  Paging.paged rows (Z.of_nat i) pageSize
  = firstn (Pos.to_nat pageSize) (skipn (i * Pos.to_nat pageSize) rows).
Proof.
  unfold Paging.paged, Paging.slice. cbv zeta. f_equal; [lia|].
  f_equal. lia.
Qed.

(** X22. The pages of a table show every row once.  With the page count
    the panels compute, the pages from the first to the last, one after the
    other, are the rows of the table, each once and in order; no page of a
    table that has rows is empty; and the buttons and the effect that
    follows a change of the table keep the page index below the page
    count. *)
Theorem pages_show_every_row_once {A} (rows : list A) (pageSize : positive) :
  let n := Paging.pageCount (length rows) pageSize in
  (1 <= n)%Z
  /\ concat (map (fun i => Paging.paged rows (Z.of_nat i) pageSize)
                 (seq 0 (Z.to_nat n)))
     = rows
  /\ (forall i : Z, (0 <= i < n)%Z -> rows <> [] ->
                    Paging.paged rows i pageSize <> [])
  /\ (forall i : Z, (0 <= i < n)%Z ->
                    (0 <= Paging.prevPage i < n)%Z
                    /\ (0 <= Paging.nextPage i n < n)%Z)
  /\ (forall i : Z, (0 <= i)%Z -> (0 <= Paging.clampPage i n < n)%Z).
Proof.
  intro n. destruct (pageCount_bounds (length rows) pageSize)
    as (Hone & Hall & Hlast).
  fold n in Hone, Hall, Hlast.
  split; [exact Hone|]. split; [|split; [|split]].
  - rewrite (map_ext _ (fun i => firstn (Pos.to_nat pageSize)
                                        (skipn (i * Pos.to_nat pageSize) rows)))
      by (intro i; apply paged_nat).
    rewrite pages_concat. apply firstn_all2. lia.
  - intros i Hi Hrows.
    assert (Hlen : (0 < length rows)%nat)
      by (destruct rows; [congruence | cbn; lia]).
    specialize (Hlast Hlen).
    rewrite <- (Z2Nat.id i) by lia. rewrite paged_nat.
    assert (Hskip : (Z.to_nat i * Pos.to_nat pageSize < length rows)%nat)
      by nia.
    destruct (skipn (Z.to_nat i * Pos.to_nat pageSize) rows) as [|x rest]
      eqn:Hrest.
    + apply (f_equal (@length A)) in Hrest.
      rewrite List.length_skipn in Hrest. cbn in Hrest. lia.
    + destruct (Pos.to_nat pageSize) eqn:Hp; [lia | discriminate].
  - intros i Hi. unfold Paging.prevPage, Paging.nextPage. lia.
  - intros i Hi. unfold Paging.clampPage.
    destruct (Z.leb_spec n i); lia.
Qed.

End PagingFacts.

Section PagingInstances.

Lemma pages_witness :
  Paging.paged [1; 2; 3; 4; 5]%nat 2 2 <> [].
Proof.
  apply (proj1 (proj2 (proj2 (pages_show_every_row_once [1; 2; 3; 4; 5]%nat
                                2)))).
  - vm_compute. split; [discriminate | reflexivity].
  - discriminate.
Defined.

End PagingInstances.

(** ** The CSV export *)

Section CsvFacts.

Lemma append_assoc (a b c : string) :
  ((a ++ b) ++ c = a ++ (b ++ c))%string.
Proof.
  induction a as [|x a IH]; [reflexivity|].
  change ((String x a ++ b) ++ c)%string with (String x ((a ++ b) ++ c)).
  change (String x a ++ (b ++ c))%string with (String x (a ++ (b ++ c))).
  now rewrite IH.
Qed.

Lemma append_nil_r (a : string) : (a ++ "")%string = a.
Proof.
  induction a as [|x a IH]; [reflexivity|].
  change (String x a ++ "")%string with (String x (a ++ "")).
  now rewrite IH.
Qed.

Lemma read_quoted (v : string) :
  forall (cell : string) (row : list string) (rest : list ascii),
    Props.readCsv Props.Quoted cell row
      (list_ascii_of_string (SessionsPanel.doubleQuotes v)
       ++ SessionsPanel.quote :: rest)
    = Props.readCsv Props.QuoteSeen (cell ++ v) row rest.
Proof.
  induction v as [|c v IH]; intros cell row rest.
  - cbn [SessionsPanel.doubleQuotes list_ascii_of_string app Props.readCsv].
    rewrite Ascii.eqb_refl. now rewrite append_nil_r.
  - cbn [SessionsPanel.doubleQuotes].
    destruct (Ascii.eqb c SessionsPanel.quote) eqn:Hc.
    + apply Ascii.eqb_eq in Hc. subst c.
      cbn [list_ascii_of_string app Props.readCsv].
      rewrite !Ascii.eqb_refl, IH, append_assoc. reflexivity.
    + cbn [list_ascii_of_string app Props.readCsv].
      rewrite Hc, IH, append_assoc. reflexivity.
Qed.

Lemma read_cell (v : string) (row : list string) (rest : list ascii) :
  Props.readCsv Props.AtCell EmptyString row
    (list_ascii_of_string (SessionsPanel.csvCell v) ++ rest)
  = Props.readCsv Props.QuoteSeen v row rest.
Proof.
  unfold SessionsPanel.csvCell.
  cbn [list_ascii_of_string app Props.readCsv]. rewrite Ascii.eqb_refl.
  rewrite list_of_string_app. cbn [list_ascii_of_string].
  rewrite <- app_assoc. cbn [app]. apply read_quoted.
Qed.

Lemma read_row (vs : list string) :
  forall (v : string) (row : list string) (tail : list ascii),
    tail = [] \/ (exists more, tail = SessionsPanel.lineFeed :: more) ->
    Props.readCsv Props.AtCell EmptyString row
      (list_ascii_of_string
         (String.concat "," (map SessionsPanel.csvCell (v :: vs)))
       ++ tail)
    = Props.finishRow (row ++ v :: vs) tail.
Proof.
  induction vs as [|v' vs IH]; intros v row tail Htail.
  - cbn [map String.concat]. rewrite read_cell.
    destruct Htail as [-> | (more & ->)]; reflexivity.
  - change (String.concat "," (map SessionsPanel.csvCell (v :: v' :: vs)))
      with (SessionsPanel.csvCell v
            ++ "," ++ String.concat "," (map SessionsPanel.csvCell (v' :: vs)))
             %string.
    rewrite list_of_string_app, <- app_assoc, read_cell.
    change (list_ascii_of_string
              ("," ++ String.concat "," (map SessionsPanel.csvCell (v' :: vs))))
      with (","%char
            :: list_ascii_of_string
                 (String.concat ","
                    (map SessionsPanel.csvCell (v' :: vs)))).
    cbn [app Props.readCsv]. cbn [Ascii.eqb Bool.eqb SessionsPanel.quote
                                  ascii_of_nat].
    change (Ascii.eqb "," SessionsPanel.quote) with false.
    change (Ascii.eqb "," ",") with true. cbv iota.
    rewrite (IH v' (row ++ [v]) tail Htail), <- app_assoc. reflexivity.
Qed.

Lemma read_rows (rows : list (list string)) :
  (forall values, In values rows -> values <> []) ->
  rows <> [] ->
  Props.readCsv Props.AtCell EmptyString []
    (list_ascii_of_string
       (String.concat (String SessionsPanel.lineFeed EmptyString)
          (map (fun values => String.concat "," (map SessionsPanel.csvCell values))
               rows)))
  = Some rows.
Proof.
  induction rows as [|r rows IH]; intros Hfull Hrows; [congruence|].
  assert (Hr : r <> []) by (apply Hfull; now left).
  destruct r as [|v vs]; [congruence|].
  set (line := fun values : list string =>
                 String.concat "," (map SessionsPanel.csvCell values)) in *.
  destruct rows as [|r2 rest].
  - change (String.concat (String SessionsPanel.lineFeed EmptyString)
              (map line [v :: vs]))
      with (String.concat "," (map SessionsPanel.csvCell (v :: vs))).
    rewrite <- (app_nil_r (list_ascii_of_string _)).
    rewrite read_row by now left. reflexivity.
  - change (String.concat (String SessionsPanel.lineFeed EmptyString)
              (map line ((v :: vs) :: r2 :: rest)))
      with (line (v :: vs)
            ++ String SessionsPanel.lineFeed EmptyString
            ++ String.concat (String SessionsPanel.lineFeed EmptyString)
                 (map line (r2 :: rest)))%string.
    rewrite list_of_string_app.
    change (list_ascii_of_string
              (String SessionsPanel.lineFeed EmptyString
               ++ String.concat (String SessionsPanel.lineFeed EmptyString)
                    (map line (r2 :: rest))))
      with (SessionsPanel.lineFeed
            :: list_ascii_of_string
                 (String.concat (String SessionsPanel.lineFeed EmptyString)
                    (map line (r2 :: rest)))).
    subst line. cbv beta.
    rewrite read_row by (right; eexists; reflexivity).
    cbn [Props.finishRow app].
    rewrite IH; [reflexivity | | discriminate].
    intros values Hin. apply Hfull. now right.
Qed.

Lemma read_headers (tail : list ascii) :
  tail = [] \/ (exists more, tail = SessionsPanel.lineFeed :: more) ->
  Props.readCsv Props.AtCell EmptyString []
    (list_ascii_of_string (String.concat "," SessionsPanel.headers) ++ tail)
  = Props.finishRow SessionsPanel.headers tail.
Proof.
  intros [-> | (more & ->)]; reflexivity.
Qed.

(** X23. The CSV export can be read back.  The text [exportCsv] builds,
    with every value between quotes and its quotes doubled, is read by a
    CSV reader as the header row followed by the rows of values, each
    value as it was, whatever commas, quotes and line feeds it holds. *)
Theorem csv_export_reads_back (rows : list (list string)) :
  (forall values, In values rows -> values <> []) ->
  Props.readCsv Props.AtCell EmptyString []
    (list_ascii_of_string (SessionsPanel.csvText rows))
  = Some (SessionsPanel.headers :: rows).
Proof.
  intro Hfull. unfold SessionsPanel.csvText.
  destruct rows as [|r rest].
  - cbn [map String.concat].
    rewrite <- (app_nil_r (list_ascii_of_string _)).
    rewrite read_headers by now left. reflexivity.
  - set (line := fun values : list string =>
                   String.concat "," (map SessionsPanel.csvCell values)) in *.
    change (String.concat (String SessionsPanel.lineFeed EmptyString)
              (String.concat "," SessionsPanel.headers :: map line (r :: rest)))
      with (String.concat "," SessionsPanel.headers
            ++ String SessionsPanel.lineFeed EmptyString
            ++ String.concat (String SessionsPanel.lineFeed EmptyString)
                 (map line (r :: rest)))%string.
    rewrite list_of_string_app.
    change (list_ascii_of_string
              (String SessionsPanel.lineFeed EmptyString
               ++ String.concat (String SessionsPanel.lineFeed EmptyString)
                    (map line (r :: rest))))
      with (SessionsPanel.lineFeed
            :: list_ascii_of_string
                 (String.concat (String SessionsPanel.lineFeed EmptyString)
                    (map line (r :: rest)))).
    rewrite read_headers by (right; eexists; reflexivity).
    cbn [Props.finishRow]. subst line.
    rewrite read_rows; [reflexivity | exact Hfull | discriminate].
Qed.

End CsvFacts.

Section CsvInstances.

Lemma csv_export_witness :
  Props.readCsv Props.AtCell EmptyString []
    (list_ascii_of_string
       (SessionsPanel.csvText [[Samples.tricky; "amy@example.com"%string]]))
  = Some [SessionsPanel.headers; [Samples.tricky; "amy@example.com"%string]].
Proof.
  apply (csv_export_reads_back [[Samples.tricky; "amy@example.com"%string]]).
  intros values [<- | []]. discriminate.
Defined.

End CsvInstances.

(** ** The display of hours *)

Section DisplayFacts.
Context `{Host}.
Import Types.
Open Scope Q_scope.

Lemma two_digits (m : Z) :
  (0 <= m < 60)%Z ->
  Utils.padStart2 (Utils.integerToString m) = Utils.digits 2 m EmptyString.
Proof.
  intro Hm.
  assert (Hk : exists k : nat, m = Z.of_nat k /\ (k < 60)%nat)
    by (exists (Z.to_nat m); lia).
  destruct Hk as (k & -> & Hk).
  do 60 (destruct k as [|k]; [vm_compute; reflexivity|]).
  lia.
Qed.

Lemma formatHoursMinutes_nonneg (h : Q) :
  0 <= h ->
  let total := Qfloor (h * 60 + (1 # 2)) in
  (0 <= total)%Z
  /\ Utils.formatHoursMinutes (Some h)
     = (Utils.padStart2 (Utils.integerToString (total / 60)) ++ ":"
        ++ Utils.digits 2 (total mod 60) EmptyString)%string.
Proof.
  intros Hh total.
  assert (Htotal : (0 <= total)%Z).
  { subst total. change 0%Z with (Qfloor 0). apply Qfloor_resp_le. lra. }
  split; [exact Htotal|].
  unfold Utils.formatHoursMinutes. cbv zeta. fold total.
  rewrite Z.rem_mod_nonneg by lia.
  rewrite (two_digits (total mod 60)) by (apply Z.mod_pos_bound; lia).
  reflexivity.
Qed.

Lemma derive_columns (b : BufferSettings) (r1 r2 : Q)
    (e : Aggregate.Endpoints) :
  let a := Aggregate.derive b r1 r2 e in
  In (Utils.formatHoursMinutes (Aggregate.normalHours a))
     ["-"; "09:00"]%string
  /\ In (Utils.formatHoursMinutes (Aggregate.otHoursRounded a))
        ["-"; "00:00"; "02:00"; "04:00"]%string.
Proof.
  intro a.
  pose proof (derive_pay b r1 r2 e) as Hpay. cbv zeta in Hpay. fold a in Hpay.
  pose proof (derive_ot_values b r1 r2 e) as Hot. cbv zeta in Hot.
  fold a in Hot.
  destruct (Aggregate.abnormalReasons a).
  - destruct Hpay as (total & _ & Hge & Hnormal & Hstored & _).
    rewrite toFixed2_min_9 in Hnormal by exact Hge.
    rewrite Hnormal, Hstored.
    split; [right; left; reflexivity|].
    destruct Hot as [-> | [-> | ->]];
      [right; left | right; right; left | right; right; right; left];
      reflexivity.
  - destruct Hpay as (-> & -> & _). split; left; reflexivity.
Qed.

(** X24. How hours are displayed.  For hours that are not negative,
    [formatHoursMinutes] shows the hours of the nearest whole minute, then
    a colon, then its minutes as two digits from 00 to 59; for a missing
    value it shows a dash.  So in the tables and in the export a session
    either aggregator wrote shows its total hours in that form, a dash or
    09:00 as its normal hours and a dash, 00:00, 02:00 or 04:00 as its
    overtime. *)
Theorem hours_are_displayed_as_hours_and_minutes (settings : BufferSettings) :
  (forall h : Q,
      0 <= h ->
      let total := Qfloor (h * 60 + (1 # 2)) in
      (0 <= total)%Z
      /\ Utils.formatHoursMinutes (Some h)
         = (Utils.padStart2 (Utils.integerToString (total / 60)) ++ ":"
            ++ Utils.digits 2 (total mod 60) EmptyString)%string)
  /\ Utils.formatHoursMinutes None = "-"%string
  /\ (forall (uid day : string) (profile : UserProfile)
             (logs : list AttendanceLog),
         let s := ScannerPage.sessionData uid profile day
                    (ScannerPage.aggregate profile settings logs) in
         (forall t, totalHours s = Some t ->
                    let total := Qfloor (t * 60 + (1 # 2)) in
                    Utils.formatHoursMinutes (totalHours s)
                    = (Utils.padStart2 (Utils.integerToString (total / 60))
                       ++ ":" ++ Utils.digits 2 (total mod 60) EmptyString)
                      %string)
         /\ In (Utils.formatHoursMinutes (normalHours s))
               ["-"; "09:00"]%string
         /\ In (Utils.formatHoursMinutes (otHours s))
               ["-"; "00:00"; "02:00"; "04:00"]%string)
  /\ (forall (userItem : option UserProfile) (userId day : string)
             (logs : list AdminDashboard.GroupedLog),
         let s := AdminDashboard.sessionData userItem userId day logs
                    (AdminDashboard.aggregate userItem settings logs) in
         (forall t, totalHours s = Some t ->
                    let total := Qfloor (t * 60 + (1 # 2)) in
                    Utils.formatHoursMinutes (totalHours s)
                    = (Utils.padStart2 (Utils.integerToString (total / 60))
                       ++ ":" ++ Utils.digits 2 (total mod 60) EmptyString)
                      %string)
         /\ In (Utils.formatHoursMinutes (normalHours s))
               ["-"; "09:00"]%string
         /\ In (Utils.formatHoursMinutes (otHours s))
               ["-"; "00:00"; "02:00"; "04:00"]%string).
Proof.
  assert (Hshown : forall (r1 r2 : Q) (e : Aggregate.Endpoints) (t : Q),
             let a := Aggregate.derive settings r1 r2 e in
             Aggregate.totalHoursRounded a = Some t ->
             let total := Qfloor (t * 60 + (1 # 2)) in
             Utils.formatHoursMinutes (Aggregate.totalHoursRounded a)
             = (Utils.padStart2 (Utils.integerToString (total / 60))
                ++ ":" ++ Utils.digits 2 (total mod 60) EmptyString)%string).
  { intros r1 r2 e t a Ht total. rewrite Ht.
    apply formatHoursMinutes_nonneg.
    exact (derive_total_nonneg settings r1 r2 e t Ht). }
  split; [exact formatHoursMinutes_nonneg|].
  split; [reflexivity|].
  split.
  - intros uid day profile logs s. subst s.
    rewrite scanner_aggregate_derive.
    unfold ScannerPage.sessionData. cbn [totalHours normalHours otHours].
    split; [apply Hshown | apply derive_columns].
  - intros userItem userId day logs s. subst s.
    rewrite admin_aggregate_derive.
    unfold AdminDashboard.sessionData. cbn [totalHours normalHours otHours].
    split; [apply Hshown | apply derive_columns].
Qed.

End DisplayFacts.

Section DisplayInstances.
Open Scope Q_scope.

Lemma hours_display_witness :
  Utils.formatHoursMinutes (Some (913 # 100)) = "09:08"%string.
Proof.
  destruct (proj1 (hours_are_displayed_as_hours_and_minutes
                     (H := Demo.host) ScannerPage.DEFAULT_BUFFER_SETTINGS)
              (913 # 100)) as [_ Hshown].
  - vm_compute. discriminate.
  - rewrite Hshown. vm_compute. reflexivity.
Defined.

End DisplayInstances.

(** ** What a success log records *)

Section FenceFacts.
Context `{Host}.
Import Firestore Types.
Open Scope Q_scope.

Lemma app_one_inv {A} (l : list A) (x y : A) : l ++ [x] = l ++ [y] -> x = y.
Proof. intro Heq. apply app_inv_head in Heq. congruence. Qed.

Lemma app_one_neq {A} (l : list A) (x : A) : l = l ++ [x] -> False.
Proof.
  intro Heq. apply (f_equal (@length A)) in Heq.
  rewrite List.length_app in Heq. cbn in Heq. lia.
Qed.

(** X25. A success log lies within the radius.  Whenever a call of
    [handleScan] adds a log with status success, the log names a site of the
    database whose normalized name is the normalized text scanned, and it
    records the radius of that site and a distance that does not exceed it;
    it carries a scan type and is not deleted; and the scan timeout had not
    fired when the site query, the position and the daily query returned. *)
Theorem success_log_is_within_the_radius (o : ScannerPage.Outcomes)
    (auth : ScannerPage.Auth) (rawValue : string) (db : Db)
    (event : AttendanceLog) :
  attendance (ScannerPage.db_after (ScannerPage.handleScan o auth rawValue db))
  = attendance db ++ [(ScannerPage.logRef o, event)] ->
  status event = Success ->
  (exists site distance,
      In site (sites db)
      /\ nameNormalized (snd site) = Utils.normalizeSiteName rawValue
      /\ siteId event = fst site
      /\ allowedRadiusMeters event = Some (site_allowedRadiusMeters (snd site))
      /\ distanceMeters event = Some distance
      /\ distance <= site_allowedRadiusMeters (snd site))
  /\ scanType event <> None
  /\ isDeleted event = Some false
  /\ ScannerPage.timedOut o ScannerPage.AwaitSiteLookup = false
  /\ ScannerPage.timedOut o ScannerPage.AwaitPosition = false
  /\ ScannerPage.timedOut o ScannerPage.AwaitDailyQuery = false.
Proof.
  unfold ScannerPage.handleScan, ScannerPage.failWith, ScannerPage.catchBlock,
    ScannerPage.quiet, ScannerPage.logAttendanceFailure,
    ScannerPage.rebuildSessionsForDay.
  destruct (ScannerPage.user auth) as [uid|] eqn:Huser;
    [|intro Heq; now apply app_one_neq in Heq].
  destruct (ScannerPage.profile auth) as [profile|] eqn:Hprofile;
    [|intro Heq; now apply app_one_neq in Heq].
  destruct (ScannerPage.locationQuery db (Utils.normalizeSiteName rawValue))
    as [site|] eqn:Hsite.
  2:{ repeat match goal with
             | |- context [match ?x with _ => _ end] => destruct x eqn:?
             end;
        cbn [ScannerPage.db_after attendance withAttendance addDoc];
        intros Heq Hok;
        first [ now apply app_one_neq in Heq
              | apply app_one_inv in Heq; injection Heq as <-;
                discriminate Hok ]. }
  apply List.find_some in Hsite as [Hin Hname]. apply String.eqb_eq in Hname.
  repeat match goal with
         | |- context [match ?x with _ => _ end] => destruct x eqn:?
         end;
    cbn [ScannerPage.db_after attendance withAttendance withSessions addDoc];
    intros Heq Hok;
    try (now apply app_one_neq in Heq);
    apply app_one_inv in Heq; injection Heq as <-;
    try discriminate Hok.
  all: split; [|repeat split; try assumption; discriminate].
  all: eexists site, _.
  all: repeat (split; [first [exact Hin | exact Hname | reflexivity]|]).
  all: match goal with
       | Hfar : Js.Qgtb _ _ = false |- _ =>
           unfold Js.Qgtb in Hfar; apply negb_false_iff in Hfar;
           apply Qle_bool_iff in Hfar; exact Hfar
       end.
Qed.

End FenceFacts.

Section FenceInstances.
Import Firestore Types.
Open Scope Q_scope.

Lemma success_log_witness :
  exists site distance,
    In site (sites Demo.store)
    /\ nameNormalized (snd site) = Utils.normalizeSiteName "  Depot   A "
    /\ distance <= site_allowedRadiusMeters (snd site).
Proof.
  destruct (success_log_is_within_the_radius (H := Demo.host) Demo.smooth
              Demo.amyAuth "  Depot   A " Demo.store
              (ScannerPage.successLog (H := Demo.host) Demo.smooth "u1"
                 Demo.amy Demo.depot (3, 101) 0 CheckIn))
    as ((site & distance & Hin & Hname & _ & _ & _ & Hnear) & _).
  - vm_compute. reflexivity.
  - reflexivity.
  - exists site, distance. repeat split; assumption.
Defined.

End FenceInstances.

(** ** Dates typed into the dashboard

    What the two parsers of the dashboard read back from the texts its
    own formatters print. *)

Ltac read_step :=
  repeat (cbn [mbind option_bind DateInputs.readChar];
          rewrite ?Ascii.eqb_refl; cbv iota).

Section DateFacts.

Lemma digitOf_digit (n : Z) :
  0 <= n <= 9 -> DateInputs.digitOf (Utils.digit n) = Some n.
Proof.
  intro Hn.
  assert (Hk : n = Z.of_nat (Z.to_nat n)) by lia.
  assert (Hsmall : (Z.to_nat n < 10)%nat) by lia.
  rewrite Hk. clear Hk Hn.
  generalize dependent (Z.to_nat n). clear n. intros k Hsmall.
  do 10 (destruct k as [|k]; [reflexivity|]).
  lia.
Qed.

Lemma readNumber_digits (w : nat) :
  forall (k : nat) (a n : Z) (rest : string),
    0 <= n < 10 ^ Z.of_nat w ->
    DateInputs.readNumber (w + k) a (Utils.digits w n rest)
    = DateInputs.readNumber k (a * 10 ^ Z.of_nat w + n) rest.
Proof.
  induction w as [|w IH]; intros k a n rest Hn.
  - cbn [Utils.digits Nat.add]. f_equal. change (10 ^ Z.of_nat 0) with 1 in *. lia.
  - cbn [Utils.digits].
    replace (S w + k)%nat with (w + S k)%nat by lia.
    rewrite Nat2Z.inj_succ, Z.pow_succ_r in * by lia.
    rewrite IH by (Z.div_mod_to_equations; lia).
    cbn [DateInputs.readNumber].
    rewrite digitOf_digit by (Z.div_mod_to_equations; lia).
    f_equal. Z.div_mod_to_equations; lia.
Qed.

Lemma read_two (n : Z) (rest : string) :
  0 <= n < 100 ->
  DateInputs.readNumber 2 0 (Utils.digits 2 n rest) = Some (n, rest).
Proof.
  intro Hn. change 2%nat with (2 + 0)%nat at 1.
  rewrite (readNumber_digits 2 0 0 n rest) by (cbn; lia).
  cbn [DateInputs.readNumber]. reflexivity.
Qed.

Lemma read_four (n : Z) (rest : string) :
  0 <= n < 10000 ->
  DateInputs.readNumber 4 0 (Utils.digits 4 n rest) = Some (n, rest).
Proof.
  intro Hn. change 4%nat with (4 + 0)%nat at 1.
  rewrite (readNumber_digits 4 0 0 n rest) by (cbn; lia).
  cbn [DateInputs.readNumber]. reflexivity.
Qed.

Lemma digits_app (w : nat) :
  forall (n : Z) (acc s : string),
    (Utils.digits w n acc ++ s)%string = Utils.digits w n (acc ++ s)%string.
Proof.
  induction w as [|w IH]; intros n acc s; [reflexivity|].
  cbn [Utils.digits]. rewrite IH. reflexivity.
Qed.

(** The parts of the date key of an instant, and the day they count back
    to. *)
Lemma getDateKey_parts (date : Z) :
  exists y m d,
    Utils.getDateKey date
    = Utils.digits 4 y
        (String "-" (Utils.digits 2 m
                       (String "-" (Utils.digits 2 d EmptyString))))
    /\ 1 <= m <= 12 /\ 1 <= d <= 31
    /\ DateInputs.daysFromCivil y m d = (date + 8 * 3600000) / 86400000
    /\ (LogProps.fourDigitYear date -> 0 <= y <= 9999).
Proof.
  unfold Utils.getDateKey, LogProps.fourDigitYear.
  change (DateInputs.daysFromCivil 0 1 1) with (-719528).
  change (DateInputs.daysFromCivil 10000 1 1) with 2932897.
  set (z := (date + 8 * 3600000) / 86400000 + 719468).
  set (era := z / 146097).
  set (doe := z - era * 146097).
  set (yoe := (doe - doe / 1460 + doe / 36524 - doe / 146096) / 365).
  set (doy := doe - (365 * yoe + yoe / 4 - yoe / 100)).
  set (mp := (5 * doy + 2) / 153).
  set (d := doy - (153 * mp + 2) / 5 + 1).
  set (m := if mp <? 10 then mp + 3 else mp - 9).
  set (y := yoe + era * 400 + (if m <=? 2 then 1 else 0)).
  cbv zeta.
  assert (Hdoe : 0 <= doe < 146097)
    by (subst doe era; Z.div_mod_to_equations; lia).
  assert (Hyoe : 0 <= yoe <= 399 /\ 0 <= doy <= 365)
    by (subst doy yoe; Z.div_mod_to_equations; lia).
  destruct Hyoe as [Hyoe Hdoy].
  assert (Hmp : 0 <= mp <= 11) by (subst mp; Z.div_mod_to_equations; lia).
  assert (Hd : 1 <= d <= 31) by (subst d mp; Z.div_mod_to_equations; lia).
  assert (Hm : 1 <= m <= 12 /\ (if m <=? 2 then m + 9 else m - 3) = mp
               /\ (m <=? 2) = (10 <=? mp)).
  { subst m. destruct (Z.ltb_spec mp 10).
    - destruct (Z.leb_spec (mp + 3) 2); destruct (Z.leb_spec 10 mp); lia.
    - destruct (Z.leb_spec (mp - 9) 2); destruct (Z.leb_spec 10 mp); lia. }
  destruct Hm as (Hm & Hback & Hjan).
  exists y, m, d. split; [reflexivity|]. split; [exact Hm|].
  split; [exact Hd|]. split.
  - unfold DateInputs.daysFromCivil. cbv zeta. rewrite Hback.
    assert (Hy' : (if m <=? 2 then y - 1 else y) = yoe + era * 400)
      by (subst y; destruct (m <=? 2); lia).
    rewrite Hy'.
    assert (Hera : (yoe + era * 400) / 400 = era)
      by (Z.div_mod_to_equations; lia).
    rewrite Hera.
    replace (yoe + era * 400 - era * 400) with yoe by lia.
    subst d doy doe z. lia.
  - intro Hrange.
    assert (Hz : -60 <= z < 3652365)
      by (subst z; Z.div_mod_to_equations; lia).
    subst y. rewrite Hjan.
    assert (Hlate : 10 <= mp <-> 306 <= doy)
      by (subst mp; Z.div_mod_to_equations; lia).
    assert (Hera : -1 <= era <= 24)
      by (subst era; Z.div_mod_to_equations; lia).
    assert (Hdoe' : doe = 365 * yoe + yoe / 4 - yoe / 100 + doy)
      by (subst doy; lia).
    assert (Hzz : z = era * 146097 + doe) by (subst doe; lia).
    destruct (Z.leb_spec 10 mp); clearbody doy yoe doe era z mp;
      Z.div_mod_to_equations; lia.
Qed.

Lemma append_cons (c : ascii) (a b : string) :
  (String c a ++ b)%string = String c (a ++ b)%string.
Proof. reflexivity. Qed.

Lemma append_empty (b : string) : (EmptyString ++ b)%string = b.
Proof. reflexivity. Qed.

Lemma digits_cons (w : nat) :
  forall (n : Z) (c : ascii) (acc : string),
    String.eqb (Utils.digits w n (String c acc)) "" = false.
Proof.
  induction w as [|w IH]; intros n c acc; [reflexivity|].
  cbn [Utils.digits]. apply IH.
Qed.

Lemma getDateKey_not_empty (date : Z) :
  String.eqb (Utils.getDateKey date) "" = false.
Proof.
  destruct (getDateKey_parts date) as (y & m & d & -> & _).
  apply digits_cons.
Qed.

(** Reading back the date key of an instant. *)
Lemma readDate_key (date : Z) (tail : string) :
  LogProps.fourDigitYear date ->
  exists y m d,
    DateInputs.readDate (Utils.getDateKey date ++ tail)%string
    = Some (y, m, d, tail)
    /\ DateInputs.daysFromCivil y m d = (date + 8 * 3600000) / 86400000.
Proof.
  intro Hrange.
  destruct (getDateKey_parts date) as (y & m & d & -> & Hm & Hd & Hdays & Hy).
  specialize (Hy Hrange).
  exists y, m, d. split; [|exact Hdays].
  rewrite ?digits_app, ?append_cons, ?digits_app, ?append_cons, ?digits_app,
    append_empty.
  unfold DateInputs.readDate.
  rewrite read_four by lia. read_step.
  rewrite read_two by lia. read_step.
  rewrite read_two by lia. read_step.
  replace ((1 <=? m) && (m <=? 12) && (1 <=? d) && (d <=? 31)) with true;
    [reflexivity|].
  symmetry. rewrite !andb_true_iff, !Z.leb_le. lia.
Qed.

Lemma day_bounds (date : Z) :
  LogProps.fourDigitYear date ->
  DateInputs.parseDateInputValue (Utils.getDateKey date) false
  = Some (Some (date - Props.msOfDay date))
  /\ DateInputs.parseDateInputValue (Utils.getDateKey date) true
     = Some (Some (date - Props.msOfDay date + 86399000)).
Proof.
  intro Hrange. unfold DateInputs.parseDateInputValue.
  rewrite getDateKey_not_empty.
  split.
  - destruct (readDate_key date ("T" ++ "00:00:00" ++ DateInputs.KL_OFFSET)
                Hrange) as (y & m & d & Hread & Hdays).
    unfold DateInputs.newDate. rewrite Hread.
    cbn [mbind option_bind]. 
    change (DateInputs.readTime ("T" ++ "00:00:00" ++ DateInputs.KL_OFFSET))
      with (Some (0, DateInputs.KL_OFFSET)).
    cbn [mbind option_bind].
    change (DateInputs.readOffset DateInputs.KL_OFFSET)
      with (Some (480, EmptyString)).
    cbn [mbind option_bind]. change (String.eqb "" "") with true. cbv iota.
    rewrite Hdays. unfold Props.msOfDay. do 2 f_equal.
    Z.div_mod_to_equations; lia.
  - destruct (readDate_key date ("T" ++ "23:59:59" ++ DateInputs.KL_OFFSET)
                Hrange) as (y & m & d & Hread & Hdays).
    unfold DateInputs.newDate. rewrite Hread.
    cbn [mbind option_bind]. 
    change (DateInputs.readTime ("T" ++ "23:59:59" ++ DateInputs.KL_OFFSET))
      with (Some (86399, DateInputs.KL_OFFSET)).
    cbn [mbind option_bind].
    change (DateInputs.readOffset DateInputs.KL_OFFSET)
      with (Some (480, EmptyString)).
    cbn [mbind option_bind]. change (String.eqb "" "") with true. cbv iota.
    rewrite Hdays. unfold Props.msOfDay. do 2 f_equal.
    Z.div_mod_to_equations; lia.
Qed.

Lemma hour_not_24 (h : Z) :
  0 <= h < 24 -> String.eqb (Utils.digits 2 h EmptyString) "24" = false.
Proof.
  intro Hh. destruct (String.eqb_spec (Utils.digits 2 h EmptyString) "24")
    as [Heq|]; [|reflexivity].
  pose proof (read_two h EmptyString ltac:(lia)) as Hread.
  rewrite Heq in Hread. vm_compute in Hread. injection Hread as Hread. lia.
Qed.

Lemma readTime_minutes (h mi : Z) (tail : string) :
  0 <= h < 24 -> 0 <= mi < 60 ->
  DateInputs.readTime
    ("T" ++ Utils.digits 2 h EmptyString ++ ":"
         ++ Utils.digits 2 mi EmptyString ++ ":00" ++ tail)%string
  = Some (h * 3600 + mi * 60, tail).
Proof.
  intros Hh Hmi.
  rewrite ?append_cons, ?append_empty, ?digits_app, ?append_cons,
    ?append_empty, ?digits_app, ?append_cons, ?append_empty.
  unfold DateInputs.readTime. read_step.
  rewrite read_two by lia. read_step.
  rewrite read_two by lia. read_step.
  change (DateInputs.readNumber 2 0 (String "0" (String "0" tail)))
    with (Some (0, tail)).
  read_step. unfold DateInputs.inDay.
  replace ((h <=? 23) && (mi <=? 59) && (0 <=? 59)) with true.
  - cbn [orb]. do 2 f_equal. lia.
  - symmetry. rewrite !andb_true_iff, !Z.leb_le. lia.
Qed.

Lemma edit_time (date : Z) :
  LogProps.fourDigitYear date ->
  DateInputs.parseDateTimeLocalValue
    (DateInputs.formatDateTimeLocalValue date)
  = Some (Some (date - date mod 60000)).
Proof.
  intro Hrange.
  unfold DateInputs.parseDateTimeLocalValue,
    DateInputs.formatDateTimeLocalValue. cbv zeta.
  set (minutes := (date / 60000 + 8 * 60) mod (24 * 60)).
  assert (Hmin : 0 <= minutes < 1440)
    by (subst minutes; Z.div_mod_to_equations; lia).
  rewrite hour_not_24 by (Z.div_mod_to_equations; lia).
  match goal with
  | |- context [String.eqb ?x ""] =>
      replace (String.eqb x "") with false
  end.
  2:{ symmetry.
      destruct (getDateKey_parts date) as (y & m & d & -> & _).
      rewrite digits_app, append_cons. apply digits_cons. }
  rewrite !append_assoc.
  destruct (readDate_key date
              ("T" ++ Utils.digits 2 (minutes / 60) EmptyString ++ ":"
                   ++ Utils.digits 2 (minutes mod 60) EmptyString
                   ++ ":00" ++ DateInputs.KL_OFFSET)
              Hrange) as (y & m & d & Hread & Hdays).
  unfold DateInputs.newDate. rewrite Hread. read_step.
  rewrite readTime_minutes by (Z.div_mod_to_equations; lia). read_step.
  change (DateInputs.readOffset DateInputs.KL_OFFSET)
    with (Some (480, EmptyString)).
  read_step. change (String.eqb "" "") with true. cbv iota.
  rewrite Hdays. do 2 f_equal. subst minutes.
  Z.div_mod_to_equations; lia.
Qed.


Lemma getDateKey_of_day (a b : Z) :
  (a + 8 * 3600000) / 86400000 = (b + 8 * 3600000) / 86400000 ->
  Utils.getDateKey a = Utils.getDateKey b.
Proof.
  intro Hday. unfold Utils.getDateKey. rewrite Hday. reflexivity.
Qed.

Lemma getDateKey_minute (t : Z) :
  Utils.getDateKey (t - t mod 60000) = Utils.getDateKey t.
Proof.
  apply getDateKey_of_day. Z.div_mod_to_equations; lia.
Qed.

Lemma minute_in_range (t : Z) :
  Firestore.inTimestampRange t = true ->
  Firestore.inTimestampRange (t - t mod 60000) = true.
Proof.
  unfold Firestore.inTimestampRange.
  rewrite !andb_true_iff, !Z.leb_le, !Z.ltb_lt.
  Z.div_mod_to_equations; lia.
Qed.

(** A parsed date is a whole number of seconds. *)
Lemma newDate_whole_seconds (text : string) (date : Z) :
  DateInputs.newDate text = Some date -> date mod 1000 = 0.
Proof.
  unfold DateInputs.newDate.
  destruct (DateInputs.readDate text) as [[[[y m] d] s]|]; [|discriminate].
  cbn [mbind option_bind].
  destruct (DateInputs.readTime s) as [[secs s']|]; [|discriminate].
  cbn [mbind option_bind].
  destruct (DateInputs.readOffset s') as [[offset s'']|]; [|discriminate].
  cbn [mbind option_bind].
  destruct (String.eqb s'' ""); [|discriminate].
  intro Hd. injection Hd as <-.
  Z.div_mod_to_equations; lia.
Qed.

Lemma parsed_whole_seconds (value : string) (date : Z) :
  DateInputs.parseDateTimeLocalValue value = Some (Some date) ->
  date mod 1000 = 0.
Proof.
  unfold DateInputs.parseDateTimeLocalValue.
  destruct (String.eqb value ""); [discriminate|].
  intro Hd. injection Hd as Hd. exact (newDate_whole_seconds _ _ Hd).
Qed.

End DateFacts.

(** ** Timestamps and rounding to a tenth *)

Section StampFacts.
Import Firestore Types.

Lemma toNanos_fromDate (ms : Z) : toNanos (fromDate ms) = ms * 10 ^ 6.
Proof.
  unfold toNanos, fromDate. cbn [seconds nanoseconds].
  change (10 ^ 9) with 1000000000. change (10 ^ 6) with 1000000.
  Z.div_mod_to_equations; lia.
Qed.

Lemma toDate_fromDate (ms : Z) : toDate (fromDate ms) = ms.
Proof.
  unfold toDate. rewrite toNanos_fromDate.
  change (10 ^ 6) with 1000000. apply Z.quot_mul. lia.
Qed.

End StampFacts.

Section RoundingFacts.
Open Scope Q_scope.

Lemma toFixed1_proper (x y : Q) :
  x == y -> AttendanceLogsPanel.toFixed1 x = AttendanceLogsPanel.toFixed1 y.
Proof.
  intro Hxy. unfold AttendanceLogsPanel.toFixed1, Js.Qltb.
  assert (Hn : Qfloor (Qabs x * inject_Z 10 + (1 # 2))
               = Qfloor (Qabs y * inject_Z 10 + (1 # 2)))
    by (apply Qfloor_comp; rewrite Hxy; reflexivity).
  assert (Hs : Qle_bool 0 x = Qle_bool 0 y)
    by (rewrite Hxy; reflexivity).
  rewrite Hn, Hs. reflexivity.
Qed.

Lemma floor_half (n : Z) : Qfloor (inject_Z n + (1 # 2)) = n.
Proof.
  symmetry. apply Zle_antisym.
  - rewrite <- (Qfloor_Z n) at 1. apply Qfloor_resp_le. lra.
  - apply Z.lt_succ_r. rewrite Zlt_Qlt.
    eapply Qle_lt_trans; [apply Qfloor_le|].
    unfold Z.succ. rewrite inject_Z_plus. change (inject_Z 1) with 1. lra.
Qed.

(** The tenths of a whole number of tenths. *)
Lemma toFixed1_tenths (n : Z) :
  AttendanceLogsPanel.toFixed1 (inject_Z n / inject_Z 10)
  = Qred (inject_Z n / inject_Z 10).
Proof.
  unfold AttendanceLogsPanel.toFixed1.
  change (inject_Z 10) with 10.
  destruct (Js.Qltb (inject_Z n / 10) 0) eqn:Hneg.
  - apply Qltb_lt in Hneg.
    assert (Habs : Qabs (inject_Z n / 10) * 10 + (1 # 2)
                   == inject_Z (- n) + (1 # 2)).
    { rewrite Qabs_neg by (apply Qlt_le_weak, Hneg).
      rewrite inject_Z_opp. field. }
    rewrite (Qfloor_comp _ _ Habs), floor_half.
    apply Qred_complete. rewrite inject_Z_opp. field.
  - apply Qltb_ge in Hneg.
    assert (Habs : Qabs (inject_Z n / 10) * 10 + (1 # 2)
                   == inject_Z n + (1 # 2)).
    { rewrite Qabs_pos by exact Hneg. field. }
    rewrite (Qfloor_comp _ _ Habs), floor_half. reflexivity.
Qed.

Lemma toFixed1_idem (x : Q) :
  AttendanceLogsPanel.toFixed1 (AttendanceLogsPanel.toFixed1 x)
  = AttendanceLogsPanel.toFixed1 x.
Proof.
  assert (Hform : exists n, AttendanceLogsPanel.toFixed1 x
                            = Qred (inject_Z n / inject_Z 10)).
  { unfold AttendanceLogsPanel.toFixed1.
    destruct (Js.Qltb x 0).
    - exists (- Qfloor (Qabs x * inject_Z 10 + (1 # 2)))%Z.
      apply Qred_complete. rewrite inject_Z_opp. field.
    - eexists. reflexivity. }
  destruct Hform as [n Hn]. rewrite Hn.
  rewrite (toFixed1_proper _ (inject_Z n / inject_Z 10))
    by apply Qred_correct.
  apply toFixed1_tenths.
Qed.

End RoundingFacts.

(** ** Looking a document up by its id *)

Section FindFacts.
Import Firestore Types.

Lemma find_update_same {A} (id : string) (change : A -> A)
    (c : list (string * A)) (d : string * A) :
  List.find (fun d => String.eqb (fst d) id) c = Some d ->
  exists c',
    updateDoc id change c = Some c'
    /\ List.find (fun d => String.eqb (fst d) id) c'
       = Some (fst d, change (snd d)).
Proof.
  intro Hfind. unfold updateDoc, DocId, Collection.
  match goal with
  | |- context [existsb ?f ?l] => assert (Hexists : existsb f l = true)
  end.
  { apply List.existsb_exists. exists d.
    apply List.find_some in Hfind. exact Hfind. }
  rewrite Hexists. eexists. split; [reflexivity|].
  clear Hexists. revert Hfind.
  induction c as [|x c IH]; [discriminate|].
  cbn [List.find map].
  destruct (String.eqb (fst x) id) eqn:Hx.
  - intro Hfind. injection Hfind as <-. cbn [List.find fst].
    now rewrite Hx.
  - cbn [List.find]. rewrite Hx. exact IH.
Qed.

Lemma find_update_other {A} (id j : string) (change : A -> A)
    (c c' : list (string * A)) :
  updateDoc id change c = Some c' -> j <> id ->
  List.find (fun d => String.eqb (fst d) j) c'
  = List.find (fun d => String.eqb (fst d) j) c.
Proof.
  unfold updateDoc, DocId, Collection.
  destruct (existsb _ c); [|discriminate].
  intros Hc Hj. injection Hc as <-.
  induction c as [|x c IH]; [reflexivity|].
  cbn [List.find map].
  destruct (String.eqb_spec (fst x) id) as [Hx|Hx]; cbn [fst].
  - destruct (String.eqb_spec (fst x) j) as [Hxj|_]; [congruence|].
    exact IH.
  - destruct (String.eqb (fst x) j); [reflexivity | exact IH].
Qed.

Lemma find_without_same {A} (id : string) (c : list (string * A)) :
  List.find (fun d => String.eqb (fst d) id) (without id c) = None.
Proof.
  unfold without, DocId, Collection.
  induction c as [|x c IH]; [reflexivity|].
  cbn [List.filter]. destruct (String.eqb (fst x) id) eqn:Hx; cbn [negb].
  - exact IH.
  - cbn [List.find]. rewrite Hx. exact IH.
Qed.

Lemma find_without_other {A} (id j : string) (c : list (string * A)) :
  j <> id ->
  List.find (fun d => String.eqb (fst d) j) (without id c)
  = List.find (fun d => String.eqb (fst d) j) c.
Proof.
  intro Hj. unfold without, DocId, Collection.
  induction c as [|x c IH]; [reflexivity|].
  cbn [List.filter List.find].
  destruct (String.eqb_spec (fst x) id) as [Hx|Hx]; cbn [negb].
  - destruct (String.eqb_spec (fst x) j) as [Hxj|_]; [congruence|].
    exact IH.
  - cbn [List.find]. destruct (String.eqb (fst x) j); [reflexivity|].
    exact IH.
Qed.

End FindFacts.

(** ** The logs panel *)

Section LogFacts.
Context `{Host}.
Import Firestore Types.

Lemma base_writeAuditEntries (p : AttendanceLogsPanel.Panel) (id : DocId)
    (action : AttendanceLogsPanel.Action)
    (before after : option (AttendanceLog * option string))
    (store : AttendanceLogsPanel.Store) :
  AttendanceLogsPanel.base
    (AttendanceLogsPanel.writeAuditEntries p id action before after store)
  = AttendanceLogsPanel.base store
  /\ AttendanceLogsPanel.adminFields
       (AttendanceLogsPanel.writeAuditEntries p id action before after store)
     = AttendanceLogsPanel.adminFields store.
Proof.
  unfold AttendanceLogsPanel.writeAuditEntries.
  destruct (AttendanceLogsPanel.adminUser p),
    (AttendanceLogsPanel.adminProfile p); split; reflexivity.
Qed.

(** What an accepted save went through. *)
Lemma save_accepted (p : AttendanceLogsPanel.Panel)
    (editingLog : option AttendanceLogsPanel.LogRow)
    (logForm : AttendanceLogsPanel.LogFormState)
    (store store' : AttendanceLogsPanel.Store) (prompt : string * string) :
  AttendanceLogsPanel.handleSaveLog p editingLog logForm store
  = AttendanceLogsPanel.Saved store' prompt ->
  exists adminUid profile userItem locationItem scanDate,
    AttendanceLogsPanel.adminUser p = Some adminUid
    /\ AttendanceLogsPanel.adminProfile p = Some profile
    /\ List.find (fun item => String.eqb (uid item)
                                (AttendanceLogsPanel.l_userId logForm))
                 (AttendanceLogsPanel.users p) = Some userItem
    /\ List.find (fun item => String.eqb (fst item)
                                (AttendanceLogsPanel.l_siteId logForm))
                 (AttendanceLogsPanel.locations p) = Some locationItem
    /\ DateInputs.parseDateTimeLocalValue
         (AttendanceLogsPanel.l_scanTime logForm) = Some (Some scanDate)
    /\ Firestore.inTimestampRange scanDate = true
    /\ prompt = (Utils.getDateKey scanDate, Utils.getDateKey scanDate)
    /\ let note :=
         Some (Utils.trimString (AttendanceLogsPanel.l_adminNote logForm)) in
       let fields :=
         AttendanceLogsPanel.savedFields adminUid profile p logForm in
       match editingLog with
       | None =>
           let data :=
             AttendanceLogsPanel.newLog p userItem locationItem logForm
                                        scanDate in
           store'
           = AttendanceLogsPanel.writeAuditEntries p
               (AttendanceLogsPanel.logRef p)
               AttendanceLogsPanel.ActionCreate None (Some (data, note))
               (AttendanceLogsPanel.withLogs store
                  (applyWrite (attendance (AttendanceLogsPanel.base store))
                              (SetDoc (AttendanceLogsPanel.logRef p) data))
                  (<[AttendanceLogsPanel.logRef p := fields]>
                     (AttendanceLogsPanel.adminFields store)))
       | Some log =>
           let change :=
             AttendanceLogsPanel.updatedLog userItem locationItem logForm
                                            scanDate log in
           exists c,
             updateDoc (AttendanceLogsPanel.row_id log) change
                       (attendance (AttendanceLogsPanel.base store))
             = Some c
             /\ store'
                = AttendanceLogsPanel.writeAuditEntries p
                    (AttendanceLogsPanel.row_id log)
                    AttendanceLogsPanel.ActionUpdate
                    (Some (AttendanceLogsPanel.row_data log,
                           AttendanceLogsPanel.adminNote
                             (AttendanceLogsPanel.row_admin log)))
                    (Some (change (AttendanceLogsPanel.row_data log), note))
                    (AttendanceLogsPanel.withLogs store c
                       (<[AttendanceLogsPanel.row_id log := fields]>
                          (AttendanceLogsPanel.adminFields store)))
       end.
Proof.
  unfold AttendanceLogsPanel.handleSaveLog.
  destruct (AttendanceLogsPanel.savingLog p); [discriminate|].
  destruct (AttendanceLogsPanel.adminUser p) as [adminUid|]; [|discriminate].
  destruct (AttendanceLogsPanel.adminProfile p) as [profile|];
    [|discriminate].
  match goal with
  | |- (if ?c then _ else _) = _ -> _ => destruct c; [discriminate|]
  end.
  match goal with
  | |- context [List.find ?f (AttendanceLogsPanel.users p)] =>
      destruct (List.find f (AttendanceLogsPanel.users p)) as [userItem|];
      [|discriminate]
  end.
  match goal with
  | |- context [List.find ?f (AttendanceLogsPanel.locations p)] =>
      destruct (List.find f (AttendanceLogsPanel.locations p))
        as [locationItem|]; [|discriminate]
  end.
  destruct (DateInputs.parseDateTimeLocalValue _) as [[scanDate|]|];
    [|discriminate|discriminate].
  destruct (Firestore.inTimestampRange scanDate) eqn:Hrange;
    [|discriminate].
  cbn [negb]. cbv zeta.
  intro Hsaved.
  exists adminUid, profile, userItem, locationItem, scanDate.
  do 6 (split; [first [reflexivity | exact Hrange]|]).
  destruct editingLog as [log|].
  - match type of Hsaved with
    | context [updateDoc ?i ?f ?c] =>
        destruct (updateDoc i f c) as [c'|] eqn:Hupdate; [|discriminate]
    end.
    injection Hsaved as <- <-. split; [reflexivity|].
    exists c'. split; reflexivity.
  - injection Hsaved as <- <-. split; reflexivity.
Qed.

Lemma find_eqb_key {A} (key : A -> string) (k : string) (l : list A) (x : A) :
  List.find (fun item => String.eqb (key item) k) l = Some x -> key x = k.
Proof.
  intro Hfind. apply List.find_some in Hfind as [_ Heq].
  now apply String.eqb_eq in Heq.
Qed.

Lemma sort_length {A} (le : A -> A -> bool) (l : list A) :
  length (Js.sort le l) = length l.
Proof.
  pose proof (count_sort le (fun _ => true) l) as Hc.
  now rewrite !filter_true in Hc.
Qed.

Lemma mapSet_length (k : string) (v : list AdminDashboard.GroupedLog)
    (m : AdminDashboard.Grouped) :
  (length (AdminDashboard.mapSet k v m) <= S (length m))%nat.
Proof.
  rewrite <- (length_map fst (AdminDashboard.mapSet k v m)), mapSet_keys.
  destruct (AdminDashboard.mapGet k m);
    rewrite ?length_app, length_map; cbn [length]; lia.
Qed.

Lemma groupLogs_length (docs : Collection AttendanceLog) :
  (length (AdminDashboard.groupLogs docs) <= length docs)%nat.
Proof.
  unfold AdminDashboard.groupLogs.
  match goal with |- context [fold_left ?f _ _] => set (step := f) end.
  enough (Hgen : forall acc,
             (length (fold_left step docs acc)
              <= length acc + length docs)%nat)
    by exact (Hgen []).
  induction docs as [|d docs IH]; intro acc; cbn [fold_left length]; [lia|].
  etransitivity; [apply IH|].
  enough (length (step acc d) <= S (length acc))%nat by lia.
  unfold step. destruct (Js.truthy (isDeleted (snd d))); [lia|].
  apply mapSet_length.
Qed.

Lemma filter_length_le {A} (f : A -> bool) (l : list A) :
  (length (List.filter f l) <= length l)%nat.
Proof.
  induction l as [|x l IH]; cbn [List.filter length]; [lia|].
  destruct (f x); cbn [length]; lia.
Qed.

Lemma logsQuery_length (db : Db) (startDate endDate : Z) :
  (length (AdminDashboard.logsQuery db startDate endDate)
   <= length (attendance db))%nat.
Proof.
  unfold AdminDashboard.logsQuery, orderByAsc.
  rewrite sort_length. apply filter_length_le.
Qed.

(** A live successful log between the two dates is read by the recompute
    and filed under its user and day. *)
Lemma live_log_is_grouped (db : Db) (startDate endDate : Z)
    (d : DocId * AttendanceLog) :
  In d (attendance db) ->
  status (snd d) = Success ->
  Js.truthy (isDeleted (snd d)) = false ->
  toNanos (fromDate startDate) <= toNanos (scanTime (snd d))
  <= toNanos (fromDate endDate) ->
  exists logs,
    In (Props.keyOf (Spec.asGrouped (snd d)), logs)
       (AdminDashboard.groupLogs
          (AdminDashboard.logsQuery db startDate endDate))
    /\ In (Spec.asGrouped (snd d)) logs.
Proof.
  intros Hin Hok Hlive Hrange.
  set (docs := AdminDashboard.logsQuery db startDate endDate).
  assert (Hdoc : In d docs).
  { unfold docs, AdminDashboard.logsQuery, orderByAsc.
    apply sort_In, List.filter_In. split; [exact Hin|].
    rewrite Hok. cbn [isSuccess andb].
    apply andb_true_iff. split; apply Z.leb_le; lia. }
  set (g := Spec.asGrouped (snd d)).
  assert (Hg : In g (Props.liveLogs docs)).
  { unfold Props.liveLogs. apply List.in_map, List.filter_In. split.
    - now apply List.in_map.
    - unfold ScannerPage.notDeleted. now rewrite Hlive. }
  destruct (groupLogs_classes docs) as [_ Hget].
  specialize (Hget (Props.keyOf g)). unfold Props.classOf in Hget.
  assert (Hclass : In g (List.filter
                           (fun g' => String.eqb (Props.keyOf g')
                                                 (Props.keyOf g))
                           (Props.liveLogs docs))).
  { apply List.filter_In. split; [exact Hg | apply String.eqb_refl]. }
  destruct (List.filter _ (Props.liveLogs docs)) as [|g0 rest] eqn:Hfilter;
    [contradiction|].
  exists (g0 :: rest). split; [|exact Hclass].
  now apply mapGet_In.
Qed.

Lemma format_not_empty (t : Z) :
  LogProps.fourDigitYear t ->
  String.eqb (DateInputs.formatDateTimeLocalValue t) "" = false.
Proof.
  intro Hyear. pose proof (edit_time t Hyear) as Hparse.
  unfold DateInputs.parseDateTimeLocalValue in Hparse.
  destruct (String.eqb (DateInputs.formatDateTimeLocalValue t) "");
    [discriminate | reflexivity].
Qed.

Lemma numberOf_shown (value : option Q) :
  AttendanceLogsPanel.numberOf (AttendanceLogsPanel.shown value) = value.
Proof. now destruct value. Qed.

Lemma distanceOf_shown (value : option Q) :
  AttendanceLogsPanel.distanceOf
    (AttendanceLogsPanel.shown
       (option_map AttendanceLogsPanel.toFixed1 value))
  = option_map AttendanceLogsPanel.toFixed1 value.
Proof.
  destruct value as [q|]; [|reflexivity].
  cbn [option_map AttendanceLogsPanel.shown AttendanceLogsPanel.distanceOf].
  now rewrite toFixed1_idem.
Qed.

(** The form [openEditLog] opens. *)
Lemma openEditLog_form (p : AttendanceLogsPanel.Panel) (clientNow : Z)
    (log : AttendanceLogsPanel.LogRow) :
  let data := AttendanceLogsPanel.row_data log in
  snd (AttendanceLogsPanel.openEditLog p clientNow log)
  = {| AttendanceLogsPanel.l_id := None;
       AttendanceLogsPanel.l_userId := userId data;
       AttendanceLogsPanel.l_siteId := siteId data;
       AttendanceLogsPanel.l_scanType := default CheckIn (scanType data);
       AttendanceLogsPanel.l_status := status data;
       AttendanceLogsPanel.l_scanTime :=
         DateInputs.formatDateTimeLocalValue (toDate (scanTime data));
       AttendanceLogsPanel.l_adminNote :=
         default ""%string
                 (AttendanceLogsPanel.adminNote
                    (AttendanceLogsPanel.row_admin log));
       AttendanceLogsPanel.l_userLat :=
         AttendanceLogsPanel.shown (userLat data);
       AttendanceLogsPanel.l_userLng :=
         AttendanceLogsPanel.shown (userLng data);
       AttendanceLogsPanel.l_distanceMeters :=
         AttendanceLogsPanel.shown
           (option_map AttendanceLogsPanel.toFixed1 (distanceMeters data)) |}.
Proof. reflexivity. Qed.

End LogFacts.

(** ** The dates of the two dialogs *)

Section ModelClockFacts.
Import Firestore Types.

Lemma onModelClock_fourDigitYear (t : Z) :
  LogProps.onModelClock t -> LogProps.fourDigitYear t.
Proof.
  unfold LogProps.onModelClock, LogProps.fourDigitYear, Props.modern.
  change (DateInputs.daysFromCivil 0 1 1) with (-719528).
  lia.
Qed.

Lemma model_clock_in_range (t : Z) :
  LogProps.onModelClock t -> inTimestampRange t = true.
Proof.
  unfold LogProps.onModelClock, Props.modern, inTimestampRange.
  change (DateInputs.daysFromCivil 10000 1 1) with 2932897.
  intros [Hlow Hhigh]. rewrite andb_true_iff, Z.leb_le, Z.ltb_lt.
  Z.div_mod_to_equations; lia.
Qed.

Lemma model_day_in_range (t : Z) :
  LogProps.onModelClock t ->
  inTimestampRange (t - Props.msOfDay t)
  && inTimestampRange (t - Props.msOfDay t + 86399000) = true.
Proof.
  unfold LogProps.onModelClock, Props.modern, inTimestampRange,
    Props.msOfDay.
  change (DateInputs.daysFromCivil 10000 1 1) with 2932897.
  intros [Hlow Hhigh]. rewrite !andb_true_iff, !Z.leb_le, !Z.ltb_lt.
  Z.div_mod_to_equations; lia.
Qed.

Lemma toFixed1_rounded (x : Q) :
  LogProps.Rounded1 x (AttendanceLogsPanel.toFixed1 x).
Proof.
  unfold LogProps.Rounded1, AttendanceLogsPanel.toFixed1.
  change (inject_Z 10) with 10%Q.
  pose proof (Qfloor_le (Qabs x * 10 + (1 # 2))) as Hlo.
  pose proof (Qlt_floor (Qabs x * 10 + (1 # 2))) as Hhi.
  rewrite inject_Z_plus in Hhi.
  change (inject_Z 1) with 1%Q in Hhi.
  generalize dependent (Qfloor (Qabs x * 10 + (1 # 2))). intros n Hlo Hhi.
  destruct (Js.Qltb x 0) eqn:Hneg.
  - apply Qltb_lt in Hneg.
    assert (Habs : (Qabs x == - x)%Q) by (apply Qabs_neg, Qlt_le_weak, Hneg).
    rewrite Habs in Hlo, Hhi.
    exists (- n)%Z. rewrite Qred_correct, inject_Z_opp.
    split; [field | apply Qabs_Qle_condition; clear Habs; unfold Qdiv;
                    change (/ 10)%Q with (1 # 10)%Q; split; lra].
  - apply Qltb_ge in Hneg.
    assert (Habs : (Qabs x == x)%Q) by (apply Qabs_pos, Hneg).
    rewrite Habs in Hlo, Hhi.
    exists n. rewrite Qred_correct.
    split; [reflexivity | apply Qabs_Qle_condition; clear Habs; unfold Qdiv;
                          change (/ 10)%Q with (1 # 10)%Q; split; lra].
Qed.

End ModelClockFacts.

Section RangeClaims.
Context `{Host}.
Import Firestore Types.

(** X5. The minutes of [getTimeMinutes] count from the midnight of the
    date key.  For an instant from 1982 to the end of the year 9999, the
    date key [getDateKey] gives, read back by [parseDateInputValue] as the
    start of a day, is a midnight from which the instant lies in the
    minute [getTimeMinutes] gives: the two helpers cut the days at the
    same midnight, the minutes run from 0 to 1439, and the seconds and
    milliseconds of the instant are dropped. *)
Theorem minutes_count_from_the_midnight_of_the_date_key (t : Z) :
  LogProps.onModelClock t ->
  exists start,
    DateInputs.parseDateInputValue (Utils.getDateKey t) false
    = Some (Some start)
    /\ 0 <= Utils.getTimeMinutes t < 1440
    /\ start + Utils.getTimeMinutes t * 60000 <= t
       < start + (Utils.getTimeMinutes t + 1) * 60000.
Proof.
  intro Hclock.
  destruct (day_bounds t (onModelClock_fourDigitYear t Hclock)) as [Hstart _].
  exists (t - Props.msOfDay t). split; [exact Hstart|].
  rewrite getTimeMinutes_msOfDay. unfold Props.msOfDay.
  Z.div_mod_to_equations; lia.
Qed.

(** X26. The range of a recompute asked for by day.  For two days given
    by their date keys, the recompute dialog of the sessions panel and the
    recompute the logs panel offers after a change both run
    [recomputeSessionsForRange] from the midnight that starts the first
    day, in Asia/Kuala_Lumpur, to 23:59:59.000 of the last day.  So of the
    logs of the last day the recompute reads none scanned in the last
    second: a log it reads, if it is of that day, was scanned at 86399000
    milliseconds of the day at the latest. *)
Theorem recompute_dialogs_stop_before_the_last_second
    (first last : Z) (p : AttendanceLogsPanel.Panel)
    (users : list UserProfile) (refs : list DocId) (db : Db) :
  LogProps.onModelClock first ->
  LogProps.onModelClock last ->
  let startDate := first - Props.msOfDay first in
  let endDate := last - Props.msOfDay last + 86399000 in
  SessionsPanel.recomputeSessions (Utils.getDateKey first)
                                  (Utils.getDateKey last) users refs db
  = SessionsPanel.Recomputed
      (AdminDashboard.recomputeSessionsForRange startDate endDate users refs
                                                db)
  /\ AttendanceLogsPanel.handleRecomputePrompt
       (Some (Utils.getDateKey first, Utils.getDateKey last)) false p refs db
     = SessionsPanel.Recomputed
         (AdminDashboard.recomputeSessionsForRange
            startDate endDate (AttendanceLogsPanel.users p) refs db)
  /\ forall d,
       In d (AdminDashboard.logsQuery db startDate endDate) ->
       let t := toDate (scanTime (snd d)) in
       LogProps.onModelClock t ->
       Utils.getDateKey t = Utils.getDateKey last ->
       Props.msOfDay t <= 86399000.
Proof.
  intros Hfirst' Hlast' startDate endDate.
  pose proof (onModelClock_fourDigitYear first Hfirst') as Hfirst.
  pose proof (onModelClock_fourDigitYear last Hlast') as Hlast.
  destruct (day_bounds first Hfirst) as [Hstart _].
  destruct (day_bounds last Hlast) as [Hlow Hend].
  fold startDate in Hstart. fold endDate in Hend.
  assert (Hrange : inTimestampRange startDate && inTimestampRange endDate
                   = true).
  { apply andb_true_iff. split.
    - pose proof (model_day_in_range first Hfirst') as Hin.
      now apply andb_true_iff in Hin.
    - pose proof (model_day_in_range last Hlast') as Hin.
      now apply andb_true_iff in Hin. }
  split; [|split].
  - unfold SessionsPanel.recomputeSessions.
    rewrite !getDateKey_not_empty. cbn [orb].
    rewrite Hstart, Hend. unfold SessionsPanel.recomputeBetween.
    now rewrite Hrange.
  - unfold AttendanceLogsPanel.handleRecomputePrompt.
    rewrite Hstart, Hend. unfold SessionsPanel.recomputeBetween.
    now rewrite Hrange.
  - intros d Hin t Hyear' Hday.
    pose proof (onModelClock_fourDigitYear t Hyear') as Hyear.
    unfold AdminDashboard.logsQuery, orderByAsc in Hin.
    apply sort_In, List.filter_In in Hin as [_ Hq].
    apply andb_true_iff in Hq as [_ Hq]. apply Z.leb_le in Hq.
    rewrite toNanos_fromDate in Hq.
    assert (Ht : t <= endDate).
    { unfold t, toDate. rewrite <- (Z.quot_mul endDate (10 ^ 6)) by easy.
      apply Z.quot_le_mono; [easy | exact Hq]. }
    destruct (day_bounds t Hyear) as [Hown _].
    rewrite Hday, Hlow in Hown. injection Hown as Hown.
    unfold endDate in Ht. lia.
Qed.

(** X27. The time of a log in the form.  The form [openEditLog] opens
    for a log holds its scan time to the minute: read back by
    [parseDateTimeLocalValue], as [handleSaveLog] does, the text gives the
    start of the minute of the scan, which falls on the same day.  The
    form [openCreateLog] opens holds the minute of the clock in the same
    way. *)
Theorem edit_form_cuts_the_time_to_the_minute
    (p : AttendanceLogsPanel.Panel) (clientNow : Z)
    (log : AttendanceLogsPanel.LogRow) :
  let t := toDate (scanTime (AttendanceLogsPanel.row_data log)) in
  LogProps.onModelClock t ->
  LogProps.onModelClock clientNow ->
  DateInputs.parseDateTimeLocalValue
    (AttendanceLogsPanel.l_scanTime
       (snd (AttendanceLogsPanel.openEditLog p clientNow log)))
  = Some (Some (t - t mod 60000))
  /\ DateInputs.parseDateTimeLocalValue
       (AttendanceLogsPanel.l_scanTime
          (snd (AttendanceLogsPanel.openCreateLog p clientNow)))
     = Some (Some (clientNow - clientNow mod 60000))
  /\ Utils.getDateKey (t - t mod 60000) = Utils.getDateKey t.
Proof.
  intros t Ht Hnow. split; [|split].
  - rewrite openEditLog_form.
    exact (edit_time t (onModelClock_fourDigitYear t Ht)).
  - exact (edit_time clientNow (onModelClock_fourDigitYear clientNow Hnow)).
  - apply getDateKey_minute.
Qed.

End RangeClaims.

(** ** Logs entered and edited by hand *)

Section EntryClaims.
Context `{Host}.
Import Firestore Types.

(** X28. A log entered by hand reaches the sessions.  When
    [handleSaveLog] accepts the form of a new successful log, the log is
    stored under the new id with the scan time and the kind of the form;
    the scanner's rebuild of that day counts it for the user; the
    recompute the panel then offers reads it, whatever the time of day
    typed, and files it under the user and the day; and after that
    recompute, given enough distinct new ids, the user has exactly one
    session of that day. *)
Theorem manual_entry_gets_its_session (p : AttendanceLogsPanel.Panel)
    (logForm : AttendanceLogsPanel.LogFormState)
    (store store' : AttendanceLogsPanel.Store) (prompt : string * string)
    (scanDate : Z) (refs : list DocId) :
  AttendanceLogsPanel.handleSaveLog p None logForm store
  = AttendanceLogsPanel.Saved store' prompt ->
  AttendanceLogsPanel.l_status logForm = Success ->
  DateInputs.parseDateTimeLocalValue (AttendanceLogsPanel.l_scanTime logForm)
  = Some (Some scanDate) ->
  LogProps.onModelClock scanDate ->
  Props.noBar (AttendanceLogsPanel.l_userId logForm) = true ->
  Spec.distinct
    (map fst (attendanceSessions (AttendanceLogsPanel.base store))) = true ->
  Spec.distinct refs = true ->
  (length (attendance (AttendanceLogsPanel.base store)) < length refs)%nat ->
  let user := AttendanceLogsPanel.l_userId logForm in
  let day := Utils.getDateKey scanDate in
  let startDate := scanDate - Props.msOfDay scanDate in
  let db := AttendanceLogsPanel.base store' in
  exists data,
    In (AttendanceLogsPanel.logRef p, data) (attendance db)
    /\ toDate (scanTime data) = scanDate
    /\ scanType data = Some (AttendanceLogsPanel.l_scanType logForm)
    /\ In data (ScannerPage.dayLogs db user day)
    /\ (exists logs,
           In ((user ++ "|" ++ day)%string, logs)
              (AdminDashboard.groupLogs
                 (AdminDashboard.logsQuery db startDate
                                           (startDate + 86399000)))
           /\ In (Spec.asGrouped data) logs)
    /\ exists db',
         AttendanceLogsPanel.handleRecomputePrompt (Some prompt) false p refs
                                                   db
         = SessionsPanel.Recomputed db'
         /\ length (Spec.sessionsOf user day (attendanceSessions db'))
            = 1%nat.
Proof.
  intros Hsave Hok Hparse Hclock Hbar Hids Hrefs Hlen user day startDate db.
  pose proof (onModelClock_fourDigitYear scanDate Hclock) as Hyear.
  apply save_accepted in Hsave
    as (adminUid & profile & userItem & locationItem & scanDate' & _ & _
        & Huser & _ & Hparse' & _ & -> & Hstore).
  rewrite Hparse in Hparse'. injection Hparse' as <-.
  cbv zeta in Hstore.
  set (data := AttendanceLogsPanel.newLog p userItem locationItem logForm
                                          scanDate) in *.
  apply find_eqb_key in Huser. fold user in Huser.
  assert (Hdb : db = withAttendance (AttendanceLogsPanel.base store)
                       (applyWrite
                          (attendance (AttendanceLogsPanel.base store))
                          (SetDoc (AttendanceLogsPanel.logRef p) data))).
  { unfold db. rewrite Hstore.
    now rewrite (proj1 (base_writeAuditEntries _ _ _ _ _ _)). }
  assert (Hin : In (AttendanceLogsPanel.logRef p, data) (attendance db)).
  { rewrite Hdb. cbn [attendance withAttendance applyWrite].
    apply in_or_app. right. now left. }
  assert (Htime : toDate (scanTime data) = scanDate)
    by apply toDate_fromDate.
  assert (Hwhole : scanDate mod 1000 = 0)
    by exact (parsed_whole_seconds _ _ Hparse).
  destruct (day_bounds scanDate Hyear) as [Hstart Hend].
  fold day startDate in Hstart, Hend.
  destruct (live_log_is_grouped db startDate (startDate + 86399000)
              (AttendanceLogsPanel.logRef p, data) Hin)
    as (logs & Hentry & Hlog).
  { cbn [snd]. exact Hok. }
  { reflexivity. }
  { cbn [snd]. change (scanTime data) with (fromDate scanDate).
    rewrite !toNanos_fromDate. unfold startDate, Props.msOfDay.
    change (10 ^ 6) with 1000000. Z.div_mod_to_equations; lia. }
  cbn [snd] in Hentry, Hlog.
  assert (Hkey : Props.keyOf (Spec.asGrouped data)
                 = (user ++ "|" ++ day)%string).
  { unfold Props.keyOf. cbn [Spec.asGrouped AdminDashboard.g_userId
                               AdminDashboard.g_dateKey].
    change (userId data) with (uid userItem). rewrite Huser. reflexivity. }
  rewrite Hkey in Hentry.
  exists data. split; [exact Hin|]. split; [exact Htime|].
  split; [reflexivity|]. split.
  { apply day_logs_membership. split.
    - now exists (AttendanceLogsPanel.logRef p).
    - unfold Props.countsFor. repeat split.
      + exact Huser.
      + exact Hok.
      + discriminate. }
  split; [now exists logs|].
  unfold AttendanceLogsPanel.handleRecomputePrompt. cbv beta iota.
  fold day. rewrite Hstart, Hend. unfold SessionsPanel.recomputeBetween.
  pose proof (model_day_in_range scanDate Hclock) as Hin'.
  fold startDate in Hin'. rewrite Hin'.
  eexists. split; [reflexivity|].
  destruct (key_parts user day Hbar) as [Hu Hd].
  specialize (Hd (getDateKey_noBar scanDate)).
  rewrite <- Hu at 1. rewrite <- Hd at 2.
  assert (Hids' : Spec.distinct (map fst (attendanceSessions db)) = true)
    by (rewrite Hdb; exact Hids).
  assert (Hlen' : (length (AdminDashboard.groupLogs
                             (AdminDashboard.logsQuery db startDate
                                (startDate + 86399000)))
                   <= length refs)%nat).
  { etransitivity; [apply groupLogs_length|].
    etransitivity; [apply logsQuery_length|].
    rewrite Hdb. cbn [attendance withAttendance applyWrite].
    rewrite length_app. cbn [length].
    unfold without.
    match goal with
    | |- context [length (List.filter ?f ?l)] =>
        pose proof (filter_length_le f l)
    end.
    unfold Collection, DocId in *. lia. }
  exact (recompute_leaves_one_session db startDate (startDate + 86399000)
           (AttendanceLogsPanel.users p) refs Hids' Hrefs Hlen'
           ((user ++ "|" ++ day)%string, logs) Hentry).
Qed.

(** X29. Saving the form of a log as it was opened.  Let the panel hold
    an up-to-date copy of a log whose user and site are still listed.
    Saving the form [openEditLog] opens for it, untouched, is accepted and
    rewrites the log: the scan time is cut to the minute, the date key
    becomes the day of the scan time, a missing kind becomes a check-in,
    the distance is rounded to a tenth (to either tenth when it lies
    half-way), the reason of a failure is filled in and that of a success
    dropped; the e-mail, the site name and the
    radius are taken from the user and the site as they are now; the
    user, the site, the status and the coordinates stay, and so do the
    user name, the deletion mark and the origin of the log. *)
Theorem untouched_edit_rewrites_the_log (p : AttendanceLogsPanel.Panel)
    (clientNow : Z) (log : AttendanceLogsPanel.LogRow)
    (store : AttendanceLogsPanel.Store)
    (adminUid : string) (profile userItem : UserProfile)
    (locationItem : DocId * SiteItem) :
  let id := AttendanceLogsPanel.row_id log in
  let data := AttendanceLogsPanel.row_data log in
  let t := toDate (scanTime data) in
  AttendanceLogsPanel.savingLog p = false ->
  AttendanceLogsPanel.adminUser p = Some adminUid ->
  AttendanceLogsPanel.adminProfile p = Some profile ->
  List.find (fun item => String.eqb (uid item) (userId data))
            (AttendanceLogsPanel.users p) = Some userItem ->
  List.find (fun item => String.eqb (fst item) (siteId data))
            (AttendanceLogsPanel.locations p) = Some locationItem ->
  userId data <> ""%string ->
  siteId data <> ""%string ->
  LogProps.upToDate store log ->
  LogProps.onModelClock t ->
  exists store' data',
    AttendanceLogsPanel.handleSaveLog p (Some log)
      (snd (AttendanceLogsPanel.openEditLog p clientNow log)) store
    = AttendanceLogsPanel.Saved store'
        (Utils.getDateKey t, Utils.getDateKey t)
    /\ List.find (fun d => String.eqb (fst d) id)
                 (attendance (AttendanceLogsPanel.base store'))
       = Some (id, data')
    /\ scanTime data' = fromDate (t - t mod 60000)
    /\ dateKey data' = Some (Utils.getDateKey t)
    /\ scanType data' = Some (default CheckIn (scanType data))
    /\ LogProps.roundedTo1 (distanceMeters data) (distanceMeters data')
    /\ failReason data'
       = (if isSuccess (status data) then None
          else Some (default "Manual entry"%string (failReason data)))
    /\ (userEmail data', siteName data', allowedRadiusMeters data')
       = (email userItem, site_name (snd locationItem),
          Some (site_allowedRadiusMeters (snd locationItem)))
    /\ (userId data', siteId data', status data', userLat data',
        userLng data')
       = (userId data, siteId data, status data, userLat data, userLng data)
    /\ (userName data', isDeleted data', createdBy data', createdAt data')
       = (userName data, isDeleted data, createdBy data, createdAt data).
Proof.
  intros id data t Hsaving Hadmin Hprofile Huser Hsite Hu Hs Hstored Hclock.
  pose proof (onModelClock_fourDigitYear t Hclock) as Hyear.
  pose proof (model_clock_in_range t Hclock) as Hrange.
  rewrite openEditLog_form. fold data t.
  set (form := AttendanceLogsPanel.Build_LogFormState _ _ _ _ _ _ _ _ _ _).
  destruct (find_update_same id
              (AttendanceLogsPanel.updatedLog userItem locationItem form
                 (t - t mod 60000) log)
              _ _ Hstored) as (c' & Hupdate & Hfound).
  cbn [fst snd] in Hfound.
  unfold AttendanceLogsPanel.handleSaveLog.
  rewrite Hsaving, Hadmin, Hprofile.
  change (AttendanceLogsPanel.l_userId form) with (userId data).
  change (AttendanceLogsPanel.l_siteId form) with (siteId data).
  change (AttendanceLogsPanel.l_scanTime form)
    with (DateInputs.formatDateTimeLocalValue t).
  apply String.eqb_neq in Hu, Hs.
  rewrite Hu, Hs, (format_not_empty t Hyear). cbn [orb].
  unfold DocId in *. rewrite Huser, Hsite, (edit_time t Hyear).
  rewrite (minute_in_range t Hrange). cbn [negb]. cbv zeta.
  fold id. rewrite Hupdate. rewrite getDateKey_minute.
  eexists. eexists. split; [reflexivity|].
  rewrite (proj1 (base_writeAuditEntries _ _ _ _ _ _)).
  cbn [AttendanceLogsPanel.base AttendanceLogsPanel.withLogs attendance
         withAttendance].
  split; [exact Hfound|].
  apply find_eqb_key in Huser. apply find_eqb_key in Hsite.
  cbn [AttendanceLogsPanel.updatedLog scanTime dateKey scanType
         distanceMeters failReason userEmail siteName allowedRadiusMeters
         userId siteId status userLat userLng userName isDeleted createdBy
         createdAt].
  subst form.
  cbn [AttendanceLogsPanel.l_distanceMeters
         AttendanceLogsPanel.l_userLat AttendanceLogsPanel.l_userLng
         AttendanceLogsPanel.l_status AttendanceLogsPanel.l_scanType].
  rewrite getDateKey_minute, distanceOf_shown, !numberOf_shown, Huser.
  do 3 (split; [reflexivity|]).
  split.
  { destruct (distanceMeters data) as [x|]; cbn [option_map];
      [apply toFixed1_rounded | exact I]. }
  repeat split. f_equal. f_equal. f_equal. f_equal. exact Hsite.
Qed.

End EntryClaims.

(** ** The audit trail *)

Section AuditFacts.
Context `{Host}.
Import Firestore Types.

Lemma lastAudit_app (j : string)
    (l : list (string * (string * AttendanceLogsPanel.AuditEntry)))
    (x : string * (string * AttendanceLogsPanel.AuditEntry)) :
  LogProps.lastAudit j (l ++ [x])
  = if String.eqb (fst x) j then Some (snd (snd x))
    else LogProps.lastAudit j l.
Proof.
  unfold LogProps.lastAudit. rewrite fold_left_app. reflexivity.
Qed.

Lemma lastAudit_filter (j : string)
    (f : string * (string * AttendanceLogsPanel.AuditEntry) -> bool)
    (l : list (string * (string * AttendanceLogsPanel.AuditEntry))) :
  (forall x, fst x = j -> f x = true) ->
  LogProps.lastAudit j (List.filter f l) = LogProps.lastAudit j l.
Proof.
  intro Hkeep. unfold LogProps.lastAudit.
  generalize (@None AttendanceLogsPanel.AuditEntry).
  induction l as [|x l IH]; intro acc; [reflexivity|].
  cbn [List.filter fold_left].
  destruct (f x) eqn:Hf; cbn [fold_left]; [apply IH|].
  match goal with
  | |- context [String.eqb ?a j] =>
      destruct (String.eqb_spec a j) as [Hx|_]
  end.
  - rewrite (Hkeep x Hx) in Hf. discriminate.
  - apply IH.
Qed.

Lemma find_app_split {A} (f : A -> bool) (l l' : list A) :
  List.find f (l ++ l')
  = match List.find f l with
    | Some x => Some x
    | None => List.find f l'
    end.
Proof.
  induction l as [|x l IH]; [reflexivity|].
  cbn [app List.find]. destruct (f x); [reflexivity | exact IH].
Qed.

(** The stored log of an id after a change of the logs under another
    id. *)
Lemma storedLog_elsewhere (store : AttendanceLogsPanel.Store)
    (c : Collection AttendanceLog)
    (fields : gmap DocId AttendanceLogsPanel.AdminFields) (id j : string) :
  j <> id ->
  List.find (fun d => String.eqb (fst d) j) c
  = List.find (fun d => String.eqb (fst d) j)
              (attendance (AttendanceLogsPanel.base store)) ->
  fields !! j = AttendanceLogsPanel.adminFields store !! j ->
  LogProps.storedLog (AttendanceLogsPanel.withLogs store c fields) j
  = LogProps.storedLog store j.
Proof.
  intros _ Hfind Hfields. unfold LogProps.storedLog.
  cbn [AttendanceLogsPanel.withLogs AttendanceLogsPanel.base
         AttendanceLogsPanel.adminFields attendance withAttendance].
  unfold DocId in *. rewrite Hfind, Hfields. reflexivity.
Qed.

(** Writing the audit entries of a change keeps the trail in step with
    the store, when the entry describes the log as it is after the
    change. *)
Lemma audited_after_write (p : AttendanceLogsPanel.Panel)
    (store : AttendanceLogsPanel.Store) (c : Collection AttendanceLog)
    (fields : gmap DocId AttendanceLogsPanel.AdminFields) (id : string)
    (action : AttendanceLogsPanel.Action)
    (before after : option (AttendanceLog * option string))
    (adminUid : string) (profile : UserProfile) :
  AttendanceLogsPanel.adminUser p = Some adminUid ->
  AttendanceLogsPanel.adminProfile p = Some profile ->
  LogProps.Audited store ->
  (forall j, j <> id ->
             LogProps.storedLog (AttendanceLogsPanel.withLogs store c fields)
                                j
             = LogProps.storedLog store j) ->
  LogProps.storedLog (AttendanceLogsPanel.withLogs store c fields) id
  = after ->
  LogProps.Audited
    (AttendanceLogsPanel.writeAuditEntries p id action before after
       (AttendanceLogsPanel.withLogs store c fields)).
Proof.
  intros Hadmin Hprofile Hold Helse Hhere j entry.
  set (store0 := AttendanceLogsPanel.withLogs store c fields) in *.
  assert (Hstored : forall k,
             LogProps.storedLog
               (AttendanceLogsPanel.writeAuditEntries p id action before
                                                      after store0) k
             = LogProps.storedLog store0 k).
  { intro k. unfold LogProps.storedLog.
    destruct (base_writeAuditEntries p id action before after store0)
      as [-> ->]. reflexivity. }
  rewrite Hstored.
  unfold AttendanceLogsPanel.writeAuditEntries.
  rewrite Hadmin, Hprofile. cbn [AttendanceLogsPanel.logAudit].
  rewrite lastAudit_app. cbn [fst snd].
  destruct (String.eqb_spec id j) as [<-|Hj].
  - intro Hentry. injection Hentry as <-.
    cbn [AttendanceLogsPanel.e_after]. now rewrite Hhere.
  - rewrite lastAudit_filter.
    + intro Hentry. rewrite Helse by congruence.
      apply (Hold j entry). exact Hentry.
    + intros x Hx. apply negb_true_iff, andb_false_iff. left.
      apply String.eqb_neq. congruence.
Qed.

(** X30. The audit trail ends in the stored log.  Suppose that, for every
    log, the audit entry written last under it describes in [after] the
    document the store holds, or nothing when the document is gone.  Then
    this still holds after [handleSaveLog] has saved a new log, or an edit
    of a log of which the panel held an up-to-date copy, and after
    [handleConfirmDelete] has deleted a log. *)
Theorem audit_trail_ends_in_the_stored_log (p : AttendanceLogsPanel.Panel)
    (store : AttendanceLogsPanel.Store) :
  LogProps.Audited store ->
  (forall (editingLog : option AttendanceLogsPanel.LogRow)
          (logForm : AttendanceLogsPanel.LogFormState)
          (store' : AttendanceLogsPanel.Store) (prompt : string * string),
      AttendanceLogsPanel.handleSaveLog p editingLog logForm store
      = AttendanceLogsPanel.Saved store' prompt ->
      (forall log, editingLog = Some log -> LogProps.upToDate store log) ->
      LogProps.Audited store')
  /\ (forall (deleteTarget : option AttendanceLogsPanel.LogRow)
             (store' : AttendanceLogsPanel.Store) (prompt : string * string),
         AttendanceLogsPanel.handleConfirmDelete p deleteTarget store
         = Some (store', prompt) ->
         LogProps.Audited store').
Proof.
  intro Hold. split.
  - intros editingLog logForm store' prompt Hsave Hcopy.
    apply save_accepted in Hsave
      as (adminUid & profile & userItem & locationItem & scanDate & Hadmin
          & Hprofile & _ & _ & _ & _ & _ & Hstore).
    cbv zeta in Hstore. destruct editingLog as [log|].
    + destruct Hstore as (c & Hupdate & ->).
      specialize (Hcopy log eq_refl). unfold LogProps.upToDate in Hcopy.
      apply (audited_after_write p store c _ _ _ _ _ adminUid profile
               Hadmin Hprofile Hold).
      * intros j Hj. apply storedLog_elsewhere with (id := AttendanceLogsPanel.row_id log);
          [exact Hj | | now rewrite lookup_insert_ne by congruence].
        exact (find_update_other _ j _ _ _ Hupdate Hj).
      * unfold LogProps.storedLog.
        cbn [AttendanceLogsPanel.withLogs AttendanceLogsPanel.base
               AttendanceLogsPanel.adminFields attendance withAttendance].
        destruct (find_update_same (AttendanceLogsPanel.row_id log)
                    (AttendanceLogsPanel.updatedLog userItem locationItem
                       logForm scanDate log) _ _ Hcopy)
          as (c2 & Hupdate2 & Hfound).
        unfold DocId, Collection in *.
        rewrite Hupdate in Hupdate2. injection Hupdate2 as <-.
        rewrite Hfound, lookup_insert_eq. reflexivity.
    + rewrite Hstore.
      apply (audited_after_write p store _ _ _ _ _ _ adminUid profile
               Hadmin Hprofile Hold).
      * intros j Hj.
        apply storedLog_elsewhere with (id := AttendanceLogsPanel.logRef p);
          [exact Hj | | now rewrite lookup_insert_ne by congruence].
        cbn [applyWrite]. rewrite find_app_split.
        rewrite (find_without_other _ j _ Hj).
        match goal with
        | |- match List.find ?f ?l with _ => _ end = _ =>
            destruct (List.find f l); [reflexivity|]
        end.
        cbn [List.find fst].
        match goal with
        | |- context [String.eqb ?a j] =>
            destruct (String.eqb_spec a j); [congruence | reflexivity]
        end.
      * unfold LogProps.storedLog.
        cbn [AttendanceLogsPanel.withLogs AttendanceLogsPanel.base
               AttendanceLogsPanel.adminFields attendance withAttendance
               applyWrite].
        rewrite find_app_split, find_without_same.
        cbn [List.find fst]. rewrite String.eqb_refl, lookup_insert_eq.
        reflexivity.
  - intros deleteTarget store' prompt Hdelete.
    unfold AttendanceLogsPanel.handleConfirmDelete in Hdelete.
    destruct deleteTarget as [log|]; [|discriminate].
    destruct (AttendanceLogsPanel.adminUser p) as [adminUid|] eqn:Hadmin;
      [|discriminate].
    destruct (AttendanceLogsPanel.adminProfile p) as [profile|] eqn:Hprofile;
      [|discriminate].
    injection Hdelete as <- _.
    apply (audited_after_write p store _ _ _ _ _ _ adminUid profile
             Hadmin Hprofile Hold).
    + intros j Hj.
      apply storedLog_elsewhere with (id := AttendanceLogsPanel.row_id log);
        [exact Hj | | now rewrite lookup_delete_ne by congruence].
      cbn [applyWrite]. exact (find_without_other _ j _ Hj).
    + unfold LogProps.storedLog.
      cbn [AttendanceLogsPanel.withLogs AttendanceLogsPanel.base
             AttendanceLogsPanel.adminFields attendance withAttendance
             applyWrite].
      now rewrite find_without_same.
Qed.

End AuditFacts.

Section LogInstances.
Import Firestore Types.

Lemma year_2024 (hour minute extra : Z) :
  0 <= hour < 24 -> 0 <= minute < 60 -> 0 <= extra < 60000 ->
  LogProps.onModelClock (Demo.clock hour minute + extra).
Proof.
  unfold LogProps.onModelClock, Props.modern, Demo.clock, Demo.midnight.
  change (DateInputs.daysFromCivil 10000 1 1) with 2932897.
  lia.
Qed.

Lemma minutes_of_day_witness :
  exists start,
    DateInputs.parseDateInputValue
      (Utils.getDateKey (Demo.clock 8 6 + 7500)) false
    = Some (Some start)
    /\ 0 <= Utils.getTimeMinutes (Demo.clock 8 6 + 7500) < 1440
    /\ start + Utils.getTimeMinutes (Demo.clock 8 6 + 7500) * 60000
       <= Demo.clock 8 6 + 7500
       < start + (Utils.getTimeMinutes (Demo.clock 8 6 + 7500) + 1) * 60000.
Proof.
  exact (minutes_count_from_the_midnight_of_the_date_key
           (Demo.clock 8 6 + 7500)
           (year_2024 8 6 7500 ltac:(lia) ltac:(lia) ltac:(lia))).
Defined.

Lemma recompute_dialogs_witness :
  SessionsPanel.recomputeSessions (H := Demo.host) "2024-01-01" "2024-01-01"
    [Demo.amy] ["n1"%string] Demo.store
  = SessionsPanel.Recomputed
      (AdminDashboard.recomputeSessionsForRange (H := Demo.host)
         Demo.midnight (Demo.midnight + 86399000) [Demo.amy] ["n1"%string]
         Demo.store).
Proof.
  exact (proj1 (recompute_dialogs_stop_before_the_last_second
                  (H := Demo.host) (Demo.clock 8 0 + 0) (Demo.clock 18 0 + 0)
                  LogSamples.desk [Demo.amy] ["n1"%string] Demo.store
                  (year_2024 8 0 0 ltac:(lia) ltac:(lia) ltac:(lia))
                  (year_2024 18 0 0 ltac:(lia) ltac:(lia) ltac:(lia)))).
Defined.

Lemma edit_form_witness :
  DateInputs.parseDateTimeLocalValue
    (AttendanceLogsPanel.l_scanTime
       (snd (AttendanceLogsPanel.openEditLog LogSamples.desk
               (Demo.clock 19 0) LogSamples.hurried)))
  = Some (Some (Demo.clock 8 0)).
Proof.
  exact (proj1 (edit_form_cuts_the_time_to_the_minute LogSamples.desk
                  (Demo.clock 19 0 + 0) LogSamples.hurried
                  (year_2024 8 0 7500 ltac:(lia) ltac:(lia) ltac:(lia))
                  (year_2024 19 0 0 ltac:(lia) ltac:(lia) ltac:(lia)))).
Defined.

Lemma manual_entry_witness :
  exists data,
    In ("log-hand"%string, data)
       (attendance (AttendanceLogsPanel.base LogSamples.entered))
    /\ toDate (scanTime data) = Demo.clock 7 45
    /\ exists db',
         AttendanceLogsPanel.handleRecomputePrompt (H := Demo.host)
           (Some ("2024-01-01", "2024-01-01")%string) false LogSamples.desk
           ["n1"; "n2"; "n3"]%string
           (AttendanceLogsPanel.base LogSamples.entered)
         = SessionsPanel.Recomputed db'
         /\ length (Spec.sessionsOf "u1" "2024-01-01"
                                    (attendanceSessions db'))
            = 1%nat.
Proof.
  destruct (manual_entry_gets_its_session (H := Demo.host)
              LogSamples.desk LogSamples.byHand
              (LogSamples.ledgerOf Demo.store) LogSamples.entered
              ("2024-01-01", "2024-01-01")%string (Demo.clock 7 45 + 0)
              ["n1"; "n2"; "n3"]%string eq_refl eq_refl eq_refl
              (year_2024 7 45 0 ltac:(lia) ltac:(lia) ltac:(lia))
              eq_refl eq_refl eq_refl ltac:(cbn; lia))
    as (data & Hin & Htime & _ & _ & _ & Hsession).
  exists data. split; [exact Hin|]. split; [exact Htime | exact Hsession].
Defined.

Lemma untouched_edit_witness :
  exists store' data',
    AttendanceLogsPanel.handleSaveLog (H := Demo.host) LogSamples.desk
      (Some LogSamples.hurried)
      (snd (AttendanceLogsPanel.openEditLog LogSamples.desk (Demo.clock 19 0)
                                            LogSamples.hurried))
      LogSamples.hurriedLedger
    = AttendanceLogsPanel.Saved store' ("2024-01-01", "2024-01-01")%string
    /\ List.find (fun d => String.eqb (fst d) "l9")
                 (attendance (AttendanceLogsPanel.base store'))
       = Some ("l9"%string, data')
    /\ scanTime data' = fromDate (Demo.clock 8 0)
    /\ scanType data' = Some CheckIn
    /\ LogProps.roundedTo1 (Some (617 # 50)%Q) (distanceMeters data').
Proof.
  destruct (untouched_edit_rewrites_the_log (H := Demo.host) LogSamples.desk
              (Demo.clock 19 0) LogSamples.hurried LogSamples.hurriedLedger
              "a1" LogSamples.boss Demo.amy Demo.depot
              eq_refl eq_refl eq_refl eq_refl eq_refl
              ltac:(discriminate) ltac:(discriminate) eq_refl
              (year_2024 8 0 7500 ltac:(lia) ltac:(lia) ltac:(lia)))
    as (store' & data' & Hsaved & Hfound & Htime & _ & Hkind & Hdistance & _).
  exists store', data'.
  split; [exact Hsaved|]. split; [exact Hfound|]. split; [exact Htime|].
  split; [exact Hkind | exact Hdistance].
Defined.

Lemma audit_trail_witness :
  exists entry,
    LogProps.lastAudit "log-hand"
      (AttendanceLogsPanel.logAudit LogSamples.entered) = Some entry
    /\ AttendanceLogsPanel.e_after entry
       = AttendanceLogsPanel.buildAuditSnapshot
           (LogProps.storedLog LogSamples.entered "log-hand").
Proof.
  assert (Hnew : LogProps.Audited (LogSamples.ledgerOf Demo.store))
    by (intros id entry Hlast; discriminate Hlast).
  pose proof (proj1 (audit_trail_ends_in_the_stored_log (H := Demo.host)
                       LogSamples.desk (LogSamples.ledgerOf Demo.store) Hnew)
                None LogSamples.byHand LogSamples.entered
                ("2024-01-01", "2024-01-01")%string eq_refl
                ltac:(intros log Hlog; discriminate Hlog)) as Haudited.
  eexists. split; [reflexivity|].
  apply Haudited. reflexivity.
Defined.

End LogInstances.
